(** * Dial parameter selection and replay: a shallow embedding

    This development embeds [psiphon/dialParameters.go] -- the composer
    [MakeDialParameters], its sub-selectors, and the [Succeeded] / [Failed]
    lifecycle -- and proves the properties stated for it.

    Conventions of the embedding.

    - A Go package that the file imports but whose code is elsewhere is a
      [Module] of the same name.  What the package computes is taken as a
      parameter: a type class whose methods carry the Go names
      ([protocol.TunnelProtocolUsesMeek], [net.ParseIP], ...).  Theorems
      are stated for every instance.
    - Randomness is an explicit state [prng.Source]: every call that
      consumes randomness in the Go code takes one raw draw from it.
    - A function returning [(T, error)] returns [Result T]; the three
      outcomes of the composer, [(dialParams, nil)], [(nil, nil)] and
      [(nil, err)], are the three shapes of its result pair.
    - The datastore is a finite map together with the log of the calls made
      to it.
    - Notices (log lines) are diagnostics only and are not modelled. *)

From Stdlib Require Import ZArith NArith Floats String Ascii List Bool Lia.
From Stdlib Require Strings.Byte.
From stdpp Require Import base option list strings gmap fin_maps.

#[local] Open Scope string_scope.
#[local] Open Scope Z_scope.

(** ** Go basics *)

(** A Go [error] is kept as its message. *)
Definition error := string.

(** The result of a Go function returning [(T, error)]. *)
Inductive Result (A : Type) : Type :=
| Ok (a : A)
| Err (e : error).
Arguments Ok {A} a.
Arguments Err {A} e.

(** [time.Time] is an instant counted in nanoseconds from the zero time, so
    that the zero value of the struct is [0]; [time.Duration] is a count of
    nanoseconds. *)
Module time.
Definition Time := Z.
Definition Duration := Z.
Definition IsZero (t : Time) : bool := t =? 0.
Definition Add (t : Time) (d : Duration) : Time := t + d.
Definition Before (t u : Time) : bool := t <? u.
End time.

(** [bytes.Equal]: a nil and an empty slice are equal, so a byte slice is a
    list. *)
#[global] Instance byte_eq_dec : EqDecision Byte.byte := Byte.byte_eq_dec.

Module bytes.
Definition Equal (a b : list Byte.byte) : bool := bool_decide (a = b).
End bytes.

(** [http.Header] is [map[string][]string]. *)
Module http.
Abbreviation Header := (gmap string (list string)).
(** [h.Set(key, value)] for a key already in canonical form. *)
Definition Set_ (key value : string) (h : Header) : Header :=
    <[ key := [value] ]> h.
End http.

Module common.
(** Modelled from the spec: [common.Contains(list, target)], membership
    of a string in a list. *)
Fixpoint Contains (l : list string) (target : string) : bool :=
    match l with
    | [] => false
    | item :: rest => if String.eqb item target then true else Contains rest target
    end.
End common.

Module bpf.
(** [bpf.RawInstruction] *)
Record RawInstruction := { Op : Z; Jt : Z; Jf : Z; K : Z }.
End bpf.

(** ** Randomness *)

Module prng.
(** [prng.Seed]: [SEED_LENGTH] random bytes, read as one number. *)
Definition Seed := N.

(** The stream of random values a run consumes: raw draws of the
      pseudo-random generator, and the outcomes of reading a fresh seed from
      the system's entropy source ([None]: the read fails). *)
Record Source := { draws : list N; seeds : list (option Seed) }.

Definition next (s : Source) : N * Source :=
    match draws s with
    | [] => (0%N, s)
    | r :: rest => (r, {| draws := rest; seeds := seeds s |})
    end.

(** Modelled from the spec: [prng.NewSeed()] reads a fresh seed from the
      entropy source and fails when the read fails. *)
Definition NewSeed (s : Source) : Result Seed * Source :=
    match seeds s with
    | [] => (Err "prng: no entropy", s)
    | None :: rest => (Err "prng: no entropy", {| draws := draws s; seeds := rest |})
    | Some seed :: rest => (Ok seed, {| draws := draws s; seeds := rest |})
    end.

(** Modelled from the spec: [prng.Intn(n)] picks a value in [[0, n)]; here
      it is the raw draw reduced modulo [n].  Every call in this file has
      [0 < n]; for [n = 0] the value is [0]. *)
Definition Intn_of (n : nat) (r : N) : nat :=
    match n with
    | O => O
    | _ => N.to_nat r mod n
    end%nat.

(** What the package computes from a raw draw. *)
Class Package := {
    FlipWeightedCoin : float -> N -> bool;
    ExpFloat64Range : float -> float -> float -> N -> float;
    Period : time.Duration -> time.Duration -> N -> time.Duration;
  }.
End prng.

(** ** Imported packages

    Types are written out as far as this file reads them.  An object that
    is only handed on ([resolver.ResolveParameters], [fragmentor.Config]) is
    an opaque token; an object on which a method is called and whose code is
    elsewhere ([*resolver.Resolver], [parameters.FrontingSpecs]) is the
    method itself, as a function of the raw draw it consumes. *)

Module transforms.
(** [type Spec [][2]string]; a nil spec is [None]. *)
Definition Spec := list (string * string).
Definition Specs := gmap string Spec.
Definition ScopedSpecNames := gmap string (list string).
(** The code comment at the use site gives [transforms.SCOPE_ANY == ""]. *)
Definition SCOPE_ANY : string := "".
Record ObfuscatorSeedTransformerParameters := {
  TransformName : string;
  TransformSpec : option Spec;
  TransformSeed : option prng.Seed;
}.
Record HTTPTransformerParameters := {
  ProtocolTransformName : string;
  ProtocolTransformSpec : option Spec;
  ProtocolTransformSeed : option prng.Seed;
}.
(** [specs.Select(scope, scopedSpecNames)]: a random choice; the second
    component is nil when nothing is selected. *)
Class Package := {
  Select : Specs -> string -> ScopedSpecNames -> N -> string * option Spec;
}.
End transforms.

Module obfuscator.
Module OSSHPrefixSpec.
Record t := {
  Name : string;
  Spec : option transforms.Spec;
  Seed : option prng.Seed;
}.
End OSSHPrefixSpec.
Module OSSHPrefixSplitConfig.
Record t := {
  Seed : option prng.Seed;
  MinDelay : time.Duration;
  MaxDelay : time.Duration;
}.
End OSSHPrefixSplitConfig.
End obfuscator.

Module fragmentor.
(** [*fragmentor.Config], built by [fragmentor.NewUpstreamConfig]. *)
Record Config := { token : N }.
End fragmentor.

Module protocol.
(** [protocol.ServerEntry], with the fields this file reads. *)
Record ServerEntry := {
  IpAddress : string;
  FrontingProviderID : string;
  LocalSource : string;
  ConfigurationVersion : Z;
  LocalTimestamp : string;
  MeekServerPort : Z;
  MeekCookieEncryptionPublicKey : string;
  MeekObfuscatedKey : string;
  MeekFrontingHost : string;
  MeekFrontingHosts : list string;
  MeekFrontingAddresses : list string;
  MeekFrontingAddressesRegex : string;
  MeekFrontingDisableSNI : bool;
  LimitQUICVersions : list string;
  DisableHTTPTransforms : bool;
  DisableObfuscatedQUICTransforms : bool;
  DisableOSSHTransforms : bool;
  DisableOSSHPrefix : bool;
}.

(** The package's constants, tables, predicates on protocol names, and the
    methods of [ServerEntry] this file calls. *)
Class Package := {
  TUNNEL_PROTOCOL_SSH : string;
  TUNNEL_PROTOCOL_OBFUSCATED_SSH : string;
  TUNNEL_PROTOCOL_TLS_OBFUSCATED_SSH : string;
  TUNNEL_PROTOCOL_UNFRONTED_MEEK : string;
  TUNNEL_PROTOCOL_UNFRONTED_MEEK_HTTPS : string;
  TUNNEL_PROTOCOL_UNFRONTED_MEEK_SESSION_TICKET : string;
  TUNNEL_PROTOCOL_FRONTED_MEEK : string;
  TUNNEL_PROTOCOL_FRONTED_MEEK_HTTP : string;
  TUNNEL_PROTOCOL_QUIC_OBFUSCATED_SSH : string;
  TUNNEL_PROTOCOL_FRONTED_MEEK_QUIC_OBFUSCATED_SSH : string;
  TUNNEL_PROTOCOL_TAPDANCE_OBFUSCATED_SSH : string;
  TUNNEL_PROTOCOL_CONJURE_OBFUSCATED_SSH : string;

  QUIC_VERSION_V1 : string;
  QUIC_VERSION_RANDOMIZED_V1 : string;
  QUIC_VERSION_OBFUSCATED_V1 : string;
  QUIC_VERSION_DECOY_V1 : string;

  SupportedTunnelProtocols : list string;
  SupportedTLSProfiles : list string;
  SupportedQUICVersions : list string;
  SupportedQUICv1Versions : list string;
  SupportedConjureTransports : list string;

  TunnelProtocolUsesTCP : string -> bool;
  TunnelProtocolUsesMeek : string -> bool;
  TunnelProtocolUsesMeekHTTP : string -> bool;
  TunnelProtocolUsesMeekHTTPS : string -> bool;
  TunnelProtocolUsesFrontedMeek : string -> bool;
  TunnelProtocolUsesFrontedMeekQUIC : string -> bool;
  TunnelProtocolUsesQUIC : string -> bool;
  TunnelProtocolUsesTLSOSSH : string -> bool;
  TunnelProtocolUsesConjure : string -> bool;
  TunnelProtocolSupportsUpstreamProxy : string -> bool;
  TunnelProtocolRequiresTLS12SessionTickets : string -> bool;
  TunnelProtocolRequiresTLS13Support : string -> bool;
  AllowServerEntrySourceWithUpstreamProxy : string -> bool;
  ConjureTransportUsesSTUN : string -> bool;
  QUICVersionHasRandomizedClientHello : string -> bool;
  QUICVersionUsesPathMTUDiscovery : string -> bool;
  QUICVersionIsObfuscated : string -> bool;

  GetDialPortNumber : ServerEntry -> string -> Result Z;
  SupportsOnlyQUICv1 : ServerEntry -> bool;
  SupportsProtocol : ServerEntry -> string -> bool;
  GetDiagnosticID : ServerEntry -> string;
}.
End protocol.

Module parameters.
(** Modelled from the spec: the names of the tactics parameters, an
    enumerated closed set (section 6 and the glossary); each constant is the
    name itself, and serves only as the key handed to a getter. *)
Definition AddFrontingProviderPsiphonFrontingHeader : string := "AddFrontingProviderPsiphonFrontingHeader".
Definition AdditionalCustomHeaders : string := "AdditionalCustomHeaders".
Definition BPFClientTCPProbability : string := "BPFClientTCPProbability".
Definition BPFClientTCPProgram : string := "BPFClientTCPProgram".
Definition ConjureAPIRegistrarBidirectionalURL : string := "ConjureAPIRegistrarBidirectionalURL".
Definition ConjureAPIRegistrarFrontingSpecs : string := "ConjureAPIRegistrarFrontingSpecs".
Definition ConjureAPIRegistrarMaxDelay : string := "ConjureAPIRegistrarMaxDelay".
Definition ConjureAPIRegistrarMinDelay : string := "ConjureAPIRegistrarMinDelay".
Definition ConjureCachedRegistrationTTL : string := "ConjureCachedRegistrationTTL".
Definition ConjureDTLSEmptyInitialPacketProbability : string := "ConjureDTLSEmptyInitialPacketProbability".
Definition ConjureDecoyRegistrarMaxDelay : string := "ConjureDecoyRegistrarMaxDelay".
Definition ConjureDecoyRegistrarMinDelay : string := "ConjureDecoyRegistrarMinDelay".
Definition ConjureDecoyRegistrarProbability : string := "ConjureDecoyRegistrarProbability".
Definition ConjureDecoyRegistrarWidth : string := "ConjureDecoyRegistrarWidth".
Definition ConjureLimitTransports : string := "ConjureLimitTransports".
Definition ConjureSTUNServerAddresses : string := "ConjureSTUNServerAddresses".
Definition CustomHostNameLimitProtocols : string := "CustomHostNameLimitProtocols".
Definition CustomHostNameProbability : string := "CustomHostNameProbability".
Definition CustomHostNameRegexes : string := "CustomHostNameRegexes".
Definition DirectHTTPProtocolTransformProbability : string := "DirectHTTPProtocolTransformProbability".
Definition DirectHTTPProtocolTransformScopedSpecNames : string := "DirectHTTPProtocolTransformScopedSpecNames".
Definition DirectHTTPProtocolTransformSpecs : string := "DirectHTTPProtocolTransformSpecs".
Definition DisableFrontingProviderQUICVersions : string := "DisableFrontingProviderQUICVersions".
Definition FrontedHTTPProtocolTransformProbability : string := "FrontedHTTPProtocolTransformProbability".
Definition FrontedHTTPProtocolTransformScopedSpecNames : string := "FrontedHTTPProtocolTransformScopedSpecNames".
Definition FrontedHTTPProtocolTransformSpecs : string := "FrontedHTTPProtocolTransformSpecs".
Definition HoldOffTunnelFrontingProviderIDs : string := "HoldOffTunnelFrontingProviderIDs".
Definition HoldOffTunnelMaxDuration : string := "HoldOffTunnelMaxDuration".
Definition HoldOffTunnelMinDuration : string := "HoldOffTunnelMinDuration".
Definition HoldOffTunnelProbability : string := "HoldOffTunnelProbability".
Definition HoldOffTunnelProtocols : string := "HoldOffTunnelProtocols".
Definition LimitQUICVersions : string := "LimitQUICVersions".
Definition MeekDialDomainsOnly : string := "MeekDialDomainsOnly".
Definition NetworkLatencyMultiplierLambda : string := "NetworkLatencyMultiplierLambda".
Definition NetworkLatencyMultiplierMax : string := "NetworkLatencyMultiplierMax".
Definition NetworkLatencyMultiplierMin : string := "NetworkLatencyMultiplierMin".
Definition NoDefaultTLSSessionIDProbability : string := "NoDefaultTLSSessionIDProbability".
Definition OSSHObfuscatorSeedTransformProbability : string := "OSSHObfuscatorSeedTransformProbability".
Definition OSSHObfuscatorSeedTransformScopedSpecNames : string := "OSSHObfuscatorSeedTransformScopedSpecNames".
Definition OSSHObfuscatorSeedTransformSpecs : string := "OSSHObfuscatorSeedTransformSpecs".
Definition OSSHPrefixEnableFragmentor : string := "OSSHPrefixEnableFragmentor".
Definition OSSHPrefixProbability : string := "OSSHPrefixProbability".
Definition OSSHPrefixScopedSpecNames : string := "OSSHPrefixScopedSpecNames".
Definition OSSHPrefixSpecs : string := "OSSHPrefixSpecs".
Definition OSSHPrefixSplitMaxDelay : string := "OSSHPrefixSplitMaxDelay".
Definition OSSHPrefixSplitMinDelay : string := "OSSHPrefixSplitMinDelay".
Definition ObfuscatedQUICNonceTransformProbability : string := "ObfuscatedQUICNonceTransformProbability".
Definition ObfuscatedQUICNonceTransformScopedSpecNames : string := "ObfuscatedQUICNonceTransformScopedSpecNames".
Definition ObfuscatedQUICNonceTransformSpecs : string := "ObfuscatedQUICNonceTransformSpecs".
Definition PickUserAgentProbability : string := "PickUserAgentProbability".
Definition QUICDisableClientPathMTUDiscoveryProbability : string := "QUICDisableClientPathMTUDiscoveryProbability".
Definition ReplayAPIRequestPadding : string := "ReplayAPIRequestPadding".
Definition ReplayBPF : string := "ReplayBPF".
Definition ReplayConjureRegistration : string := "ReplayConjureRegistration".
Definition ReplayConjureTransport : string := "ReplayConjureTransport".
Definition ReplayDialParametersTTL : string := "ReplayDialParametersTTL".
Definition ReplayFragmentor : string := "ReplayFragmentor".
Definition ReplayFronting : string := "ReplayFronting".
Definition ReplayHTTPTransformerParameters : string := "ReplayHTTPTransformerParameters".
Definition ReplayHoldOffTunnel : string := "ReplayHoldOffTunnel".
Definition ReplayHostname : string := "ReplayHostname".
Definition ReplayIgnoreChangedConfigState : string := "ReplayIgnoreChangedConfigState".
Definition ReplayLivenessTest : string := "ReplayLivenessTest".
Definition ReplayOSSHPrefix : string := "ReplayOSSHPrefix".
Definition ReplayOSSHSeedTransformerParameters : string := "ReplayOSSHSeedTransformerParameters".
Definition ReplayObfuscatedQUIC : string := "ReplayObfuscatedQUIC".
Definition ReplayObfuscatedQUICNonceTransformer : string := "ReplayObfuscatedQUICNonceTransformer".
Definition ReplayObfuscatorPadding : string := "ReplayObfuscatorPadding".
Definition ReplayQUICVersion : string := "ReplayQUICVersion".
Definition ReplayResolveParameters : string := "ReplayResolveParameters".
Definition ReplayRetainFailedProbability : string := "ReplayRetainFailedProbability".
Definition ReplaySSH : string := "ReplaySSH".
Definition ReplayTLSFragmentClientHello : string := "ReplayTLSFragmentClientHello".
Definition ReplayTLSProfile : string := "ReplayTLSProfile".
Definition ReplayUserAgent : string := "ReplayUserAgent".
Definition RestrictFrontingProviderIDs : string := "RestrictFrontingProviderIDs".
Definition RestrictFrontingProviderIDsClientProbability : string := "RestrictFrontingProviderIDsClientProbability".
Definition TLSFragmentClientHelloLimitProtocols : string := "TLSFragmentClientHelloLimitProtocols".
Definition TLSFragmentClientHelloProbability : string := "TLSFragmentClientHelloProbability".
Definition TransformHostNameProbability : string := "TransformHostNameProbability".
Definition UpstreamProxyAllowAllServerEntrySources : string := "UpstreamProxyAllowAllServerEntrySources".

(** [parameters.FrontingSpecs], as its method [SelectParameters()], which
    returns [(frontingProviderID, dialAddress, sniServerName,
    verifyServerName, verifyPins, host, err)]. *)
Record FrontingSpecs := {
  SelectParameters :
    N -> Result (string * string * string * string * list string * string);
}.

(** [parameters.ParametersAccessor]: one snapshot of the tactics, read
    through its typed getters. *)
Record ParametersAccessor := {
  Tag : string;
  Bool : string -> bool;
  Int : string -> Z;
  Float : string -> float;
  Duration : string -> time.Duration;
  String : string -> string;
  Strings : string -> list string;
  TunnelProtocols : string -> list string;
  LabeledTunnelProtocols : string -> string -> list string;
  QUICVersions : string -> list string;
  LabeledQUICVersions : string -> string -> list string;
  ConjureTransports : string -> list string;
  RegexStrings : string -> list string;
  HTTPHeaders : string -> http.Header;
  ProtocolTransformSpecs : string -> transforms.Specs;
  ProtocolTransformScopedSpecNames : string -> transforms.ScopedSpecNames;
  FrontingSpecs_ : string -> FrontingSpecs;
  BPFProgram : string -> bool * string * list bpf.RawInstruction;
}.

(** [*parameters.Parameters]: [Get()] and [GetCustom(multiplier)]. *)
Record Parameters := {
  Get : ParametersAccessor;
  GetCustom : float -> ParametersAccessor;
}.
End parameters.

Module resolver.
(** [*resolver.ResolveParameters] *)
Record ResolveParameters := { token : N }.
(** [*resolver.Resolver], as its method
    [MakeResolveParameters(p, frontingProviderID, frontingDialDomain)]. *)
Record Resolver := {
  MakeResolveParameters :
    parameters.ParametersAccessor -> string -> string -> N -> Result ResolveParameters;
}.
End resolver.

(** The remaining calls out of the file: [values], [regen], [net],
    [strconv], [crypto/md5], [fragmentor], [common.SafeParseURL], and, from
    the package [psiphon] itself, [SelectTLSProfile] and
    [ClientBPFEnabled]. *)
Class External := {
  values_GetSSHClientVersion : N -> string;
  values_GetHostName : N -> string;
  values_GetUserAgent : N -> string;
  regen_GenerateString : string -> N -> Result string;
  (** [net.ParseIP(s) != nil] *)
  net_ParseIP : string -> bool;
  net_JoinHostPort : string -> string -> string;
  (** [host, _, _ := net.SplitHostPort(hostport)] *)
  net_SplitHostPort : string -> string;
  strconv_Itoa : Z -> string;
  md5_Sum : list Byte.byte -> list Byte.byte;
  (** [proxyURL, err := common.SafeParseURL(url)], kept as
      [proxyURL.Scheme] *)
  common_SafeParseURL : string -> Result string;
  fragmentor_NewUpstreamConfig :
    parameters.ParametersAccessor -> string -> option prng.Seed -> option fragmentor.Config;
  (** [SelectTLSProfile(requireTLS12SessionTickets, requireTLS13Support,
      isFronted, frontingProviderID, p)] *)
  SelectTLSProfile :
    bool -> bool -> bool -> string -> parameters.ParametersAccessor -> N ->
    Result (string * string * option prng.Seed);
  ClientBPFEnabled : bool;
}.

(** ** Package psiphon: configuration *)

Module Config.
(** [Config], with the fields and the method results this file reads.
    [deviceBinder] and [IPv6Synthesizer], which are only copied into the
    [DialConfig], are left out. *)
Record t := {
  (** [config.GetNetworkID()] *)
  GetNetworkID : string;
  (** [config.GetParameters()] *)
  GetParameters : parameters.Parameters;
  (** [config.GetResolver()] *)
  GetResolver : option resolver.Resolver;
  (** [config.UseUpstreamProxy()] *)
  UseUpstreamProxy : bool;
  UpstreamProxyURL : string;
  (** a nil map is [None] *)
  CustomHeaders : option http.Header;
  DisableReplay : bool;
  DisableSystemRootCAs : bool;
  TrustedCACertificatesFilename : string;
  dialParametersHash : list Byte.byte;
}.
End Config.

Module DialConfig.
(** [DialConfig], without its function-valued fields ([DeviceBinder],
    [IPv6Synthesizer], [ResolveIP], [UpstreamProxyErrorCallback],
    [ResolvedIPCallback]). *)
Record t := {
  DiagnosticID : string;
  UpstreamProxyURL : string;
  CustomHeaders : http.Header;
  BPFProgramInstructions : list bpf.RawInstruction;
  TrustedCACertificatesFilename : string;
  FragmentorConfig : option fragmentor.Config;
}.
End DialConfig.

Module ExchangedDialParameters.
(** [ExchangedDialParameters] *)
Record t := { TunnelProtocol : string }.
End ExchangedDialParameters.

(** ** The central record

    [DialParameters], field for field.  Left out are the fields that no
    code of the file assigns or reads ([DialConnMetrics],
    [DialConnNoticeMetrics], [ObfuscatedSSHConnMetrics], [DialDuration])
    and [meekConfig], a copy of fields already in the record.  A pointer is
    an [option]; [MeekResolvedIPAddress], an [atomic.Value] holding a
    string, is the string. *)
Record DialParameters := {
  ServerEntry : option protocol.ServerEntry;
  NetworkID : string;
  IsReplay : bool;
  CandidateNumber : Z;
  EstablishedTunnelsCount : Z;

  IsExchanged : bool;

  LastUsedTimestamp : time.Time;
  LastUsedConfigStateHash : list Byte.byte;
  LastUsedServerEntryHash : list Byte.byte;

  NetworkLatencyMultiplier : float;

  TunnelProtocol : string;

  DirectDialAddress : string;
  DialPortNumber : string;
  UpstreamProxyType : string;
  UpstreamProxyCustomHeaderNames : list string;

  BPFProgramName : string;
  BPFProgramInstructions : list bpf.RawInstruction;

  SelectedSSHClientVersion : bool;
  SSHClientVersion : string;
  SSHKEXSeed : option prng.Seed;

  ObfuscatorPaddingSeed : option prng.Seed;
  OSSHObfuscatorSeedTransformerParameters : option transforms.ObfuscatorSeedTransformerParameters;

  OSSHPrefixSpec : option obfuscator.OSSHPrefixSpec.t;
  OSSHPrefixSplitConfig : option obfuscator.OSSHPrefixSplitConfig.t;

  FragmentorSeed : option prng.Seed;

  FrontingProviderID : string;

  MeekFrontingDialAddress : string;
  MeekFrontingHost : string;
  MeekDialAddress : string;
  MeekTransformedHostName : bool;
  MeekSNIServerName : string;
  MeekVerifyServerName : string;
  MeekVerifyPins : list string;
  MeekHostHeader : string;
  MeekObfuscatorPaddingSeed : option prng.Seed;
  MeekTLSPaddingSize : Z;
  MeekResolvedIPAddress : string;

  TLSOSSHTransformedSNIServerName : bool;
  TLSOSSHSNIServerName : string;
  TLSOSSHObfuscatorPaddingSeed : option prng.Seed;

  SelectedUserAgent : bool;
  UserAgent : string;

  SelectedTLSProfile : bool;
  TLSProfile : string;
  NoDefaultTLSSessionID : bool;
  TLSVersion : string;
  RandomizedTLSProfileSeed : option prng.Seed;
  TLSFragmentClientHello : bool;

  QUICVersion : string;
  QUICDialSNIAddress : string;
  QUICClientHelloSeed : option prng.Seed;
  ObfuscatedQUICPaddingSeed : option prng.Seed;
  ObfuscatedQUICNonceTransformerParameters : option transforms.ObfuscatorSeedTransformerParameters;
  QUICDisablePathMTUDiscovery : bool;

  ConjureCachedRegistrationTTL : time.Duration;
  ConjureAPIRegistration : bool;
  ConjureAPIRegistrarBidirectionalURL : string;
  ConjureAPIRegistrarDelay : time.Duration;
  ConjureDecoyRegistration : bool;
  ConjureDecoyRegistrarDelay : time.Duration;
  ConjureDecoyRegistrarWidth : Z;
  ConjureTransport : string;
  ConjureSTUNServerAddress : string;
  ConjureDTLSEmptyInitialPacket : bool;

  LivenessTestSeed : option prng.Seed;

  APIRequestPaddingSeed : option prng.Seed;

  HoldOffTunnelDuration : time.Duration;

  resolver : option resolver.Resolver;
  ResolveParameters : option resolver.ResolveParameters;

  HTTPTransformerParameters : option transforms.HTTPTransformerParameters;

  dialConfig : option DialConfig.t;
}.

(** The zero value, [&DialParameters{}]. *)
Definition DialParameters_zero : DialParameters := {|
  ServerEntry := None;
  NetworkID := "";
  IsReplay := false;
  CandidateNumber := 0;
  EstablishedTunnelsCount := 0;
  IsExchanged := false;
  LastUsedTimestamp := 0;
  LastUsedConfigStateHash := [];
  LastUsedServerEntryHash := [];
  NetworkLatencyMultiplier := 0%float;
  TunnelProtocol := "";
  DirectDialAddress := "";
  DialPortNumber := "";
  UpstreamProxyType := "";
  UpstreamProxyCustomHeaderNames := [];
  BPFProgramName := "";
  BPFProgramInstructions := [];
  SelectedSSHClientVersion := false;
  SSHClientVersion := "";
  SSHKEXSeed := None;
  ObfuscatorPaddingSeed := None;
  OSSHObfuscatorSeedTransformerParameters := None;
  OSSHPrefixSpec := None;
  OSSHPrefixSplitConfig := None;
  FragmentorSeed := None;
  FrontingProviderID := "";
  MeekFrontingDialAddress := "";
  MeekFrontingHost := "";
  MeekDialAddress := "";
  MeekTransformedHostName := false;
  MeekSNIServerName := "";
  MeekVerifyServerName := "";
  MeekVerifyPins := [];
  MeekHostHeader := "";
  MeekObfuscatorPaddingSeed := None;
  MeekTLSPaddingSize := 0;
  MeekResolvedIPAddress := "";
  TLSOSSHTransformedSNIServerName := false;
  TLSOSSHSNIServerName := "";
  TLSOSSHObfuscatorPaddingSeed := None;
  SelectedUserAgent := false;
  UserAgent := "";
  SelectedTLSProfile := false;
  TLSProfile := "";
  NoDefaultTLSSessionID := false;
  TLSVersion := "";
  RandomizedTLSProfileSeed := None;
  TLSFragmentClientHello := false;
  QUICVersion := "";
  QUICDialSNIAddress := "";
  QUICClientHelloSeed := None;
  ObfuscatedQUICPaddingSeed := None;
  ObfuscatedQUICNonceTransformerParameters := None;
  QUICDisablePathMTUDiscovery := false;
  ConjureCachedRegistrationTTL := 0;
  ConjureAPIRegistration := false;
  ConjureAPIRegistrarBidirectionalURL := "";
  ConjureAPIRegistrarDelay := 0;
  ConjureDecoyRegistration := false;
  ConjureDecoyRegistrarDelay := 0;
  ConjureDecoyRegistrarWidth := 0;
  ConjureTransport := "";
  ConjureSTUNServerAddress := "";
  ConjureDTLSEmptyInitialPacket := false;
  LivenessTestSeed := None;
  APIRequestPaddingSeed := None;
  HoldOffTunnelDuration := 0;
  resolver := None;
  ResolveParameters := None;
  HTTPTransformerParameters := None;
  dialConfig := None;
|}.

(** The stored form of a record: the fields tagged [json:"-"] and the
    unexported ones do not survive [json.Marshal] / [json.Unmarshal]. *)
Definition DialParameters_stored (d : DialParameters) : DialParameters := {|
  ServerEntry := None;
  NetworkID := "";
  IsReplay := false;
  CandidateNumber := 0;
  EstablishedTunnelsCount := 0;
  IsExchanged := IsExchanged d;
  LastUsedTimestamp := LastUsedTimestamp d;
  LastUsedConfigStateHash := LastUsedConfigStateHash d;
  LastUsedServerEntryHash := LastUsedServerEntryHash d;
  NetworkLatencyMultiplier := NetworkLatencyMultiplier d;
  TunnelProtocol := TunnelProtocol d;
  DirectDialAddress := DirectDialAddress d;
  DialPortNumber := DialPortNumber d;
  UpstreamProxyType := "";
  UpstreamProxyCustomHeaderNames := [];
  BPFProgramName := BPFProgramName d;
  BPFProgramInstructions := BPFProgramInstructions d;
  SelectedSSHClientVersion := SelectedSSHClientVersion d;
  SSHClientVersion := SSHClientVersion d;
  SSHKEXSeed := SSHKEXSeed d;
  ObfuscatorPaddingSeed := ObfuscatorPaddingSeed d;
  OSSHObfuscatorSeedTransformerParameters := OSSHObfuscatorSeedTransformerParameters d;
  OSSHPrefixSpec := OSSHPrefixSpec d;
  OSSHPrefixSplitConfig := OSSHPrefixSplitConfig d;
  FragmentorSeed := FragmentorSeed d;
  FrontingProviderID := FrontingProviderID d;
  MeekFrontingDialAddress := MeekFrontingDialAddress d;
  MeekFrontingHost := MeekFrontingHost d;
  MeekDialAddress := MeekDialAddress d;
  MeekTransformedHostName := MeekTransformedHostName d;
  MeekSNIServerName := MeekSNIServerName d;
  MeekVerifyServerName := MeekVerifyServerName d;
  MeekVerifyPins := MeekVerifyPins d;
  MeekHostHeader := MeekHostHeader d;
  MeekObfuscatorPaddingSeed := MeekObfuscatorPaddingSeed d;
  MeekTLSPaddingSize := MeekTLSPaddingSize d;
  MeekResolvedIPAddress := "";
  TLSOSSHTransformedSNIServerName := TLSOSSHTransformedSNIServerName d;
  TLSOSSHSNIServerName := TLSOSSHSNIServerName d;
  TLSOSSHObfuscatorPaddingSeed := TLSOSSHObfuscatorPaddingSeed d;
  SelectedUserAgent := SelectedUserAgent d;
  UserAgent := UserAgent d;
  SelectedTLSProfile := SelectedTLSProfile d;
  TLSProfile := TLSProfile d;
  NoDefaultTLSSessionID := NoDefaultTLSSessionID d;
  TLSVersion := TLSVersion d;
  RandomizedTLSProfileSeed := RandomizedTLSProfileSeed d;
  TLSFragmentClientHello := TLSFragmentClientHello d;
  QUICVersion := QUICVersion d;
  QUICDialSNIAddress := QUICDialSNIAddress d;
  QUICClientHelloSeed := QUICClientHelloSeed d;
  ObfuscatedQUICPaddingSeed := ObfuscatedQUICPaddingSeed d;
  ObfuscatedQUICNonceTransformerParameters := ObfuscatedQUICNonceTransformerParameters d;
  QUICDisablePathMTUDiscovery := QUICDisablePathMTUDiscovery d;
  ConjureCachedRegistrationTTL := ConjureCachedRegistrationTTL d;
  ConjureAPIRegistration := ConjureAPIRegistration d;
  ConjureAPIRegistrarBidirectionalURL := ConjureAPIRegistrarBidirectionalURL d;
  ConjureAPIRegistrarDelay := ConjureAPIRegistrarDelay d;
  ConjureDecoyRegistration := ConjureDecoyRegistration d;
  ConjureDecoyRegistrarDelay := ConjureDecoyRegistrarDelay d;
  ConjureDecoyRegistrarWidth := ConjureDecoyRegistrarWidth d;
  ConjureTransport := ConjureTransport d;
  ConjureSTUNServerAddress := ConjureSTUNServerAddress d;
  ConjureDTLSEmptyInitialPacket := ConjureDTLSEmptyInitialPacket d;
  LivenessTestSeed := LivenessTestSeed d;
  APIRequestPaddingSeed := APIRequestPaddingSeed d;
  HoldOffTunnelDuration := HoldOffTunnelDuration d;
  resolver := None;
  ResolveParameters := ResolveParameters d;
  HTTPTransformerParameters := HTTPTransformerParameters d;
  dialConfig := None;
|}.

(** Assignment to fields.  [DialParameters_update] rebuilds a record,
    passing each field through its own function; [set_F v d], the
    assignment [dialParams.F = v], is the identity [_i] on all fields but
    [F]. *)
Definition DialParameters_update
  (g0 : option protocol.ServerEntry -> option protocol.ServerEntry)
  (g1 : string -> string)
  (g2 : bool -> bool)
  (g3 : Z -> Z)
  (g4 : Z -> Z)
  (g5 : bool -> bool)
  (g6 : time.Time -> time.Time)
  (g7 : list Byte.byte -> list Byte.byte)
  (g8 : list Byte.byte -> list Byte.byte)
  (g9 : float -> float)
  (g10 : string -> string)
  (g11 : string -> string)
  (g12 : string -> string)
  (g13 : string -> string)
  (g14 : list string -> list string)
  (g15 : string -> string)
  (g16 : list bpf.RawInstruction -> list bpf.RawInstruction)
  (g17 : bool -> bool)
  (g18 : string -> string)
  (g19 : option prng.Seed -> option prng.Seed)
  (g20 : option prng.Seed -> option prng.Seed)
  (g21 : option transforms.ObfuscatorSeedTransformerParameters -> option transforms.ObfuscatorSeedTransformerParameters)
  (g22 : option obfuscator.OSSHPrefixSpec.t -> option obfuscator.OSSHPrefixSpec.t)
  (g23 : option obfuscator.OSSHPrefixSplitConfig.t -> option obfuscator.OSSHPrefixSplitConfig.t)
  (g24 : option prng.Seed -> option prng.Seed)
  (g25 : string -> string)
  (g26 : string -> string)
  (g27 : string -> string)
  (g28 : string -> string)
  (g29 : bool -> bool)
  (g30 : string -> string)
  (g31 : string -> string)
  (g32 : list string -> list string)
  (g33 : string -> string)
  (g34 : option prng.Seed -> option prng.Seed)
  (g35 : Z -> Z)
  (g36 : string -> string)
  (g37 : bool -> bool)
  (g38 : string -> string)
  (g39 : option prng.Seed -> option prng.Seed)
  (g40 : bool -> bool)
  (g41 : string -> string)
  (g42 : bool -> bool)
  (g43 : string -> string)
  (g44 : bool -> bool)
  (g45 : string -> string)
  (g46 : option prng.Seed -> option prng.Seed)
  (g47 : bool -> bool)
  (g48 : string -> string)
  (g49 : string -> string)
  (g50 : option prng.Seed -> option prng.Seed)
  (g51 : option prng.Seed -> option prng.Seed)
  (g52 : option transforms.ObfuscatorSeedTransformerParameters -> option transforms.ObfuscatorSeedTransformerParameters)
  (g53 : bool -> bool)
  (g54 : time.Duration -> time.Duration)
  (g55 : bool -> bool)
  (g56 : string -> string)
  (g57 : time.Duration -> time.Duration)
  (g58 : bool -> bool)
  (g59 : time.Duration -> time.Duration)
  (g60 : Z -> Z)
  (g61 : string -> string)
  (g62 : string -> string)
  (g63 : bool -> bool)
  (g64 : option prng.Seed -> option prng.Seed)
  (g65 : option prng.Seed -> option prng.Seed)
  (g66 : time.Duration -> time.Duration)
  (g67 : option resolver.Resolver -> option resolver.Resolver)
  (g68 : option resolver.ResolveParameters -> option resolver.ResolveParameters)
  (g69 : option transforms.HTTPTransformerParameters -> option transforms.HTTPTransformerParameters)
  (g70 : option DialConfig.t -> option DialConfig.t)
  (d : DialParameters) : DialParameters := {|
  ServerEntry := g0 (ServerEntry d);
  NetworkID := g1 (NetworkID d);
  IsReplay := g2 (IsReplay d);
  CandidateNumber := g3 (CandidateNumber d);
  EstablishedTunnelsCount := g4 (EstablishedTunnelsCount d);
  IsExchanged := g5 (IsExchanged d);
  LastUsedTimestamp := g6 (LastUsedTimestamp d);
  LastUsedConfigStateHash := g7 (LastUsedConfigStateHash d);
  LastUsedServerEntryHash := g8 (LastUsedServerEntryHash d);
  NetworkLatencyMultiplier := g9 (NetworkLatencyMultiplier d);
  TunnelProtocol := g10 (TunnelProtocol d);
  DirectDialAddress := g11 (DirectDialAddress d);
  DialPortNumber := g12 (DialPortNumber d);
  UpstreamProxyType := g13 (UpstreamProxyType d);
  UpstreamProxyCustomHeaderNames := g14 (UpstreamProxyCustomHeaderNames d);
  BPFProgramName := g15 (BPFProgramName d);
  BPFProgramInstructions := g16 (BPFProgramInstructions d);
  SelectedSSHClientVersion := g17 (SelectedSSHClientVersion d);
  SSHClientVersion := g18 (SSHClientVersion d);
  SSHKEXSeed := g19 (SSHKEXSeed d);
  ObfuscatorPaddingSeed := g20 (ObfuscatorPaddingSeed d);
  OSSHObfuscatorSeedTransformerParameters := g21 (OSSHObfuscatorSeedTransformerParameters d);
  OSSHPrefixSpec := g22 (OSSHPrefixSpec d);
  OSSHPrefixSplitConfig := g23 (OSSHPrefixSplitConfig d);
  FragmentorSeed := g24 (FragmentorSeed d);
  FrontingProviderID := g25 (FrontingProviderID d);
  MeekFrontingDialAddress := g26 (MeekFrontingDialAddress d);
  MeekFrontingHost := g27 (MeekFrontingHost d);
  MeekDialAddress := g28 (MeekDialAddress d);
  MeekTransformedHostName := g29 (MeekTransformedHostName d);
  MeekSNIServerName := g30 (MeekSNIServerName d);
  MeekVerifyServerName := g31 (MeekVerifyServerName d);
  MeekVerifyPins := g32 (MeekVerifyPins d);
  MeekHostHeader := g33 (MeekHostHeader d);
  MeekObfuscatorPaddingSeed := g34 (MeekObfuscatorPaddingSeed d);
  MeekTLSPaddingSize := g35 (MeekTLSPaddingSize d);
  MeekResolvedIPAddress := g36 (MeekResolvedIPAddress d);
  TLSOSSHTransformedSNIServerName := g37 (TLSOSSHTransformedSNIServerName d);
  TLSOSSHSNIServerName := g38 (TLSOSSHSNIServerName d);
  TLSOSSHObfuscatorPaddingSeed := g39 (TLSOSSHObfuscatorPaddingSeed d);
  SelectedUserAgent := g40 (SelectedUserAgent d);
  UserAgent := g41 (UserAgent d);
  SelectedTLSProfile := g42 (SelectedTLSProfile d);
  TLSProfile := g43 (TLSProfile d);
  NoDefaultTLSSessionID := g44 (NoDefaultTLSSessionID d);
  TLSVersion := g45 (TLSVersion d);
  RandomizedTLSProfileSeed := g46 (RandomizedTLSProfileSeed d);
  TLSFragmentClientHello := g47 (TLSFragmentClientHello d);
  QUICVersion := g48 (QUICVersion d);
  QUICDialSNIAddress := g49 (QUICDialSNIAddress d);
  QUICClientHelloSeed := g50 (QUICClientHelloSeed d);
  ObfuscatedQUICPaddingSeed := g51 (ObfuscatedQUICPaddingSeed d);
  ObfuscatedQUICNonceTransformerParameters := g52 (ObfuscatedQUICNonceTransformerParameters d);
  QUICDisablePathMTUDiscovery := g53 (QUICDisablePathMTUDiscovery d);
  ConjureCachedRegistrationTTL := g54 (ConjureCachedRegistrationTTL d);
  ConjureAPIRegistration := g55 (ConjureAPIRegistration d);
  ConjureAPIRegistrarBidirectionalURL := g56 (ConjureAPIRegistrarBidirectionalURL d);
  ConjureAPIRegistrarDelay := g57 (ConjureAPIRegistrarDelay d);
  ConjureDecoyRegistration := g58 (ConjureDecoyRegistration d);
  ConjureDecoyRegistrarDelay := g59 (ConjureDecoyRegistrarDelay d);
  ConjureDecoyRegistrarWidth := g60 (ConjureDecoyRegistrarWidth d);
  ConjureTransport := g61 (ConjureTransport d);
  ConjureSTUNServerAddress := g62 (ConjureSTUNServerAddress d);
  ConjureDTLSEmptyInitialPacket := g63 (ConjureDTLSEmptyInitialPacket d);
  LivenessTestSeed := g64 (LivenessTestSeed d);
  APIRequestPaddingSeed := g65 (APIRequestPaddingSeed d);
  HoldOffTunnelDuration := g66 (HoldOffTunnelDuration d);
  resolver := g67 (resolver d);
  ResolveParameters := g68 (ResolveParameters d);
  HTTPTransformerParameters := g69 (HTTPTransformerParameters d);
  dialConfig := g70 (dialConfig d);
|}.

#[local] Abbreviation _i := (fun x => x) (only parsing).

Definition set_ServerEntry (v : option protocol.ServerEntry) : DialParameters -> DialParameters :=
  DialParameters_update
    (fun _ => v) _i _i _i _i _i _i _i _i _i _i _i _i _i _i _i _i _i _i _i _i
    _i _i _i _i _i _i _i _i _i _i _i _i _i _i _i _i _i _i _i _i _i _i _i _i _i
    _i _i _i _i _i _i _i _i _i _i _i _i _i _i _i _i _i _i _i _i _i _i _i _i _i.
Definition set_NetworkID (v : string) : DialParameters -> DialParameters :=
  DialParameters_update
    _i (fun _ => v) _i _i _i _i _i _i _i _i _i _i _i _i _i _i _i _i _i _i _i
    _i _i _i _i _i _i _i _i _i _i _i _i _i _i _i _i _i _i _i _i _i _i _i _i _i
    _i _i _i _i _i _i _i _i _i _i _i _i _i _i _i _i _i _i _i _i _i _i _i _i _i.
Definition set_IsReplay (v : bool) : DialParameters -> DialParameters :=
  DialParameters_update
    _i _i (fun _ => v) _i _i _i _i _i _i _i _i _i _i _i _i _i _i _i _i _i _i
    _i _i _i _i _i _i _i _i _i _i _i _i _i _i _i _i _i _i _i _i _i _i _i _i _i
    _i _i _i _i _i _i _i _i _i _i _i _i _i _i _i _i _i _i _i _i _i _i _i _i _i.
Definition set_CandidateNumber (v : Z) : DialParameters -> DialParameters :=
  DialParameters_update
    _i _i _i (fun _ => v) _i _i _i _i _i _i _i _i _i _i _i _i _i _i _i _i _i
    _i _i _i _i _i _i _i _i _i _i _i _i _i _i _i _i _i _i _i _i _i _i _i _i _i
    _i _i _i _i _i _i _i _i _i _i _i _i _i _i _i _i _i _i _i _i _i _i _i _i _i.
Definition set_EstablishedTunnelsCount (v : Z) : DialParameters -> DialParameters :=
  DialParameters_update
    _i _i _i _i (fun _ => v) _i _i _i _i _i _i _i _i _i _i _i _i _i _i _i _i
    _i _i _i _i _i _i _i _i _i _i _i _i _i _i _i _i _i _i _i _i _i _i _i _i _i
    _i _i _i _i _i _i _i _i _i _i _i _i _i _i _i _i _i _i _i _i _i _i _i _i _i.
Definition set_IsExchanged (v : bool) : DialParameters -> DialParameters :=
  DialParameters_update
    _i _i _i _i _i (fun _ => v) _i _i _i _i _i _i _i _i _i _i _i _i _i _i _i
    _i _i _i _i _i _i _i _i _i _i _i _i _i _i _i _i _i _i _i _i _i _i _i _i _i
    _i _i _i _i _i _i _i _i _i _i _i _i _i _i _i _i _i _i _i _i _i _i _i _i _i.
Definition set_LastUsedTimestamp (v : time.Time) : DialParameters -> DialParameters :=
  DialParameters_update
    _i _i _i _i _i _i (fun _ => v) _i _i _i _i _i _i _i _i _i _i _i _i _i _i
    _i _i _i _i _i _i _i _i _i _i _i _i _i _i _i _i _i _i _i _i _i _i _i _i _i
    _i _i _i _i _i _i _i _i _i _i _i _i _i _i _i _i _i _i _i _i _i _i _i _i _i.
Definition set_LastUsedConfigStateHash (v : list Byte.byte) : DialParameters -> DialParameters :=
  DialParameters_update
    _i _i _i _i _i _i _i (fun _ => v) _i _i _i _i _i _i _i _i _i _i _i _i _i
    _i _i _i _i _i _i _i _i _i _i _i _i _i _i _i _i _i _i _i _i _i _i _i _i _i
    _i _i _i _i _i _i _i _i _i _i _i _i _i _i _i _i _i _i _i _i _i _i _i _i _i.
Definition set_LastUsedServerEntryHash (v : list Byte.byte) : DialParameters -> DialParameters :=
  DialParameters_update
    _i _i _i _i _i _i _i _i (fun _ => v) _i _i _i _i _i _i _i _i _i _i _i _i
    _i _i _i _i _i _i _i _i _i _i _i _i _i _i _i _i _i _i _i _i _i _i _i _i _i
    _i _i _i _i _i _i _i _i _i _i _i _i _i _i _i _i _i _i _i _i _i _i _i _i _i.
Definition set_NetworkLatencyMultiplier (v : float) : DialParameters -> DialParameters :=
  DialParameters_update
    _i _i _i _i _i _i _i _i _i (fun _ => v) _i _i _i _i _i _i _i _i _i _i _i
    _i _i _i _i _i _i _i _i _i _i _i _i _i _i _i _i _i _i _i _i _i _i _i _i _i
    _i _i _i _i _i _i _i _i _i _i _i _i _i _i _i _i _i _i _i _i _i _i _i _i _i.
Definition set_TunnelProtocol (v : string) : DialParameters -> DialParameters :=
  DialParameters_update
    _i _i _i _i _i _i _i _i _i _i (fun _ => v) _i _i _i _i _i _i _i _i _i _i
    _i _i _i _i _i _i _i _i _i _i _i _i _i _i _i _i _i _i _i _i _i _i _i _i _i
    _i _i _i _i _i _i _i _i _i _i _i _i _i _i _i _i _i _i _i _i _i _i _i _i _i.
Definition set_DirectDialAddress (v : string) : DialParameters -> DialParameters :=
  DialParameters_update
    _i _i _i _i _i _i _i _i _i _i _i (fun _ => v) _i _i _i _i _i _i _i _i _i
    _i _i _i _i _i _i _i _i _i _i _i _i _i _i _i _i _i _i _i _i _i _i _i _i _i
    _i _i _i _i _i _i _i _i _i _i _i _i _i _i _i _i _i _i _i _i _i _i _i _i _i.
Definition set_DialPortNumber (v : string) : DialParameters -> DialParameters :=
  DialParameters_update
    _i _i _i _i _i _i _i _i _i _i _i _i (fun _ => v) _i _i _i _i _i _i _i _i
    _i _i _i _i _i _i _i _i _i _i _i _i _i _i _i _i _i _i _i _i _i _i _i _i _i
    _i _i _i _i _i _i _i _i _i _i _i _i _i _i _i _i _i _i _i _i _i _i _i _i _i.
Definition set_UpstreamProxyType (v : string) : DialParameters -> DialParameters :=
  DialParameters_update
    _i _i _i _i _i _i _i _i _i _i _i _i _i (fun _ => v) _i _i _i _i _i _i _i
    _i _i _i _i _i _i _i _i _i _i _i _i _i _i _i _i _i _i _i _i _i _i _i _i _i
    _i _i _i _i _i _i _i _i _i _i _i _i _i _i _i _i _i _i _i _i _i _i _i _i _i.
Definition set_UpstreamProxyCustomHeaderNames (v : list string) : DialParameters -> DialParameters :=
  DialParameters_update
    _i _i _i _i _i _i _i _i _i _i _i _i _i _i (fun _ => v) _i _i _i _i _i _i
    _i _i _i _i _i _i _i _i _i _i _i _i _i _i _i _i _i _i _i _i _i _i _i _i _i
    _i _i _i _i _i _i _i _i _i _i _i _i _i _i _i _i _i _i _i _i _i _i _i _i _i.
Definition set_BPFProgramName (v : string) : DialParameters -> DialParameters :=
  DialParameters_update
    _i _i _i _i _i _i _i _i _i _i _i _i _i _i _i (fun _ => v) _i _i _i _i _i
    _i _i _i _i _i _i _i _i _i _i _i _i _i _i _i _i _i _i _i _i _i _i _i _i _i
    _i _i _i _i _i _i _i _i _i _i _i _i _i _i _i _i _i _i _i _i _i _i _i _i _i.
Definition set_BPFProgramInstructions (v : list bpf.RawInstruction) : DialParameters -> DialParameters :=
  DialParameters_update
    _i _i _i _i _i _i _i _i _i _i _i _i _i _i _i _i (fun _ => v) _i _i _i _i
    _i _i _i _i _i _i _i _i _i _i _i _i _i _i _i _i _i _i _i _i _i _i _i _i _i
    _i _i _i _i _i _i _i _i _i _i _i _i _i _i _i _i _i _i _i _i _i _i _i _i _i.
Definition set_SelectedSSHClientVersion (v : bool) : DialParameters -> DialParameters :=
  DialParameters_update
    _i _i _i _i _i _i _i _i _i _i _i _i _i _i _i _i _i (fun _ => v) _i _i _i
    _i _i _i _i _i _i _i _i _i _i _i _i _i _i _i _i _i _i _i _i _i _i _i _i _i
    _i _i _i _i _i _i _i _i _i _i _i _i _i _i _i _i _i _i _i _i _i _i _i _i _i.
Definition set_SSHClientVersion (v : string) : DialParameters -> DialParameters :=
  DialParameters_update
    _i _i _i _i _i _i _i _i _i _i _i _i _i _i _i _i _i _i (fun _ => v) _i _i
    _i _i _i _i _i _i _i _i _i _i _i _i _i _i _i _i _i _i _i _i _i _i _i _i _i
    _i _i _i _i _i _i _i _i _i _i _i _i _i _i _i _i _i _i _i _i _i _i _i _i _i.
Definition set_SSHKEXSeed (v : option prng.Seed) : DialParameters -> DialParameters :=
  DialParameters_update
    _i _i _i _i _i _i _i _i _i _i _i _i _i _i _i _i _i _i _i (fun _ => v) _i
    _i _i _i _i _i _i _i _i _i _i _i _i _i _i _i _i _i _i _i _i _i _i _i _i _i
    _i _i _i _i _i _i _i _i _i _i _i _i _i _i _i _i _i _i _i _i _i _i _i _i _i.
Definition set_ObfuscatorPaddingSeed (v : option prng.Seed) : DialParameters -> DialParameters :=
  DialParameters_update
    _i _i _i _i _i _i _i _i _i _i _i _i _i _i _i _i _i _i _i _i (fun _ => v)
    _i _i _i _i _i _i _i _i _i _i _i _i _i _i _i _i _i _i _i _i _i _i _i _i _i
    _i _i _i _i _i _i _i _i _i _i _i _i _i _i _i _i _i _i _i _i _i _i _i _i _i.
Definition set_OSSHObfuscatorSeedTransformerParameters (v : option transforms.ObfuscatorSeedTransformerParameters) : DialParameters -> DialParameters :=
  DialParameters_update
    _i _i _i _i _i _i _i _i _i _i _i _i _i _i _i _i _i _i _i _i _i
    (fun _ => v) _i _i _i _i _i _i _i _i _i _i _i _i _i _i _i _i _i _i _i _i
    _i _i _i _i _i _i _i _i _i _i _i _i _i _i _i _i _i _i _i _i _i _i _i _i _i
    _i _i _i _i.
Definition set_OSSHPrefixSpec (v : option obfuscator.OSSHPrefixSpec.t) : DialParameters -> DialParameters :=
  DialParameters_update
    _i _i _i _i _i _i _i _i _i _i _i _i _i _i _i _i _i _i _i _i _i _i
    (fun _ => v) _i _i _i _i _i _i _i _i _i _i _i _i _i _i _i _i _i _i _i _i
    _i _i _i _i _i _i _i _i _i _i _i _i _i _i _i _i _i _i _i _i _i _i _i _i _i
    _i _i _i.
Definition set_OSSHPrefixSplitConfig (v : option obfuscator.OSSHPrefixSplitConfig.t) : DialParameters -> DialParameters :=
  DialParameters_update
    _i _i _i _i _i _i _i _i _i _i _i _i _i _i _i _i _i _i _i _i _i _i _i
    (fun _ => v) _i _i _i _i _i _i _i _i _i _i _i _i _i _i _i _i _i _i _i _i
    _i _i _i _i _i _i _i _i _i _i _i _i _i _i _i _i _i _i _i _i _i _i _i _i _i
    _i _i.
Definition set_FragmentorSeed (v : option prng.Seed) : DialParameters -> DialParameters :=
  DialParameters_update
    _i _i _i _i _i _i _i _i _i _i _i _i _i _i _i _i _i _i _i _i _i _i _i _i
    (fun _ => v) _i _i _i _i _i _i _i _i _i _i _i _i _i _i _i _i _i _i _i _i
    _i _i _i _i _i _i _i _i _i _i _i _i _i _i _i _i _i _i _i _i _i _i _i _i _i
    _i.
Definition set_FrontingProviderID (v : string) : DialParameters -> DialParameters :=
  DialParameters_update
    _i _i _i _i _i _i _i _i _i _i _i _i _i _i _i _i _i _i _i _i _i _i _i _i _i
    (fun _ => v) _i _i _i _i _i _i _i _i _i _i _i _i _i _i _i _i _i _i _i _i
    _i _i _i _i _i _i _i _i _i _i _i _i _i _i _i _i _i _i _i _i _i _i _i _i _i.
Definition set_MeekFrontingDialAddress (v : string) : DialParameters -> DialParameters :=
  DialParameters_update
    _i _i _i _i _i _i _i _i _i _i _i _i _i _i _i _i _i _i _i _i _i _i _i _i _i
    _i (fun _ => v) _i _i _i _i _i _i _i _i _i _i _i _i _i _i _i _i _i _i _i
    _i _i _i _i _i _i _i _i _i _i _i _i _i _i _i _i _i _i _i _i _i _i _i _i _i.
Definition set_MeekFrontingHost (v : string) : DialParameters -> DialParameters :=
  DialParameters_update
    _i _i _i _i _i _i _i _i _i _i _i _i _i _i _i _i _i _i _i _i _i _i _i _i _i
    _i _i (fun _ => v) _i _i _i _i _i _i _i _i _i _i _i _i _i _i _i _i _i _i
    _i _i _i _i _i _i _i _i _i _i _i _i _i _i _i _i _i _i _i _i _i _i _i _i _i.
Definition set_MeekDialAddress (v : string) : DialParameters -> DialParameters :=
  DialParameters_update
    _i _i _i _i _i _i _i _i _i _i _i _i _i _i _i _i _i _i _i _i _i _i _i _i _i
    _i _i _i (fun _ => v) _i _i _i _i _i _i _i _i _i _i _i _i _i _i _i _i _i
    _i _i _i _i _i _i _i _i _i _i _i _i _i _i _i _i _i _i _i _i _i _i _i _i _i.
Definition set_MeekTransformedHostName (v : bool) : DialParameters -> DialParameters :=
  DialParameters_update
    _i _i _i _i _i _i _i _i _i _i _i _i _i _i _i _i _i _i _i _i _i _i _i _i _i
    _i _i _i _i (fun _ => v) _i _i _i _i _i _i _i _i _i _i _i _i _i _i _i _i
    _i _i _i _i _i _i _i _i _i _i _i _i _i _i _i _i _i _i _i _i _i _i _i _i _i.
Definition set_MeekSNIServerName (v : string) : DialParameters -> DialParameters :=
  DialParameters_update
    _i _i _i _i _i _i _i _i _i _i _i _i _i _i _i _i _i _i _i _i _i _i _i _i _i
    _i _i _i _i _i (fun _ => v) _i _i _i _i _i _i _i _i _i _i _i _i _i _i _i
    _i _i _i _i _i _i _i _i _i _i _i _i _i _i _i _i _i _i _i _i _i _i _i _i _i.
Definition set_MeekVerifyServerName (v : string) : DialParameters -> DialParameters :=
  DialParameters_update
    _i _i _i _i _i _i _i _i _i _i _i _i _i _i _i _i _i _i _i _i _i _i _i _i _i
    _i _i _i _i _i _i (fun _ => v) _i _i _i _i _i _i _i _i _i _i _i _i _i _i
    _i _i _i _i _i _i _i _i _i _i _i _i _i _i _i _i _i _i _i _i _i _i _i _i _i.
Definition set_MeekVerifyPins (v : list string) : DialParameters -> DialParameters :=
  DialParameters_update
    _i _i _i _i _i _i _i _i _i _i _i _i _i _i _i _i _i _i _i _i _i _i _i _i _i
    _i _i _i _i _i _i _i (fun _ => v) _i _i _i _i _i _i _i _i _i _i _i _i _i
    _i _i _i _i _i _i _i _i _i _i _i _i _i _i _i _i _i _i _i _i _i _i _i _i _i.
Definition set_MeekHostHeader (v : string) : DialParameters -> DialParameters :=
  DialParameters_update
    _i _i _i _i _i _i _i _i _i _i _i _i _i _i _i _i _i _i _i _i _i _i _i _i _i
    _i _i _i _i _i _i _i _i (fun _ => v) _i _i _i _i _i _i _i _i _i _i _i _i
    _i _i _i _i _i _i _i _i _i _i _i _i _i _i _i _i _i _i _i _i _i _i _i _i _i.
Definition set_MeekObfuscatorPaddingSeed (v : option prng.Seed) : DialParameters -> DialParameters :=
  DialParameters_update
    _i _i _i _i _i _i _i _i _i _i _i _i _i _i _i _i _i _i _i _i _i _i _i _i _i
    _i _i _i _i _i _i _i _i _i (fun _ => v) _i _i _i _i _i _i _i _i _i _i _i
    _i _i _i _i _i _i _i _i _i _i _i _i _i _i _i _i _i _i _i _i _i _i _i _i _i.
Definition set_MeekTLSPaddingSize (v : Z) : DialParameters -> DialParameters :=
  DialParameters_update
    _i _i _i _i _i _i _i _i _i _i _i _i _i _i _i _i _i _i _i _i _i _i _i _i _i
    _i _i _i _i _i _i _i _i _i _i (fun _ => v) _i _i _i _i _i _i _i _i _i _i
    _i _i _i _i _i _i _i _i _i _i _i _i _i _i _i _i _i _i _i _i _i _i _i _i _i.
Definition set_MeekResolvedIPAddress (v : string) : DialParameters -> DialParameters :=
  DialParameters_update
    _i _i _i _i _i _i _i _i _i _i _i _i _i _i _i _i _i _i _i _i _i _i _i _i _i
    _i _i _i _i _i _i _i _i _i _i _i (fun _ => v) _i _i _i _i _i _i _i _i _i
    _i _i _i _i _i _i _i _i _i _i _i _i _i _i _i _i _i _i _i _i _i _i _i _i _i.
Definition set_TLSOSSHTransformedSNIServerName (v : bool) : DialParameters -> DialParameters :=
  DialParameters_update
    _i _i _i _i _i _i _i _i _i _i _i _i _i _i _i _i _i _i _i _i _i _i _i _i _i
    _i _i _i _i _i _i _i _i _i _i _i _i (fun _ => v) _i _i _i _i _i _i _i _i
    _i _i _i _i _i _i _i _i _i _i _i _i _i _i _i _i _i _i _i _i _i _i _i _i _i.
Definition set_TLSOSSHSNIServerName (v : string) : DialParameters -> DialParameters :=
  DialParameters_update
    _i _i _i _i _i _i _i _i _i _i _i _i _i _i _i _i _i _i _i _i _i _i _i _i _i
    _i _i _i _i _i _i _i _i _i _i _i _i _i (fun _ => v) _i _i _i _i _i _i _i
    _i _i _i _i _i _i _i _i _i _i _i _i _i _i _i _i _i _i _i _i _i _i _i _i _i.
Definition set_TLSOSSHObfuscatorPaddingSeed (v : option prng.Seed) : DialParameters -> DialParameters :=
  DialParameters_update
    _i _i _i _i _i _i _i _i _i _i _i _i _i _i _i _i _i _i _i _i _i _i _i _i _i
    _i _i _i _i _i _i _i _i _i _i _i _i _i _i (fun _ => v) _i _i _i _i _i _i
    _i _i _i _i _i _i _i _i _i _i _i _i _i _i _i _i _i _i _i _i _i _i _i _i _i.
Definition set_SelectedUserAgent (v : bool) : DialParameters -> DialParameters :=
  DialParameters_update
    _i _i _i _i _i _i _i _i _i _i _i _i _i _i _i _i _i _i _i _i _i _i _i _i _i
    _i _i _i _i _i _i _i _i _i _i _i _i _i _i _i (fun _ => v) _i _i _i _i _i
    _i _i _i _i _i _i _i _i _i _i _i _i _i _i _i _i _i _i _i _i _i _i _i _i _i.
Definition set_UserAgent (v : string) : DialParameters -> DialParameters :=
  DialParameters_update
    _i _i _i _i _i _i _i _i _i _i _i _i _i _i _i _i _i _i _i _i _i _i _i _i _i
    _i _i _i _i _i _i _i _i _i _i _i _i _i _i _i _i (fun _ => v) _i _i _i _i
    _i _i _i _i _i _i _i _i _i _i _i _i _i _i _i _i _i _i _i _i _i _i _i _i _i.
Definition set_SelectedTLSProfile (v : bool) : DialParameters -> DialParameters :=
  DialParameters_update
    _i _i _i _i _i _i _i _i _i _i _i _i _i _i _i _i _i _i _i _i _i _i _i _i _i
    _i _i _i _i _i _i _i _i _i _i _i _i _i _i _i _i _i (fun _ => v) _i _i _i
    _i _i _i _i _i _i _i _i _i _i _i _i _i _i _i _i _i _i _i _i _i _i _i _i _i.
Definition set_TLSProfile (v : string) : DialParameters -> DialParameters :=
  DialParameters_update
    _i _i _i _i _i _i _i _i _i _i _i _i _i _i _i _i _i _i _i _i _i _i _i _i _i
    _i _i _i _i _i _i _i _i _i _i _i _i _i _i _i _i _i _i (fun _ => v) _i _i
    _i _i _i _i _i _i _i _i _i _i _i _i _i _i _i _i _i _i _i _i _i _i _i _i _i.
Definition set_NoDefaultTLSSessionID (v : bool) : DialParameters -> DialParameters :=
  DialParameters_update
    _i _i _i _i _i _i _i _i _i _i _i _i _i _i _i _i _i _i _i _i _i _i _i _i _i
    _i _i _i _i _i _i _i _i _i _i _i _i _i _i _i _i _i _i _i (fun _ => v) _i
    _i _i _i _i _i _i _i _i _i _i _i _i _i _i _i _i _i _i _i _i _i _i _i _i _i.
Definition set_TLSVersion (v : string) : DialParameters -> DialParameters :=
  DialParameters_update
    _i _i _i _i _i _i _i _i _i _i _i _i _i _i _i _i _i _i _i _i _i _i _i _i _i
    _i _i _i _i _i _i _i _i _i _i _i _i _i _i _i _i _i _i _i _i (fun _ => v)
    _i _i _i _i _i _i _i _i _i _i _i _i _i _i _i _i _i _i _i _i _i _i _i _i _i.
Definition set_RandomizedTLSProfileSeed (v : option prng.Seed) : DialParameters -> DialParameters :=
  DialParameters_update
    _i _i _i _i _i _i _i _i _i _i _i _i _i _i _i _i _i _i _i _i _i _i _i _i _i
    _i _i _i _i _i _i _i _i _i _i _i _i _i _i _i _i _i _i _i _i _i
    (fun _ => v) _i _i _i _i _i _i _i _i _i _i _i _i _i _i _i _i _i _i _i _i
    _i _i _i _i.
Definition set_TLSFragmentClientHello (v : bool) : DialParameters -> DialParameters :=
  DialParameters_update
    _i _i _i _i _i _i _i _i _i _i _i _i _i _i _i _i _i _i _i _i _i _i _i _i _i
    _i _i _i _i _i _i _i _i _i _i _i _i _i _i _i _i _i _i _i _i _i _i
    (fun _ => v) _i _i _i _i _i _i _i _i _i _i _i _i _i _i _i _i _i _i _i _i
    _i _i _i.
Definition set_QUICVersion (v : string) : DialParameters -> DialParameters :=
  DialParameters_update
    _i _i _i _i _i _i _i _i _i _i _i _i _i _i _i _i _i _i _i _i _i _i _i _i _i
    _i _i _i _i _i _i _i _i _i _i _i _i _i _i _i _i _i _i _i _i _i _i _i
    (fun _ => v) _i _i _i _i _i _i _i _i _i _i _i _i _i _i _i _i _i _i _i _i
    _i _i.
Definition set_QUICDialSNIAddress (v : string) : DialParameters -> DialParameters :=
  DialParameters_update
    _i _i _i _i _i _i _i _i _i _i _i _i _i _i _i _i _i _i _i _i _i _i _i _i _i
    _i _i _i _i _i _i _i _i _i _i _i _i _i _i _i _i _i _i _i _i _i _i _i _i
    (fun _ => v) _i _i _i _i _i _i _i _i _i _i _i _i _i _i _i _i _i _i _i _i
    _i.
Definition set_QUICClientHelloSeed (v : option prng.Seed) : DialParameters -> DialParameters :=
  DialParameters_update
    _i _i _i _i _i _i _i _i _i _i _i _i _i _i _i _i _i _i _i _i _i _i _i _i _i
    _i _i _i _i _i _i _i _i _i _i _i _i _i _i _i _i _i _i _i _i _i _i _i _i _i
    (fun _ => v) _i _i _i _i _i _i _i _i _i _i _i _i _i _i _i _i _i _i _i _i.
Definition set_ObfuscatedQUICPaddingSeed (v : option prng.Seed) : DialParameters -> DialParameters :=
  DialParameters_update
    _i _i _i _i _i _i _i _i _i _i _i _i _i _i _i _i _i _i _i _i _i _i _i _i _i
    _i _i _i _i _i _i _i _i _i _i _i _i _i _i _i _i _i _i _i _i _i _i _i _i _i
    _i (fun _ => v) _i _i _i _i _i _i _i _i _i _i _i _i _i _i _i _i _i _i _i.
Definition set_ObfuscatedQUICNonceTransformerParameters (v : option transforms.ObfuscatorSeedTransformerParameters) : DialParameters -> DialParameters :=
  DialParameters_update
    _i _i _i _i _i _i _i _i _i _i _i _i _i _i _i _i _i _i _i _i _i _i _i _i _i
    _i _i _i _i _i _i _i _i _i _i _i _i _i _i _i _i _i _i _i _i _i _i _i _i _i
    _i _i (fun _ => v) _i _i _i _i _i _i _i _i _i _i _i _i _i _i _i _i _i _i.
Definition set_QUICDisablePathMTUDiscovery (v : bool) : DialParameters -> DialParameters :=
  DialParameters_update
    _i _i _i _i _i _i _i _i _i _i _i _i _i _i _i _i _i _i _i _i _i _i _i _i _i
    _i _i _i _i _i _i _i _i _i _i _i _i _i _i _i _i _i _i _i _i _i _i _i _i _i
    _i _i _i (fun _ => v) _i _i _i _i _i _i _i _i _i _i _i _i _i _i _i _i _i.
Definition set_ConjureCachedRegistrationTTL (v : time.Duration) : DialParameters -> DialParameters :=
  DialParameters_update
    _i _i _i _i _i _i _i _i _i _i _i _i _i _i _i _i _i _i _i _i _i _i _i _i _i
    _i _i _i _i _i _i _i _i _i _i _i _i _i _i _i _i _i _i _i _i _i _i _i _i _i
    _i _i _i _i (fun _ => v) _i _i _i _i _i _i _i _i _i _i _i _i _i _i _i _i.
Definition set_ConjureAPIRegistration (v : bool) : DialParameters -> DialParameters :=
  DialParameters_update
    _i _i _i _i _i _i _i _i _i _i _i _i _i _i _i _i _i _i _i _i _i _i _i _i _i
    _i _i _i _i _i _i _i _i _i _i _i _i _i _i _i _i _i _i _i _i _i _i _i _i _i
    _i _i _i _i _i (fun _ => v) _i _i _i _i _i _i _i _i _i _i _i _i _i _i _i.
Definition set_ConjureAPIRegistrarBidirectionalURL (v : string) : DialParameters -> DialParameters :=
  DialParameters_update
    _i _i _i _i _i _i _i _i _i _i _i _i _i _i _i _i _i _i _i _i _i _i _i _i _i
    _i _i _i _i _i _i _i _i _i _i _i _i _i _i _i _i _i _i _i _i _i _i _i _i _i
    _i _i _i _i _i _i (fun _ => v) _i _i _i _i _i _i _i _i _i _i _i _i _i _i.
Definition set_ConjureAPIRegistrarDelay (v : time.Duration) : DialParameters -> DialParameters :=
  DialParameters_update
    _i _i _i _i _i _i _i _i _i _i _i _i _i _i _i _i _i _i _i _i _i _i _i _i _i
    _i _i _i _i _i _i _i _i _i _i _i _i _i _i _i _i _i _i _i _i _i _i _i _i _i
    _i _i _i _i _i _i _i (fun _ => v) _i _i _i _i _i _i _i _i _i _i _i _i _i.
Definition set_ConjureDecoyRegistration (v : bool) : DialParameters -> DialParameters :=
  DialParameters_update
    _i _i _i _i _i _i _i _i _i _i _i _i _i _i _i _i _i _i _i _i _i _i _i _i _i
    _i _i _i _i _i _i _i _i _i _i _i _i _i _i _i _i _i _i _i _i _i _i _i _i _i
    _i _i _i _i _i _i _i _i (fun _ => v) _i _i _i _i _i _i _i _i _i _i _i _i.
Definition set_ConjureDecoyRegistrarDelay (v : time.Duration) : DialParameters -> DialParameters :=
  DialParameters_update
    _i _i _i _i _i _i _i _i _i _i _i _i _i _i _i _i _i _i _i _i _i _i _i _i _i
    _i _i _i _i _i _i _i _i _i _i _i _i _i _i _i _i _i _i _i _i _i _i _i _i _i
    _i _i _i _i _i _i _i _i _i (fun _ => v) _i _i _i _i _i _i _i _i _i _i _i.
Definition set_ConjureDecoyRegistrarWidth (v : Z) : DialParameters -> DialParameters :=
  DialParameters_update
    _i _i _i _i _i _i _i _i _i _i _i _i _i _i _i _i _i _i _i _i _i _i _i _i _i
    _i _i _i _i _i _i _i _i _i _i _i _i _i _i _i _i _i _i _i _i _i _i _i _i _i
    _i _i _i _i _i _i _i _i _i _i (fun _ => v) _i _i _i _i _i _i _i _i _i _i.
Definition set_ConjureTransport (v : string) : DialParameters -> DialParameters :=
  DialParameters_update
    _i _i _i _i _i _i _i _i _i _i _i _i _i _i _i _i _i _i _i _i _i _i _i _i _i
    _i _i _i _i _i _i _i _i _i _i _i _i _i _i _i _i _i _i _i _i _i _i _i _i _i
    _i _i _i _i _i _i _i _i _i _i _i (fun _ => v) _i _i _i _i _i _i _i _i _i.
Definition set_ConjureSTUNServerAddress (v : string) : DialParameters -> DialParameters :=
  DialParameters_update
    _i _i _i _i _i _i _i _i _i _i _i _i _i _i _i _i _i _i _i _i _i _i _i _i _i
    _i _i _i _i _i _i _i _i _i _i _i _i _i _i _i _i _i _i _i _i _i _i _i _i _i
    _i _i _i _i _i _i _i _i _i _i _i _i (fun _ => v) _i _i _i _i _i _i _i _i.
Definition set_ConjureDTLSEmptyInitialPacket (v : bool) : DialParameters -> DialParameters :=
  DialParameters_update
    _i _i _i _i _i _i _i _i _i _i _i _i _i _i _i _i _i _i _i _i _i _i _i _i _i
    _i _i _i _i _i _i _i _i _i _i _i _i _i _i _i _i _i _i _i _i _i _i _i _i _i
    _i _i _i _i _i _i _i _i _i _i _i _i _i (fun _ => v) _i _i _i _i _i _i _i.
Definition set_LivenessTestSeed (v : option prng.Seed) : DialParameters -> DialParameters :=
  DialParameters_update
    _i _i _i _i _i _i _i _i _i _i _i _i _i _i _i _i _i _i _i _i _i _i _i _i _i
    _i _i _i _i _i _i _i _i _i _i _i _i _i _i _i _i _i _i _i _i _i _i _i _i _i
    _i _i _i _i _i _i _i _i _i _i _i _i _i _i (fun _ => v) _i _i _i _i _i _i.
Definition set_APIRequestPaddingSeed (v : option prng.Seed) : DialParameters -> DialParameters :=
  DialParameters_update
    _i _i _i _i _i _i _i _i _i _i _i _i _i _i _i _i _i _i _i _i _i _i _i _i _i
    _i _i _i _i _i _i _i _i _i _i _i _i _i _i _i _i _i _i _i _i _i _i _i _i _i
    _i _i _i _i _i _i _i _i _i _i _i _i _i _i _i (fun _ => v) _i _i _i _i _i.
Definition set_HoldOffTunnelDuration (v : time.Duration) : DialParameters -> DialParameters :=
  DialParameters_update
    _i _i _i _i _i _i _i _i _i _i _i _i _i _i _i _i _i _i _i _i _i _i _i _i _i
    _i _i _i _i _i _i _i _i _i _i _i _i _i _i _i _i _i _i _i _i _i _i _i _i _i
    _i _i _i _i _i _i _i _i _i _i _i _i _i _i _i _i (fun _ => v) _i _i _i _i.
Definition set_resolver (v : option resolver.Resolver) : DialParameters -> DialParameters :=
  DialParameters_update
    _i _i _i _i _i _i _i _i _i _i _i _i _i _i _i _i _i _i _i _i _i _i _i _i _i
    _i _i _i _i _i _i _i _i _i _i _i _i _i _i _i _i _i _i _i _i _i _i _i _i _i
    _i _i _i _i _i _i _i _i _i _i _i _i _i _i _i _i _i (fun _ => v) _i _i _i.
Definition set_ResolveParameters (v : option resolver.ResolveParameters) : DialParameters -> DialParameters :=
  DialParameters_update
    _i _i _i _i _i _i _i _i _i _i _i _i _i _i _i _i _i _i _i _i _i _i _i _i _i
    _i _i _i _i _i _i _i _i _i _i _i _i _i _i _i _i _i _i _i _i _i _i _i _i _i
    _i _i _i _i _i _i _i _i _i _i _i _i _i _i _i _i _i _i (fun _ => v) _i _i.
Definition set_HTTPTransformerParameters (v : option transforms.HTTPTransformerParameters) : DialParameters -> DialParameters :=
  DialParameters_update
    _i _i _i _i _i _i _i _i _i _i _i _i _i _i _i _i _i _i _i _i _i _i _i _i _i
    _i _i _i _i _i _i _i _i _i _i _i _i _i _i _i _i _i _i _i _i _i _i _i _i _i
    _i _i _i _i _i _i _i _i _i _i _i _i _i _i _i _i _i _i _i (fun _ => v) _i.
Definition set_dialConfig (v : option DialConfig.t) : DialParameters -> DialParameters :=
  DialParameters_update
    _i _i _i _i _i _i _i _i _i _i _i _i _i _i _i _i _i _i _i _i _i _i _i _i _i
    _i _i _i _i _i _i _i _i _i _i _i _i _i _i _i _i _i _i _i _i _i _i _i _i _i
    _i _i _i _i _i _i _i _i _i _i _i _i _i _i _i _i _i _i _i _i (fun _ => v).

Arguments set_ServerEntry : simpl never.
Arguments set_NetworkID : simpl never.
Arguments set_IsReplay : simpl never.
Arguments set_CandidateNumber : simpl never.
Arguments set_EstablishedTunnelsCount : simpl never.
Arguments set_IsExchanged : simpl never.
Arguments set_LastUsedTimestamp : simpl never.
Arguments set_LastUsedConfigStateHash : simpl never.
Arguments set_LastUsedServerEntryHash : simpl never.
Arguments set_NetworkLatencyMultiplier : simpl never.
Arguments set_TunnelProtocol : simpl never.
Arguments set_DirectDialAddress : simpl never.
Arguments set_DialPortNumber : simpl never.
Arguments set_UpstreamProxyType : simpl never.
Arguments set_UpstreamProxyCustomHeaderNames : simpl never.
Arguments set_BPFProgramName : simpl never.
Arguments set_BPFProgramInstructions : simpl never.
Arguments set_SelectedSSHClientVersion : simpl never.
Arguments set_SSHClientVersion : simpl never.
Arguments set_SSHKEXSeed : simpl never.
Arguments set_ObfuscatorPaddingSeed : simpl never.
Arguments set_OSSHObfuscatorSeedTransformerParameters : simpl never.
Arguments set_OSSHPrefixSpec : simpl never.
Arguments set_OSSHPrefixSplitConfig : simpl never.
Arguments set_FragmentorSeed : simpl never.
Arguments set_FrontingProviderID : simpl never.
Arguments set_MeekFrontingDialAddress : simpl never.
Arguments set_MeekFrontingHost : simpl never.
Arguments set_MeekDialAddress : simpl never.
Arguments set_MeekTransformedHostName : simpl never.
Arguments set_MeekSNIServerName : simpl never.
Arguments set_MeekVerifyServerName : simpl never.
Arguments set_MeekVerifyPins : simpl never.
Arguments set_MeekHostHeader : simpl never.
Arguments set_MeekObfuscatorPaddingSeed : simpl never.
Arguments set_MeekTLSPaddingSize : simpl never.
Arguments set_MeekResolvedIPAddress : simpl never.
Arguments set_TLSOSSHTransformedSNIServerName : simpl never.
Arguments set_TLSOSSHSNIServerName : simpl never.
Arguments set_TLSOSSHObfuscatorPaddingSeed : simpl never.
Arguments set_SelectedUserAgent : simpl never.
Arguments set_UserAgent : simpl never.
Arguments set_SelectedTLSProfile : simpl never.
Arguments set_TLSProfile : simpl never.
Arguments set_NoDefaultTLSSessionID : simpl never.
Arguments set_TLSVersion : simpl never.
Arguments set_RandomizedTLSProfileSeed : simpl never.
Arguments set_TLSFragmentClientHello : simpl never.
Arguments set_QUICVersion : simpl never.
Arguments set_QUICDialSNIAddress : simpl never.
Arguments set_QUICClientHelloSeed : simpl never.
Arguments set_ObfuscatedQUICPaddingSeed : simpl never.
Arguments set_ObfuscatedQUICNonceTransformerParameters : simpl never.
Arguments set_QUICDisablePathMTUDiscovery : simpl never.
Arguments set_ConjureCachedRegistrationTTL : simpl never.
Arguments set_ConjureAPIRegistration : simpl never.
Arguments set_ConjureAPIRegistrarBidirectionalURL : simpl never.
Arguments set_ConjureAPIRegistrarDelay : simpl never.
Arguments set_ConjureDecoyRegistration : simpl never.
Arguments set_ConjureDecoyRegistrarDelay : simpl never.
Arguments set_ConjureDecoyRegistrarWidth : simpl never.
Arguments set_ConjureTransport : simpl never.
Arguments set_ConjureSTUNServerAddress : simpl never.
Arguments set_ConjureDTLSEmptyInitialPacket : simpl never.
Arguments set_LivenessTestSeed : simpl never.
Arguments set_APIRequestPaddingSeed : simpl never.
Arguments set_HoldOffTunnelDuration : simpl never.
Arguments set_resolver : simpl never.
Arguments set_ResolveParameters : simpl never.
Arguments set_HTTPTransformerParameters : simpl never.
Arguments set_dialConfig : simpl never.

(** ** Effects *)

(** The two ways the composer leaves early: [return nil, nil] and
    [return nil, err]. *)
Inductive Exit :=
| SkipCandidate
| ReturnError (err : error).

(** A step of the composition: it consumes randomness, and either goes on
    with a value or leaves the composer. *)
Definition Dial (A : Type) : Type := prng.Source -> (Exit + A) * prng.Source.

Definition ret {A} (a : A) : Dial A := fun s => (inr a, s).

Definition bind {A B} (m : Dial A) (k : A -> Dial B) : Dial B :=
  fun s =>
    match m s with
    | (inl e, s') => (inl e, s')
    | (inr a, s') => k a s'
    end.

Notation "'let*' x ':=' m 'in' k" := (bind m (fun x => k))
  (at level 10, x pattern, m at level 100, k at level 200).

(** [return nil, nil] *)
Definition skip {A} : Dial A := fun s => (inl SkipCandidate, s).

(** [return nil, errors.Trace(err)] *)
Definition raise {A} (err : error) : Dial A := fun s => (inl (ReturnError err), s).

(** [v, err := f(); if err != nil { return nil, errors.Trace(err) }] *)
Definition try {A} (r : Result A) : Dial A :=
  match r with
  | Ok a => ret a
  | Err e => raise e
  end.

(** One raw draw of the generator. *)
Definition draw : Dial N :=
  fun s => let '(r, s') := prng.next s in (inr r, s').

(** [seed, err := prng.NewSeed(); if err != nil { return nil, errors.Trace(err) }] *)
Definition NewSeed : Dial prng.Seed :=
  fun s =>
    match prng.NewSeed s with
    | (Ok seed, s') => (inr seed, s')
    | (Err e, s') => (inl (ReturnError e), s')
    end.

(** [prng.Intn(n)] *)
Definition Intn (n : nat) : Dial nat :=
  let* r := draw in ret (prng.Intn_of n r).

(** [ptr != nil] *)
Definition notNil {A} (o : option A) : bool :=
  match o with
  | Some _ => true
  | None => false
  end.

(** [list[index]], for an index in range. *)
Definition index (l : list string) (i : nat) : string := nth i l "".

(** ** The datastore

    Modelled from the spec: [GetDialParameters], [SetDialParameters] and
    [DeleteDialParameters] (the store adapter of section 4.C, whose code is
    in another file).  Records are blobs keyed by [(serverIP, networkID)];
    every operation may fail with a storage error, which changes nothing.
    Each call is appended to a log. *)

Inductive StoreCall :=
| CallGetDialParameters (ipAddress networkID : string)
| CallSetDialParameters (ipAddress networkID : string) (dialParams : DialParameters)
| CallDeleteDialParameters (ipAddress networkID : string).

Record DataStore := {
  records : gmap (string * string) DialParameters;
  failing : bool;
}.

(** What a run can observe and change outside of its arguments: the clock,
    the source of randomness, the datastore and the log of calls to it. *)
Record World := {
  now : time.Time;
  source : prng.Source;
  datastore : DataStore;
  calls : list StoreCall;
}.

Definition logCall (c : StoreCall) (w : World) : World :=
  {| now := now w; source := source w; datastore := datastore w;
     calls := calls w ++ [c] |}.

Definition withRecords (r : gmap (string * string) DialParameters) (w : World) : World :=
  {| now := now w; source := source w;
     datastore := {| records := r; failing := failing (datastore w) |};
     calls := calls w |}.

Definition withSource (s : prng.Source) (w : World) : World :=
  {| now := now w; source := s; datastore := datastore w; calls := calls w |}.

Definition GetDialParameters (config : Config.t) (ipAddress networkID : string)
    (w : World) : Result (option DialParameters) * World :=
  let w := logCall (CallGetDialParameters ipAddress networkID) w in
  if failing (datastore w) then (Err "datastore", w)
  else (Ok (DialParameters_stored <$> records (datastore w) !! (ipAddress, networkID)), w).

Definition SetDialParameters (ipAddress networkID : string) (dialParams : DialParameters)
    (w : World) : option error * World :=
  let w := logCall (CallSetDialParameters ipAddress networkID dialParams) w in
  if failing (datastore w) then (Some "datastore", w)
  else (None, withRecords (<[ (ipAddress, networkID) := DialParameters_stored dialParams ]>
                             (records (datastore w))) w).

Definition DeleteDialParameters (ipAddress networkID : string)
    (w : World) : option error * World :=
  let w := logCall (CallDeleteDialParameters ipAddress networkID) w in
  if failing (datastore w) then (Some "datastore", w)
  else (None, withRecords (delete (ipAddress, networkID) (records (datastore w))) w).

(** ** The sub-selectors *)

Section Engine.
Context `{!prng.Package, !transforms.Package, !protocol.Package, !External}.

(** [uint64(v)] *)
Definition uint64 (v : Z) : Z := v mod 2 ^ 64.

(** [binary.BigEndian.PutUint64(b[:], v)] *)
Definition BigEndian_PutUint64 (v : Z) : list Byte.byte :=
  map (fun i => default Byte.x00 (Byte.of_N (Z.to_N ((v / 2 ^ (8 * i)) mod 256))))
      [7; 6; 5; 4; 3; 2; 1; 0].

(** [p.WeightedCoinFlip(name)] *)
Definition WeightedCoinFlip (p : parameters.ParametersAccessor) (name : string) : Dial bool :=
  let* r := draw in
  ret (prng.FlipWeightedCoin (parameters.Float p name) r).

(** [prng.Period(min, max)] *)
Definition Period (min max : time.Duration) : Dial time.Duration :=
  let* r := draw in
  ret (prng.Period min max r).

(** [getDialStateHashes]: each hash is the MD5 sum of the bytes written. *)
Definition getDialStateHashes (config : Config.t) (p : parameters.ParametersAccessor)
    (serverEntry : protocol.ServerEntry) : list Byte.byte * list Byte.byte :=
  let clientStateHash :=
    md5_Sum (Config.dialParametersHash config
             ++ list_byte_of_string (parameters.Tag p))%list in
  let serverEntryConfigurationVersion :=
    BigEndian_PutUint64 (uint64 (protocol.ConfigurationVersion serverEntry)) in
  let serverEntryHash :=
    md5_Sum (serverEntryConfigurationVersion
             ++ list_byte_of_string (protocol.LocalTimestamp serverEntry))%list in
  (clientStateHash, serverEntryHash).

Definition selectFrontingParameters (serverEntry : protocol.ServerEntry)
    : Dial (string * string) :=
  let* frontingDialHost :=
    if (0 <? String.length (protocol.MeekFrontingAddressesRegex serverEntry))%nat then
      let* r := draw in
      try (regen_GenerateString (protocol.MeekFrontingAddressesRegex serverEntry) r)
    else
      if (length (protocol.MeekFrontingAddresses serverEntry) =? 0)%nat then
        raise "MeekFrontingAddresses is empty"
      else
        let* i := Intn (length (protocol.MeekFrontingAddresses serverEntry)) in
        ret (index (protocol.MeekFrontingAddresses serverEntry) i) in
  let* frontingHost :=
    if (0 <? length (protocol.MeekFrontingHosts serverEntry))%nat then
      let* i := Intn (length (protocol.MeekFrontingHosts serverEntry)) in
      ret (index (protocol.MeekFrontingHosts serverEntry) i)
    else
      ret (protocol.MeekFrontingHost serverEntry) in
  ret (frontingDialHost, frontingHost).

(** The loop of [selectQUICVersion] over [supportedQUICVersions]; each
    [continue] goes on with the accumulator unchanged. *)
Fixpoint selectQUICVersion_loop (isFronted : bool)
    (limitQUICVersions serverEntryLimitQUICVersions disableQUICVersions : list string)
    (supportedQUICVersions quicVersions : list string) : list string :=
  match supportedQUICVersions with
  | [] => quicVersions
  | quicVersion :: rest =>
    let continue :=
      selectQUICVersion_loop isFronted limitQUICVersions serverEntryLimitQUICVersions
        disableQUICVersions rest in
    if (0 <? length limitQUICVersions)%nat
       && negb (common.Contains limitQUICVersions quicVersion) then
      continue quicVersions
    else if (0 <? length serverEntryLimitQUICVersions)%nat
            && negb (common.Contains serverEntryLimitQUICVersions quicVersion) then
      continue quicVersions
    else if isFronted && protocol.QUICVersionIsObfuscated quicVersion then
      continue quicVersions
    else if common.Contains disableQUICVersions quicVersion then
      continue quicVersions
    else
      continue (quicVersions ++ [quicVersion])%list
  end.

(** The versions [selectQUICVersion] chooses from. *)
Definition selectQUICVersion_candidates (isFronted : bool)
    (serverEntry : protocol.ServerEntry) (p : parameters.ParametersAccessor) : list string :=
  let limitQUICVersions := parameters.QUICVersions p parameters.LimitQUICVersions in
  let disableQUICVersions :=
    if isFronted then
      if String.eqb (protocol.FrontingProviderID serverEntry) "" then
        [ protocol.QUIC_VERSION_V1;
          protocol.QUIC_VERSION_RANDOMIZED_V1;
          protocol.QUIC_VERSION_OBFUSCATED_V1;
          protocol.QUIC_VERSION_DECOY_V1 ]
      else
        parameters.LabeledQUICVersions p
          parameters.DisableFrontingProviderQUICVersions
          (protocol.FrontingProviderID serverEntry)
    else [] in
  let supportedQUICVersions :=
    if protocol.SupportsOnlyQUICv1 serverEntry then protocol.SupportedQUICv1Versions
    else protocol.SupportedQUICVersions in
  selectQUICVersion_loop isFronted limitQUICVersions
    (protocol.LimitQUICVersions serverEntry) disableQUICVersions
    supportedQUICVersions [].

Definition selectQUICVersion (isFronted : bool) (serverEntry : protocol.ServerEntry)
    (p : parameters.ParametersAccessor) : Dial string :=
  let quicVersions := selectQUICVersion_candidates isFronted serverEntry p in
  if (length quicVersions =? 0)%nat then ret ""
  else
    let* choice := Intn (length quicVersions) in
    ret (index quicVersions choice).

(** [selectUserAgentIfUnset] *)
Definition selectUserAgentIfUnset (p : parameters.ParametersAccessor)
    (headers : http.Header) : Dial (bool * string) :=
  match headers !! "User-Agent" with
  | None =>
    let* flip := WeightedCoinFlip p parameters.PickUserAgentProbability in
    if flip then
      let* r := draw in
      ret (true, values_GetUserAgent r)
    else ret (true, "")
  | Some _ => ret (false, "")
  end.

(** [makeDialCustomHeaders]: each loop assigns [dialCustomHeaders[k]] a copy
    of [v]. *)
Definition makeDialCustomHeaders (config : Config.t)
    (p : parameters.ParametersAccessor) : http.Header :=
  let dialCustomHeaders : http.Header := ∅ in
  let dialCustomHeaders :=
    match Config.CustomHeaders config with
    | Some customHeaders =>
      map_fold (fun k v (h : http.Header) => <[ k := v ]> h) dialCustomHeaders customHeaders
    | None => dialCustomHeaders
    end in
  let additionalCustomHeaders :=
    parameters.HTTPHeaders p parameters.AdditionalCustomHeaders in
  map_fold (fun k v (h : http.Header) => <[ k := v ]> h)
    dialCustomHeaders additionalCustomHeaders.

(** [values.GetHostName()] *)
Definition GetHostName : Dial string :=
  let* r := draw in ret (values_GetHostName r).

Definition selectHostName (tunnelProtocol : string)
    (p : parameters.ParametersAccessor) : Dial string :=
  let limitProtocols :=
    parameters.TunnelProtocols p parameters.CustomHostNameLimitProtocols in
  if (0 <? length limitProtocols)%nat
     && negb (common.Contains limitProtocols tunnelProtocol) then
    GetHostName
  else
    let* flip := WeightedCoinFlip p parameters.CustomHostNameProbability in
    if negb flip then GetHostName
    else
      let regexStrings := parameters.RegexStrings p parameters.CustomHostNameRegexes in
      if (length regexStrings =? 0)%nat then GetHostName
      else
        let* choice := Intn (length regexStrings) in
        let* r := draw in
        match regen_GenerateString (index regexStrings choice) r with
        | Err _ => GetHostName
        | Ok hostName => ret hostName
        end.

Definition makeHTTPTransformerParameters (p : parameters.ParametersAccessor)
    (frontingProviderID : string) (isFronted : bool)
    : Dial transforms.HTTPTransformerParameters :=
  let params :=
    {| transforms.ProtocolTransformName := "";
       transforms.ProtocolTransformSpec := None;
       transforms.ProtocolTransformSeed := None |} in
  let* (useTransform, scope, specsKey, scopedSpecsNamesKey) :=
    if isFronted then
      let* flip :=
        WeightedCoinFlip p parameters.FrontedHTTPProtocolTransformProbability in
      if flip then
        ret (true, frontingProviderID,
             parameters.FrontedHTTPProtocolTransformSpecs,
             parameters.FrontedHTTPProtocolTransformScopedSpecNames)
      else ret (false, transforms.SCOPE_ANY, "", "")
    else
      let* flip :=
        WeightedCoinFlip p parameters.DirectHTTPProtocolTransformProbability in
      if flip then
        ret (true, transforms.SCOPE_ANY,
             parameters.DirectHTTPProtocolTransformSpecs,
             parameters.DirectHTTPProtocolTransformScopedSpecNames)
      else ret (false, transforms.SCOPE_ANY, "", "") in
  if useTransform then
    let specs := parameters.ProtocolTransformSpecs p specsKey in
    let scopedSpecNames := parameters.ProtocolTransformScopedSpecNames p scopedSpecsNamesKey in
    let* r := draw in
    let '(name, spec) := transforms.Select specs scope scopedSpecNames r in
    match spec with
    | Some _ =>
      let* seed := NewSeed in
      ret {| transforms.ProtocolTransformName := name;
             transforms.ProtocolTransformSpec := spec;
             transforms.ProtocolTransformSeed := Some seed |}
    | None => ret params
    end
  else ret params.

(** The zero value [&transforms.ObfuscatorSeedTransformerParameters{}]. *)
Definition ObfuscatorSeedTransformerParameters_zero :=
  {| transforms.TransformName := "";
     transforms.TransformSpec := None;
     transforms.TransformSeed := None |}.

Definition makeSeedTransformerParameters (p : parameters.ParametersAccessor)
    (probabilityFieldName specsKey scopedSpecsKey : string)
    : Dial transforms.ObfuscatorSeedTransformerParameters :=
  let* flip := WeightedCoinFlip p probabilityFieldName in
  if negb flip then ret ObfuscatorSeedTransformerParameters_zero
  else
    let* seed := NewSeed in
    let specs := parameters.ProtocolTransformSpecs p specsKey in
    let scopedSpecNames := parameters.ProtocolTransformScopedSpecNames p scopedSpecsKey in
    let* r := draw in
    let '(name, spec) := transforms.Select specs transforms.SCOPE_ANY scopedSpecNames r in
    match spec with
    | None => ret ObfuscatorSeedTransformerParameters_zero
    | Some _ =>
      ret {| transforms.TransformName := name;
             transforms.TransformSpec := spec;
             transforms.TransformSeed := Some seed |}
    end.

(** The zero value [&obfuscator.OSSHPrefixSpec{}]. *)
Definition OSSHPrefixSpec_zero :=
  {| obfuscator.OSSHPrefixSpec.Name := "";
     obfuscator.OSSHPrefixSpec.Spec := None;
     obfuscator.OSSHPrefixSpec.Seed := None |}.

Definition makeOSSHPrefixSpecParameters (p : parameters.ParametersAccessor)
    (dialPortNumber : string) : Dial obfuscator.OSSHPrefixSpec.t :=
  let* flip := WeightedCoinFlip p parameters.OSSHPrefixProbability in
  if negb flip then ret OSSHPrefixSpec_zero
  else
    let specs := parameters.ProtocolTransformSpecs p parameters.OSSHPrefixSpecs in
    let scopedSpecNames :=
      parameters.ProtocolTransformScopedSpecNames p parameters.OSSHPrefixScopedSpecNames in
    let* r := draw in
    let '(name, spec) := transforms.Select specs dialPortNumber scopedSpecNames r in
    match spec with
    | None => ret OSSHPrefixSpec_zero
    | Some _ =>
      let* seed := NewSeed in
      ret {| obfuscator.OSSHPrefixSpec.Name := name;
             obfuscator.OSSHPrefixSpec.Spec := spec;
             obfuscator.OSSHPrefixSpec.Seed := Some seed |}
    end.

Definition makeOSSHPrefixSplitConfig (p : parameters.ParametersAccessor)
    : Dial obfuscator.OSSHPrefixSplitConfig.t :=
  let minDelay := parameters.Duration p parameters.OSSHPrefixSplitMinDelay in
  let maxDelay := parameters.Duration p parameters.OSSHPrefixSplitMaxDelay in
  let* seed := NewSeed in
  ret {| obfuscator.OSSHPrefixSplitConfig.Seed := Some seed;
         obfuscator.OSSHPrefixSplitConfig.MinDelay := minDelay;
         obfuscator.OSSHPrefixSplitConfig.MaxDelay := maxDelay |}.

(** The loop of [selectConjureTransport]. *)
Fixpoint selectConjureTransport_loop (limitConjureTransports : list string)
    (supported transports : list string) : list string :=
  match supported with
  | [] => transports
  | transport :: rest =>
    if (0 <? length limitConjureTransports)%nat
       && negb (common.Contains limitConjureTransports transport) then
      selectConjureTransport_loop limitConjureTransports rest transports
    else
      selectConjureTransport_loop limitConjureTransports rest (transports ++ [transport])%list
  end.

Definition selectConjureTransport (p : parameters.ParametersAccessor) : Dial string :=
  let limitConjureTransports :=
    parameters.ConjureTransports p parameters.ConjureLimitTransports in
  let transports :=
    selectConjureTransport_loop limitConjureTransports
      protocol.SupportedConjureTransports [] in
  if (length transports =? 0)%nat then ret ""
  else
    let* choice := Intn (length transports) in
    ret (index transports choice).

(** ** The composer, block by block

    [MakeDialParameters] is one long function.  Each definition below is one
    of its blocks, in the order of the source, named after what the block
    selects; [d] is [dialParams], and a block that changes it returns the
    new value.  A replay flag such as [replayBPF] is the local variable of
    that name. *)

(** [!isReplay || !replayX] *)
Definition fresh (isReplay replayX : bool) : bool := negb isReplay || negb replayX.

(** Lines 395-409: the network latency multiplier. *)
Definition selectNetworkLatencyMultiplier (p : parameters.ParametersAccessor)
    (isReplay : bool) (d : DialParameters) : Dial DialParameters :=
  let networkLatencyMultiplierMin :=
    parameters.Float p parameters.NetworkLatencyMultiplierMin in
  let networkLatencyMultiplierMax :=
    parameters.Float p parameters.NetworkLatencyMultiplierMax in
  if negb isReplay
     || (negb (PrimFloat.eqb (NetworkLatencyMultiplier d) 0)
         && (PrimFloat.ltb (NetworkLatencyMultiplier d) networkLatencyMultiplierMin
             || PrimFloat.ltb networkLatencyMultiplierMax (NetworkLatencyMultiplier d)))
  then
    let* r := draw in
    ret (set_NetworkLatencyMultiplier
           (prng.ExpFloat64Range networkLatencyMultiplierMin networkLatencyMultiplierMax
              (parameters.Float p parameters.NetworkLatencyMultiplierLambda) r) d)
  else ret d.

(** Lines 415-428: the tunnel protocol. *)
Definition selectTunnelProtocol
    (selectProtocol : protocol.ServerEntry -> string * bool)
    (serverEntry : protocol.ServerEntry) (isReplay isExchanged : bool)
    (d : DialParameters) : Dial DialParameters :=
  if negb isReplay && negb isExchanged then
    let '(selectedProtocol, ok) := selectProtocol serverEntry in
    if negb ok then skip
    else ret (set_TunnelProtocol selectedProtocol d)
  else ret d.

(** Lines 433-450: restricted fronting provider IDs.
    [dialParams.ServerEntry] is [serverEntry] since line 356. *)
Definition restrictFrontingProviderID (p : parameters.ParametersAccessor)
    (serverEntry : protocol.ServerEntry) (d : DialParameters) : Dial DialParameters :=
  if protocol.TunnelProtocolUsesFrontedMeek (TunnelProtocol d)
     && common.Contains
          (parameters.Strings p parameters.RestrictFrontingProviderIDs)
          (protocol.FrontingProviderID serverEntry)
  then
    let* flip :=
      WeightedCoinFlip p parameters.RestrictFrontingProviderIDsClientProbability in
    if flip then skip else ret d
  else ret d.

(** Lines 452-484: compatibility with an upstream proxy. *)
Definition checkUpstreamProxy (config : Config.t) (p : parameters.ParametersAccessor)
    (serverEntry : protocol.ServerEntry) (d : DialParameters) : Dial DialParameters :=
  if Config.UseUpstreamProxy config then
    if negb (protocol.TunnelProtocolSupportsUpstreamProxy (TunnelProtocol d)) then skip
    else
      let source := protocol.LocalSource serverEntry in
      if negb (protocol.AllowServerEntrySourceWithUpstreamProxy source)
         && negb (parameters.Bool p parameters.UpstreamProxyAllowAllServerEntrySources)
      then skip
      else ret d
  else ret d.

(** Lines 486-499: the BPF program. *)
Definition selectBPFProgram (p : parameters.ParametersAccessor)
    (isReplay replayBPF : bool) (d : DialParameters) : Dial DialParameters :=
  if fresh isReplay replayBPF
     && ClientBPFEnabled
     && protocol.TunnelProtocolUsesTCP (TunnelProtocol d)
  then
    let* flip := WeightedCoinFlip p parameters.BPFClientTCPProbability in
    if flip then
      let d := set_BPFProgramName "" d in
      let d := set_BPFProgramInstructions [] d in
      let '(ok, name, rawInstructions) :=
        parameters.BPFProgram p parameters.BPFClientTCPProgram in
      if ok then
        let d := set_BPFProgramName name d in
        let d := set_BPFProgramInstructions rawInstructions d in
        ret d
      else ret d
    else ret d
  else ret d.

(** Lines 501-508: the SSH client version and KEX seed. *)
Definition selectSSH (isReplay replaySSH : bool) (d : DialParameters)
    : Dial DialParameters :=
  if fresh isReplay replaySSH then
    let d := set_SelectedSSHClientVersion true d in
    let* r := draw in
    let d := set_SSHClientVersion (values_GetSSHClientVersion r) d in
    let* seed := NewSeed in
    ret (set_SSHKEXSeed (Some seed) d)
  else ret d.

(** Lines 510-527: the obfuscator padding seeds. *)
Definition selectObfuscatorPadding (isReplay replayObfuscatorPadding : bool)
    (d : DialParameters) : Dial DialParameters :=
  if fresh isReplay replayObfuscatorPadding then
    let* seed := NewSeed in
    let d := set_ObfuscatorPaddingSeed (Some seed) d in
    if protocol.TunnelProtocolUsesMeek (TunnelProtocol d) then
      let* seed := NewSeed in
      ret (set_MeekObfuscatorPaddingSeed (Some seed) d)
    else if protocol.TunnelProtocolUsesTLSOSSH (TunnelProtocol d) then
      let* seed := NewSeed in
      ret (set_TLSOSSHObfuscatorPaddingSeed (Some seed) d)
    else ret d
  else ret d.

(** Lines 529-534: the fragmentor seed. *)
Definition selectFragmentor (isReplay replayFragmentor : bool) (d : DialParameters)
    : Dial DialParameters :=
  if fresh isReplay replayFragmentor then
    let* seed := NewSeed in
    ret (set_FragmentorSeed (Some seed) d)
  else ret d.

(** Lines 563-611: Conjure API registration. *)
Definition selectConjureAPIRegistration (config : Config.t)
    (p : parameters.ParametersAccessor) (apiURL : string) (d : DialParameters)
    : Dial DialParameters :=
  let d := set_ConjureAPIRegistrarBidirectionalURL apiURL d in
  let frontingSpecs :=
    parameters.FrontingSpecs_ p parameters.ConjureAPIRegistrarFrontingSpecs in
  let* r := draw in
  let* (frontingProviderID, dialAddress, sniServerName, verifyServerName, verifyPins, host) :=
    try (parameters.SelectParameters frontingSpecs r) in
  let d := set_FrontingProviderID frontingProviderID d in
  let d := set_MeekFrontingDialAddress dialAddress d in
  let d := set_MeekSNIServerName sniServerName d in
  let d := set_MeekVerifyServerName verifyServerName d in
  let d := set_MeekVerifyPins verifyPins d in
  let d := set_MeekFrontingHost host d in
  if Config.DisableSystemRootCAs config then
    raise "TLS certificates must be verified in Conjure API registration"
  else
    let d := set_MeekDialAddress (net_JoinHostPort (MeekFrontingDialAddress d) "443") d in
    let d := set_MeekHostHeader (MeekFrontingHost d) d in
    let* d :=
      if negb (String.eqb (MeekSNIServerName d) "") then
        let* flip := WeightedCoinFlip p parameters.TransformHostNameProbability in
        if flip then
          let* hostName := selectHostName (TunnelProtocol d) p in
          let d := set_MeekSNIServerName hostName d in
          ret (set_MeekTransformedHostName true d)
        else ret d
      else ret d in
    let minDelay := parameters.Duration p parameters.ConjureAPIRegistrarMinDelay in
    let maxDelay := parameters.Duration p parameters.ConjureAPIRegistrarMaxDelay in
    let* delay := Period minDelay maxDelay in
    ret (set_ConjureAPIRegistrarDelay delay d).

(** Lines 536-624: Conjure registration. *)
Definition selectConjureRegistration (config : Config.t)
    (p : parameters.ParametersAccessor) (isReplay replayConjureRegistration : bool)
    (d : DialParameters) : Dial DialParameters :=
  if fresh isReplay replayConjureRegistration
     && protocol.TunnelProtocolUsesConjure (TunnelProtocol d)
  then
    let d :=
      set_ConjureCachedRegistrationTTL
        (parameters.Duration p parameters.ConjureCachedRegistrationTTL) d in
    let apiURL := parameters.String p parameters.ConjureAPIRegistrarBidirectionalURL in
    let decoyWidth := parameters.Int p parameters.ConjureDecoyRegistrarWidth in
    let d := set_ConjureAPIRegistration (negb (String.eqb apiURL "")) d in
    let d := set_ConjureDecoyRegistration (negb (decoyWidth =? 0)) d in
    let* d :=
      if ConjureAPIRegistration d && ConjureDecoyRegistration d then
        let* flip := WeightedCoinFlip p parameters.ConjureDecoyRegistrarProbability in
        if flip then ret (set_ConjureAPIRegistration false d) else ret d
      else ret d in
    if ConjureAPIRegistration d then
      selectConjureAPIRegistration config p apiURL d
    else if ConjureDecoyRegistration d then
      let d := set_ConjureDecoyRegistrarWidth decoyWidth d in
      let minDelay := parameters.Duration p parameters.ConjureDecoyRegistrarMinDelay in
      let maxDelay := parameters.Duration p parameters.ConjureDecoyRegistrarMaxDelay in
      let* delay := Period minDelay maxDelay in
      ret (set_ConjureAPIRegistrarDelay delay d)
    else raise "no Conjure registrar configured"
  else ret d.

(** Lines 626-644: the Conjure transport. *)
Definition selectConjureTransportBlock (p : parameters.ParametersAccessor)
    (isReplay replayConjureTransport : bool) (d : DialParameters)
    : Dial DialParameters :=
  if fresh isReplay replayConjureTransport
     && protocol.TunnelProtocolUsesConjure (TunnelProtocol d)
  then
    let* transport := selectConjureTransport p in
    let d := set_ConjureTransport transport d in
    if protocol.ConjureTransportUsesSTUN (ConjureTransport d) then
      let stunServerAddresses :=
        parameters.Strings p parameters.ConjureSTUNServerAddresses in
      if (length stunServerAddresses =? 0)%nat then
        raise "no Conjure STUN servers addresses configured for transport"
      else
        let* i := Intn (length stunServerAddresses) in
        let d := set_ConjureSTUNServerAddress (index stunServerAddresses i) d in
        let* flip :=
          WeightedCoinFlip p parameters.ConjureDTLSEmptyInitialPacketProbability in
        ret (set_ConjureDTLSEmptyInitialPacket flip d)
    else ret d
  else ret d.

(** Lines 646-648: [usingTLS]. *)
Definition usingTLS_of (d : DialParameters) : bool :=
  protocol.TunnelProtocolUsesMeekHTTPS (TunnelProtocol d)
  || protocol.TunnelProtocolUsesTLSOSSH (TunnelProtocol d)
  || ConjureAPIRegistration d.

(** Lines 650-674: the TLS profile. *)
Definition selectTLSProfileBlock (p : parameters.ParametersAccessor)
    (serverEntry : protocol.ServerEntry) (isReplay replayTLSProfile usingTLS : bool)
    (d : DialParameters) : Dial DialParameters :=
  if fresh isReplay replayTLSProfile && usingTLS then
    let d := set_SelectedTLSProfile true d in
    let requireTLS12SessionTickets :=
      protocol.TunnelProtocolRequiresTLS12SessionTickets (TunnelProtocol d) in
    let requireTLS13Support :=
      protocol.TunnelProtocolRequiresTLS13Support (TunnelProtocol d) in
    let isFronted :=
      protocol.TunnelProtocolUsesFrontedMeek (TunnelProtocol d)
      || ConjureAPIRegistration d in
    let* r := draw in
    let* (tlsProfile, tlsVersion, randomizedTLSProfileSeed) :=
      try (SelectTLSProfile requireTLS12SessionTickets requireTLS13Support isFronted
             (protocol.FrontingProviderID serverEntry) p r) in
    let d := set_TLSProfile tlsProfile d in
    let d := set_TLSVersion tlsVersion d in
    let d := set_RandomizedTLSProfileSeed randomizedTLSProfileSeed d in
    if String.eqb (TLSProfile d) ""
       && (requireTLS12SessionTickets || requireTLS13Support) then
      raise "required TLS profile not found"
    else
      let* flip := WeightedCoinFlip p parameters.NoDefaultTLSSessionIDProbability in
      ret (set_NoDefaultTLSSessionID flip d)
  else ret d.

(** Lines 676-686: the fronting parameters. *)
Definition selectFronting (serverEntry : protocol.ServerEntry)
    (isReplay replayFronting : bool) (d : DialParameters) : Dial DialParameters :=
  if fresh isReplay replayFronting
     && protocol.TunnelProtocolUsesFrontedMeek (TunnelProtocol d)
  then
    let d := set_FrontingProviderID (protocol.FrontingProviderID serverEntry) d in
    let* (frontingDialHost, frontingHost) := selectFrontingParameters serverEntry in
    let d := set_MeekFrontingDialAddress frontingDialHost d in
    ret (set_MeekFrontingHost frontingHost d)
  else ret d.

(** Lines 688-746: host names. *)
Definition selectHostNames (p : parameters.ParametersAccessor)
    (serverEntry : protocol.ServerEntry) (isReplay replayHostname : bool)
    (d : DialParameters) : Dial DialParameters :=
  if fresh isReplay replayHostname then
    if protocol.TunnelProtocolUsesMeekHTTPS (TunnelProtocol d)
       || protocol.TunnelProtocolUsesFrontedMeekQUIC (TunnelProtocol d)
    then
      let d := set_MeekSNIServerName "" d in
      let* flip := WeightedCoinFlip p parameters.TransformHostNameProbability in
      let* (hostname, d) :=
        if flip then
          let* hostName := selectHostName (TunnelProtocol d) p in
          let d := set_MeekSNIServerName hostName d in
          let hostname := MeekSNIServerName d in
          ret (hostname, set_MeekTransformedHostName true d)
        else
          let* hostname := selectHostName (TunnelProtocol d) p in
          ret (hostname, d) in
      if protocol.MeekServerPort serverEntry =? 443 then
        ret (set_MeekHostHeader hostname d)
      else
        ret (set_MeekHostHeader
               (net_JoinHostPort hostname
                  (strconv_Itoa (protocol.MeekServerPort serverEntry))) d)
    else if protocol.TunnelProtocolUsesTLSOSSH (TunnelProtocol d) then
      let d := set_TLSOSSHSNIServerName "" d in
      let* flip := WeightedCoinFlip p parameters.TransformHostNameProbability in
      if flip then
        let* hostName := selectHostName (TunnelProtocol d) p in
        let d := set_TLSOSSHSNIServerName hostName d in
        ret (set_TLSOSSHTransformedSNIServerName true d)
      else ret d
    else if protocol.TunnelProtocolUsesMeekHTTP (TunnelProtocol d) then
      let d := set_MeekHostHeader "" d in
      let hostname := protocol.IpAddress serverEntry in
      let* flip := WeightedCoinFlip p parameters.TransformHostNameProbability in
      let* (hostname, d) :=
        if flip then
          let* hostName := selectHostName (TunnelProtocol d) p in
          ret (hostName, set_MeekTransformedHostName true d)
        else ret (hostname, d) in
      if protocol.MeekServerPort serverEntry =? 80 then
        ret (set_MeekHostHeader hostname d)
      else
        ret (set_MeekHostHeader
               (net_JoinHostPort hostname
                  (strconv_Itoa (protocol.MeekServerPort serverEntry))) d)
    else if protocol.TunnelProtocolUsesQUIC (TunnelProtocol d) then
      let* hostName := selectHostName (TunnelProtocol d) p in
      ret (set_QUICDialSNIAddress hostName d)
    else ret d
  else ret d.

(** Lines 748-773: the QUIC version. *)
Definition selectQUICVersionBlock (p : parameters.ParametersAccessor)
    (serverEntry : protocol.ServerEntry) (isReplay replayQUICVersion : bool)
    (d : DialParameters) : Dial DialParameters :=
  if fresh isReplay replayQUICVersion
     && protocol.TunnelProtocolUsesQUIC (TunnelProtocol d)
  then
    let isFronted := protocol.TunnelProtocolUsesFrontedMeekQUIC (TunnelProtocol d) in
    let* quicVersion := selectQUICVersion isFronted serverEntry p in
    let d := set_QUICVersion quicVersion d in
    if String.eqb (QUICVersion d) "" then skip
    else
      let* d :=
        if protocol.QUICVersionHasRandomizedClientHello (QUICVersion d) then
          let* seed := NewSeed in
          ret (set_QUICClientHelloSeed (Some seed) d)
        else ret d in
      let* disable :=
        if protocol.QUICVersionUsesPathMTUDiscovery (QUICVersion d) then
          WeightedCoinFlip p parameters.QUICDisableClientPathMTUDiscoveryProbability
        else ret false in
      ret (set_QUICDisablePathMTUDiscovery disable d)
  else ret d.

(** Lines 775-782: the obfuscated QUIC padding seed. *)
Definition selectObfuscatedQUICPadding (isReplay replayObfuscatedQUIC : bool)
    (d : DialParameters) : Dial DialParameters :=
  if fresh isReplay replayObfuscatedQUIC
     && protocol.QUICVersionIsObfuscated (QUICVersion d)
  then
    let* seed := NewSeed in
    ret (set_ObfuscatedQUICPaddingSeed (Some seed) d)
  else ret d.

(** Lines 784-807: the obfuscated QUIC nonce transformer. *)
Definition selectObfuscatedQUICNonceTransformer (p : parameters.ParametersAccessor)
    (serverEntry : protocol.ServerEntry)
    (isReplay replayObfuscatedQUICNonceTransformer : bool)
    (d : DialParameters) : Dial DialParameters :=
  if protocol.QUICVersionIsObfuscated (QUICVersion d) then
    if protocol.DisableObfuscatedQUICTransforms serverEntry then
      ret (set_ObfuscatedQUICNonceTransformerParameters None d)
    else if fresh isReplay replayObfuscatedQUICNonceTransformer then
      let* params :=
        makeSeedTransformerParameters p
          parameters.ObfuscatedQUICNonceTransformProbability
          parameters.ObfuscatedQUICNonceTransformSpecs
          parameters.ObfuscatedQUICNonceTransformScopedSpecNames in
      match transforms.TransformSpec params with
      | Some _ => ret (set_ObfuscatedQUICNonceTransformerParameters (Some params) d)
      | None => ret (set_ObfuscatedQUICNonceTransformerParameters None d)
      end
    else ret d
  else ret d.

(** Lines 809-816: the liveness test seed. *)
Definition selectLivenessTest (isReplay replayLivenessTest : bool) (d : DialParameters)
    : Dial DialParameters :=
  if fresh isReplay replayLivenessTest then
    let* seed := NewSeed in
    ret (set_LivenessTestSeed (Some seed) d)
  else ret d.

(** Lines 818-823: the API request padding seed. *)
Definition selectAPIRequestPadding (isReplay replayAPIRequestPadding : bool)
    (d : DialParameters) : Dial DialParameters :=
  if fresh isReplay replayAPIRequestPadding then
    let* seed := NewSeed in
    ret (set_APIRequestPaddingSeed (Some seed) d)
  else ret d.

(** Lines 833-844: the resolve parameters.  [rs] is [dialParams.resolver],
    checked not to be nil at line 342. *)
Definition selectResolveParameters (p : parameters.ParametersAccessor)
    (rs : resolver.Resolver) (isReplay replayResolveParameters : bool)
    (d : DialParameters) : Dial DialParameters :=
  let useResolver :=
    (protocol.TunnelProtocolUsesFrontedMeek (TunnelProtocol d)
     || ConjureAPIRegistration d)
    && negb (net_ParseIP (MeekFrontingDialAddress d)) in
  if fresh isReplay replayResolveParameters && useResolver then
    let* r := draw in
    let* resolveParameters :=
      try (resolver.MakeResolveParameters rs p
             (FrontingProviderID d) (MeekFrontingDialAddress d) r) in
    ret (set_ResolveParameters (Some resolveParameters) d)
  else ret d.

(** Lines 846-864: the hold-off duration. *)
Definition selectHoldOffTunnel (p : parameters.ParametersAccessor)
    (isReplay replayHoldOffTunnel : bool) (d : DialParameters) : Dial DialParameters :=
  if fresh isReplay replayHoldOffTunnel then
    if common.Contains
         (parameters.TunnelProtocols p parameters.HoldOffTunnelProtocols)
         (TunnelProtocol d)
       || (protocol.TunnelProtocolUsesFrontedMeek (TunnelProtocol d)
           && common.Contains
                (parameters.Strings p parameters.HoldOffTunnelFrontingProviderIDs)
                (FrontingProviderID d))
    then
      let* flip := WeightedCoinFlip p parameters.HoldOffTunnelProbability in
      if flip then
        let* duration :=
          Period (parameters.Duration p parameters.HoldOffTunnelMinDuration)
                 (parameters.Duration p parameters.HoldOffTunnelMaxDuration) in
        ret (set_HoldOffTunnelDuration duration d)
      else ret d
    else ret d
  else ret d.

(** Lines 870-890: the OSSH obfuscator seed transformer. *)
Definition selectOSSHSeedTransformer (p : parameters.ParametersAccessor)
    (serverEntry : protocol.ServerEntry)
    (isReplay replayOSSHSeedTransformerParameters : bool)
    (d : DialParameters) : Dial DialParameters :=
  if protocol.DisableOSSHTransforms serverEntry then
    ret (set_OSSHObfuscatorSeedTransformerParameters None d)
  else if fresh isReplay replayOSSHSeedTransformerParameters then
    let* params :=
      makeSeedTransformerParameters p
        parameters.OSSHObfuscatorSeedTransformProbability
        parameters.OSSHObfuscatorSeedTransformSpecs
        parameters.OSSHObfuscatorSeedTransformScopedSpecNames in
    match transforms.TransformSpec params with
    | Some _ => ret (set_OSSHObfuscatorSeedTransformerParameters (Some params) d)
    | None => ret (set_OSSHObfuscatorSeedTransformerParameters None d)
    end
  else ret d.

(** Lines 892-919: the OSSH prefix. *)
Definition selectOSSHPrefix (p : parameters.ParametersAccessor)
    (serverEntry : protocol.ServerEntry) (isReplay replayOSSHPrefix : bool)
    (d : DialParameters) : Dial DialParameters :=
  if protocol.DisableOSSHPrefix serverEntry then
    let d := set_OSSHPrefixSpec None d in
    ret (set_OSSHPrefixSplitConfig None d)
  else if fresh isReplay replayOSSHPrefix then
    let* dialPortNumber :=
      try (protocol.GetDialPortNumber serverEntry (TunnelProtocol d)) in
    let* prefixSpec := makeOSSHPrefixSpecParameters p (strconv_Itoa dialPortNumber) in
    let* splitConfig := makeOSSHPrefixSplitConfig p in
    match obfuscator.OSSHPrefixSpec.Spec prefixSpec with
    | Some _ =>
      let d := set_OSSHPrefixSpec (Some prefixSpec) d in
      ret (set_OSSHPrefixSplitConfig (Some splitConfig) d)
    | None =>
      let d := set_OSSHPrefixSpec None d in
      ret (set_OSSHPrefixSplitConfig None d)
    end
  else ret d.

(** Lines 866-928: the OSSH prefix and seed transform, for the OSSH tunnel
    protocol only. *)
Definition selectOSSHTransforms (p : parameters.ParametersAccessor)
    (serverEntry : protocol.ServerEntry)
    (isReplay replayOSSHSeedTransformerParameters replayOSSHPrefix : bool)
    (d : DialParameters) : Dial DialParameters :=
  if String.eqb (TunnelProtocol d) protocol.TUNNEL_PROTOCOL_OBFUSCATED_SSH then
    let* d :=
      selectOSSHSeedTransformer p serverEntry isReplay
        replayOSSHSeedTransformerParameters d in
    let* d := selectOSSHPrefix p serverEntry isReplay replayOSSHPrefix d in
    match OSSHPrefixSpec d with
    | Some _ => ret (set_OSSHObfuscatorSeedTransformerParameters None d)
    | None => ret d
    end
  else ret d.

(** Lines 930-951: the HTTP transformer, read from a snapshot taken
    anew by [config.GetParameters().Get()]. *)
Definition selectHTTPTransformer (config : Config.t)
    (serverEntry : protocol.ServerEntry)
    (isReplay replayHTTPTransformerParameters : bool)
    (d : DialParameters) : Dial DialParameters :=
  if protocol.TunnelProtocolUsesMeekHTTP (TunnelProtocol d) then
    if protocol.DisableHTTPTransforms serverEntry then
      ret (set_HTTPTransformerParameters None d)
    else if fresh isReplay replayHTTPTransformerParameters then
      let isFronted := protocol.TunnelProtocolUsesFrontedMeek (TunnelProtocol d) in
      let* params :=
        makeHTTPTransformerParameters
          (parameters.Get (Config.GetParameters config))
          (protocol.FrontingProviderID serverEntry) isFronted in
      match transforms.ProtocolTransformSpec params with
      | Some _ => ret (set_HTTPTransformerParameters (Some params) d)
      | None => ret (set_HTTPTransformerParameters None d)
      end
    else ret d
  else ret d.

(** [case c1, c2, ...:] of a [switch] on a string. *)
Definition isCase (s : string) (cases : list string) : bool :=
  existsb (String.eqb s) cases.

(** Lines 956-1010: the dial address fields. *)
Definition setDialAddress (serverEntry : protocol.ServerEntry) (d : DialParameters)
    : Dial DialParameters :=
  let* dialPortNumber :=
    try (protocol.GetDialPortNumber serverEntry (TunnelProtocol d)) in
  let d := set_DialPortNumber (strconv_Itoa dialPortNumber) d in
  if isCase (TunnelProtocol d)
       [ protocol.TUNNEL_PROTOCOL_SSH;
         protocol.TUNNEL_PROTOCOL_OBFUSCATED_SSH;
         protocol.TUNNEL_PROTOCOL_TAPDANCE_OBFUSCATED_SSH;
         protocol.TUNNEL_PROTOCOL_CONJURE_OBFUSCATED_SSH;
         protocol.TUNNEL_PROTOCOL_QUIC_OBFUSCATED_SSH;
         protocol.TUNNEL_PROTOCOL_TLS_OBFUSCATED_SSH ]
  then
    ret (set_DirectDialAddress
           (net_JoinHostPort (protocol.IpAddress serverEntry) (DialPortNumber d)) d)
  else if isCase (TunnelProtocol d)
            [ protocol.TUNNEL_PROTOCOL_FRONTED_MEEK;
              protocol.TUNNEL_PROTOCOL_FRONTED_MEEK_QUIC_OBFUSCATED_SSH ]
  then
    let d :=
      set_MeekDialAddress
        (net_JoinHostPort (MeekFrontingDialAddress d) (DialPortNumber d)) d in
    let d := set_MeekHostHeader (MeekFrontingHost d) d in
    if protocol.MeekFrontingDisableSNI serverEntry then
      let d := set_MeekSNIServerName "" d in
      ret (set_MeekTransformedHostName false d)
    else if negb (MeekTransformedHostName d) then
      ret (set_MeekSNIServerName (MeekFrontingDialAddress d) d)
    else ret d
  else if isCase (TunnelProtocol d) [ protocol.TUNNEL_PROTOCOL_FRONTED_MEEK_HTTP ]
  then
    let d :=
      set_MeekDialAddress
        (net_JoinHostPort (MeekFrontingDialAddress d) (DialPortNumber d)) d in
    let d := set_MeekHostHeader (MeekFrontingHost d) d in
    ret (set_MeekTransformedHostName false d)
  else if isCase (TunnelProtocol d) [ protocol.TUNNEL_PROTOCOL_UNFRONTED_MEEK ]
  then
    ret (set_MeekDialAddress
           (net_JoinHostPort (protocol.IpAddress serverEntry) (DialPortNumber d)) d)
  else if isCase (TunnelProtocol d)
            [ protocol.TUNNEL_PROTOCOL_UNFRONTED_MEEK_HTTPS;
              protocol.TUNNEL_PROTOCOL_UNFRONTED_MEEK_SESSION_TICKET ]
  then
    let d :=
      set_MeekDialAddress
        (net_JoinHostPort (protocol.IpAddress serverEntry) (DialPortNumber d)) d in
    if negb (MeekTransformedHostName d) then
      ret (set_MeekSNIServerName (protocol.IpAddress serverEntry) d)
    else ret d
  else raise "unknown tunnel protocol".

(** Lines 1012-1029: meek dial domains only, and an IP address as SNI. *)
Definition checkMeekAddresses (p : parameters.ParametersAccessor) (d : DialParameters)
    : Dial DialParameters :=
  if protocol.TunnelProtocolUsesMeek (TunnelProtocol d) then
    let host := net_SplitHostPort (MeekDialAddress d) in
    let* _ :=
      if parameters.Bool p parameters.MeekDialDomainsOnly then
        if net_ParseIP host then skip else ret tt
      else ret tt in
    if net_ParseIP (MeekSNIServerName d) then
      ret (set_MeekSNIServerName "" d)
    else ret d
  else ret d.

(** Lines 1033-1055: TLS ClientHello fragmentation. *)
Definition selectTLSFragmentClientHello (p : parameters.ParametersAccessor)
    (isReplay replayTLSFragmentClientHello usingTLS : bool) (d : DialParameters)
    : Dial DialParameters :=
  if fresh isReplay replayTLSFragmentClientHello && usingTLS then
    let limitProtocols :=
      parameters.TunnelProtocols p parameters.TLSFragmentClientHelloLimitProtocols in
    if (length limitProtocols =? 0)%nat
       || common.Contains limitProtocols (TunnelProtocol d)
    then
      let usingSNI :=
        if negb (String.eqb (TLSOSSHSNIServerName d) "") then
          negb (net_ParseIP (TLSOSSHSNIServerName d))
        else if negb (String.eqb (MeekSNIServerName d) "") then
          negb (net_ParseIP (MeekSNIServerName d))
        else false in
      if usingSNI then
        let* flip := WeightedCoinFlip p parameters.TLSFragmentClientHelloProbability in
        ret (set_TLSFragmentClientHello flip d)
      else ret d
    else ret d
  else ret d.

(** Lines 1059-1065: the upstream proxy type. *)
Definition setUpstreamProxyType (config : Config.t) (d : DialParameters)
    : DialParameters :=
  if Config.UseUpstreamProxy config then
    match common_SafeParseURL (Config.UpstreamProxyURL config) with
    | Ok scheme => set_UpstreamProxyType scheme d
    | Err _ => d
    end
  else d.

(** Lines 1067-1081: the custom headers of the dial and the User-Agent.
    The result carries the local variable [dialCustomHeaders]. *)
Definition selectUserAgent (config : Config.t) (p : parameters.ParametersAccessor)
    (isReplay replayUserAgent : bool) (d : DialParameters)
    : Dial (DialParameters * http.Header) :=
  let dialCustomHeaders := makeDialCustomHeaders config p in
  if protocol.TunnelProtocolUsesMeek (TunnelProtocol d)
     || String.eqb (UpstreamProxyType d) "http"
     || ConjureAPIRegistration d
  then
    let* d :=
      if fresh isReplay replayUserAgent then
        let* (selected, userAgent) := selectUserAgentIfUnset p dialCustomHeaders in
        let d := set_SelectedUserAgent selected d in
        ret (set_UserAgent userAgent d)
      else ret d in
    if SelectedUserAgent d then
      ret (d, http.Set_ "User-Agent" (UserAgent d) dialCustomHeaders)
    else ret (d, dialCustomHeaders)
  else ret (d, dialCustomHeaders).

(** Lines 1086-1094: the names of the custom headers, in the order in
    which the map is ranged over. *)
Definition setUpstreamProxyCustomHeaderNames (config : Config.t)
    (dialCustomHeaders : http.Header) (d : DialParameters) : DialParameters :=
  if (0 <? match Config.CustomHeaders config with
           | Some customHeaders => size customHeaders
           | None => 0
           end)%nat
  then
    set_UpstreamProxyCustomHeaderNames
      (filter (fun name => negb (String.eqb name "User-Agent" && SelectedUserAgent d))
              (map fst (map_to_list dialCustomHeaders))) d
  else d.

(** Lines 1124-1144: the fragmentor configuration, the [DialConfig] and the
    initial [MeekResolvedIPAddress]. *)
Definition makeDialConfig (config : Config.t) (p : parameters.ParametersAccessor)
    (serverEntry : protocol.ServerEntry) (dialCustomHeaders : http.Header)
    (d : DialParameters) : DialParameters :=
  let fragmentorConfig :=
    fragmentor_NewUpstreamConfig p (TunnelProtocol d) (FragmentorSeed d) in
  let fragmentorConfig :=
    if negb (parameters.Bool p parameters.OSSHPrefixEnableFragmentor)
       && notNil (OSSHPrefixSpec d)
    then None else fragmentorConfig in
  let d :=
    set_dialConfig
      (Some {| DialConfig.DiagnosticID := protocol.GetDiagnosticID serverEntry;
               DialConfig.UpstreamProxyURL := Config.UpstreamProxyURL config;
               DialConfig.CustomHeaders := dialCustomHeaders;
               DialConfig.BPFProgramInstructions := BPFProgramInstructions d;
               DialConfig.TrustedCACertificatesFilename :=
                 Config.TrustedCACertificatesFilename config;
               DialConfig.FragmentorConfig := fragmentorConfig |}) d in
  set_MeekResolvedIPAddress "" d.

(** ** [MakeDialParameters] *)

(** Lines 223-229: the stored dial parameters, if any. *)
Definition existingDialParameters (config : Config.t)
    (serverEntry : protocol.ServerEntry) (networkID : string) (w : World)
    : option DialParameters * World :=
  match GetDialParameters config (protocol.IpAddress serverEntry) networkID w with
  | (Err _, w) => (None, w)
  | (Ok dialParams, w) => (dialParams, w)
  end.

(** Lines 257-294: the condition under which stored dial parameters are
    deleted. *)
Definition isStale (ttl : time.Duration) (replayIgnoreChangedConfigState : bool)
    (currentTimestamp : time.Time) (configStateHash serverEntryHash : list Byte.byte)
    (dialParams : DialParameters) : bool :=
  (ttl <=? 0)
  || time.Before (LastUsedTimestamp dialParams) (time.Add currentTimestamp (- ttl))
  || (negb replayIgnoreChangedConfigState
      && negb (bytes.Equal (LastUsedConfigStateHash dialParams) configStateHash))
  || negb (bytes.Equal (LastUsedServerEntryHash dialParams) serverEntryHash)
  || (negb (String.eqb (TLSProfile dialParams) "")
      && negb (common.Contains protocol.SupportedTLSProfiles (TLSProfile dialParams)))
  || (negb (String.eqb (QUICVersion dialParams) "")
      && negb (common.Contains protocol.SupportedQUICVersions (QUICVersion dialParams)))
  || (ConjureAPIRegistration dialParams
      && String.eqb (ConjureAPIRegistrarBidirectionalURL dialParams) "").

(** Lines 193-315: the replay decision.  The result is the stored record to
    replay, if any, and the timestamp and hashes of lines 244-254. *)
Definition replayDecision (config : Config.t)
    (canReplay : protocol.ServerEntry -> string -> bool)
    (serverEntry : protocol.ServerEntry) (w : World)
    : option DialParameters * (time.Time * list Byte.byte * list Byte.byte) * World :=
  let networkID := Config.GetNetworkID config in
  let p := parameters.Get (Config.GetParameters config) in
  let ttl := parameters.Duration p parameters.ReplayDialParametersTTL in
  let replayIgnoreChangedConfigState :=
    parameters.Bool p parameters.ReplayIgnoreChangedConfigState in
  let '(dialParams, w) := existingDialParameters config serverEntry networkID w in
  let '(currentTimestamp, (configStateHash, serverEntryHash)) :=
    if 0 <? ttl then (now w, getDialStateHashes config p serverEntry)
    else (0, ([], [])) in
  let '(dialParams, w) :=
    match dialParams with
    | Some stored =>
      if isStale ttl replayIgnoreChangedConfigState currentTimestamp
           configStateHash serverEntryHash stored
      then
        let '(_, w) := DeleteDialParameters (protocol.IpAddress serverEntry) networkID w in
        (None, w)
      else (Some stored, w)
    | None => (None, w)
    end in
  let dialParams :=
    match dialParams with
    | Some stored =>
      if Config.DisableReplay config
         || negb (canReplay serverEntry (TunnelProtocol stored))
      then None
      else Some stored
    | None => None
    end in
  (dialParams, (currentTimestamp, configStateHash, serverEntryHash), w).

(** Lines 333-368: the record the composition starts from, with the
    resolver attached (an error when there is none) and the identity fields
    set. *)
Definition startRecord (config : Config.t) (serverEntry : protocol.ServerEntry)
    (candidateNumber establishedTunnelsCount : Z)
    (stored : option DialParameters)
    (stamp : time.Time * list Byte.byte * list Byte.byte)
    : Dial (DialParameters * resolver.Resolver * bool * bool) :=
  let '(currentTimestamp, configStateHash, serverEntryHash) := stamp in
  let isReplay := notNil stored in
  let isExchanged :=
    match stored with
    | Some dialParams => IsExchanged dialParams
    | None => false
    end in
  let d :=
    match stored with
    | Some dialParams => dialParams
    | None => DialParameters_zero
    end in
  let d := set_resolver (Config.GetResolver config) d in
  match resolver d with
  | None => raise "missing resolver"
  | Some rs =>
    let isReplay := if isExchanged then false else isReplay in
    let d := set_IsExchanged false d in
    let d := set_ServerEntry (Some serverEntry) d in
    let d := set_NetworkID (Config.GetNetworkID config) d in
    let d := set_IsReplay isReplay d in
    let d := set_CandidateNumber candidateNumber d in
    let d := set_EstablishedTunnelsCount establishedTunnelsCount d in
    let d := set_LastUsedTimestamp currentTimestamp d in
    let d := set_LastUsedConfigStateHash configStateHash d in
    let d := set_LastUsedServerEntryHash serverEntryHash d in
    ret (d, rs, isReplay, isExchanged)
  end.

(** Lines 430-746: what follows the choice of the tunnel protocol, up to
    the host names.  The result carries the local variables [p] and
    [usingTLS]. *)
Definition selectGivenProtocol (config : Config.t)
    (serverEntry : protocol.ServerEntry) (isReplay : bool)
    (p : parameters.ParametersAccessor) (d : DialParameters)
    : Dial (DialParameters * parameters.ParametersAccessor * bool) :=
  let p0 := parameters.Get (Config.GetParameters config) in
  let replayBPF := parameters.Bool p0 parameters.ReplayBPF in
  let replaySSH := parameters.Bool p0 parameters.ReplaySSH in
  let replayObfuscatorPadding := parameters.Bool p0 parameters.ReplayObfuscatorPadding in
  let replayFragmentor := parameters.Bool p0 parameters.ReplayFragmentor in
  let replayTLSProfile := parameters.Bool p0 parameters.ReplayTLSProfile in
  let replayFronting := parameters.Bool p0 parameters.ReplayFronting in
  let replayHostname := parameters.Bool p0 parameters.ReplayHostname in
  let replayConjureRegistration :=
    parameters.Bool p0 parameters.ReplayConjureRegistration in
  let replayConjureTransport := parameters.Bool p0 parameters.ReplayConjureTransport in
  let* d := restrictFrontingProviderID p serverEntry d in
  let* d := checkUpstreamProxy config p serverEntry d in
  let* d := selectBPFProgram p isReplay replayBPF d in
  let* d := selectSSH isReplay replaySSH d in
  let* d := selectObfuscatorPadding isReplay replayObfuscatorPadding d in
  let* d := selectFragmentor isReplay replayFragmentor d in
  let* d := selectConjureRegistration config p isReplay replayConjureRegistration d in
  let* d := selectConjureTransportBlock p isReplay replayConjureTransport d in
  let usingTLS := usingTLS_of d in
  let* d := selectTLSProfileBlock p serverEntry isReplay replayTLSProfile usingTLS d in
  let* d := selectFronting serverEntry isReplay replayFronting d in
  let* d := selectHostNames p serverEntry isReplay replayHostname d in
  ret (d, p, usingTLS).

(** Lines 395-746: from the network latency multiplier to the host names;
    [p] is re-assigned at line 413. *)
Definition selectUpToHostNames (config : Config.t)
    (selectProtocol : protocol.ServerEntry -> string * bool)
    (serverEntry : protocol.ServerEntry) (isReplay isExchanged : bool)
    (d : DialParameters)
    : Dial (DialParameters * parameters.ParametersAccessor * bool) :=
  let p := parameters.Get (Config.GetParameters config) in
  let* d := selectNetworkLatencyMultiplier p isReplay d in
  let p :=
    parameters.GetCustom (Config.GetParameters config) (NetworkLatencyMultiplier d) in
  let* d := selectTunnelProtocol selectProtocol serverEntry isReplay isExchanged d in
  selectGivenProtocol config serverEntry isReplay p d.

(** Lines 748-1208: from the QUIC version to the end. *)
Definition selectFromQUICVersion (config : Config.t)
    (serverEntry : protocol.ServerEntry) (rs : resolver.Resolver) (isReplay : bool)
    (p : parameters.ParametersAccessor) (usingTLS : bool) (d : DialParameters)
    : Dial DialParameters :=
  let p0 := parameters.Get (Config.GetParameters config) in
  let replayTLSFragmentClientHello :=
    parameters.Bool p0 parameters.ReplayTLSFragmentClientHello in
  let replayQUICVersion := parameters.Bool p0 parameters.ReplayQUICVersion in
  let replayObfuscatedQUIC := parameters.Bool p0 parameters.ReplayObfuscatedQUIC in
  let replayObfuscatedQUICNonceTransformer :=
    parameters.Bool p0 parameters.ReplayObfuscatedQUICNonceTransformer in
  let replayLivenessTest := parameters.Bool p0 parameters.ReplayLivenessTest in
  let replayUserAgent := parameters.Bool p0 parameters.ReplayUserAgent in
  let replayAPIRequestPadding := parameters.Bool p0 parameters.ReplayAPIRequestPadding in
  let replayHoldOffTunnel := parameters.Bool p0 parameters.ReplayHoldOffTunnel in
  let replayResolveParameters := parameters.Bool p0 parameters.ReplayResolveParameters in
  let replayHTTPTransformerParameters :=
    parameters.Bool p0 parameters.ReplayHTTPTransformerParameters in
  let replayOSSHSeedTransformerParameters :=
    parameters.Bool p0 parameters.ReplayOSSHSeedTransformerParameters in
  let replayOSSHPrefix := parameters.Bool p0 parameters.ReplayOSSHPrefix in
  let* d := selectQUICVersionBlock p serverEntry isReplay replayQUICVersion d in
  let* d := selectObfuscatedQUICPadding isReplay replayObfuscatedQUIC d in
  let* d :=
    selectObfuscatedQUICNonceTransformer p serverEntry isReplay
      replayObfuscatedQUICNonceTransformer d in
  let* d := selectLivenessTest isReplay replayLivenessTest d in
  let* d := selectAPIRequestPadding isReplay replayAPIRequestPadding d in
  let* d := selectResolveParameters p rs isReplay replayResolveParameters d in
  let* d := selectHoldOffTunnel p isReplay replayHoldOffTunnel d in
  let* d :=
    selectOSSHTransforms p serverEntry isReplay
      replayOSSHSeedTransformerParameters replayOSSHPrefix d in
  let* d := selectHTTPTransformer config serverEntry isReplay
              replayHTTPTransformerParameters d in
  let* d := setDialAddress serverEntry d in
  let* d := checkMeekAddresses p d in
  let* d := selectTLSFragmentClientHello p isReplay replayTLSFragmentClientHello usingTLS d in
  let d := setUpstreamProxyType config d in
  let* (d, dialCustomHeaders) := selectUserAgent config p isReplay replayUserAgent d in
  let d := setUpstreamProxyCustomHeaderNames config dialCustomHeaders d in
  ret (makeDialConfig config p serverEntry dialCustomHeaders d).

(** Lines 333-1208: the composition, given the replay decision. *)
Definition compose (config : Config.t)
    (selectProtocol : protocol.ServerEntry -> string * bool)
    (serverEntry : protocol.ServerEntry)
    (candidateNumber establishedTunnelsCount : Z)
    (stored : option DialParameters)
    (stamp : time.Time * list Byte.byte * list Byte.byte)
    : Dial DialParameters :=
  let* (d, rs, isReplay, isExchanged) :=
    startRecord config serverEntry candidateNumber establishedTunnelsCount stored stamp in
  let* (d, p, usingTLS) :=
    selectUpToHostNames config selectProtocol serverEntry isReplay isExchanged d in
  selectFromQUICVersion config serverEntry rs isReplay p usingTLS d.

(** The pair of a record pointer and an error that a run returns. *)
Definition returned (r : Exit + DialParameters) : option DialParameters * option error :=
  match r with
  | inr dialParams => (Some dialParams, None)
  | inl SkipCandidate => (None, None)
  | inl (ReturnError err) => (None, Some err)
  end.

(** [MakeDialParameters].  [upstreamProxyErrorCallback] is only stored in a
    field that is left out; [isTactics] only selects the mode of the
    [meekConfig]. *)
Definition MakeDialParameters (config : Config.t)
    (canReplay : protocol.ServerEntry -> string -> bool)
    (selectProtocol : protocol.ServerEntry -> string * bool)
    (serverEntry : protocol.ServerEntry)
    (isTactics : bool)
    (candidateNumber establishedTunnelsCount : Z)
    (w : World) : (option DialParameters * option error) * World :=
  let '(stored, stamp, w) := replayDecision config canReplay serverEntry w in
  let '(r, s) :=
    compose config selectProtocol serverEntry candidateNumber establishedTunnelsCount
      stored stamp (source w) in
  (returned r, withSource s w).

(** ** The lifecycle *)

(** [dialParams.Succeeded()]; [None] is the run-time panic of dereferencing
    a nil [ServerEntry]. *)
Definition Succeeded (dialParams : DialParameters) (w : World) : option World :=
  if time.IsZero (LastUsedTimestamp dialParams) then Some w
  else
    match ServerEntry dialParams with
    | None => None
    | Some serverEntry =>
      let '(_, w) :=
        SetDialParameters (protocol.IpAddress serverEntry) (NetworkID dialParams)
          dialParams w in
      Some w
    end.

(** [dialParams.Failed(config)]; the coin is flipped only for a replay. *)
Definition Failed (dialParams : DialParameters) (config : Config.t) (w : World)
    : option World :=
  if IsReplay dialParams then
    let '(r, s) := prng.next (source w) in
    let w := withSource s w in
    let retain :=
      prng.FlipWeightedCoin
        (parameters.Float (parameters.Get (Config.GetParameters config))
           parameters.ReplayRetainFailedProbability) r in
    if negb retain then
      match ServerEntry dialParams with
      | None => None
      | Some serverEntry =>
        let '(_, w) :=
          DeleteDialParameters (protocol.IpAddress serverEntry) (NetworkID dialParams) w in
        Some w
      end
    else Some w
  else Some w.

(** ** Exchanged dial parameters *)

(** [NewExchangedDialParameters] *)
Definition NewExchangedDialParameters (dialParams : DialParameters)
    : ExchangedDialParameters.t :=
  {| ExchangedDialParameters.TunnelProtocol := TunnelProtocol dialParams |}.

(** The method [Validate] of [ExchangedDialParameters]. *)
Definition ExchangedDialParameters_Validate (dialParams : ExchangedDialParameters.t)
    (serverEntry : protocol.ServerEntry) : option error :=
  if negb (common.Contains protocol.SupportedTunnelProtocols
             (ExchangedDialParameters.TunnelProtocol dialParams)) then
    Some "unknown tunnel protocol"
  else if negb (protocol.SupportsProtocol serverEntry
                  (ExchangedDialParameters.TunnelProtocol dialParams)) then
    Some "unsupported tunnel protocol"
  else None.

(** The method [MakeDialParameters] of [ExchangedDialParameters], called
    at the time [now]. *)
Definition ExchangedDialParameters_MakeDialParameters
    (dialParams : ExchangedDialParameters.t) (config : Config.t)
    (p : parameters.ParametersAccessor) (serverEntry : protocol.ServerEntry)
    (now : time.Time) : DialParameters :=
  let '(configStateHash, serverEntryHash) := getDialStateHashes config p serverEntry in
  set_IsExchanged true
    (set_LastUsedTimestamp now
       (set_LastUsedConfigStateHash configStateHash
          (set_LastUsedServerEntryHash serverEntryHash
             (set_TunnelProtocol (ExchangedDialParameters.TunnelProtocol dialParams)
                DialParameters_zero)))).

(** ** Getters *)

(** [dialParams.GetDialConfig()] *)
Definition GetDialConfig (dialParams : DialParameters) : option DialConfig.t :=
  dialConfig dialParams.

(** [strings.HasPrefix(s, prefix)] *)
Definition strings_HasPrefix (s prefix : string) : bool := String.prefix prefix s.

(** [dialParams.GetNetworkType()] *)
Definition GetNetworkType (dialParams : DialParameters) : string :=
  if strings_HasPrefix (NetworkID dialParams) "VPN" then "VPN"
  else if strings_HasPrefix (NetworkID dialParams) "WIFI" then "WIFI"
  else if strings_HasPrefix (NetworkID dialParams) "MOBILE" then "MOBILE"
  else "UNKNOWN".

(** ** Notions used in the statements *)

(** A block keeps a projection [F] of the record when every run that goes
    on returns a record with the same [F]. *)
Definition keeps {T} (F : DialParameters -> T)
    (block : DialParameters -> Dial DialParameters) : Prop :=
  forall d s d' s', block d s = (inr d', s') -> F d' = F d.

(** The projections followed through the composition: what identifies the
    record, the tunnel protocol, the two OSSH transforms, and the network
    latency multiplier. *)
Definition identity (d : DialParameters) :=
  (IsReplay d, IsExchanged d, ServerEntry d, NetworkID d, LastUsedTimestamp d).

Definition osshTransforms (d : DialParameters) :=
  (OSSHPrefixSpec d, OSSHObfuscatorSeedTransformerParameters d).

Definition tracked (d : DialParameters) :=
  (identity d, TunnelProtocol d, osshTransforms d, NetworkLatencyMultiplier d).

(** The OSSH transforms never come out with both a prefix and a seed
    transform; for another tunnel protocol the block changes nothing. *)
Definition prefixExcludesSeedTransform (d : DialParameters) : bool :=
  negb (notNil (OSSHPrefixSpec d))
  || negb (notNil (OSSHObfuscatorSeedTransformerParameters d)).

(** The last blocks. *)
Definition late (d : DialParameters) :=
  (tracked d, MeekSNIServerName d).

(** The timestamp and hashes of lines 244-254. *)
Definition stampOf (config : Config.t) (serverEntry : protocol.ServerEntry) (w : World)
    : time.Time * list Byte.byte * list Byte.byte :=
  let p := parameters.Get (Config.GetParameters config) in
  if 0 <? parameters.Duration p parameters.ReplayDialParametersTTL then
    (now w, fst (getDialStateHashes config p serverEntry),
     snd (getDialStateHashes config p serverEntry))
  else (0, [], []).

(** Whether the stored record [R] is deleted (lines 256-294). *)
Definition staleIn (config : Config.t) (serverEntry : protocol.ServerEntry) (w : World)
    (R : DialParameters) : bool :=
  let p := parameters.Get (Config.GetParameters config) in
  let '(currentTimestamp, configStateHash, serverEntryHash) :=
    stampOf config serverEntry w in
  isStale (parameters.Duration p parameters.ReplayDialParametersTTL)
    (parameters.Bool p parameters.ReplayIgnoreChangedConfigState)
    currentTimestamp configStateHash serverEntryHash R.

(** What [GetDialParameters] finds. *)
Definition foundIn (config : Config.t) (serverEntry : protocol.ServerEntry) (w : World)
    : option DialParameters :=
  if failing (datastore w) then None
  else DialParameters_stored
         <$> records (datastore w) !! (protocol.IpAddress serverEntry,
                                        Config.GetNetworkID config).

(** The conditions of replay eligibility as the specification lists them
    (section 4.F), for a stored record [R] found at the time [now w]:
    conditions (1) to (7), whose failure deletes the record, then (8) and
    (9). *)
Definition conditions1to7 (config : Config.t) (serverEntry : protocol.ServerEntry)
    (w : World) (R : DialParameters) : Prop :=
  let p := parameters.Get (Config.GetParameters config) in
  let ttl := parameters.Duration p parameters.ReplayDialParametersTTL in
  let currentConfigStateHash := fst (getDialStateHashes config p serverEntry) in
  let currentServerEntryHash := snd (getDialStateHashes config p serverEntry) in
  0 < ttl
  /\ now w - LastUsedTimestamp R <= ttl
  /\ LastUsedServerEntryHash R = currentServerEntryHash
  /\ (LastUsedConfigStateHash R = currentConfigStateHash
      \/ parameters.Bool p parameters.ReplayIgnoreChangedConfigState = true)
  /\ (TLSProfile R = "" \/ In (TLSProfile R) protocol.SupportedTLSProfiles)
  /\ (QUICVersion R = "" \/ In (QUICVersion R) protocol.SupportedQUICVersions)
  /\ ~ (ConjureAPIRegistration R = true
        /\ ConjureAPIRegistrarBidirectionalURL R = "").

Definition conditions8to9 (config : Config.t)
    (canReplay : protocol.ServerEntry -> string -> bool)
    (serverEntry : protocol.ServerEntry) (R : DialParameters) : Prop :=
  Config.DisableReplay config = false
  /\ canReplay serverEntry (TunnelProtocol R) = true.

(** The set of versions the specification gives for [selectQUICVersion]
    (section 4.E): the supported versions that pass every filter. *)
Definition disabledQUICVersions (serverEntry : protocol.ServerEntry)
    (p : parameters.ParametersAccessor) : list string :=
  if String.eqb (protocol.FrontingProviderID serverEntry) "" then
    [ protocol.QUIC_VERSION_V1; protocol.QUIC_VERSION_RANDOMIZED_V1;
      protocol.QUIC_VERSION_OBFUSCATED_V1; protocol.QUIC_VERSION_DECOY_V1 ]
  else
    parameters.LabeledQUICVersions p parameters.DisableFrontingProviderQUICVersions
      (protocol.FrontingProviderID serverEntry).

Definition survivesQUICFilters (isFronted : bool) (serverEntry : protocol.ServerEntry)
    (p : parameters.ParametersAccessor) (v : string) : Prop :=
  In v (if protocol.SupportsOnlyQUICv1 serverEntry
        then protocol.SupportedQUICv1Versions else protocol.SupportedQUICVersions)
  /\ (parameters.QUICVersions p parameters.LimitQUICVersions = []
      \/ In v (parameters.QUICVersions p parameters.LimitQUICVersions))
  /\ (protocol.LimitQUICVersions serverEntry = []
      \/ In v (protocol.LimitQUICVersions serverEntry))
  /\ (isFronted = true ->
      protocol.QUICVersionIsObfuscated v = false
      /\ ~ In v (disabledQUICVersions serverEntry p)).

(** The record the composition starts from (lines 333-368), for the stored
    record to replay, if any, and the timestamp and hashes. *)
Definition startOf (config : Config.t) (serverEntry : protocol.ServerEntry)
    (candidateNumber establishedTunnelsCount : Z)
    (stored : option DialParameters)
    (stamp : time.Time * list Byte.byte * list Byte.byte) : DialParameters :=
  let isExchanged :=
    match stored with Some R => IsExchanged R | None => false end in
  let isReplay := if isExchanged then false else notNil stored in
  set_LastUsedServerEntryHash (snd stamp)
    (set_LastUsedConfigStateHash (snd (fst stamp))
       (set_LastUsedTimestamp (fst (fst stamp))
          (set_EstablishedTunnelsCount establishedTunnelsCount
             (set_CandidateNumber candidateNumber
                (set_IsReplay isReplay
                   (set_NetworkID (Config.GetNetworkID config)
                      (set_ServerEntry (Some serverEntry)
                         (set_IsExchanged false
                            (set_resolver (Config.GetResolver config)
                               (match stored with
                                | Some R => R
                                | None => DialParameters_zero
                                end)))))))))).

(** The replay flags of the tactics (lines 199-219). *)
Definition replayFlagNames : list string :=
  [ parameters.ReplayBPF; parameters.ReplaySSH; parameters.ReplayObfuscatorPadding;
    parameters.ReplayFragmentor; parameters.ReplayTLSProfile;
    parameters.ReplayTLSFragmentClientHello; parameters.ReplayFronting;
    parameters.ReplayHostname; parameters.ReplayQUICVersion;
    parameters.ReplayObfuscatedQUIC; parameters.ReplayObfuscatedQUICNonceTransformer;
    parameters.ReplayConjureRegistration; parameters.ReplayConjureTransport;
    parameters.ReplayLivenessTest; parameters.ReplayUserAgent;
    parameters.ReplayAPIRequestPadding; parameters.ReplayHoldOffTunnel;
    parameters.ReplayResolveParameters; parameters.ReplayHTTPTransformerParameters;
    parameters.ReplayOSSHSeedTransformerParameters; parameters.ReplayOSSHPrefix ].

Definition allReplayFlags (p : parameters.ParametersAccessor) : Prop :=
  forall name, In name replayFlagNames -> parameters.Bool p name = true.

(** The selections of a stored record that a replay carries over when
    every replay flag is set: all stored fields but the timestamp and
    hashes, the network latency multiplier (drawn again when out of range),
    and the fields worked out again on every run from the server entry and
    the tactics (the dial addresses, the meek host header and SNI, the OSSH
    transforms, the QUIC nonce transformer and the HTTP transformer). *)
Definition replayed (d : DialParameters) :=
  (TunnelProtocol d,
   (BPFProgramName d, BPFProgramInstructions d),
   (SelectedSSHClientVersion d, SSHClientVersion d, SSHKEXSeed d),
   (ObfuscatorPaddingSeed d, MeekObfuscatorPaddingSeed d, TLSOSSHObfuscatorPaddingSeed d),
   FragmentorSeed d,
   (FrontingProviderID d, MeekFrontingDialAddress d, MeekFrontingHost d,
    MeekVerifyServerName d, MeekVerifyPins d, MeekTLSPaddingSize d),
   (TLSOSSHTransformedSNIServerName d, TLSOSSHSNIServerName d),
   (SelectedUserAgent d, UserAgent d),
   (SelectedTLSProfile d, TLSProfile d, NoDefaultTLSSessionID d, TLSVersion d,
    RandomizedTLSProfileSeed d, TLSFragmentClientHello d),
   (QUICVersion d, QUICDialSNIAddress d, QUICClientHelloSeed d,
    ObfuscatedQUICPaddingSeed d, QUICDisablePathMTUDiscovery d),
   (ConjureCachedRegistrationTTL d, ConjureAPIRegistration d,
    ConjureAPIRegistrarBidirectionalURL d, ConjureAPIRegistrarDelay d,
    ConjureDecoyRegistration d, ConjureDecoyRegistrarDelay d,
    ConjureDecoyRegistrarWidth d, ConjureTransport d, ConjureSTUNServerAddress d,
    ConjureDTLSEmptyInitialPacket d),
   (LivenessTestSeed d, APIRequestPaddingSeed d, HoldOffTunnelDuration d,
    ResolveParameters d)).

(** The state of a run at line 748, if the run gets there: the record so
    far, the tactics snapshot in use, whether the run is a replay, and the
    source of randomness. *)
Definition beforeQUICVersion (config : Config.t)
    (canReplay : protocol.ServerEntry -> string -> bool)
    (selectProtocol : protocol.ServerEntry -> string * bool)
    (serverEntry : protocol.ServerEntry)
    (candidateNumber establishedTunnelsCount : Z) (w : World)
    : option (DialParameters * parameters.ParametersAccessor * bool * prng.Source) :=
  let '(stored, stamp, w1) := replayDecision config canReplay serverEntry w in
  match
    (let* (d, rs, isReplay, isExchanged) :=
       startRecord config serverEntry candidateNumber establishedTunnelsCount
         stored stamp in
     let* (d, p, usingTLS) :=
       selectUpToHostNames config selectProtocol serverEntry isReplay isExchanged d in
     ret (d, p, isReplay)) (source w1)
  with
  | (inr (d, p, isReplay), s) => Some (d, p, isReplay, s)
  | (inl _, _) => None
  end.

(** What [config.CustomHeaders] holds for a name; a nil map holds nothing. *)
Definition configHeader (config : Config.t) (name : string) : option (list string) :=
  match Config.CustomHeaders config with
  | Some customHeaders => customHeaders !! name
  | None => None
  end.

(** The condition of line 1069: the dial takes a User-Agent header. *)
Definition takesUserAgent (d : DialParameters) : bool :=
  protocol.TunnelProtocolUsesMeek (TunnelProtocol d)
  || String.eqb (UpstreamProxyType d) "http"
  || ConjureAPIRegistration d.

(** ** Further notions *)

(** A projection [F] of the record ignores an assignment [set] to a field
    when the assignment never changes it. *)
Definition ignores {T V} (F : DialParameters -> T)
    (set : V -> DialParameters -> DialParameters) : Prop :=
  forall v d, F (set v d) = F d.

(** The timestamp and hashes of a record. *)
Definition stamp (d : DialParameters) :=
  (LastUsedTimestamp d, LastUsedConfigStateHash d, LastUsedServerEntryHash d).

(** The Conjure API registration flag and the registrar URL, which
    condition (7) of replay eligibility reads. *)
Definition conjureRegistrar (d : DialParameters) :=
  (ConjureAPIRegistration d, ConjureAPIRegistrarBidirectionalURL d).

Definition conjureRegistrarOK (d : DialParameters) : bool :=
  negb (ConjureAPIRegistration d
        && String.eqb (ConjureAPIRegistrarBidirectionalURL d) "").

(** Two fields of the record that are stored and never assigned. *)
Definition unassigned (d : DialParameters) :=
  (MeekTLSPaddingSize d, ConjureDecoyRegistrarDelay d).

(** The record that a run takes over from the store, or the zero record. *)
Definition takenOver (config : Config.t)
    (canReplay : protocol.ServerEntry -> string -> bool)
    (serverEntry : protocol.ServerEntry) (w : World) : DialParameters :=
  match fst (fst (replayDecision config canReplay serverEntry w)) with
  | Some R => R
  | None => DialParameters_zero
  end.

(** What [usingTLS] (lines 646-648) is computed from. *)
Definition tlsInputs (d : DialParameters) :=
  (TunnelProtocol d, ConjureAPIRegistration d).

(** The TLS profile selection. *)
Definition tlsProfile (d : DialParameters) :=
  (SelectedTLSProfile d, TLSProfile d).

(** The cases of the [switch] on the tunnel protocol (lines 963-1010), in
    the order of the source. *)
Definition directProtocols : list string :=
  [ protocol.TUNNEL_PROTOCOL_SSH;
    protocol.TUNNEL_PROTOCOL_OBFUSCATED_SSH;
    protocol.TUNNEL_PROTOCOL_TAPDANCE_OBFUSCATED_SSH;
    protocol.TUNNEL_PROTOCOL_CONJURE_OBFUSCATED_SSH;
    protocol.TUNNEL_PROTOCOL_QUIC_OBFUSCATED_SSH;
    protocol.TUNNEL_PROTOCOL_TLS_OBFUSCATED_SSH ].

Definition frontedProtocols : list string :=
  [ protocol.TUNNEL_PROTOCOL_FRONTED_MEEK;
    protocol.TUNNEL_PROTOCOL_FRONTED_MEEK_QUIC_OBFUSCATED_SSH;
    protocol.TUNNEL_PROTOCOL_FRONTED_MEEK_HTTP ].

Definition unfrontedProtocols : list string :=
  [ protocol.TUNNEL_PROTOCOL_UNFRONTED_MEEK;
    protocol.TUNNEL_PROTOCOL_UNFRONTED_MEEK_HTTPS;
    protocol.TUNNEL_PROTOCOL_UNFRONTED_MEEK_SESSION_TICKET ].

(** The dial address fields that lines 956-1010 work out. *)
Definition dialAddress (d : DialParameters) :=
  (TunnelProtocol d, DialPortNumber d, DirectDialAddress d, MeekDialAddress d,
   MeekFrontingDialAddress d).

(** The transforms that a server entry can switch off, each with what its
    block goes by. *)
Definition osshTransformers (d : DialParameters) :=
  (TunnelProtocol d, OSSHObfuscatorSeedTransformerParameters d, OSSHPrefixSpec d,
   OSSHPrefixSplitConfig d).

Definition httpTransformer (d : DialParameters) :=
  (TunnelProtocol d, HTTPTransformerParameters d).

Definition nonceTransformer (d : DialParameters) :=
  (QUICVersion d, ObfuscatedQUICNonceTransformerParameters d).

(** What the resolve parameters depend on (lines 833-836). *)
Definition resolving (d : DialParameters) :=
  (TunnelProtocol d, ConjureAPIRegistration d, MeekFrontingDialAddress d,
   ResolveParameters d).

(** The meek dial address with the tunnel protocol. *)
Definition meekDial (d : DialParameters) :=
  (TunnelProtocol d, MeekDialAddress d).

(** The Conjure transports that [selectConjureTransport] chooses among:
    the supported ones, within the tactics limit when there is one. *)
Definition allowedConjureTransport (p : parameters.ParametersAccessor)
    (transport : string) : Prop :=
  In transport protocol.SupportedConjureTransports
  /\ (parameters.ConjureTransports p parameters.ConjureLimitTransports = []
      \/ In transport (parameters.ConjureTransports p parameters.ConjureLimitTransports)).

(** A transform that a record carries can be applied: it has a spec and
    a seed. *)
Definition seedTransformerOK (o : option transforms.ObfuscatorSeedTransformerParameters)
    : bool :=
  match o with
  | Some params =>
    notNil (transforms.TransformSpec params) && notNil (transforms.TransformSeed params)
  | None => true
  end.

Definition httpTransformerOK (o : option transforms.HTTPTransformerParameters) : bool :=
  match o with
  | Some params =>
    notNil (transforms.ProtocolTransformSpec params)
    && notNil (transforms.ProtocolTransformSeed params)
  | None => true
  end.

Definition prefixOK (o : option obfuscator.OSSHPrefixSpec.t)
    (split : option obfuscator.OSSHPrefixSplitConfig.t) : bool :=
  match o with
  | Some prefixSpec =>
    notNil (obfuscator.OSSHPrefixSpec.Spec prefixSpec)
    && notNil (obfuscator.OSSHPrefixSpec.Seed prefixSpec)
    && notNil split
  | None => true
  end.

Definition transformsOK (d : DialParameters) : bool :=
  seedTransformerOK (OSSHObfuscatorSeedTransformerParameters d)
  && seedTransformerOK (ObfuscatedQUICNonceTransformerParameters d)
  && httpTransformerOK (HTTPTransformerParameters d)
  && prefixOK (OSSHPrefixSpec d) (OSSHPrefixSplitConfig d).

(** The transforms of a record. *)
Definition transformsOf (d : DialParameters) :=
  (OSSHObfuscatorSeedTransformerParameters d,
   ObfuscatedQUICNonceTransformerParameters d,
   HTTPTransformerParameters d,
   (OSSHPrefixSpec d, OSSHPrefixSplitConfig d)).

(** ** Selections made in this pass

    What a selection of the composer leaves in the record [d] that
    [MakeDialParameters] returns when the selection is made in this pass,
    one definition for each block; [p] is the tactics snapshot in use from
    line 413 on.  None of them holds of every record: a record whose fields
    were taken over from a stored one need not satisfy them. *)

(** Lines 395-409: the network latency multiplier is drawn from the range
    of the tactics. *)
Definition latencySelected (config : Config.t) (d : DialParameters) : Prop :=
  let p0 := parameters.Get (Config.GetParameters config) in
  exists r,
    NetworkLatencyMultiplier d
    = prng.ExpFloat64Range
        (parameters.Float p0 parameters.NetworkLatencyMultiplierMin)
        (parameters.Float p0 parameters.NetworkLatencyMultiplierMax)
        (parameters.Float p0 parameters.NetworkLatencyMultiplierLambda) r.

(** Lines 501-508: the SSH client version and the KEX seed. *)
Definition sshSelected (d : DialParameters) : Prop :=
  SelectedSSHClientVersion d = true
  /\ (exists r, SSHClientVersion d = values_GetSSHClientVersion r)
  /\ SSHKEXSeed d <> None.

(** Lines 510-527: the obfuscator padding seeds. *)
Definition paddingSelected (d : DialParameters) : Prop :=
  ObfuscatorPaddingSeed d <> None
  /\ (protocol.TunnelProtocolUsesMeek (TunnelProtocol d) = true ->
      MeekObfuscatorPaddingSeed d <> None)
  /\ (protocol.TunnelProtocolUsesMeek (TunnelProtocol d) = false ->
      protocol.TunnelProtocolUsesTLSOSSH (TunnelProtocol d) = true ->
      TLSOSSHObfuscatorPaddingSeed d <> None).

(** Lines 529-534: the fragmentor seed. *)
Definition fragmentorSelected (d : DialParameters) : Prop :=
  FragmentorSeed d <> None.

(** Lines 536-624: the Conjure registration, by API or by decoys. *)
Definition conjureRegistrationSelected (p : parameters.ParametersAccessor)
    (d : DialParameters) : Prop :=
  protocol.TunnelProtocolUsesConjure (TunnelProtocol d) = true ->
  ConjureCachedRegistrationTTL d
  = parameters.Duration p parameters.ConjureCachedRegistrationTTL
  /\ if ConjureAPIRegistration d then
       ConjureAPIRegistrarBidirectionalURL d
       = parameters.String p parameters.ConjureAPIRegistrarBidirectionalURL
       /\ ConjureAPIRegistrarBidirectionalURL d <> ""
     else
       ConjureDecoyRegistration d = true
       /\ ConjureDecoyRegistrarWidth d
          = parameters.Int p parameters.ConjureDecoyRegistrarWidth.

(** Lines 626-644: the Conjure transport is a result of
    [selectConjureTransport]. *)
Definition conjureTransportSelected (p : parameters.ParametersAccessor)
    (d : DialParameters) : Prop :=
  protocol.TunnelProtocolUsesConjure (TunnelProtocol d) = true ->
  exists s s', selectConjureTransport p s = (inr (ConjureTransport d), s').

(** Lines 646-674: for a dial that uses TLS, the TLS profile, version and
    seed are a result of [SelectTLSProfile]. *)
Definition tlsProfileSelected (serverEntry : protocol.ServerEntry)
    (p : parameters.ParametersAccessor) (d : DialParameters) : Prop :=
  usingTLS_of d = true ->
  SelectedTLSProfile d = true
  /\ exists r,
       SelectTLSProfile
         (protocol.TunnelProtocolRequiresTLS12SessionTickets (TunnelProtocol d))
         (protocol.TunnelProtocolRequiresTLS13Support (TunnelProtocol d))
         (protocol.TunnelProtocolUsesFrontedMeek (TunnelProtocol d)
          || ConjureAPIRegistration d)
         (protocol.FrontingProviderID serverEntry) p r
       = Ok (TLSProfile d, TLSVersion d, RandomizedTLSProfileSeed d).

(** Lines 676-686: for fronted meek, the fronting provider is that of the
    server entry, and the fronting dial address and host are a result of
    [selectFrontingParameters]. *)
Definition frontingSelected (serverEntry : protocol.ServerEntry) (d : DialParameters)
    : Prop :=
  protocol.TunnelProtocolUsesFrontedMeek (TunnelProtocol d) = true ->
  FrontingProviderID d = protocol.FrontingProviderID serverEntry
  /\ exists s s',
       selectFrontingParameters serverEntry s
       = (inr (MeekFrontingDialAddress d, MeekFrontingHost d), s').

(** Lines 688-746, the host names that no later block assigns: the SNI
    server name of TLS-OSSH is empty or a transformed one, a result of
    [selectHostName]; the SNI address of a QUIC dial that does not go
    through meek is a result of [selectHostName]. *)
Definition hostNamesSelected (p : parameters.ParametersAccessor) (d : DialParameters)
    : Prop :=
  let tunnelProtocol := TunnelProtocol d in
  protocol.TunnelProtocolUsesMeekHTTPS tunnelProtocol
  || protocol.TunnelProtocolUsesFrontedMeekQUIC tunnelProtocol = false ->
  if protocol.TunnelProtocolUsesTLSOSSH tunnelProtocol then
    TLSOSSHSNIServerName d = ""
    \/ (TLSOSSHTransformedSNIServerName d = true
        /\ exists s s',
             selectHostName tunnelProtocol p s = (inr (TLSOSSHSNIServerName d), s'))
  else
    protocol.TunnelProtocolUsesMeekHTTP tunnelProtocol = false ->
    protocol.TunnelProtocolUsesQUIC tunnelProtocol = true ->
    exists s s', selectHostName tunnelProtocol p s = (inr (QUICDialSNIAddress d), s').

(** Lines 748-773: for QUIC, the version is a result of
    [selectQUICVersion], and not the empty one. *)
Definition quicVersionSelected (serverEntry : protocol.ServerEntry)
    (p : parameters.ParametersAccessor) (d : DialParameters) : Prop :=
  protocol.TunnelProtocolUsesQUIC (TunnelProtocol d) = true ->
  QUICVersion d <> ""
  /\ exists s s',
       selectQUICVersion
         (protocol.TunnelProtocolUsesFrontedMeekQUIC (TunnelProtocol d)) serverEntry p s
       = (inr (QUICVersion d), s').

(** Lines 775-782: the obfuscated QUIC padding seed. *)
Definition obfuscatedQUICSelected (d : DialParameters) : Prop :=
  protocol.QUICVersionIsObfuscated (QUICVersion d) = true ->
  ObfuscatedQUICPaddingSeed d <> None.

(** The transform that a block keeps of the parameters it has made: none
    without a spec. *)
Definition withSpec (params : transforms.ObfuscatorSeedTransformerParameters)
    : option transforms.ObfuscatorSeedTransformerParameters :=
  match transforms.TransformSpec params with
  | Some _ => Some params
  | None => None
  end.

(** Lines 784-807: the obfuscated QUIC nonce transformer is made by
    [makeSeedTransformerParameters], unless the server entry disables it. *)
Definition nonceTransformerSelected (serverEntry : protocol.ServerEntry)
    (p : parameters.ParametersAccessor) (d : DialParameters) : Prop :=
  protocol.QUICVersionIsObfuscated (QUICVersion d) = true ->
  protocol.DisableObfuscatedQUICTransforms serverEntry = false ->
  exists params s s',
    makeSeedTransformerParameters p
      parameters.ObfuscatedQUICNonceTransformProbability
      parameters.ObfuscatedQUICNonceTransformSpecs
      parameters.ObfuscatedQUICNonceTransformScopedSpecNames s = (inr params, s')
    /\ ObfuscatedQUICNonceTransformerParameters d = withSpec params.

(** Lines 809-823: the liveness test and API request padding seeds. *)
Definition seedsSelected (d : DialParameters) : Prop :=
  LivenessTestSeed d <> None /\ APIRequestPaddingSeed d <> None.

(** Lines 825-844: for a dial that resolves a fronting domain, the resolve
    parameters are made by the resolver of the configuration. *)
Definition resolveParametersSelected (config : Config.t)
    (p : parameters.ParametersAccessor) (d : DialParameters) : Prop :=
  (protocol.TunnelProtocolUsesFrontedMeek (TunnelProtocol d)
   || ConjureAPIRegistration d)
  && negb (net_ParseIP (MeekFrontingDialAddress d)) = true ->
  exists rs r resolveParameters,
    Config.GetResolver config = Some rs
    /\ resolver.MakeResolveParameters rs p (FrontingProviderID d)
         (MeekFrontingDialAddress d) r = Ok resolveParameters
    /\ ResolveParameters d = Some resolveParameters.

(** Lines 866-928: for OSSH, the prefix is made by
    [makeOSSHPrefixSpecParameters] for the dial port, and the seed
    transform by [makeSeedTransformerParameters], and dropped when there is
    a prefix; unless the server entry disables them. *)
Definition osshTransformsSelected (serverEntry : protocol.ServerEntry)
    (p : parameters.ParametersAccessor) (d : DialParameters) : Prop :=
  TunnelProtocol d = protocol.TUNNEL_PROTOCOL_OBFUSCATED_SSH ->
  (protocol.DisableOSSHPrefix serverEntry = false ->
   exists dialPortNumber prefixSpec s s',
     protocol.GetDialPortNumber serverEntry (TunnelProtocol d) = Ok dialPortNumber
     /\ makeOSSHPrefixSpecParameters p (strconv_Itoa dialPortNumber) s
        = (inr prefixSpec, s')
     /\ OSSHPrefixSpec d
        = match obfuscator.OSSHPrefixSpec.Spec prefixSpec with
          | Some _ => Some prefixSpec
          | None => None
          end)
  /\ (protocol.DisableOSSHTransforms serverEntry = false ->
      exists params s s',
        makeSeedTransformerParameters p
          parameters.OSSHObfuscatorSeedTransformProbability
          parameters.OSSHObfuscatorSeedTransformSpecs
          parameters.OSSHObfuscatorSeedTransformScopedSpecNames s = (inr params, s')
        /\ OSSHObfuscatorSeedTransformerParameters d
           = match OSSHPrefixSpec d with
             | Some _ => None
             | None => withSpec params
             end).

(** Lines 930-951: for meek over HTTP, the HTTP transformer is made by
    [makeHTTPTransformerParameters], unless the server entry disables
    it. *)
Definition httpTransformerSelected (config : Config.t)
    (serverEntry : protocol.ServerEntry) (d : DialParameters) : Prop :=
  protocol.TunnelProtocolUsesMeekHTTP (TunnelProtocol d) = true ->
  protocol.DisableHTTPTransforms serverEntry = false ->
  exists params s s',
    makeHTTPTransformerParameters (parameters.Get (Config.GetParameters config))
      (protocol.FrontingProviderID serverEntry)
      (protocol.TunnelProtocolUsesFrontedMeek (TunnelProtocol d)) s = (inr params, s')
    /\ HTTPTransformerParameters d
       = match transforms.ProtocolTransformSpec params with
         | Some _ => Some params
         | None => None
         end.

(** Lines 1067-1081: for a dial that takes a User-Agent, whether one is
    selected and which are a result of [selectUserAgentIfUnset] on the
    custom headers of the dial. *)
Definition userAgentSelected (config : Config.t) (p : parameters.ParametersAccessor)
    (d : DialParameters) : Prop :=
  takesUserAgent d = true ->
  exists s s',
    selectUserAgentIfUnset p (makeDialCustomHeaders config p) s
    = (inr (SelectedUserAgent d, UserAgent d), s').

(** The selections up to the host names (lines 395-746). *)
Definition selectedUpToHostNames (config : Config.t) (serverEntry : protocol.ServerEntry)
    (p : parameters.ParametersAccessor) (d : DialParameters) : Prop :=
  latencySelected config d
  /\ sshSelected d
  /\ paddingSelected d
  /\ fragmentorSelected d
  /\ conjureRegistrationSelected p d
  /\ conjureTransportSelected p d
  /\ tlsProfileSelected serverEntry p d
  /\ frontingSelected serverEntry d
  /\ hostNamesSelected p d.

(** The selections from the QUIC version on (lines 748-1081). *)
Definition selectedFromQUICVersion (config : Config.t)
    (serverEntry : protocol.ServerEntry) (p : parameters.ParametersAccessor)
    (d : DialParameters) : Prop :=
  quicVersionSelected serverEntry p d
  /\ obfuscatedQUICSelected d
  /\ nonceTransformerSelected serverEntry p d
  /\ seedsSelected d
  /\ resolveParametersSelected config p d
  /\ osshTransformsSelected serverEntry p d
  /\ httpTransformerSelected config serverEntry d
  /\ userAgentSelected config p d.

(** Every selection is made in this pass. *)
Definition selectedAfresh (config : Config.t) (serverEntry : protocol.ServerEntry)
    (d : DialParameters) : Prop :=
  let p := parameters.GetCustom (Config.GetParameters config)
             (NetworkLatencyMultiplier d) in
  selectedUpToHostNames config serverEntry p d
  /\ selectedFromQUICVersion config serverEntry p d.

(** The fields that the selections are read off, block by block. *)
Definition sshFields (d : DialParameters) :=
  (SelectedSSHClientVersion d, SSHClientVersion d, SSHKEXSeed d).

Definition paddingFields (d : DialParameters) :=
  (TunnelProtocol d, ObfuscatorPaddingSeed d, MeekObfuscatorPaddingSeed d,
   TLSOSSHObfuscatorPaddingSeed d).

Definition conjureRegistrationFields (d : DialParameters) :=
  (ConjureCachedRegistrationTTL d, ConjureAPIRegistration d,
   ConjureAPIRegistrarBidirectionalURL d, ConjureDecoyRegistration d,
   ConjureDecoyRegistrarWidth d).

Definition tlsProfileFields (d : DialParameters) :=
  (SelectedTLSProfile d, TLSProfile d, TLSVersion d, RandomizedTLSProfileSeed d).

Definition frontingFields (d : DialParameters) :=
  (FrontingProviderID d, MeekFrontingDialAddress d, MeekFrontingHost d).

Definition hostNameFields (d : DialParameters) :=
  (TLSOSSHSNIServerName d, TLSOSSHTransformedSNIServerName d, QUICDialSNIAddress d).

(** All of them, for the selections up to the host names; no later block
    assigns any. *)
Definition headFields (d : DialParameters) :=
  (TunnelProtocol d, NetworkLatencyMultiplier d, sshFields d, paddingFields d,
   FragmentorSeed d, conjureRegistrationFields d, ConjureTransport d,
   tlsProfileFields d, frontingFields d, hostNameFields d).

(** What [takesUserAgent] reads. *)
Definition userAgentInputs (d : DialParameters) :=
  (TunnelProtocol d, UpstreamProxyType d, ConjureAPIRegistration d).

End Engine.

(** * The QUIC configuration ([quic/config.go])

    [validateConfig], [populateConfig], [populateServerConfig] and
    [handshakeTimeout].  The struct [Config] is declared in another file of
    the package; its fields are the ones that [populateConfig] lists, the
    ones that this file only copies kept at abstract types. *)

Module quic.

(** [int64] arithmetic wraps around. *)
Definition int64 (z : Z) : Z := (z + 2 ^ 63) mod 2 ^ 64 - 2 ^ 63.

Module protocol.
(** [protocol.VersionNumber], an unsigned number. *)
Definition VersionNumber := Z.

(** What the package [internal/protocol] provides. *)
Class Package := {
  SupportedVersions : list VersionNumber;
  IsValidVersion : VersionNumber -> bool;
  (** [VersionNumber.String] *)
  VersionString : VersionNumber -> string;
  DefaultHandshakeTimeout : time.Duration;
  DefaultHandshakeIdleTimeout : time.Duration;
  DefaultIdleTimeout : time.Duration;
  DefaultInitialMaxStreamData : Z;
  DefaultMaxReceiveStreamFlowControlWindow : Z;
  DefaultInitialMaxData : Z;
  DefaultMaxReceiveConnectionFlowControlWindow : Z;
  DefaultMaxIncomingStreams : Z;
  DefaultMaxIncomingUniStreams : Z;
  TokenValidity : time.Duration;
  RetryTokenValidity : time.Duration;
}.
End protocol.

(** The types of the callbacks and interfaces that a [Config] holds. *)
Class Callbacks := {
  Addr : Type;
  GetConfigForClientFunc : Type;
  AllowConnectionWindowIncreaseFunc : Type;
  TokenStore : Type;
  TracerFunc : Type;
  GetClientHelloRandomFunc : Type;
  VerifyClientHelloRandomFunc : Type;
}.

Section Config.
Context `{!protocol.Package, !Callbacks}.

Record Config := {
  GetConfigForClient : option GetConfigForClientFunc;
  Versions : list protocol.VersionNumber;
  HandshakeIdleTimeout : time.Duration;
  MaxIdleTimeout : time.Duration;
  MaxTokenAge : time.Duration;
  MaxRetryTokenAge : time.Duration;
  RequireAddressValidation : option (Addr -> bool);
  KeepAlivePeriod : time.Duration;
  InitialStreamReceiveWindow : Z;
  MaxStreamReceiveWindow : Z;
  InitialConnectionReceiveWindow : Z;
  MaxConnectionReceiveWindow : Z;
  AllowConnectionWindowIncrease : option AllowConnectionWindowIncreaseFunc;
  MaxIncomingStreams : Z;
  MaxIncomingUniStreams : Z;
  TokenStore_ : option TokenStore;
  EnableDatagrams : bool;
  DisablePathMTUDiscovery : bool;
  DisableVersionNegotiationPackets : bool;
  Allow0RTT : bool;
  Tracer : option TracerFunc;
  ClientHelloSeed : option prng.Seed;
  GetClientHelloRandom : option GetClientHelloRandomFunc;
  VerifyClientHelloRandom : option VerifyClientHelloRandomFunc;
  ClientMaxPacketSizeAdjustment : Z;
  ServerMaxPacketSizeAdjustment : Z;
}.

(** The zero value [&Config{}]. *)
Definition Config_zero : Config :=
  {| GetConfigForClient := None; Versions := []; HandshakeIdleTimeout := 0;
     MaxIdleTimeout := 0; MaxTokenAge := 0; MaxRetryTokenAge := 0;
     RequireAddressValidation := None; KeepAlivePeriod := 0;
     InitialStreamReceiveWindow := 0; MaxStreamReceiveWindow := 0;
     InitialConnectionReceiveWindow := 0; MaxConnectionReceiveWindow := 0;
     AllowConnectionWindowIncrease := None; MaxIncomingStreams := 0;
     MaxIncomingUniStreams := 0; TokenStore_ := None; EnableDatagrams := false;
     DisablePathMTUDiscovery := false; DisableVersionNegotiationPackets := false;
     Allow0RTT := false; Tracer := None; ClientHelloSeed := None;
     GetClientHelloRandom := None; VerifyClientHelloRandom := None;
     ClientMaxPacketSizeAdjustment := 0; ServerMaxPacketSizeAdjustment := 0 |}.

(** [utils.Max] *)
Definition utils_Max (a b : Z) : Z := if a <? b then b else a.

(** [c.handshakeTimeout()] *)
Definition handshakeTimeout (c : Config) : time.Duration :=
  utils_Max protocol.DefaultHandshakeTimeout (int64 (2 * HandshakeIdleTimeout c)).

(** The loop of [validateConfig] over [config.Versions]. *)
Fixpoint validateVersions (versions : list protocol.VersionNumber) : option error :=
  match versions with
  | [] => None
  | v :: rest =>
    if negb (protocol.IsValidVersion v) then
      Some (String.append "invalid QUIC version: " (protocol.VersionString v))
    else validateVersions rest
  end.

(** [validateConfig] *)
Definition validateConfig (config : option Config) : option error :=
  match config with
  | None => None
  | Some config =>
    if Z.shiftl 1 60 <? MaxIncomingStreams config then
      Some "invalid value for Config.MaxIncomingStreams"
    else if Z.shiftl 1 60 <? MaxIncomingUniStreams config then
      Some "invalid value for Config.MaxIncomingUniStreams"
    else validateVersions (Versions config)
  end.

(** [populateConfig] *)
Definition populateConfig (config : option Config) : Config :=
  let config := match config with None => Config_zero | Some config => config end in
  let versions := Versions config in
  let versions :=
    if (length versions =? 0)%nat then protocol.SupportedVersions else versions in
  let handshakeIdleTimeout := protocol.DefaultHandshakeIdleTimeout in
  let handshakeIdleTimeout :=
    if negb (HandshakeIdleTimeout config =? 0) then HandshakeIdleTimeout config
    else handshakeIdleTimeout in
  let idleTimeout := protocol.DefaultIdleTimeout in
  let idleTimeout :=
    if negb (MaxIdleTimeout config =? 0) then MaxIdleTimeout config else idleTimeout in
  let initialStreamReceiveWindow := InitialStreamReceiveWindow config in
  let initialStreamReceiveWindow :=
    if initialStreamReceiveWindow =? 0 then protocol.DefaultInitialMaxStreamData
    else initialStreamReceiveWindow in
  let maxStreamReceiveWindow := MaxStreamReceiveWindow config in
  let maxStreamReceiveWindow :=
    if maxStreamReceiveWindow =? 0 then protocol.DefaultMaxReceiveStreamFlowControlWindow
    else maxStreamReceiveWindow in
  let initialConnectionReceiveWindow := InitialConnectionReceiveWindow config in
  let initialConnectionReceiveWindow :=
    if initialConnectionReceiveWindow =? 0 then protocol.DefaultInitialMaxData
    else initialConnectionReceiveWindow in
  let maxConnectionReceiveWindow := MaxConnectionReceiveWindow config in
  let maxConnectionReceiveWindow :=
    if maxConnectionReceiveWindow =? 0
    then protocol.DefaultMaxReceiveConnectionFlowControlWindow
    else maxConnectionReceiveWindow in
  let maxIncomingStreams := MaxIncomingStreams config in
  let maxIncomingStreams :=
    if maxIncomingStreams =? 0 then protocol.DefaultMaxIncomingStreams
    else if maxIncomingStreams <? 0 then 0
    else maxIncomingStreams in
  let maxIncomingUniStreams := MaxIncomingUniStreams config in
  let maxIncomingUniStreams :=
    if maxIncomingUniStreams =? 0 then protocol.DefaultMaxIncomingUniStreams
    else if maxIncomingUniStreams <? 0 then 0
    else maxIncomingUniStreams in
  {| GetConfigForClient := GetConfigForClient config;
     Versions := versions;
     HandshakeIdleTimeout := handshakeIdleTimeout;
     MaxIdleTimeout := idleTimeout;
     MaxTokenAge := MaxTokenAge config;
     MaxRetryTokenAge := MaxRetryTokenAge config;
     RequireAddressValidation := RequireAddressValidation config;
     KeepAlivePeriod := KeepAlivePeriod config;
     InitialStreamReceiveWindow := initialStreamReceiveWindow;
     MaxStreamReceiveWindow := maxStreamReceiveWindow;
     InitialConnectionReceiveWindow := initialConnectionReceiveWindow;
     MaxConnectionReceiveWindow := maxConnectionReceiveWindow;
     AllowConnectionWindowIncrease := AllowConnectionWindowIncrease config;
     MaxIncomingStreams := maxIncomingStreams;
     MaxIncomingUniStreams := maxIncomingUniStreams;
     TokenStore_ := TokenStore_ config;
     EnableDatagrams := EnableDatagrams config;
     DisablePathMTUDiscovery := DisablePathMTUDiscovery config;
     DisableVersionNegotiationPackets := DisableVersionNegotiationPackets config;
     Allow0RTT := Allow0RTT config;
     Tracer := Tracer config;
     ClientHelloSeed := ClientHelloSeed config;
     GetClientHelloRandom := GetClientHelloRandom config;
     VerifyClientHelloRandom := VerifyClientHelloRandom config;
     ClientMaxPacketSizeAdjustment := ClientMaxPacketSizeAdjustment config;
     ServerMaxPacketSizeAdjustment := ServerMaxPacketSizeAdjustment config |}.

Definition set_MaxTokenAge (v : time.Duration) (c : Config) : Config :=
  {| GetConfigForClient := GetConfigForClient c;
     Versions := Versions c;
     HandshakeIdleTimeout := HandshakeIdleTimeout c;
     MaxIdleTimeout := MaxIdleTimeout c;
     MaxTokenAge := v;
     MaxRetryTokenAge := MaxRetryTokenAge c;
     RequireAddressValidation := RequireAddressValidation c;
     KeepAlivePeriod := KeepAlivePeriod c;
     InitialStreamReceiveWindow := InitialStreamReceiveWindow c;
     MaxStreamReceiveWindow := MaxStreamReceiveWindow c;
     InitialConnectionReceiveWindow := InitialConnectionReceiveWindow c;
     MaxConnectionReceiveWindow := MaxConnectionReceiveWindow c;
     AllowConnectionWindowIncrease := AllowConnectionWindowIncrease c;
     MaxIncomingStreams := MaxIncomingStreams c;
     MaxIncomingUniStreams := MaxIncomingUniStreams c;
     TokenStore_ := TokenStore_ c;
     EnableDatagrams := EnableDatagrams c;
     DisablePathMTUDiscovery := DisablePathMTUDiscovery c;
     DisableVersionNegotiationPackets := DisableVersionNegotiationPackets c;
     Allow0RTT := Allow0RTT c;
     Tracer := Tracer c;
     ClientHelloSeed := ClientHelloSeed c;
     GetClientHelloRandom := GetClientHelloRandom c;
     VerifyClientHelloRandom := VerifyClientHelloRandom c;
     ClientMaxPacketSizeAdjustment := ClientMaxPacketSizeAdjustment c;
     ServerMaxPacketSizeAdjustment := ServerMaxPacketSizeAdjustment c |}.

Definition set_MaxRetryTokenAge (v : time.Duration) (c : Config) : Config :=
  {| GetConfigForClient := GetConfigForClient c;
     Versions := Versions c;
     HandshakeIdleTimeout := HandshakeIdleTimeout c;
     MaxIdleTimeout := MaxIdleTimeout c;
     MaxTokenAge := MaxTokenAge c;
     MaxRetryTokenAge := v;
     RequireAddressValidation := RequireAddressValidation c;
     KeepAlivePeriod := KeepAlivePeriod c;
     InitialStreamReceiveWindow := InitialStreamReceiveWindow c;
     MaxStreamReceiveWindow := MaxStreamReceiveWindow c;
     InitialConnectionReceiveWindow := InitialConnectionReceiveWindow c;
     MaxConnectionReceiveWindow := MaxConnectionReceiveWindow c;
     AllowConnectionWindowIncrease := AllowConnectionWindowIncrease c;
     MaxIncomingStreams := MaxIncomingStreams c;
     MaxIncomingUniStreams := MaxIncomingUniStreams c;
     TokenStore_ := TokenStore_ c;
     EnableDatagrams := EnableDatagrams c;
     DisablePathMTUDiscovery := DisablePathMTUDiscovery c;
     DisableVersionNegotiationPackets := DisableVersionNegotiationPackets c;
     Allow0RTT := Allow0RTT c;
     Tracer := Tracer c;
     ClientHelloSeed := ClientHelloSeed c;
     GetClientHelloRandom := GetClientHelloRandom c;
     VerifyClientHelloRandom := VerifyClientHelloRandom c;
     ClientMaxPacketSizeAdjustment := ClientMaxPacketSizeAdjustment c;
     ServerMaxPacketSizeAdjustment := ServerMaxPacketSizeAdjustment c |}.

Definition set_RequireAddressValidation (v : option (Addr -> bool)) (c : Config)
    : Config :=
  {| GetConfigForClient := GetConfigForClient c;
     Versions := Versions c;
     HandshakeIdleTimeout := HandshakeIdleTimeout c;
     MaxIdleTimeout := MaxIdleTimeout c;
     MaxTokenAge := MaxTokenAge c;
     MaxRetryTokenAge := MaxRetryTokenAge c;
     RequireAddressValidation := v;
     KeepAlivePeriod := KeepAlivePeriod c;
     InitialStreamReceiveWindow := InitialStreamReceiveWindow c;
     MaxStreamReceiveWindow := MaxStreamReceiveWindow c;
     InitialConnectionReceiveWindow := InitialConnectionReceiveWindow c;
     MaxConnectionReceiveWindow := MaxConnectionReceiveWindow c;
     AllowConnectionWindowIncrease := AllowConnectionWindowIncrease c;
     MaxIncomingStreams := MaxIncomingStreams c;
     MaxIncomingUniStreams := MaxIncomingUniStreams c;
     TokenStore_ := TokenStore_ c;
     EnableDatagrams := EnableDatagrams c;
     DisablePathMTUDiscovery := DisablePathMTUDiscovery c;
     DisableVersionNegotiationPackets := DisableVersionNegotiationPackets c;
     Allow0RTT := Allow0RTT c;
     Tracer := Tracer c;
     ClientHelloSeed := ClientHelloSeed c;
     GetClientHelloRandom := GetClientHelloRandom c;
     VerifyClientHelloRandom := VerifyClientHelloRandom c;
     ClientMaxPacketSizeAdjustment := ClientMaxPacketSizeAdjustment c;
     ServerMaxPacketSizeAdjustment := ServerMaxPacketSizeAdjustment c |}.

(** [populateServerConfig] *)
Definition populateServerConfig (config : option Config) : Config :=
  let config := populateConfig config in
  let config :=
    if MaxTokenAge config =? 0 then set_MaxTokenAge protocol.TokenValidity config
    else config in
  let config :=
    if MaxRetryTokenAge config =? 0
    then set_MaxRetryTokenAge protocol.RetryTokenValidity config
    else config in
  let config :=
    match RequireAddressValidation config with
    | None => set_RequireAddressValidation (Some (fun _ => false)) config
    | Some _ => config
    end in
  config.

(** The constants of [internal/protocol] as the package has them: a
    version list that is not empty and holds valid versions only, and
    defaults that are positive and within the limit that [validateConfig]
    sets. *)
Definition sound : Prop :=
  protocol.SupportedVersions <> []
  /\ (forall v, In v protocol.SupportedVersions -> protocol.IsValidVersion v = true)
  /\ 0 < protocol.DefaultHandshakeIdleTimeout
  /\ 0 < protocol.DefaultIdleTimeout
  /\ 0 < protocol.DefaultInitialMaxStreamData
  /\ 0 < protocol.DefaultMaxReceiveStreamFlowControlWindow
  /\ 0 < protocol.DefaultInitialMaxData
  /\ 0 < protocol.DefaultMaxReceiveConnectionFlowControlWindow
  /\ 0 < protocol.DefaultMaxIncomingStreams <= 2 ^ 60
  /\ 0 < protocol.DefaultMaxIncomingUniStreams <= 2 ^ 60
  /\ 0 < protocol.TokenValidity
  /\ 0 < protocol.RetryTokenValidity.

(** A configuration in which nothing is left unset. *)
Definition populated (c : Config) : Prop :=
  Versions c <> []
  /\ HandshakeIdleTimeout c <> 0
  /\ MaxIdleTimeout c <> 0
  /\ InitialStreamReceiveWindow c <> 0
  /\ MaxStreamReceiveWindow c <> 0
  /\ InitialConnectionReceiveWindow c <> 0
  /\ MaxConnectionReceiveWindow c <> 0
  /\ 0 <= MaxIncomingStreams c
  /\ 0 <= MaxIncomingUniStreams c.

End Config.
End quic.

(** * A concrete environment

    One instance of every imported package, and inputs built on it, for the
    examples that accompany the theorems.  The protocol package follows the
    names and the families of tunnel protocols of section 4.G.23 of the
    specification. *)

Module Example.

(** Modelled from the spec: the constants and predicates of the package
    [protocol] (not among the sources), by protocol family as in the table
    of section 4.G.23 and the conditions of sections 4.E and 4.G. *)
Definition isOneOf (s : string) (l : list string) : bool := existsb (String.eqb s) l.

#[export] Instance protocolPackage : protocol.Package := {|
  protocol.TUNNEL_PROTOCOL_SSH := "SSH";
  protocol.TUNNEL_PROTOCOL_OBFUSCATED_SSH := "OSSH";
  protocol.TUNNEL_PROTOCOL_TLS_OBFUSCATED_SSH := "TLS-OSSH";
  protocol.TUNNEL_PROTOCOL_UNFRONTED_MEEK := "UNFRONTED-MEEK-OSSH";
  protocol.TUNNEL_PROTOCOL_UNFRONTED_MEEK_HTTPS := "UNFRONTED-MEEK-HTTPS-OSSH";
  protocol.TUNNEL_PROTOCOL_UNFRONTED_MEEK_SESSION_TICKET :=
    "UNFRONTED-MEEK-SESSION-TICKET-OSSH";
  protocol.TUNNEL_PROTOCOL_FRONTED_MEEK := "FRONTED-MEEK-OSSH";
  protocol.TUNNEL_PROTOCOL_FRONTED_MEEK_HTTP := "FRONTED-MEEK-HTTP-OSSH";
  protocol.TUNNEL_PROTOCOL_QUIC_OBFUSCATED_SSH := "QUIC-OSSH";
  protocol.TUNNEL_PROTOCOL_FRONTED_MEEK_QUIC_OBFUSCATED_SSH := "FRONTED-MEEK-QUIC-OSSH";
  protocol.TUNNEL_PROTOCOL_TAPDANCE_OBFUSCATED_SSH := "TAPDANCE-OSSH";
  protocol.TUNNEL_PROTOCOL_CONJURE_OBFUSCATED_SSH := "CONJURE-OSSH";

  protocol.QUIC_VERSION_V1 := "QUICv1";
  protocol.QUIC_VERSION_RANDOMIZED_V1 := "RANDOMIZED-QUICv1";
  protocol.QUIC_VERSION_OBFUSCATED_V1 := "OBFUSCATED-QUICv1";
  protocol.QUIC_VERSION_DECOY_V1 := "DECOY-QUICv1";

  protocol.SupportedTunnelProtocols :=
    [ "SSH"; "OSSH"; "TLS-OSSH"; "UNFRONTED-MEEK-OSSH"; "UNFRONTED-MEEK-HTTPS-OSSH";
      "UNFRONTED-MEEK-SESSION-TICKET-OSSH"; "FRONTED-MEEK-OSSH";
      "FRONTED-MEEK-HTTP-OSSH"; "QUIC-OSSH"; "FRONTED-MEEK-QUIC-OSSH";
      "TAPDANCE-OSSH"; "CONJURE-OSSH" ];
  protocol.SupportedTLSProfiles := [ "Chrome-120"; "Firefox-105"; "Randomized-v2" ];
  protocol.SupportedQUICVersions :=
    [ "gQUICv44"; "OBFUSCATED"; "QUICv1"; "RANDOMIZED-QUICv1"; "OBFUSCATED-QUICv1";
      "DECOY-QUICv1" ];
  protocol.SupportedQUICv1Versions :=
    [ "QUICv1"; "RANDOMIZED-QUICv1"; "OBFUSCATED-QUICv1"; "DECOY-QUICv1" ];
  protocol.SupportedConjureTransports := [ "Min-OSSH"; "Prefix-OSSH"; "DTLS-OSSH" ];

  protocol.TunnelProtocolUsesTCP tp :=
    negb (isOneOf tp [ "QUIC-OSSH"; "FRONTED-MEEK-QUIC-OSSH" ]);
  protocol.TunnelProtocolUsesMeek tp :=
    isOneOf tp [ "UNFRONTED-MEEK-OSSH"; "UNFRONTED-MEEK-HTTPS-OSSH";
                 "UNFRONTED-MEEK-SESSION-TICKET-OSSH"; "FRONTED-MEEK-OSSH";
                 "FRONTED-MEEK-HTTP-OSSH"; "FRONTED-MEEK-QUIC-OSSH" ];
  protocol.TunnelProtocolUsesMeekHTTP tp :=
    isOneOf tp [ "UNFRONTED-MEEK-OSSH"; "FRONTED-MEEK-HTTP-OSSH" ];
  protocol.TunnelProtocolUsesMeekHTTPS tp :=
    isOneOf tp [ "UNFRONTED-MEEK-HTTPS-OSSH"; "UNFRONTED-MEEK-SESSION-TICKET-OSSH";
                 "FRONTED-MEEK-OSSH" ];
  protocol.TunnelProtocolUsesFrontedMeek tp :=
    isOneOf tp [ "FRONTED-MEEK-OSSH"; "FRONTED-MEEK-HTTP-OSSH"; "FRONTED-MEEK-QUIC-OSSH" ];
  protocol.TunnelProtocolUsesFrontedMeekQUIC tp := isOneOf tp [ "FRONTED-MEEK-QUIC-OSSH" ];
  protocol.TunnelProtocolUsesQUIC tp := isOneOf tp [ "QUIC-OSSH"; "FRONTED-MEEK-QUIC-OSSH" ];
  protocol.TunnelProtocolUsesTLSOSSH tp := isOneOf tp [ "TLS-OSSH" ];
  protocol.TunnelProtocolUsesConjure tp := isOneOf tp [ "CONJURE-OSSH" ];
  protocol.TunnelProtocolSupportsUpstreamProxy tp :=
    negb (isOneOf tp [ "QUIC-OSSH"; "FRONTED-MEEK-QUIC-OSSH"; "TAPDANCE-OSSH";
                       "CONJURE-OSSH" ]);
  protocol.TunnelProtocolRequiresTLS12SessionTickets tp :=
    isOneOf tp [ "UNFRONTED-MEEK-SESSION-TICKET-OSSH" ];
  protocol.TunnelProtocolRequiresTLS13Support tp := isOneOf tp [ "TLS-OSSH" ];
  protocol.AllowServerEntrySourceWithUpstreamProxy source :=
    isOneOf source [ "EMBEDDED"; "REMOTE" ];
  protocol.ConjureTransportUsesSTUN transport := isOneOf transport [ "DTLS-OSSH" ];
  protocol.QUICVersionHasRandomizedClientHello v := isOneOf v [ "RANDOMIZED-QUICv1" ];
  protocol.QUICVersionUsesPathMTUDiscovery v :=
    isOneOf v [ "QUICv1"; "RANDOMIZED-QUICv1"; "OBFUSCATED-QUICv1"; "DECOY-QUICv1" ];
  protocol.QUICVersionIsObfuscated v :=
    isOneOf v [ "OBFUSCATED"; "OBFUSCATED-QUICv1"; "DECOY-QUICv1" ];

  protocol.GetDialPortNumber serverEntry tp :=
    if isOneOf tp [ "UNFRONTED-MEEK-OSSH"; "UNFRONTED-MEEK-HTTPS-OSSH";
                    "UNFRONTED-MEEK-SESSION-TICKET-OSSH" ]
    then Ok (protocol.MeekServerPort serverEntry)
    else Ok 443;
  protocol.SupportsOnlyQUICv1 serverEntry := false;
  protocol.SupportsProtocol serverEntry tp := true;
  protocol.GetDiagnosticID serverEntry := protocol.IpAddress serverEntry;
|}.

(** A coin that follows its weight at the two ends and the parity of the
    draw in between; the least value of a range. *)
#[export] Instance prngPackage : prng.Package := {|
  prng.FlipWeightedCoin weight r :=
    if PrimFloat.leb 1 weight then true
    else if PrimFloat.leb weight 0 then false
    else N.odd r;
  prng.ExpFloat64Range min max lambda r := min;
  prng.Period min max r := min;
|}.

(** The first spec of the table, under its name. *)
#[export] Instance transformsPackage : transforms.Package := {|
  transforms.Select specs scope scopedSpecNames r :=
    match map_to_list specs with
    | [] => ("", None)
    | (name, spec) :: _ => (name, Some spec)
    end;
|}.

(** An IPv4 address in dotted decimal, which is what [net.ParseIP] accepts
    among the strings of the examples. *)
Definition isDigit (c : ascii) : bool :=
  (48 <=? nat_of_ascii c)%nat && (nat_of_ascii c <=? 57)%nat.

Fixpoint ipv4Fields (s : string) (digits value fields : nat) : bool :=
  match s with
  | EmptyString => (0 <? digits)%nat && (value <=? 255)%nat && (fields =? 3)%nat
  | String c rest =>
    if Ascii.eqb c "."%char then
      (0 <? digits)%nat && (value <=? 255)%nat && ipv4Fields rest 0 0 (S fields)
    else
      isDigit c && (digits <? 3)%nat
      && ipv4Fields rest (S digits) (10 * value + (nat_of_ascii c - 48)) fields
  end.

Definition isIPv4 (s : string) : bool := ipv4Fields s 0 0 0.

(** A pattern of literal characters, where a backslash quotes the next
    character, generates itself. *)
Fixpoint unquote (pattern : string) : string :=
  match pattern with
  | EmptyString => EmptyString
  | String c rest =>
    if Ascii.eqb c "\"%char then
      match rest with
      | EmptyString => EmptyString
      | String c' rest' => String c' (unquote rest')
      end
    else String c (unquote rest)
  end.

Fixpoint decimal (fuel : nat) (n : nat) (acc : string) : string :=
  match fuel with
  | O => acc
  | S fuel' =>
    let acc' := String (ascii_of_nat (48 + n mod 10)) acc in
    if (n <? 10)%nat then acc' else decimal fuel' (n / 10) acc'
  end.

Definition hostOf (hostport : string) : string :=
  (fix go (s : string) : string :=
     match s with
     | EmptyString => EmptyString
     | String c rest => if Ascii.eqb c ":"%char then EmptyString else String c (go rest)
     end) hostport.

Definition schemeOf (url : string) : string := hostOf url.

#[export] Instance external : External := {|
  values_GetSSHClientVersion r := "SSH-2.0-OpenSSH_9.6";
  values_GetHostName r := "www.example.org";
  values_GetUserAgent r := "Mozilla/5.0";
  regen_GenerateString pattern r := Ok (unquote pattern);
  net_ParseIP := isIPv4;
  net_JoinHostPort host port := String.append host (String.append ":" port);
  net_SplitHostPort := hostOf;
  strconv_Itoa n := decimal 20 (Z.to_nat n) "";
  md5_Sum data := data;
  common_SafeParseURL url := Ok (schemeOf url);
  fragmentor_NewUpstreamConfig p tunnelProtocol seed := None;
  SelectTLSProfile requireTLS12SessionTickets requireTLS13Support isFronted
      frontingProviderID p r := Ok ("Chrome-120", "TLSv1.3", None);
  ClientBPFEnabled := false;
|}.

(** Tactics: every getter at its zero value, the replay flags set, and a
    TTL of one hour; then single parameters changed. *)
Definition hour : time.Duration := 3600000000000.

Definition replayFlags : list string :=
  [ parameters.ReplayBPF; parameters.ReplaySSH; parameters.ReplayObfuscatorPadding;
    parameters.ReplayFragmentor; parameters.ReplayTLSProfile;
    parameters.ReplayTLSFragmentClientHello; parameters.ReplayFronting;
    parameters.ReplayHostname; parameters.ReplayQUICVersion;
    parameters.ReplayObfuscatedQUIC; parameters.ReplayObfuscatedQUICNonceTransformer;
    parameters.ReplayConjureRegistration; parameters.ReplayConjureTransport;
    parameters.ReplayLivenessTest; parameters.ReplayUserAgent;
    parameters.ReplayAPIRequestPadding; parameters.ReplayHoldOffTunnel;
    parameters.ReplayResolveParameters; parameters.ReplayHTTPTransformerParameters;
    parameters.ReplayOSSHSeedTransformerParameters; parameters.ReplayOSSHPrefix ].

Definition noFrontingSpecs : parameters.FrontingSpecs :=
  {| parameters.SelectParameters r := Err "missing fronting spec" |}.

(** Overrides of single parameters, by name. *)
Record Overrides := {
  bools : list (string * bool);
  floats : list (string * float);
  strings : list (string * string);
  stringLists : list (string * list string);
  ints : list (string * Z);
  headers : list (string * http.Header);
  specs : list (string * transforms.Specs);
  frontingSpecs : list (string * parameters.FrontingSpecs);
}.

Definition noOverrides : Overrides :=
  {| bools := []; floats := []; strings := []; stringLists := []; ints := [];
     headers := []; specs := []; frontingSpecs := [] |}.

Fixpoint lookup {A} (l : list (string * A)) (name : string) (default : A) : A :=
  match l with
  | [] => default
  | (n, v) :: rest => if String.eqb n name then v else lookup rest name default
  end.

Definition tactics (tag : string) (o : Overrides) : parameters.ParametersAccessor := {|
  parameters.Tag := tag;
  parameters.Bool name := lookup (bools o) name (isOneOf name replayFlags);
  parameters.Int name := lookup (ints o) name 0;
  parameters.Float name := lookup (floats o) name 0%float;
  parameters.Duration name :=
    if String.eqb name parameters.ReplayDialParametersTTL then hour else 0;
  parameters.String name := lookup (strings o) name "";
  parameters.Strings name := lookup (stringLists o) name [];
  parameters.TunnelProtocols name := lookup (stringLists o) name [];
  parameters.LabeledTunnelProtocols name label := [];
  parameters.QUICVersions name := lookup (stringLists o) name [];
  parameters.LabeledQUICVersions name label := [];
  parameters.ConjureTransports name := lookup (stringLists o) name [];
  parameters.RegexStrings name := lookup (stringLists o) name [];
  parameters.HTTPHeaders name := lookup (headers o) name ∅;
  parameters.ProtocolTransformSpecs name := lookup (specs o) name ∅;
  parameters.ProtocolTransformScopedSpecNames name := ∅;
  parameters.FrontingSpecs_ name := lookup (frontingSpecs o) name noFrontingSpecs;
  parameters.BPFProgram name := (false, "", []);
|}.

Definition theResolver : resolver.Resolver :=
  {| resolver.MakeResolveParameters p frontingProviderID frontingDialDomain r :=
       Ok {| resolver.token := r |} |}.

Definition config (p : parameters.ParametersAccessor) (customHeaders : option http.Header)
    : Config.t := {|
  Config.GetNetworkID := "WIFI-home";
  Config.GetParameters := {| parameters.Get := p; parameters.GetCustom multiplier := p |};
  Config.GetResolver := Some theResolver;
  Config.UseUpstreamProxy := false;
  Config.UpstreamProxyURL := "";
  Config.CustomHeaders := customHeaders;
  Config.DisableReplay := false;
  Config.DisableSystemRootCAs := false;
  Config.TrustedCACertificatesFilename := "";
  Config.dialParametersHash := [];
|}.

Definition serverEntry : protocol.ServerEntry := {|
  protocol.IpAddress := "192.0.2.7";
  protocol.FrontingProviderID := "";
  protocol.LocalSource := "EMBEDDED";
  protocol.ConfigurationVersion := 1;
  protocol.LocalTimestamp := "2024-01-01T00:00:00Z";
  protocol.MeekServerPort := 443;
  protocol.MeekCookieEncryptionPublicKey := "";
  protocol.MeekObfuscatedKey := "";
  protocol.MeekFrontingHost := "";
  protocol.MeekFrontingHosts := [];
  protocol.MeekFrontingAddresses := [];
  protocol.MeekFrontingAddressesRegex := "";
  protocol.MeekFrontingDisableSNI := false;
  protocol.LimitQUICVersions := [];
  protocol.DisableHTTPTransforms := false;
  protocol.DisableObfuscatedQUICTransforms := false;
  protocol.DisableOSSHTransforms := false;
  protocol.DisableOSSHPrefix := false;
|}.

(** A world at the time [t], with the records [r] in the datastore and
    entropy for eight seeds. *)
Definition world (t : time.Time) (r : gmap (string * string) DialParameters) : World := {|
  now := t;
  source := {| prng.draws := [];
               prng.seeds := [Some 1; Some 2; Some 3; Some 4;
                              Some 5; Some 6; Some 7; Some 8]%N |};
  datastore := {| records := r; failing := false |};
  calls := [];
|}.

Definition noon : time.Time := 63839880000000000000.

Definition always (tunnelProtocol : string) (serverEntry : protocol.ServerEntry)
    : string * bool := (tunnelProtocol, true).

Definition anyProtocol (serverEntry : protocol.ServerEntry) (replayProtocol : string)
    : bool := true.

(** Scenario S1 of the specification: a fresh OSSH dial with the OSSH
    prefix and the seed transform both certain to be selected. *)
Definition prefixTactics : parameters.ParametersAccessor :=
  tactics "prefix"
    {| bools := [];
       floats := [ (parameters.OSSHPrefixProbability, 1%float);
                   (parameters.OSSHObfuscatorSeedTransformProbability, 1%float) ];
       strings := []; stringLists := []; ints := []; headers := [];
       specs := [ (parameters.OSSHPrefixSpecs, {[ "prefix-1" := [("", "\x00")] ]});
                  (parameters.OSSHObfuscatorSeedTransformSpecs,
                   {[ "seed-1" := [("^.{6}", "000000")] ]}) ];
       frontingSpecs := [] |}.

(** Conjure with API registration, where the tactics transform the host
    name with a custom pattern that spells an IPv4 address. *)
Definition conjureTactics : parameters.ParametersAccessor :=
  tactics "conjure"
    {| bools := [];
       floats := [ (parameters.TransformHostNameProbability, 1%float);
                   (parameters.CustomHostNameProbability, 1%float) ];
       strings := [ (parameters.ConjureAPIRegistrarBidirectionalURL,
                     "https://registrar.example.org/api/register-bidirectional") ];
       stringLists := [ (parameters.CustomHostNameRegexes, [ "203\.0\.113\.9" ]) ];
       ints := []; headers := []; specs := [];
       frontingSpecs :=
         [ (parameters.ConjureAPIRegistrarFrontingSpecs,
            {| parameters.SelectParameters r :=
                 Ok ("provider-1", "front.example.org", "front.example.org",
                     "front.example.org", [], "registrar.example.org") |}) ] |}.

(** A record as it is after a replay of a stored OSSH record. *)
Definition replayedRecord : DialParameters :=
  set_IsReplay true
    (set_NetworkID "WIFI-home"
       (set_ServerEntry (Some serverEntry)
          (set_LastUsedTimestamp noon
             (set_TunnelProtocol "OSSH" DialParameters_zero)))).

(** Tactics that never retain the record of a failed replay (scenario S6). *)
Definition neverRetain : parameters.ParametersAccessor := tactics "never-retain" noOverrides.

(** ** Stored records

    [afterSuccess config tunnelProtocol t]: a fresh run at noon for the
    tunnel protocol, [Succeeded] on the record it returns, and then the
    world at the time [t] with the store as [Succeeded] left it. *)
Definition halfHour : time.Duration := 1800000000000.

Definition composed (r : option DialParameters * option error * World) : DialParameters :=
  match fst (fst r) with
  | Some dialParams => dialParams
  | None => DialParameters_zero
  end.

Definition afterSuccess (config : Config.t) (tunnelProtocol : string) (t : time.Time)
    : World :=
  let r := MakeDialParameters config anyProtocol (always tunnelProtocol) serverEntry
             false 0 0 (world noon ∅) in
  match Succeeded (composed r) (snd r) with
  | Some w => world t (records (datastore w))
  | None => world t ∅
  end.

Definition plainTactics : parameters.ParametersAccessor := tactics "plain" noOverrides.

Definition noProtocol (serverEntry : protocol.ServerEntry) (replayProtocol : string)
    : bool := false.

(** Scenario S3: a server entry that limits QUIC to a version that the
    tactics leave out. *)
Definition quicServerEntry : protocol.ServerEntry := {|
  protocol.IpAddress := "192.0.2.7";
  protocol.FrontingProviderID := "";
  protocol.LocalSource := "EMBEDDED";
  protocol.ConfigurationVersion := 1;
  protocol.LocalTimestamp := "2024-01-01T00:00:00Z";
  protocol.MeekServerPort := 443;
  protocol.MeekCookieEncryptionPublicKey := "";
  protocol.MeekObfuscatedKey := "";
  protocol.MeekFrontingHost := "";
  protocol.MeekFrontingHosts := [];
  protocol.MeekFrontingAddresses := [];
  protocol.MeekFrontingAddressesRegex := "";
  protocol.MeekFrontingDisableSNI := false;
  protocol.LimitQUICVersions := [ "gQUICv44" ];
  protocol.DisableHTTPTransforms := false;
  protocol.DisableObfuscatedQUICTransforms := false;
  protocol.DisableOSSHTransforms := false;
  protocol.DisableOSSHPrefix := false;
|}.

Definition quicTactics : parameters.ParametersAccessor :=
  tactics "quic"
    {| bools := []; floats := []; strings := [];
       stringLists := [ (parameters.LimitQUICVersions, [ "QUICv1" ]) ];
       ints := []; headers := []; specs := []; frontingSpecs := [] |}.

(** Scenario S5: the record made from an exchanged tunnel protocol at noon,
    in the store half an hour later. *)
Definition exchanged : ExchangedDialParameters.t :=
  {| ExchangedDialParameters.TunnelProtocol := "UNFRONTED-MEEK-HTTPS-OSSH" |}.

Definition exchangedWorld : World :=
  world (noon + halfHour)
    {[ ("192.0.2.7", "WIFI-home") :=
         ExchangedDialParameters_MakeDialParameters exchanged (config plainTactics None)
           plainTactics serverEntry noon ]}.

(** A stored record that this composer did not write.  It is the record
    of an SSH dial selected at noon in which both OSSH transforms are set. *)
Definition bothTransforms (R : DialParameters) : DialParameters :=
  set_OSSHObfuscatorSeedTransformerParameters
    (Some {| transforms.TransformName := "seed-1";
             transforms.TransformSpec := Some [("^.{6}", "000000")];
             transforms.TransformSeed := Some 2%N |})
    (set_OSSHPrefixSpec
       (Some {| obfuscator.OSSHPrefixSpec.Name := "prefix-1";
                obfuscator.OSSHPrefixSpec.Spec := Some [("", "\x00")];
                obfuscator.OSSHPrefixSpec.Seed := Some 1%N |})
       R).

Definition bothTransformsWorld : World :=
  world (noon + halfHour)
    {[ ("192.0.2.7", "WIFI-home") :=
         bothTransforms
           (composed (MakeDialParameters (config plainTactics None) anyProtocol
                        (always "SSH") serverEntry false 0 0 (world noon ∅))) ]}.

(** A stored record with [IsExchanged] that holds more than the exchanged
    tunnel protocol and the stamps: a QUIC version, for the SSH protocol. *)
Definition exchangedSSH : ExchangedDialParameters.t :=
  {| ExchangedDialParameters.TunnelProtocol := "SSH" |}.

Definition exchangedWithVersionWorld : World :=
  world (noon + halfHour)
    {[ ("192.0.2.7", "WIFI-home") :=
         set_QUICVersion "QUICv1"
           (ExchangedDialParameters_MakeDialParameters exchangedSSH
              (config plainTactics None) plainTactics serverEntry noon) ]}.

(** Custom headers in the configuration and in the tactics. *)
Definition configHeaders : http.Header :=
  {[ "X-Client" := [ "config" ]; "X-Both" := [ "config" ] ]}.

Definition headerTactics : parameters.ParametersAccessor :=
  tactics "headers"
    {| bools := []; floats := [ (parameters.PickUserAgentProbability, 1%float) ];
       strings := []; stringLists := []; ints := [];
       headers := [ (parameters.AdditionalCustomHeaders,
                     {[ "X-Tactics" := [ "tactics" ]; "X-Both" := [ "tactics" ] ]}) ];
       specs := []; frontingSpecs := [] |}.

(** Tactics that pick a User-Agent, and later tactics that carry a
    "User-Agent" header of their own and replay across the change; the
    configuration, too, comes to carry one. *)
Definition pickTactics : parameters.ParametersAccessor :=
  tactics "pick-user-agent"
    {| bools := []; floats := [ (parameters.PickUserAgentProbability, 1%float) ];
       strings := []; stringLists := []; ints := []; headers := []; specs := [];
       frontingSpecs := [] |}.

Definition userAgentTactics : parameters.ParametersAccessor :=
  tactics "user-agent-header"
    {| bools := [ (parameters.ReplayIgnoreChangedConfigState, true) ];
       floats := [ (parameters.PickUserAgentProbability, 1%float) ];
       strings := []; stringLists := []; ints := [];
       headers := [ (parameters.AdditionalCustomHeaders,
                     {[ "User-Agent" := [ "Tactics-Agent/2.0" ] ]}) ];
       specs := []; frontingSpecs := [] |}.

Definition userAgentConfig : Config.t :=
  config userAgentTactics (Some {[ "User-Agent" := [ "Config-Agent/1.0" ] ]}).

(** ** Further inputs

    A configuration without a resolver, and one that dials through an
    upstream HTTP proxy. *)
Definition withoutResolver (c : Config.t) : Config.t := {|
  Config.GetNetworkID := Config.GetNetworkID c;
  Config.GetParameters := Config.GetParameters c;
  Config.GetResolver := None;
  Config.UseUpstreamProxy := Config.UseUpstreamProxy c;
  Config.UpstreamProxyURL := Config.UpstreamProxyURL c;
  Config.CustomHeaders := Config.CustomHeaders c;
  Config.DisableReplay := Config.DisableReplay c;
  Config.DisableSystemRootCAs := Config.DisableSystemRootCAs c;
  Config.TrustedCACertificatesFilename := Config.TrustedCACertificatesFilename c;
  Config.dialParametersHash := Config.dialParametersHash c;
|}.

Definition throughProxy (c : Config.t) : Config.t := {|
  Config.GetNetworkID := Config.GetNetworkID c;
  Config.GetParameters := Config.GetParameters c;
  Config.GetResolver := Config.GetResolver c;
  Config.UseUpstreamProxy := true;
  Config.UpstreamProxyURL := "http://proxy.example.org:3128";
  Config.CustomHeaders := Config.CustomHeaders c;
  Config.DisableReplay := Config.DisableReplay c;
  Config.DisableSystemRootCAs := Config.DisableSystemRootCAs c;
  Config.TrustedCACertificatesFilename := Config.TrustedCACertificatesFilename c;
  Config.dialParametersHash := Config.dialParametersHash c;
|}.

(** Tactics with replay switched off: [ReplayDialParametersTTL] is zero. *)
Definition withoutTTL (p : parameters.ParametersAccessor) : parameters.ParametersAccessor := {|
  parameters.Tag := parameters.Tag p;
  parameters.Bool := parameters.Bool p;
  parameters.Int := parameters.Int p;
  parameters.Float := parameters.Float p;
  parameters.Duration name := 0;
  parameters.String := parameters.String p;
  parameters.Strings := parameters.Strings p;
  parameters.TunnelProtocols := parameters.TunnelProtocols p;
  parameters.LabeledTunnelProtocols := parameters.LabeledTunnelProtocols p;
  parameters.QUICVersions := parameters.QUICVersions p;
  parameters.LabeledQUICVersions := parameters.LabeledQUICVersions p;
  parameters.ConjureTransports := parameters.ConjureTransports p;
  parameters.RegexStrings := parameters.RegexStrings p;
  parameters.HTTPHeaders := parameters.HTTPHeaders p;
  parameters.ProtocolTransformSpecs := parameters.ProtocolTransformSpecs p;
  parameters.ProtocolTransformScopedSpecNames := parameters.ProtocolTransformScopedSpecNames p;
  parameters.FrontingSpecs_ := parameters.FrontingSpecs_ p;
  parameters.BPFProgram := parameters.BPFProgram p;
|}.

(** A [selectProtocol] that finds no protocol for the server entry. *)
Definition noneSelected (serverEntry : protocol.ServerEntry) : string * bool :=
  ("", false).

(** The world [w] with a datastore that fails every call. *)
Definition brokenStore (w : World) : World := {|
  now := now w;
  source := source w;
  datastore := {| records := records (datastore w); failing := true |};
  calls := calls w;
|}.

(** A fronted server entry, reached through the domain of its CDN. *)
Definition frontedServerEntry : protocol.ServerEntry := {|
  protocol.IpAddress := "192.0.2.7";
  protocol.FrontingProviderID := "provider-1";
  protocol.LocalSource := "EMBEDDED";
  protocol.ConfigurationVersion := 1;
  protocol.LocalTimestamp := "2024-01-01T00:00:00Z";
  protocol.MeekServerPort := 443;
  protocol.MeekCookieEncryptionPublicKey := "";
  protocol.MeekObfuscatedKey := "";
  protocol.MeekFrontingHost := "";
  protocol.MeekFrontingHosts := [ "host.test" ];
  protocol.MeekFrontingAddresses := [ "cdn.test" ];
  protocol.MeekFrontingAddressesRegex := "";
  protocol.MeekFrontingDisableSNI := false;
  protocol.LimitQUICVersions := [];
  protocol.DisableHTTPTransforms := false;
  protocol.DisableObfuscatedQUICTransforms := false;
  protocol.DisableOSSHTransforms := false;
  protocol.DisableOSSHPrefix := false;
|}.

Definition domainsOnlyTactics : parameters.ParametersAccessor :=
  tactics "domains-only"
    {| bools := [ (parameters.MeekDialDomainsOnly, true) ]; floats := [];
       strings := []; stringLists := []; ints := []; headers := []; specs := [];
       frontingSpecs := [] |}.

(** Conjure with API registration through a fronted registrar. *)
Definition registrarTactics : parameters.ParametersAccessor :=
  tactics "registrar"
    {| bools := []; floats := [];
       strings := [ (parameters.ConjureAPIRegistrarBidirectionalURL,
                     "https://reg.test/api/register-bidirectional") ];
       stringLists := []; ints := []; headers := []; specs := [];
       frontingSpecs :=
         [ (parameters.ConjureAPIRegistrarFrontingSpecs,
            {| parameters.SelectParameters r :=
                 Ok ("provider-1", "cdn.test", "cdn.test", "cdn.test", [],
                     "reg.test") |}) ] |}.

(** A server entry that switches every transform off. *)
Definition plainServerEntry : protocol.ServerEntry := {|
  protocol.IpAddress := "192.0.2.7";
  protocol.FrontingProviderID := "";
  protocol.LocalSource := "EMBEDDED";
  protocol.ConfigurationVersion := 1;
  protocol.LocalTimestamp := "2024-01-01T00:00:00Z";
  protocol.MeekServerPort := 443;
  protocol.MeekCookieEncryptionPublicKey := "";
  protocol.MeekObfuscatedKey := "";
  protocol.MeekFrontingHost := "";
  protocol.MeekFrontingHosts := [];
  protocol.MeekFrontingAddresses := [];
  protocol.MeekFrontingAddressesRegex := "";
  protocol.MeekFrontingDisableSNI := false;
  protocol.LimitQUICVersions := [];
  protocol.DisableHTTPTransforms := true;
  protocol.DisableObfuscatedQUICTransforms := true;
  protocol.DisableOSSHTransforms := true;
  protocol.DisableOSSHPrefix := true;
|}.

(** ** The QUIC configuration

    The constants of [internal/protocol]: QUIC version 1 and version 2,
    timeouts in nanoseconds, windows in bytes. *)
Definition second : time.Duration := 1000000000.

#[export] Instance quicProtocolPackage : quic.protocol.Package := {|
  quic.protocol.SupportedVersions := [ 1; 1798521807 ];
  quic.protocol.IsValidVersion v := (v =? 1) || (v =? 1798521807);
  quic.protocol.VersionString v :=
    if v =? 1 then "v1" else if v =? 1798521807 then "v2" else "unknown";
  quic.protocol.DefaultHandshakeTimeout := 10 * second;
  quic.protocol.DefaultHandshakeIdleTimeout := 5 * second;
  quic.protocol.DefaultIdleTimeout := 30 * second;
  quic.protocol.DefaultInitialMaxStreamData := 524288;
  quic.protocol.DefaultMaxReceiveStreamFlowControlWindow := 6291456;
  quic.protocol.DefaultInitialMaxData := 786432;
  quic.protocol.DefaultMaxReceiveConnectionFlowControlWindow := 15728640;
  quic.protocol.DefaultMaxIncomingStreams := 100;
  quic.protocol.DefaultMaxIncomingUniStreams := 100;
  quic.protocol.TokenValidity := 86400 * second;
  quic.protocol.RetryTokenValidity := 10 * second;
|}.

#[export] Instance quicCallbacks : quic.Callbacks := {|
  quic.Addr := string;
  quic.GetConfigForClientFunc := unit;
  quic.AllowConnectionWindowIncreaseFunc := unit;
  quic.TokenStore := unit;
  quic.TracerFunc := unit;
  quic.GetClientHelloRandomFunc := unit;
  quic.VerifyClientHelloRandomFunc := unit;
|}.

(** A configuration of a caller: a handshake idle timeout of three
    seconds, and the stream limits and versions as given. *)
Definition quicConfig (maxIncomingStreams maxIncomingUniStreams : Z)
    (versions : list quic.protocol.VersionNumber) : quic.Config := {|
  quic.GetConfigForClient := None;
  quic.Versions := versions;
  quic.HandshakeIdleTimeout := 3 * second;
  quic.MaxIdleTimeout := 0;
  quic.MaxTokenAge := 0;
  quic.MaxRetryTokenAge := 0;
  quic.RequireAddressValidation := Some (fun addr => String.eqb addr "192.0.2.1:4433");
  quic.KeepAlivePeriod := 0;
  quic.InitialStreamReceiveWindow := 0;
  quic.MaxStreamReceiveWindow := 0;
  quic.InitialConnectionReceiveWindow := 0;
  quic.MaxConnectionReceiveWindow := 0;
  quic.AllowConnectionWindowIncrease := None;
  quic.MaxIncomingStreams := maxIncomingStreams;
  quic.MaxIncomingUniStreams := maxIncomingUniStreams;
  quic.TokenStore_ := None;
  quic.EnableDatagrams := false;
  quic.DisablePathMTUDiscovery := false;
  quic.DisableVersionNegotiationPackets := false;
  quic.Allow0RTT := false;
  quic.Tracer := None;
  quic.ClientHelloSeed := None;
  quic.GetClientHelloRandom := None;
  quic.VerifyClientHelloRandom := None;
  quic.ClientMaxPacketSizeAdjustment := 0;
  quic.ServerMaxPacketSizeAdjustment := 0;
|}.

End Example.


(** * Properties *)

Section Properties.
Context `{!prng.Package, !transforms.Package, !protocol.Package, !External}.

(** ** Reasoning about steps *)

Lemma bind_inr {A B} (m : Dial A) (k : A -> Dial B) s b s' :
  bind m k s = (inr b, s') ->
  exists a s1, m s = (inr a, s1) /\ k a s1 = (inr b, s').
Proof.
  unfold bind. destruct (m s) as [[e | a] s1]; [discriminate |].
  intros Hk. exists a, s1. split; [reflexivity | exact Hk].
Qed.

Lemma ret_inr {A} (a b : A) s s' : ret a s = (inr b, s') -> a = b /\ s = s'.
Proof. unfold ret. intros E. injection E as -> ->. split; reflexivity. Qed.

Lemma skip_inr {A} (b : A) s s' : skip s = (inr b, s') -> False.
Proof. discriminate. Qed.

Lemma raise_inr {A} e (b : A) s s' : raise e s = (inr b, s') -> False.
Proof. discriminate. Qed.

Lemma try_inr {A} (r : Result A) (b : A) s s' :
  try r s = (inr b, s') -> r = Ok b /\ s = s'.
Proof.
  destruct r as [a | e]; cbn; [| discriminate].
  intros E. injection E as -> ->. split; reflexivity.
Qed.

(** [step_inv] takes apart the hypotheses that say a step went on with a
    value, down to the calls of other definitions. *)
Ltac step_inv :=
  repeat match goal with
  | H : bind _ _ _ = (inr _, _) |- _ =>
    let a := fresh "a" in let s := fresh "s" in let Hm := fresh "Hm" in
    apply bind_inr in H; destruct H as (a & s & Hm & H)
  | H : ret _ _ = (inr _, _) |- _ =>
    apply ret_inr in H; destruct H as [? ?]; subst
  | H : skip _ = (inr _, _) |- _ => exfalso; exact (skip_inr _ _ _ H)
  | H : raise _ _ = (inr _, _) |- _ => exfalso; exact (raise_inr _ _ _ _ H)
  | H : try _ _ = (inr _, _) |- _ =>
    apply try_inr in H; destruct H as [? ?]; subst
  | H : (if ?b then _ else _) _ = (inr _, _) |- _ => destruct b eqn:?
  | H : (let '(_, _) := ?x in _) _ = (inr _, _) |- _ => destruct x eqn:?
  | H : (match ?x with _ => _ end) _ = (inr _, _) |- _ => destruct x eqn:?
  | H : (_, _) = (_, _) |- _ => injection H as ? ?; subst
  end.

Create HintDb keeps discriminated.

(** Closes [F d' = F d] where [d'] is [d] after some assignments to other
    fields and some blocks known, from the hint database, to keep [F]. *)
Ltac keeps_chain :=
  first
    [ reflexivity
    | match goal with
      | H : ?block ?d0 _ = (inr ?d1, _) |- ?F _ = _ =>
        let K := fresh "K" in
        assert (K : keeps F block) by (eauto with keeps);
        transitivity (F d1); [reflexivity |];
        rewrite (K _ _ _ _ H); clear H K; keeps_chain
      end ].

Ltac keeps_block :=
  intros ? ? ? ? Hrun; cbv beta delta [fresh] in Hrun; step_inv; keeps_chain.

Lemma selectNetworkLatencyMultiplier_keeps p isReplay :
  keeps (fun d => (identity d, TunnelProtocol d, osshTransforms d))
    (selectNetworkLatencyMultiplier p isReplay).
Proof. unfold selectNetworkLatencyMultiplier. keeps_block. Qed.

Lemma selectNetworkLatencyMultiplier_identity p isReplay :
  keeps identity (selectNetworkLatencyMultiplier p isReplay).
Proof.
  intros d s d' s' Hrun. apply selectNetworkLatencyMultiplier_keeps in Hrun. congruence.
Qed.

Lemma selectNetworkLatencyMultiplier_TunnelProtocol p isReplay :
  keeps TunnelProtocol (selectNetworkLatencyMultiplier p isReplay).
Proof.
  intros d s d' s' Hrun. apply selectNetworkLatencyMultiplier_keeps in Hrun. congruence.
Qed.

Lemma selectNetworkLatencyMultiplier_osshTransforms p isReplay :
  keeps osshTransforms (selectNetworkLatencyMultiplier p isReplay).
Proof.
  intros d s d' s' Hrun. apply selectNetworkLatencyMultiplier_keeps in Hrun. congruence.
Qed.

Lemma restrictFrontingProviderID_keeps p serverEntry :
  keeps tracked (restrictFrontingProviderID p serverEntry).
Proof. unfold restrictFrontingProviderID. keeps_block. Qed.

Lemma checkUpstreamProxy_keeps config p serverEntry :
  keeps tracked (checkUpstreamProxy config p serverEntry).
Proof. unfold checkUpstreamProxy. keeps_block. Qed.

Lemma selectBPFProgram_keeps p isReplay replayBPF :
  keeps tracked (selectBPFProgram p isReplay replayBPF).
Proof. unfold selectBPFProgram. keeps_block. Qed.

Lemma selectSSH_keeps isReplay replaySSH :
  keeps tracked (selectSSH isReplay replaySSH).
Proof. unfold selectSSH. keeps_block. Qed.

Lemma selectObfuscatorPadding_keeps isReplay replayObfuscatorPadding :
  keeps tracked (selectObfuscatorPadding isReplay replayObfuscatorPadding).
Proof. unfold selectObfuscatorPadding. keeps_block. Qed.

Lemma selectFragmentor_keeps isReplay replayFragmentor :
  keeps tracked (selectFragmentor isReplay replayFragmentor).
Proof. unfold selectFragmentor. keeps_block. Qed.

Lemma selectConjureAPIRegistration_keeps config p apiURL :
  keeps tracked (selectConjureAPIRegistration config p apiURL).
Proof. unfold selectConjureAPIRegistration. keeps_block. Qed.
#[local] Hint Resolve selectConjureAPIRegistration_keeps : keeps.

Lemma selectConjureRegistration_keeps config p isReplay replayConjureRegistration :
  keeps tracked (selectConjureRegistration config p isReplay replayConjureRegistration).
Proof. unfold selectConjureRegistration. keeps_block. Qed.

Lemma selectConjureTransportBlock_keeps p isReplay replayConjureTransport :
  keeps tracked (selectConjureTransportBlock p isReplay replayConjureTransport).
Proof. unfold selectConjureTransportBlock. keeps_block. Qed.

Lemma selectTLSProfileBlock_keeps p serverEntry isReplay replayTLSProfile usingTLS :
  keeps tracked (selectTLSProfileBlock p serverEntry isReplay replayTLSProfile usingTLS).
Proof. unfold selectTLSProfileBlock. keeps_block. Qed.

Lemma selectFronting_keeps serverEntry isReplay replayFronting :
  keeps tracked (selectFronting serverEntry isReplay replayFronting).
Proof. unfold selectFronting. keeps_block. Qed.

Lemma selectHostNames_keeps p serverEntry isReplay replayHostname :
  keeps tracked (selectHostNames p serverEntry isReplay replayHostname).
Proof. unfold selectHostNames. keeps_block. Qed.

Lemma selectQUICVersionBlock_keeps p serverEntry isReplay replayQUICVersion :
  keeps tracked (selectQUICVersionBlock p serverEntry isReplay replayQUICVersion).
Proof. unfold selectQUICVersionBlock. keeps_block. Qed.

Lemma selectObfuscatedQUICPadding_keeps isReplay replayObfuscatedQUIC :
  keeps tracked (selectObfuscatedQUICPadding isReplay replayObfuscatedQUIC).
Proof. unfold selectObfuscatedQUICPadding. keeps_block. Qed.

Lemma selectObfuscatedQUICNonceTransformer_keeps p serverEntry isReplay replayX :
  keeps tracked (selectObfuscatedQUICNonceTransformer p serverEntry isReplay replayX).
Proof. unfold selectObfuscatedQUICNonceTransformer. keeps_block. Qed.

Lemma selectLivenessTest_keeps isReplay replayLivenessTest :
  keeps tracked (selectLivenessTest isReplay replayLivenessTest).
Proof. unfold selectLivenessTest. keeps_block. Qed.

Lemma selectAPIRequestPadding_keeps isReplay replayAPIRequestPadding :
  keeps tracked (selectAPIRequestPadding isReplay replayAPIRequestPadding).
Proof. unfold selectAPIRequestPadding. keeps_block. Qed.

Lemma selectResolveParameters_keeps p rs isReplay replayResolveParameters :
  keeps tracked (selectResolveParameters p rs isReplay replayResolveParameters).
Proof. unfold selectResolveParameters. keeps_block. Qed.

Lemma selectHoldOffTunnel_keeps p isReplay replayHoldOffTunnel :
  keeps tracked (selectHoldOffTunnel p isReplay replayHoldOffTunnel).
Proof. unfold selectHoldOffTunnel. keeps_block. Qed.

Lemma selectHTTPTransformer_keeps config serverEntry isReplay replayX :
  keeps tracked (selectHTTPTransformer config serverEntry isReplay replayX).
Proof. unfold selectHTTPTransformer. keeps_block. Qed.

Lemma setDialAddress_keeps serverEntry : keeps tracked (setDialAddress serverEntry).
Proof. unfold setDialAddress. keeps_block. Qed.

Lemma checkMeekAddresses_keeps p : keeps tracked (checkMeekAddresses p).
Proof. unfold checkMeekAddresses. keeps_block. Qed.

Lemma selectTLSFragmentClientHello_keeps p isReplay replayX usingTLS :
  keeps tracked (selectTLSFragmentClientHello p isReplay replayX usingTLS).
Proof. unfold selectTLSFragmentClientHello. keeps_block. Qed.

#[local] Hint Resolve
  selectNetworkLatencyMultiplier_identity selectNetworkLatencyMultiplier_TunnelProtocol
  selectNetworkLatencyMultiplier_osshTransforms restrictFrontingProviderID_keeps
  checkUpstreamProxy_keeps selectBPFProgram_keeps selectSSH_keeps
  selectObfuscatorPadding_keeps selectFragmentor_keeps
  selectConjureRegistration_keeps selectConjureTransportBlock_keeps
  selectTLSProfileBlock_keeps selectFronting_keeps selectHostNames_keeps
  selectQUICVersionBlock_keeps selectObfuscatedQUICPadding_keeps
  selectObfuscatedQUICNonceTransformer_keeps selectLivenessTest_keeps
  selectAPIRequestPadding_keeps selectResolveParameters_keeps
  selectHoldOffTunnel_keeps selectHTTPTransformer_keeps setDialAddress_keeps
  checkMeekAddresses_keeps selectTLSFragmentClientHello_keeps : keeps.

Lemma keeps_identity block : keeps tracked block -> keeps identity block.
Proof.
  intros K d s d' s' Hrun. specialize (K d s d' s' Hrun).
  unfold tracked in K. congruence.
Qed.

Lemma keeps_TunnelProtocol block : keeps tracked block -> keeps TunnelProtocol block.
Proof.
  intros K d s d' s' Hrun. specialize (K d s d' s' Hrun).
  unfold tracked in K. congruence.
Qed.

Lemma keeps_osshTransforms block : keeps tracked block -> keeps osshTransforms block.
Proof.
  intros K d s d' s' Hrun. specialize (K d s d' s' Hrun).
  unfold tracked in K. congruence.
Qed.

Lemma keeps_NetworkLatencyMultiplier block :
  keeps tracked block -> keeps NetworkLatencyMultiplier block.
Proof.
  intros K d s d' s' Hrun. specialize (K d s d' s' Hrun).
  unfold tracked in K. congruence.
Qed.

#[local] Hint Resolve keeps_identity keeps_TunnelProtocol keeps_osshTransforms
  keeps_NetworkLatencyMultiplier : keeps.

(** The tunnel protocol block: a fresh composition takes the protocol from
    [selectProtocol]; a replay or an exchanged record keeps its own. *)
Lemma selectTunnelProtocol_inv selectProtocol serverEntry isReplay isExchanged d s d' s' :
  selectTunnelProtocol selectProtocol serverEntry isReplay isExchanged d s = (inr d', s') ->
  s' = s /\
  d' = (if negb isReplay && negb isExchanged
        then set_TunnelProtocol (fst (selectProtocol serverEntry)) d else d) /\
  (negb isReplay && negb isExchanged = true -> snd (selectProtocol serverEntry) = true).
Proof.
  unfold selectTunnelProtocol. intros Hrun.
  destruct (negb isReplay && negb isExchanged).
  - destruct (selectProtocol serverEntry) as [selectedProtocol ok].
    destruct ok; cbn in Hrun; [| discriminate].
    injection Hrun as <- <-. auto.
  - cbn in Hrun. injection Hrun as <- <-. split; [reflexivity |].
    split; [reflexivity | discriminate].
Qed.

Lemma selectOSSHSeedTransformer_keeps p serverEntry isReplay replayX :
  keeps (fun d => (identity d, TunnelProtocol d, NetworkLatencyMultiplier d,
                   OSSHPrefixSpec d))
    (selectOSSHSeedTransformer p serverEntry isReplay replayX).
Proof. unfold selectOSSHSeedTransformer. keeps_block. Qed.

Lemma selectOSSHPrefix_keeps p serverEntry isReplay replayX :
  keeps (fun d => (identity d, TunnelProtocol d, NetworkLatencyMultiplier d))
    (selectOSSHPrefix p serverEntry isReplay replayX).
Proof. unfold selectOSSHPrefix. keeps_block. Qed.

Lemma selectOSSHTransforms_inv p serverEntry isReplay replayS replayP d s d' s' :
  selectOSSHTransforms p serverEntry isReplay replayS replayP d s = (inr d', s') ->
  identity d' = identity d /\ TunnelProtocol d' = TunnelProtocol d /\
  NetworkLatencyMultiplier d' = NetworkLatencyMultiplier d /\
  (if String.eqb (TunnelProtocol d) protocol.TUNNEL_PROTOCOL_OBFUSCATED_SSH
   then prefixExcludesSeedTransform d' = true
   else d' = d).
Proof.
  unfold selectOSSHTransforms. intros Hrun.
  destruct (String.eqb (TunnelProtocol d) protocol.TUNNEL_PROTOCOL_OBFUSCATED_SSH).
  - apply bind_inr in Hrun as (d1 & s1 & Hseed & Hrun).
    apply bind_inr in Hrun as (d2 & s2 & Hprefix & Hrun).
    apply selectOSSHSeedTransformer_keeps in Hseed.
    apply selectOSSHPrefix_keeps in Hprefix.
    destruct (OSSHPrefixSpec d2) eqn:Eprefix;
      apply ret_inr in Hrun as [<- _].
    + split; [transitivity (identity d2); [reflexivity | congruence] |].
      split; [transitivity (TunnelProtocol d2); [reflexivity | congruence] |].
      split; [transitivity (NetworkLatencyMultiplier d2); [reflexivity | congruence] |].
      change (negb (notNil (OSSHPrefixSpec d2)) || true = true).
      apply orb_true_r.
    + repeat split; try congruence.
      unfold prefixExcludesSeedTransform. rewrite Eprefix. reflexivity.
  - apply ret_inr in Hrun as [<- _]. auto.
Qed.

Lemma selectTLSFragmentClientHello_late p isReplay replayX usingTLS :
  keeps late (selectTLSFragmentClientHello p isReplay replayX usingTLS).
Proof. unfold selectTLSFragmentClientHello. keeps_block. Qed.

Lemma setUpstreamProxyType_late config d :
  late (setUpstreamProxyType config d) = late d.
Proof.
  unfold setUpstreamProxyType.
  destruct (Config.UseUpstreamProxy config); [| reflexivity].
  destruct (common_SafeParseURL _); reflexivity.
Qed.

Lemma selectUserAgent_late config p isReplay replayUserAgent d s d' h s' :
  selectUserAgent config p isReplay replayUserAgent d s = (inr (d', h), s') ->
  late d' = late d.
Proof. unfold selectUserAgent. intros Hrun. step_inv; reflexivity. Qed.

Lemma setUpstreamProxyCustomHeaderNames_late config h d :
  late (setUpstreamProxyCustomHeaderNames config h d) = late d.
Proof.
  unfold setUpstreamProxyCustomHeaderNames.
  destruct (0 <? _)%nat; reflexivity.
Qed.

Lemma makeDialConfig_late config p serverEntry h d :
  late (makeDialConfig config p serverEntry h d) = late d.
Proof. reflexivity. Qed.

(** ** The composition keeps what it should *)

Lemma tracked_eq a b :
  tracked a = tracked b ->
  identity a = identity b /\ TunnelProtocol a = TunnelProtocol b /\
  osshTransforms a = osshTransforms b /\
  NetworkLatencyMultiplier a = NetworkLatencyMultiplier b.
Proof. unfold tracked. intros E. repeat split; congruence. Qed.

Lemma prefixExcludesSeedTransform_osshTransforms a b :
  osshTransforms a = osshTransforms b ->
  prefixExcludesSeedTransform a = prefixExcludesSeedTransform b.
Proof.
  unfold osshTransforms, prefixExcludesSeedTransform. intros E.
  injection E as -> ->. reflexivity.
Qed.

Lemma selectUpToHostNames_tracked config selectProtocol serverEntry
    isReplay isExchanged d s d' p usingTLS s' :
  selectUpToHostNames config selectProtocol serverEntry isReplay isExchanged d s
    = (inr (d', p, usingTLS), s') ->
  identity d' = identity d /\ osshTransforms d' = osshTransforms d /\
  TunnelProtocol d' =
    (if negb isReplay && negb isExchanged
     then fst (selectProtocol serverEntry) else TunnelProtocol d) /\
  p = parameters.GetCustom (Config.GetParameters config) (NetworkLatencyMultiplier d').
Proof.
  unfold selectUpToHostNames, selectGivenProtocol. intros Hrun. step_inv.
  match goal with
  | Hsel : selectTunnelProtocol _ _ _ _ _ _ = _ |- _ =>
    apply selectTunnelProtocol_inv in Hsel as (-> & -> & _)
  end.
  destruct (negb isReplay && negb isExchanged);
    (split; [keeps_chain | split; [keeps_chain | split; [keeps_chain |]]]);
    f_equal; symmetry; keeps_chain.
Qed.

Lemma selectFromQUICVersion_tracked config serverEntry rs isReplay p usingTLS d s d' s' :
  selectFromQUICVersion config serverEntry rs isReplay p usingTLS d s = (inr d', s') ->
  identity d' = identity d /\ TunnelProtocol d' = TunnelProtocol d /\
  NetworkLatencyMultiplier d' = NetworkLatencyMultiplier d /\
  (if String.eqb (TunnelProtocol d) protocol.TUNNEL_PROTOCOL_OBFUSCATED_SSH
   then prefixExcludesSeedTransform d' = true
   else osshTransforms d' = osshTransforms d).
Proof.
  unfold selectFromQUICVersion. intros Hrun. step_inv.
  match goal with
  | Hossh : selectOSSHTransforms _ _ _ _ _ ?d0 _ = (inr ?d1, _) |- _ =>
    apply selectOSSHTransforms_inv in Hossh as (Hid & Htp & Hnlm & Hossh);
    assert (Hbefore : tracked d0 = tracked d) by keeps_chain
  end.
  match goal with
  | Hua : selectUserAgent _ _ _ _ ?d9 _ = (inr (?d10, ?h), _) |- _ =>
    apply selectUserAgent_late in Hua;
    assert (Hafter : tracked
                       (makeDialConfig config p serverEntry h
                          (setUpstreamProxyCustomHeaderNames config h d10))
                     = tracked a6)
  end.
  { transitivity (tracked d0);
      [exact (f_equal fst (eq_trans (makeDialConfig_late _ _ _ _ _)
                             (setUpstreamProxyCustomHeaderNames_late _ _ _))) |].
    transitivity (tracked a10);
      [exact (f_equal fst (eq_trans Hm11 (setUpstreamProxyType_late _ _))) |].
    keeps_chain. }
  destruct (tracked_eq _ _ Hafter) as (Hid' & Htp' & Hossh' & Hnlm').
  destruct (tracked_eq _ _ Hbefore) as (Hid0 & Htp0 & Hossh0 & Hnlm0).
  split; [congruence |]. split; [congruence |]. split; [congruence |].
  rewrite <- Htp0.
  destruct (String.eqb (TunnelProtocol a5) protocol.TUNNEL_PROTOCOL_OBFUSCATED_SSH).
  - rewrite (prefixExcludesSeedTransform_osshTransforms _ _ Hossh'). exact Hm6.
  - subst a6. congruence.
Qed.

Lemma checkMeekAddresses_inv p d s d' s' :
  checkMeekAddresses p d s = (inr d', s') ->
  net_ParseIP "" = false ->
  protocol.TunnelProtocolUsesMeek (TunnelProtocol d) = true ->
  net_ParseIP (MeekSNIServerName d') = false.
Proof.
  unfold checkMeekAddresses. intros Hrun Hempty Hmeek. rewrite Hmeek in Hrun.
  apply bind_inr in Hrun as ([] & s1 & _ & Hrun).
  destruct (net_ParseIP (MeekSNIServerName d)) eqn:Esni;
    apply ret_inr in Hrun as [<- _].
  - exact Hempty.
  - exact Esni.
Qed.

(** After the check of the meek addresses nothing assigns the SNI server
    name or the tunnel protocol. *)
Lemma selectFromQUICVersion_meekSNI config serverEntry rs isReplay p usingTLS d s d' s' :
  selectFromQUICVersion config serverEntry rs isReplay p usingTLS d s = (inr d', s') ->
  net_ParseIP "" = false ->
  protocol.TunnelProtocolUsesMeek (TunnelProtocol d') = true ->
  net_ParseIP (MeekSNIServerName d') = false.
Proof.
  unfold selectFromQUICVersion. intros Hrun Hempty Hmeek. step_inv.
  match goal with
  | Hua : selectUserAgent _ _ _ _ _ _ = (inr (?d10, ?h), _),
    Hcheck : checkMeekAddresses _ _ _ = (inr ?d9, _),
    Hfrag : selectTLSFragmentClientHello _ _ _ _ _ _ = (inr ?d11, _) |- _ =>
    apply selectUserAgent_late in Hua;
    apply selectTLSFragmentClientHello_late in Hfrag;
    assert (Hlate : late (makeDialConfig config p serverEntry h
                            (setUpstreamProxyCustomHeaderNames config h d10))
                    = late d9)
      by (rewrite makeDialConfig_late, setUpstreamProxyCustomHeaderNames_late,
            Hua, setUpstreamProxyType_late; exact Hfrag);
    pose proof (checkMeekAddresses_inv _ _ _ _ _ Hcheck Hempty) as Hsni
  end.
  unfold late in Hlate.
  assert (Etp : TunnelProtocol (makeDialConfig config p serverEntry g
                   (setUpstreamProxyCustomHeaderNames config g d0))
                = TunnelProtocol a9)
    by (apply (f_equal fst) in Hlate; apply tracked_eq in Hlate; tauto).
  assert (Esni : MeekSNIServerName (makeDialConfig config p serverEntry g
                   (setUpstreamProxyCustomHeaderNames config g d0))
                = MeekSNIServerName a9)
    by (apply (f_equal snd) in Hlate; exact Hlate).
  rewrite Esni. rewrite Etp in Hmeek.
  assert (Ekeep : TunnelProtocol a9 = TunnelProtocol a8) by keeps_chain.
  apply Hsni. congruence.
Qed.

(** ** The replay decision, case by case *)

Lemma replayDecision_unfold config canReplay serverEntry w :
  replayDecision config canReplay serverEntry w =
  let ip := protocol.IpAddress serverEntry in
  let networkID := Config.GetNetworkID config in
  let w1 := logCall (CallGetDialParameters ip networkID) w in
  match foundIn config serverEntry w with
  | None => (None, stampOf config serverEntry w, w1)
  | Some R =>
    if staleIn config serverEntry w R then
      (None, stampOf config serverEntry w, snd (DeleteDialParameters ip networkID w1))
    else
      (if Config.DisableReplay config || negb (canReplay serverEntry (TunnelProtocol R))
       then None else Some R,
       stampOf config serverEntry w, w1)
  end.
Proof.
  unfold replayDecision, existingDialParameters, GetDialParameters, foundIn,
    staleIn, stampOf.
  cbn [logCall datastore now].
  destruct (failing (datastore w)).
  - destruct (0 <? _); [destruct (getDialStateHashes _ _ _) |]; reflexivity.
  - destruct (records (datastore w) !! _) as [R |]; cbn [fmap option_fmap option_map].
    + destruct (0 <? _); [destruct (getDialStateHashes _ _ _) |];
        cbn [fst snd]; destruct (isStale _ _ _ _ _ _);
        try destruct (DeleteDialParameters _ _ _); reflexivity.
    + destruct (0 <? _); [destruct (getDialStateHashes _ _ _) |]; reflexivity.
Qed.

Lemma Contains_In l x : common.Contains l x = true <-> In x l.
Proof.
  induction l as [| item rest IH]; cbn.
  - split; [discriminate | contradiction].
  - destruct (String.eqb item x) eqn:E.
    + apply String.eqb_eq in E. split; auto.
    + apply String.eqb_neq in E. rewrite IH. split; [auto |].
      intros [E' | Hin]; [contradiction | exact Hin].
Qed.

Lemma Contains_false l x : common.Contains l x = false <-> ~ In x l.
Proof.
  rewrite <- Contains_In. destruct (common.Contains l x); split; congruence.
Qed.

Lemma eqb_empty_false s : String.eqb s "" = false <-> s <> "".
Proof. apply String.eqb_neq. Qed.

(** The record is deleted exactly when one of the conditions (1) to (7)
    fails. *)
Lemma staleIn_false config serverEntry w R :
  staleIn config serverEntry w R = false <-> conditions1to7 config serverEntry w R.
Proof.
  unfold staleIn, stampOf, conditions1to7, isStale, time.Before, time.Add, bytes.Equal.
  set (p := parameters.Get (Config.GetParameters config)).
  set (ttl := parameters.Duration p parameters.ReplayDialParametersTTL).
  destruct (getDialStateHashes config p serverEntry) as [csh seh]. cbn [fst snd].
  destruct (0 <? ttl) eqn:Ettl.
  - apply Z.ltb_lt in Ettl.
    rewrite !orb_false_iff, !andb_false_iff, ?negb_false_iff, ?negb_true_iff.
    rewrite Z.leb_gt, Z.ltb_ge, !bool_decide_eq_true, !String.eqb_eq,
      !Contains_In, String.eqb_neq.
    split.
    + intros ((((((_ & Hage) & Hcsh) & Hseh) & Htls) & Hquic) & Hconj).
      repeat split; try lia; try assumption.
      * destruct Hcsh; auto.
      * intros [Hreg Hurl]. destruct Hconj as [E | E]; congruence.
    + intros (_ & Hage & Hseh & Hcsh & Htls & Hquic & Hconj).
      repeat split; try lia; try assumption.
      * destruct Hcsh; auto.
      * destruct (ConjureAPIRegistration R); [| auto].
        right. intros E. apply Hconj. auto.
  - apply Z.ltb_ge in Ettl.
    assert (Ele : (ttl <=? 0) = true) by (apply Z.leb_le; exact Ettl).
    rewrite Ele. cbn [orb]. split; [discriminate |].
    intros (Hpos & _). lia.
Qed.

(** ** The QUIC version selector *)

Lemma length_zero_nil {A} (l : list A) : (0 <? length l)%nat = false <-> l = [].
Proof.
  destruct l; cbn; split; intros E; try reflexivity; discriminate.
Qed.

Lemma selectQUICVersion_loop_In isFronted limit seLimit disable supported acc v :
  In v (selectQUICVersion_loop isFronted limit seLimit disable supported acc) <->
  In v acc \/
  (In v supported
   /\ (limit = [] \/ In v limit)
   /\ (seLimit = [] \/ In v seLimit)
   /\ (isFronted = true -> protocol.QUICVersionIsObfuscated v = false)
   /\ ~ In v disable).
Proof.
  revert acc. induction supported as [| quicVersion rest IH]; intros acc;
    cbn [selectQUICVersion_loop In]; cbv zeta.
  - tauto.
  - assert (Hskip :
      ((0 <? length limit)%nat && negb (common.Contains limit quicVersion)
       || (0 <? length seLimit)%nat && negb (common.Contains seLimit quicVersion)
       || isFronted && protocol.QUICVersionIsObfuscated quicVersion
       || common.Contains disable quicVersion) = false
      <-> ((limit = [] \/ In quicVersion limit)
           /\ (seLimit = [] \/ In quicVersion seLimit)
           /\ (isFronted = true -> protocol.QUICVersionIsObfuscated quicVersion = false)
           /\ ~ In quicVersion disable)).
    { rewrite !orb_false_iff, !andb_false_iff, !negb_false_iff, !length_zero_nil,
        !Contains_In, Contains_false.
      destruct isFronted; intuition congruence. }
    assert (Hcontinue :
      forall l,
        ((limit = [] \/ In quicVersion limit)
         /\ (seLimit = [] \/ In quicVersion seLimit)
         /\ (isFronted = true -> protocol.QUICVersionIsObfuscated quicVersion = false)
         /\ ~ In quicVersion disable -> False) ->
        (In v (selectQUICVersion_loop isFronted limit seLimit disable rest l) <->
         In v l \/
         (quicVersion = v \/ In v rest)
         /\ (limit = [] \/ In v limit)
         /\ (seLimit = [] \/ In v seLimit)
         /\ (isFronted = true -> protocol.QUICVersionIsObfuscated v = false)
         /\ ~ In v disable)).
    { intros l Hno. rewrite IH. split.
      - intros [Hin | (Hin & Hf)]; [left; exact Hin | right; tauto].
      - intros [Hin | ([<- | Hin] & Hf)]; [left; exact Hin | | right; tauto].
        exfalso. exact (Hno Hf). }
    destruct ((0 <? length limit)%nat && negb (common.Contains limit quicVersion));
      [apply Hcontinue; intros Hf; apply Hskip in Hf; discriminate |].
    destruct ((0 <? length seLimit)%nat && negb (common.Contains seLimit quicVersion));
      [apply Hcontinue; intros Hf; apply Hskip in Hf; discriminate |].
    destruct (isFronted && protocol.QUICVersionIsObfuscated quicVersion);
      [apply Hcontinue; intros Hf; apply Hskip in Hf; discriminate |].
    destruct (common.Contains disable quicVersion);
      [apply Hcontinue; intros Hf; apply Hskip in Hf; discriminate |].
    assert (Hf : (limit = [] \/ In quicVersion limit)
         /\ (seLimit = [] \/ In quicVersion seLimit)
         /\ (isFronted = true -> protocol.QUICVersionIsObfuscated quicVersion = false)
         /\ ~ In quicVersion disable) by (apply Hskip; reflexivity).
    rewrite IH, in_app_iff. cbn [In]. split.
    + intros [[Hin | [<- | []]] | (Hin & Hf')]; tauto.
    + intros [Hin | ([<- | Hin] & Hf')]; tauto.
Qed.

(** The list the selector draws from holds exactly the versions of the
    specification's set. *)
Lemma selectQUICVersion_candidates_In isFronted serverEntry p v :
  In v (selectQUICVersion_candidates isFronted serverEntry p) <->
  survivesQUICFilters isFronted serverEntry p v.
Proof.
  unfold selectQUICVersion_candidates, survivesQUICFilters, disabledQUICVersions.
  rewrite selectQUICVersion_loop_In. cbn [In].
  destruct isFronted.
  - destruct (protocol.SupportsOnlyQUICv1 serverEntry); intuition congruence.
  - destruct (protocol.SupportsOnlyQUICv1 serverEntry);
      intuition (congruence || (cbn in *; tauto)).
Qed.

Lemma Intn_run n s :
  Intn n s = (inr (prng.Intn_of n (fst (prng.next s))), snd (prng.next s)).
Proof.
  unfold Intn, bind, draw, ret. destruct (prng.next s); reflexivity.
Qed.

Lemma Intn_of_lt n r : (0 < n)%nat -> (prng.Intn_of n r < n)%nat.
Proof.
  intros Hn. unfold prng.Intn_of. destruct n as [| n']; [lia |].
  apply Nat.mod_upper_bound. discriminate.
Qed.

Lemma Intn_of_small n i : (i < n)%nat -> prng.Intn_of n (N.of_nat i) = i.
Proof.
  intros Hi. unfold prng.Intn_of. destruct n as [| n']; [lia |].
  rewrite Nat2N.id. apply Nat.mod_small. exact Hi.
Qed.

(** C7. [selectQUICVersion] always returns; when some supported version
    passes all the filters of the specification (the tactics limit, the
    server entry limit and, for a fronted dial, not obfuscated and not in
    the disabled set) the result is such a version; when none does the
    result is the empty string; and every such version is the result for
    some draw. *)
Theorem selectQUICVersion_selects isFronted serverEntry p :
  (forall s, exists v s',
      selectQUICVersion isFronted serverEntry p s = (inr v, s')
      /\ ((exists x, survivesQUICFilters isFronted serverEntry p x) ->
          survivesQUICFilters isFronted serverEntry p v)
      /\ ((forall x, ~ survivesQUICFilters isFronted serverEntry p x) -> v = ""))
  /\ (forall x, survivesQUICFilters isFronted serverEntry p x ->
      exists s, fst (selectQUICVersion isFronted serverEntry p s) = inr x).
Proof.
  unfold selectQUICVersion.
  set (quicVersions := selectQUICVersion_candidates isFronted serverEntry p).
  assert (Hin : forall v, In v quicVersions <-> survivesQUICFilters isFronted serverEntry p v)
    by (intros v; apply selectQUICVersion_candidates_In).
  split.
  - intros s. destruct (length quicVersions =? 0)%nat eqn:Elen.
    + exists "", s. split; [reflexivity |]. split; [| reflexivity].
      intros [x Hx]. apply Hin in Hx. apply Nat.eqb_eq in Elen.
      destruct quicVersions; [contradiction | discriminate].
    + apply Nat.eqb_neq in Elen.
      exists (index quicVersions (prng.Intn_of (length quicVersions) (fst (prng.next s)))),
        (snd (prng.next s)).
      split; [unfold bind; rewrite Intn_run; reflexivity |].
      assert (Hres : In (index quicVersions
                           (prng.Intn_of (length quicVersions) (fst (prng.next s))))
                        quicVersions)
        by (apply nth_In, Intn_of_lt; lia).
      split.
      * intros _. apply Hin. exact Hres.
      * intros Hnone. exfalso. apply Hin in Hres. exact (Hnone _ Hres).
  - intros x Hx. apply Hin in Hx.
    destruct (In_nth _ _ "" Hx) as (i & Hi & Hnth).
    exists {| prng.draws := [N.of_nat i]; prng.seeds := [] |}.
    destruct (length quicVersions =? 0)%nat eqn:Elen;
      [apply Nat.eqb_eq in Elen; lia |].
    unfold bind. rewrite Intn_run. cbn [fst snd prng.next prng.draws ret].
    rewrite Intn_of_small by exact Hi. unfold index. rewrite Hnth. reflexivity.
Qed.

(** ** The lifecycle *)

(** C5. [Succeeded] changes nothing, and so makes no call to the store,
    when [LastUsedTimestamp] is zero; otherwise, for the record of a server
    entry, it makes exactly one call, [SetDialParameters] with the whole
    record under the key [(ServerEntry.IpAddress, NetworkID)], which a
    working store files under that key. *)
Theorem Succeeded_persists dialParams w :
  (LastUsedTimestamp dialParams = 0 -> Succeeded dialParams w = Some w)
  /\ (forall serverEntry,
      LastUsedTimestamp dialParams <> 0 ->
      ServerEntry dialParams = Some serverEntry ->
      exists w',
        Succeeded dialParams w = Some w'
        /\ calls w' =
           (calls w ++ [CallSetDialParameters (protocol.IpAddress serverEntry)
                          (NetworkID dialParams) dialParams])%list
        /\ (failing (datastore w) = false ->
            records (datastore w')
            = <[ (protocol.IpAddress serverEntry, NetworkID dialParams)
                 := DialParameters_stored dialParams ]> (records (datastore w)))
        /\ (failing (datastore w) = true -> datastore w' = datastore w)).
Proof.
  unfold Succeeded, time.IsZero. split.
  - intros ->. reflexivity.
  - intros serverEntry Hstamp ->.
    destruct (LastUsedTimestamp dialParams =? 0) eqn:E;
      [apply Z.eqb_eq in E; contradiction |].
    unfold SetDialParameters. cbn [logCall datastore].
    destruct (failing (datastore w)) eqn:Efail.
    + eexists. split; [reflexivity |]. cbn. split; [reflexivity |].
      split; [discriminate | reflexivity].
    + eexists. split; [reflexivity |]. cbn. split; [reflexivity |].
      split; [reflexivity | discriminate].
Qed.

(** C6. [Failed], for the record of a server entry: it calls
    [DeleteDialParameters] for [(ServerEntry.IpAddress, NetworkID)] exactly
    when [IsReplay] is set and the coin weighted by
    [ReplayRetainFailedProbability] comes up false, and makes no other call;
    when [IsReplay] is not set it changes nothing at all. *)
Theorem Failed_deletes dialParams config w serverEntry :
  ServerEntry dialParams = Some serverEntry ->
  let retain :=
    prng.FlipWeightedCoin
      (parameters.Float (parameters.Get (Config.GetParameters config))
         parameters.ReplayRetainFailedProbability)
      (fst (prng.next (source w))) in
  let deleting := IsReplay dialParams && negb retain in
  exists w',
    Failed dialParams config w = Some w'
    /\ calls w' =
       (calls w ++ if deleting
                   then [CallDeleteDialParameters (protocol.IpAddress serverEntry)
                           (NetworkID dialParams)]
                   else [])%list
    /\ records (datastore w') =
       (if deleting && negb (failing (datastore w))
        then delete (protocol.IpAddress serverEntry, NetworkID dialParams)
               (records (datastore w))
        else records (datastore w))
    /\ (IsReplay dialParams = false -> w' = w).
Proof.
  intros Hse retain deleting. subst deleting retain. unfold Failed. rewrite Hse.
  destruct (IsReplay dialParams).
  - destruct (prng.next (source w)) as [r s]. cbn [fst snd].
    destruct (prng.FlipWeightedCoin _ r); cbn [negb andb].
    + eexists. split; [reflexivity |]. cbn. rewrite app_nil_r.
      split; [reflexivity |]. split; [reflexivity | discriminate].
    + unfold DeleteDialParameters. cbn [logCall datastore withSource].
      destruct (failing (datastore w)); eexists; (split; [reflexivity |]); cbn;
        (split; [reflexivity |]); (split; [reflexivity | discriminate]).
  - exists w. split; [reflexivity |]. cbn. rewrite app_nil_r. auto.
Qed.

(** ** The custom headers of the dial *)

Lemma headers_fold_lookup (m0 m : http.Header) k :
  map_fold (fun k v (h : http.Header) => <[ k := v ]> h) m0 m !! k =
  match m !! k with
  | Some v => Some v
  | None => m0 !! k
  end.
Proof.
  apply (map_fold_weak_ind
           (fun (r : http.Header) (m : http.Header) =>
              r !! k = match m !! k with Some v => Some v | None => m0 !! k end)).
  - rewrite lookup_empty. reflexivity.
  - intros i x m' r Hnone IH.
    destruct (decide (i = k)) as [-> | Hne].
    + rewrite !lookup_insert_eq. reflexivity.
    + rewrite !lookup_insert_ne by exact Hne. exact IH.
Qed.

(** In the headers [makeDialCustomHeaders] builds, a name of the tactics
    parameter [AdditionalCustomHeaders] has the tactics value, and any
    other name has what [config.CustomHeaders] holds for it. *)
Lemma makeDialCustomHeaders_lookup config p name :
  makeDialCustomHeaders config p !! name =
  match parameters.HTTPHeaders p parameters.AdditionalCustomHeaders !! name with
  | Some v => Some v
  | None => configHeader config name
  end.
Proof.
  unfold makeDialCustomHeaders, configHeader. rewrite headers_fold_lookup.
  destruct (parameters.HTTPHeaders p parameters.AdditionalCustomHeaders !! name);
    [reflexivity |].
  destruct (Config.CustomHeaders config) as [customHeaders |].
  - rewrite headers_fold_lookup. destruct (customHeaders !! name); [reflexivity |].
    apply lookup_empty.
  - apply lookup_empty.
Qed.

(** The User-Agent step (lines 1067-1080) leaves the record as it is but for
    [SelectedUserAgent] and [UserAgent], and sets the header "User-Agent"
    exactly when the dial takes a User-Agent and one was selected. *)
Lemma selectUserAgent_inv config p isReplay replayUserAgent d s d' h s' :
  selectUserAgent config p isReplay replayUserAgent d s = (inr (d', h), s') ->
  takesUserAgent d' = takesUserAgent d
  /\ h = if takesUserAgent d' && SelectedUserAgent d'
         then http.Set_ "User-Agent" (UserAgent d') (makeDialCustomHeaders config p)
         else makeDialCustomHeaders config p.
Proof.
  unfold selectUserAgent. fold (takesUserAgent d).
  destruct (takesUserAgent d) eqn:Etakes; intros Hrun.
  - apply bind_inr in Hrun as (d1 & s1 & Hselect & Hrun).
    assert (Ed1 : takesUserAgent d1 = takesUserAgent d).
    { destruct (fresh isReplay replayUserAgent).
      - apply bind_inr in Hselect as ([selected userAgent] & s2 & _ & Hselect).
        apply ret_inr in Hselect as [<- _]. reflexivity.
      - apply ret_inr in Hselect as [<- _]. reflexivity. }
    destruct (SelectedUserAgent d1) eqn:Eselected;
      apply ret_inr in Hrun as [Hpair _]; injection Hpair as <- <-;
      rewrite Ed1, Etakes, Eselected; split; reflexivity.
  - apply ret_inr in Hrun as [Hpair _]. injection Hpair as <- <-.
    rewrite Etakes. split; reflexivity.
Qed.

Lemma setUpstreamProxyCustomHeaderNames_userAgent config h d :
  let d' := setUpstreamProxyCustomHeaderNames config h d in
  takesUserAgent d' = takesUserAgent d
  /\ SelectedUserAgent d' = SelectedUserAgent d /\ UserAgent d' = UserAgent d.
Proof.
  unfold setUpstreamProxyCustomHeaderNames.
  destruct (0 <? _)%nat; repeat split; reflexivity.
Qed.

(** The headers of the [DialConfig] at the end of the composition. *)
Lemma selectFromQUICVersion_headers config serverEntry rs isReplay p usingTLS d s d' s' :
  selectFromQUICVersion config serverEntry rs isReplay p usingTLS d s = (inr d', s') ->
  exists dialConfig',
    dialConfig d' = Some dialConfig'
    /\ DialConfig.CustomHeaders dialConfig' =
       if takesUserAgent d' && SelectedUserAgent d'
       then http.Set_ "User-Agent" (UserAgent d') (makeDialCustomHeaders config p)
       else makeDialCustomHeaders config p.
Proof.
  unfold selectFromQUICVersion. intros Hrun. step_inv.
  match goal with
  | Hua : selectUserAgent _ _ _ _ _ _ = (inr (?d10, ?h), _) |- _ =>
    apply selectUserAgent_inv in Hua as [_ Hheaders];
    destruct (setUpstreamProxyCustomHeaderNames_userAgent config h d10)
      as (Etakes & Eselected & Eagent)
  end.
  eexists. split; [reflexivity |]. cbn [DialConfig.CustomHeaders].
  match goal with
  | |- _ = if takesUserAgent (makeDialConfig ?c ?q ?e ?h ?x) && _ then _ else _ =>
    change (takesUserAgent (makeDialConfig c q e h x)) with (takesUserAgent x);
    change (SelectedUserAgent (makeDialConfig c q e h x)) with (SelectedUserAgent x);
    change (UserAgent (makeDialConfig c q e h x)) with (UserAgent x)
  end.
  rewrite Etakes, Eselected, Eagent. exact Hheaders.
Qed.

(** ** Runs of the composer *)

Lemma startRecord_inv config serverEntry candidateNumber establishedTunnelsCount
    stored stamp s d0 rs isReplay isExchanged s0 :
  startRecord config serverEntry candidateNumber establishedTunnelsCount stored stamp s
    = (inr (d0, rs, isReplay, isExchanged), s0) ->
  s0 = s /\ Config.GetResolver config = Some rs
  /\ isExchanged = match stored with Some R => IsExchanged R | None => false end
  /\ isReplay = (if isExchanged then false else notNil stored)
  /\ d0 = startOf config serverEntry candidateNumber establishedTunnelsCount stored stamp.
Proof.
  unfold startRecord, startOf. destruct stamp as [[t csh] seh]. cbn [fst snd].
  change (resolver (set_resolver (Config.GetResolver config)
                      match stored with Some R => R | None => DialParameters_zero end))
    with (Config.GetResolver config).
  destruct (Config.GetResolver config) as [rs' |]; [| discriminate].
  intros Hrun. apply ret_inr in Hrun as [Hrun ->].
  injection Hrun as <- <- <- <-. repeat split; reflexivity.
Qed.

(** A run of the composer that returns a record, taken apart. *)
Lemma MakeDialParameters_inv config canReplay selectProtocol serverEntry isTactics
    candidateNumber establishedTunnelsCount w dialParams err w' :
  MakeDialParameters config canReplay selectProtocol serverEntry isTactics
    candidateNumber establishedTunnelsCount w = ((Some dialParams, err), w') ->
  exists stored stamp w1 rs d1 p usingTLS s1,
    replayDecision config canReplay serverEntry w = (stored, stamp, w1)
    /\ Config.GetResolver config = Some rs
    /\ let isExchanged := match stored with Some R => IsExchanged R | None => false end in
       let isReplay := if isExchanged then false else notNil stored in
       let d0 := startOf config serverEntry candidateNumber establishedTunnelsCount
                   stored stamp in
       selectUpToHostNames config selectProtocol serverEntry isReplay isExchanged d0
         (source w1) = (inr (d1, p, usingTLS), s1)
       /\ selectFromQUICVersion config serverEntry rs isReplay p usingTLS d1 s1
          = (inr dialParams, source w')
       /\ err = None /\ w' = withSource (source w') w1.
Proof.
  unfold MakeDialParameters.
  destruct (replayDecision config canReplay serverEntry w) as [[stored stamp] w1].
  destruct (compose _ _ _ _ _ _ _ _) as [[e | d] s2] eqn:Hcompose;
    [destruct e; discriminate |].
  cbn [returned]. intros Hrun. injection Hrun as <- <- <-.
  unfold compose in Hcompose.
  apply bind_inr in Hcompose as ([[[d0 rs] isReplay] isExchanged] & s0 & Hstart & Hcompose).
  apply startRecord_inv in Hstart as (-> & Hrs & -> & -> & ->).
  apply bind_inr in Hcompose as ([[d1 p] usingTLS] & s1 & Hhead & Htail).
  exists stored, stamp, w1, rs, d1, p, usingTLS, s1.
  cbn [withSource source]. repeat split; assumption.
Qed.

Lemma replayDecision_Some config canReplay serverEntry w R stamp w1 :
  replayDecision config canReplay serverEntry w = (Some R, stamp, w1) ->
  foundIn config serverEntry w = Some R
  /\ staleIn config serverEntry w R = false
  /\ Config.DisableReplay config = false
  /\ canReplay serverEntry (TunnelProtocol R) = true
  /\ stamp = stampOf config serverEntry w
  /\ w1 = logCall (CallGetDialParameters (protocol.IpAddress serverEntry)
                     (Config.GetNetworkID config)) w.
Proof.
  rewrite replayDecision_unfold. cbv zeta.
  destruct (foundIn config serverEntry w) as [R' |]; [| discriminate].
  destruct (staleIn config serverEntry w R') eqn:Estale; [discriminate |].
  destruct (Config.DisableReplay config); [discriminate |].
  destruct (canReplay serverEntry (TunnelProtocol R')) eqn:Ecan; [| discriminate].
  cbn [orb negb]. intros E. injection E as <- <- <-.
  repeat split; (reflexivity || assumption).
Qed.

Lemma foundIn_Some config serverEntry w R' :
  foundIn config serverEntry w = Some R' ->
  exists R,
    records (datastore w) !! (protocol.IpAddress serverEntry, Config.GetNetworkID config)
      = Some R
    /\ R' = DialParameters_stored R.
Proof.
  unfold foundIn. destruct (failing (datastore w)); [discriminate |].
  destruct (records (datastore w) !! _) as [R |]; [| discriminate].
  cbn. intros E. injection E as <-. exists R. auto.
Qed.

(** ** The SNI server name of a meek dial *)

(** C3, as the code has it.  Given that [net.ParseIP] does not parse the
    empty string, every record that [MakeDialParameters] returns for a
    tunnel protocol that uses meek has a [MeekSNIServerName] that is not an
    IP address literal. *)
Theorem MakeDialParameters_meek_SNI_not_IP
    config canReplay selectProtocol serverEntry isTactics
    candidateNumber establishedTunnelsCount w dialParams err w' :
  net_ParseIP "" = false ->
  MakeDialParameters config canReplay selectProtocol serverEntry isTactics
    candidateNumber establishedTunnelsCount w = ((Some dialParams, err), w') ->
  protocol.TunnelProtocolUsesMeek (TunnelProtocol dialParams) = true ->
  net_ParseIP (MeekSNIServerName dialParams) = false.
Proof.
  intros Hempty Hrun Hmeek.
  apply MakeDialParameters_inv in Hrun
    as (stored & stamp & w1 & rs & d1 & p & usingTLS & s1 & _ & _ & _ & Htail & _).
  exact (selectFromQUICVersion_meekSNI _ _ _ _ _ _ _ _ _ _ Htail Hempty Hmeek).
Qed.

(** ** The replay decision and the store *)

Lemma startOf_identity config serverEntry candidateNumber establishedTunnelsCount
    stored stamp :
  identity (startOf config serverEntry candidateNumber establishedTunnelsCount stored stamp)
  = (match stored with
     | Some R => negb (IsExchanged R)
     | None => false
     end, false, Some serverEntry, Config.GetNetworkID config, fst (fst stamp)).
Proof.
  unfold startOf, identity. cbn.
  destruct stored as [R |]; [| reflexivity].
  destruct (IsExchanged R); reflexivity.
Qed.

(** What a returned record says about where it came from: [IsExchanged] is
    cleared; a record composed afresh has the protocol that
    [selectProtocol] gave; a record composed from a stored one has the
    stored protocol, and is a replay unless the stored one was exchanged. *)
Lemma MakeDialParameters_returned config canReplay selectProtocol serverEntry isTactics
    candidateNumber establishedTunnelsCount w dialParams err w' :
  MakeDialParameters config canReplay selectProtocol serverEntry isTactics
    candidateNumber establishedTunnelsCount w = ((Some dialParams, err), w') ->
  IsExchanged dialParams = false
  /\ match fst (fst (replayDecision config canReplay serverEntry w)) with
     | None =>
       IsReplay dialParams = false
       /\ TunnelProtocol dialParams = fst (selectProtocol serverEntry)
     | Some R =>
       IsReplay dialParams = negb (IsExchanged R)
       /\ TunnelProtocol dialParams = TunnelProtocol R
     end.
Proof.
  intros Hrun.
  apply MakeDialParameters_inv in Hrun
    as (stored & stamp & w1 & rs & d1 & p & usingTLS & s1 & Hdecide & _ & Hhead & Htail & _).
  rewrite Hdecide. cbn [fst].
  apply selectUpToHostNames_tracked in Hhead as (Hid1 & _ & Htp1 & _).
  apply selectFromQUICVersion_tracked in Htail as (Hid2 & Htp2 & _).
  rewrite Hid1, startOf_identity in Hid2. unfold identity in Hid2.
  injection Hid2 as Hreplay Hexchanged _ _ _.
  split; [exact Hexchanged |].
  rewrite Htp2, Htp1, Hreplay.
  destruct stored as [R |]; [| split; reflexivity].
  split; [reflexivity |].
  destruct (IsExchanged R); reflexivity.
Qed.

Lemma MakeDialParameters_world config canReplay selectProtocol serverEntry isTactics
    candidateNumber establishedTunnelsCount w :
  let w' := snd (MakeDialParameters config canReplay selectProtocol serverEntry isTactics
                   candidateNumber establishedTunnelsCount w) in
  let w1 := snd (replayDecision config canReplay serverEntry w) in
  calls w' = calls w1 /\ datastore w' = datastore w1 /\ now w' = now w1.
Proof.
  unfold MakeDialParameters.
  destruct (replayDecision config canReplay serverEntry w) as [[stored stamp] w1].
  destruct (compose _ _ _ _ _ _ _ _) as [r s]. cbn. auto.
Qed.

(** C2. For a stored record [R] found for the server and network: when
    one of the conditions (1) to (7) fails, [MakeDialParameters] calls
    [DeleteDialParameters] for [(serverIP, networkID)] after the lookup, and
    the record is gone from the store; when (1) to (7) hold and (8) or (9)
    fails, the only call is the lookup, the store is as it was, and a
    returned record is not a replay. *)
Theorem MakeDialParameters_deletes_stale
    config canReplay selectProtocol serverEntry isTactics
    candidateNumber establishedTunnelsCount w R :
  foundIn config serverEntry w = Some R ->
  let ip := protocol.IpAddress serverEntry in
  let networkID := Config.GetNetworkID config in
  let result := MakeDialParameters config canReplay selectProtocol serverEntry isTactics
                  candidateNumber establishedTunnelsCount w in
  (~ conditions1to7 config serverEntry w R ->
   calls (snd result)
   = (calls w ++ [CallGetDialParameters ip networkID;
                  CallDeleteDialParameters ip networkID])%list
   /\ records (datastore (snd result)) = delete (ip, networkID) (records (datastore w)))
  /\ (conditions1to7 config serverEntry w R ->
      ~ conditions8to9 config canReplay serverEntry R ->
      calls (snd result) = (calls w ++ [CallGetDialParameters ip networkID])%list
      /\ datastore (snd result) = datastore w
      /\ forall dialParams, fst (fst result) = Some dialParams ->
                            IsReplay dialParams = false).
Proof.
  intros Hfound ip networkID result.
  destruct (MakeDialParameters_world config canReplay selectProtocol serverEntry
              isTactics candidateNumber establishedTunnelsCount w)
    as (Hcalls & Hstore & _).
  fold result in Hcalls, Hstore. rewrite Hcalls, Hstore.
  assert (Hworking : failing (datastore w) = false)
    by (unfold foundIn in Hfound; destruct (failing (datastore w)); congruence).
  pose proof (replayDecision_unfold config canReplay serverEntry w) as Hdecide.
  cbv zeta in Hdecide. rewrite Hfound in Hdecide.
  split.
  - intros Hstale. rewrite <- staleIn_false in Hstale.
    apply not_false_is_true in Hstale. rewrite Hstale in Hdecide. rewrite Hdecide.
    unfold DeleteDialParameters. cbn [logCall datastore].
    rewrite Hworking. cbn. rewrite <- app_assoc. split; reflexivity.
  - intros Hkeep Hephemeral. rewrite <- staleIn_false in Hkeep.
    rewrite Hkeep in Hdecide. rewrite Hdecide. cbn.
    split; [reflexivity |]. split; [reflexivity |].
    intros dialParams Hreturned.
    destruct result as [[o err] w'] eqn:Hresult. cbn in Hreturned. subst o.
    apply MakeDialParameters_returned in Hresult as (_ & Hresult).
    rewrite Hdecide in Hresult. cbn [fst] in Hresult.
    destruct (Config.DisableReplay config) eqn:Edisable;
      [cbn in Hresult; tauto |].
    destruct (canReplay serverEntry (TunnelProtocol R)) eqn:Ecan;
      [| cbn in Hresult; tauto].
    exfalso. apply Hephemeral. split; assumption.
Qed.
(** ** The custom headers of the returned record *)

(** Claim C10 (amended).  In the [DialConfig.CustomHeaders] of every record
    that [MakeDialParameters] returns, a header name of the tactics
    parameter [AdditionalCustomHeaders] has the tactics value, also when
    [config.CustomHeaders] has the name too, and any other name has what
    [config.CustomHeaders] holds for it -- for every name but "User-Agent"
    in a dial that takes a User-Agent header (meek, an HTTP upstream proxy,
    Conjure API registration) and whose record has [SelectedUserAgent]:
    there "User-Agent" holds the single value [UserAgent] of the record.
    The tactics are the snapshot taken with the network latency multiplier
    of the record. *)
Theorem MakeDialParameters_custom_headers config canReplay selectProtocol serverEntry
    isTactics candidateNumber establishedTunnelsCount w dialParams err w' :
  MakeDialParameters config canReplay selectProtocol serverEntry isTactics
    candidateNumber establishedTunnelsCount w = ((Some dialParams, err), w') ->
  let p := parameters.GetCustom (Config.GetParameters config)
             (NetworkLatencyMultiplier dialParams) in
  let additionalCustomHeaders := parameters.HTTPHeaders p parameters.AdditionalCustomHeaders in
  exists dialConfig',
    dialConfig dialParams = Some dialConfig'
    /\ (forall name,
          name <> "User-Agent"
          \/ takesUserAgent dialParams && SelectedUserAgent dialParams = false ->
          DialConfig.CustomHeaders dialConfig' !! name =
          match additionalCustomHeaders !! name with
          | Some v => Some v
          | None => configHeader config name
          end)
    /\ (takesUserAgent dialParams && SelectedUserAgent dialParams = true ->
        DialConfig.CustomHeaders dialConfig' !! "User-Agent"
        = Some [UserAgent dialParams]).
Proof.
  intros Hrun.
  apply MakeDialParameters_inv in Hrun
    as (stored & stamp & w1 & rs & d1 & p1 & usingTLS & s1 & _ & _ & Hhead & Htail & _ & _).
  apply selectUpToHostNames_tracked in Hhead as (_ & _ & _ & Hp).
  pose proof (selectFromQUICVersion_tracked _ _ _ _ _ _ _ _ _ _ Htail) as (_ & _ & Hnlm & _).
  apply selectFromQUICVersion_headers in Htail as (dialConfig' & Hconfig & Hheaders).
  rewrite <- Hnlm in Hp. subst p1. cbv zeta.
  exists dialConfig'. split; [exact Hconfig |]. rewrite Hheaders. split.
  - intros name [Hname | Hnot].
    + destruct (takesUserAgent dialParams && SelectedUserAgent dialParams).
      * unfold http.Set_. rewrite lookup_insert_ne by congruence.
        apply makeDialCustomHeaders_lookup.
      * apply makeDialCustomHeaders_lookup.
    + rewrite Hnot. apply makeDialCustomHeaders_lookup.
  - intros ->. unfold http.Set_. apply lookup_insert_eq.
Qed.

(** ** What a replay carries over *)

Ltac replay_block :=
  intros ? ? ? ? Hrun; cbv beta delta [fresh] in Hrun;
  cbn [negb orb andb] in Hrun; step_inv; keeps_chain.

Lemma selectNetworkLatencyMultiplier_replayed p isReplay :
  keeps replayed (selectNetworkLatencyMultiplier p isReplay).
Proof. unfold selectNetworkLatencyMultiplier. keeps_block. Qed.

Lemma restrictFrontingProviderID_replayed p serverEntry :
  keeps replayed (restrictFrontingProviderID p serverEntry).
Proof. unfold restrictFrontingProviderID. keeps_block. Qed.

Lemma checkUpstreamProxy_replayed config p serverEntry :
  keeps replayed (checkUpstreamProxy config p serverEntry).
Proof. unfold checkUpstreamProxy. keeps_block. Qed.

Lemma selectBPFProgram_replayed p : keeps replayed (selectBPFProgram p true true).
Proof. unfold selectBPFProgram. replay_block. Qed.

Lemma selectSSH_replayed : keeps replayed (selectSSH true true).
Proof. unfold selectSSH. replay_block. Qed.

Lemma selectObfuscatorPadding_replayed : keeps replayed (selectObfuscatorPadding true true).
Proof. unfold selectObfuscatorPadding. replay_block. Qed.

Lemma selectFragmentor_replayed : keeps replayed (selectFragmentor true true).
Proof. unfold selectFragmentor. replay_block. Qed.

Lemma selectConjureRegistration_replayed config p :
  keeps replayed (selectConjureRegistration config p true true).
Proof. unfold selectConjureRegistration. replay_block. Qed.

Lemma selectConjureTransportBlock_replayed p :
  keeps replayed (selectConjureTransportBlock p true true).
Proof. unfold selectConjureTransportBlock. replay_block. Qed.

Lemma selectTLSProfileBlock_replayed p serverEntry usingTLS :
  keeps replayed (selectTLSProfileBlock p serverEntry true true usingTLS).
Proof. unfold selectTLSProfileBlock. replay_block. Qed.

Lemma selectFronting_replayed serverEntry :
  keeps replayed (selectFronting serverEntry true true).
Proof. unfold selectFronting. replay_block. Qed.

Lemma selectHostNames_replayed p serverEntry :
  keeps replayed (selectHostNames p serverEntry true true).
Proof. unfold selectHostNames. replay_block. Qed.

Lemma selectQUICVersionBlock_replayed p serverEntry :
  keeps replayed (selectQUICVersionBlock p serverEntry true true).
Proof. unfold selectQUICVersionBlock. replay_block. Qed.

Lemma selectObfuscatedQUICPadding_replayed :
  keeps replayed (selectObfuscatedQUICPadding true true).
Proof. unfold selectObfuscatedQUICPadding. replay_block. Qed.

Lemma selectObfuscatedQUICNonceTransformer_replayed p serverEntry isReplay replayX :
  keeps replayed (selectObfuscatedQUICNonceTransformer p serverEntry isReplay replayX).
Proof. unfold selectObfuscatedQUICNonceTransformer. keeps_block. Qed.

Lemma selectLivenessTest_replayed : keeps replayed (selectLivenessTest true true).
Proof. unfold selectLivenessTest. replay_block. Qed.

Lemma selectAPIRequestPadding_replayed : keeps replayed (selectAPIRequestPadding true true).
Proof. unfold selectAPIRequestPadding. replay_block. Qed.

Lemma selectResolveParameters_replayed p rs :
  keeps replayed (selectResolveParameters p rs true true).
Proof. unfold selectResolveParameters. replay_block. Qed.

Lemma selectHoldOffTunnel_replayed p : keeps replayed (selectHoldOffTunnel p true true).
Proof. unfold selectHoldOffTunnel. replay_block. Qed.

Lemma selectOSSHSeedTransformer_replayed p serverEntry isReplay replayX :
  keeps replayed (selectOSSHSeedTransformer p serverEntry isReplay replayX).
Proof. unfold selectOSSHSeedTransformer. keeps_block. Qed.

Lemma selectOSSHPrefix_replayed p serverEntry isReplay replayX :
  keeps replayed (selectOSSHPrefix p serverEntry isReplay replayX).
Proof. unfold selectOSSHPrefix. keeps_block. Qed.

#[local] Hint Resolve selectOSSHSeedTransformer_replayed selectOSSHPrefix_replayed : keeps.

Lemma selectOSSHTransforms_replayed p serverEntry isReplay replayS replayP :
  keeps replayed (selectOSSHTransforms p serverEntry isReplay replayS replayP).
Proof. unfold selectOSSHTransforms. keeps_block. Qed.

Lemma selectHTTPTransformer_replayed config serverEntry isReplay replayX :
  keeps replayed (selectHTTPTransformer config serverEntry isReplay replayX).
Proof. unfold selectHTTPTransformer. keeps_block. Qed.

Lemma setDialAddress_replayed serverEntry : keeps replayed (setDialAddress serverEntry).
Proof. unfold setDialAddress. keeps_block. Qed.

Lemma checkMeekAddresses_replayed p : keeps replayed (checkMeekAddresses p).
Proof. unfold checkMeekAddresses. keeps_block. Qed.

Lemma selectTLSFragmentClientHello_replayed p usingTLS :
  keeps replayed (selectTLSFragmentClientHello p true true usingTLS).
Proof. unfold selectTLSFragmentClientHello. replay_block. Qed.

#[local] Hint Resolve
  selectNetworkLatencyMultiplier_replayed restrictFrontingProviderID_replayed
  checkUpstreamProxy_replayed selectBPFProgram_replayed selectSSH_replayed
  selectObfuscatorPadding_replayed selectFragmentor_replayed
  selectConjureRegistration_replayed selectConjureTransportBlock_replayed
  selectTLSProfileBlock_replayed selectFronting_replayed selectHostNames_replayed
  selectQUICVersionBlock_replayed selectObfuscatedQUICPadding_replayed
  selectObfuscatedQUICNonceTransformer_replayed selectLivenessTest_replayed
  selectAPIRequestPadding_replayed selectResolveParameters_replayed
  selectHoldOffTunnel_replayed selectOSSHTransforms_replayed
  selectHTTPTransformer_replayed setDialAddress_replayed checkMeekAddresses_replayed
  selectTLSFragmentClientHello_replayed : keeps.

Ltac in_replayFlagNames :=
  unfold replayFlagNames; cbn [In]; repeat first [left; reflexivity | right].

(** Rewrites the replay flags read from a snapshot in which all are set. *)
Ltac all_flags_set Hall H :=
  repeat match type of H with
  | context [parameters.Bool ?p ?name] =>
    rewrite (Hall name ltac:(in_replayFlagNames)) in H
  end.

Lemma selectUpToHostNames_replayed config selectProtocol serverEntry d s d' p usingTLS s' :
  allReplayFlags (parameters.Get (Config.GetParameters config)) ->
  selectUpToHostNames config selectProtocol serverEntry true false d s
    = (inr (d', p, usingTLS), s') ->
  replayed d' = replayed d.
Proof.
  unfold selectUpToHostNames, selectGivenProtocol. intros Hall Hrun.
  all_flags_set Hall Hrun. step_inv.
  match goal with
  | Hsel : selectTunnelProtocol _ _ _ _ _ _ = _ |- _ =>
    apply selectTunnelProtocol_inv in Hsel as (-> & -> & _)
  end.
  cbn [negb andb]. keeps_chain.
Qed.

Lemma selectUserAgent_replay config p d s d' h s' :
  selectUserAgent config p true true d s = (inr (d', h), s') -> d' = d.
Proof.
  unfold selectUserAgent, fresh. cbn [negb orb]. intros Hrun. step_inv; reflexivity.
Qed.

Lemma selectFromQUICVersion_replayed config serverEntry rs p usingTLS d s d' s' :
  allReplayFlags (parameters.Get (Config.GetParameters config)) ->
  selectFromQUICVersion config serverEntry rs true p usingTLS d s = (inr d', s') ->
  replayed d' = replayed d.
Proof.
  unfold selectFromQUICVersion. intros Hall Hrun.
  all_flags_set Hall Hrun. step_inv.
  match goal with
  | Hua : selectUserAgent _ _ _ _ _ _ = _ |- _ =>
    apply selectUserAgent_replay in Hua; subst
  end.
  match goal with
  | |- replayed (makeDialConfig _ _ _ ?h (setUpstreamProxyCustomHeaderNames _ ?h
                   (setUpstreamProxyType _ ?d10))) = _ =>
    transitivity (replayed d10);
      [unfold setUpstreamProxyCustomHeaderNames, setUpstreamProxyType;
       destruct (0 <? _)%nat; destruct (Config.UseUpstreamProxy config);
       try destruct (common_SafeParseURL _); reflexivity |]
  end.
  keeps_chain.
Qed.

Lemma replayDecision_found config canReplay serverEntry w R :
  foundIn config serverEntry w = Some R ->
  fst (fst (replayDecision config canReplay serverEntry w)) =
  if staleIn config serverEntry w R then None
  else if Config.DisableReplay config
          || negb (canReplay serverEntry (TunnelProtocol R))
       then None else Some R.
Proof.
  intros Hfound. rewrite replayDecision_unfold. cbv zeta. rewrite Hfound.
  destruct (staleIn config serverEntry w R); reflexivity.
Qed.

Lemma replayDecision_eligible config canReplay serverEntry w R :
  foundIn config serverEntry w = Some R ->
  fst (fst (replayDecision config canReplay serverEntry w)) = Some R
  <-> conditions1to7 config serverEntry w R
      /\ conditions8to9 config canReplay serverEntry R.
Proof.
  intros Hfound. rewrite (replayDecision_found _ _ _ _ _ Hfound).
  rewrite <- staleIn_false. unfold conditions8to9.
  destruct (staleIn config serverEntry w R).
  - split; [discriminate | intros [E _]; discriminate].
  - destruct (Config.DisableReplay config); cbn [orb].
    + split; [discriminate | intros (_ & E & _); discriminate].
    + destruct (canReplay serverEntry (TunnelProtocol R)); cbn [negb].
      * split; auto.
      * split; [discriminate | intros (_ & _ & E); discriminate].
Qed.

(** ** Replay eligibility *)

(** C1. For a stored record [R] found for the server and network and not
    exchanged: the replay decision keeps [R] exactly when conditions (1) to
    (9) hold; a record that [MakeDialParameters] returns has [IsReplay]
    set exactly when they hold; and a record returned with [IsReplay] set
    has the tunnel protocol of [R] and, when every replay flag of the
    tactics is set, all the selections of [R]. *)
Theorem MakeDialParameters_replays_iff_eligible
    config canReplay selectProtocol serverEntry isTactics
    candidateNumber establishedTunnelsCount w R :
  foundIn config serverEntry w = Some R ->
  IsExchanged R = false ->
  let eligible :=
    conditions1to7 config serverEntry w R
    /\ conditions8to9 config canReplay serverEntry R in
  (fst (fst (replayDecision config canReplay serverEntry w)) = Some R <-> eligible)
  /\ forall dialParams err w',
      MakeDialParameters config canReplay selectProtocol serverEntry isTactics
        candidateNumber establishedTunnelsCount w = ((Some dialParams, err), w') ->
      (IsReplay dialParams = true <-> eligible)
      /\ (IsReplay dialParams = true ->
          TunnelProtocol dialParams = TunnelProtocol R
          /\ (allReplayFlags (parameters.Get (Config.GetParameters config)) ->
              replayed dialParams = replayed R)).
Proof.
  intros Hfound Hnormal eligible.
  pose proof (replayDecision_eligible config canReplay serverEntry w R Hfound) as Hdecide.
  fold eligible in Hdecide.
  split; [exact Hdecide |].
  intros dialParams err w' Hrun.
  pose proof (MakeDialParameters_returned _ _ _ _ _ _ _ _ _ _ _ Hrun) as (_ & Hreturned).
  pose proof (replayDecision_found config canReplay serverEntry w R Hfound) as Hcases.
  assert (Hreplay : IsReplay dialParams = true ->
                    fst (fst (replayDecision config canReplay serverEntry w)) = Some R).
  { intros Hset. rewrite Hcases in Hreturned |- *.
    destruct (staleIn config serverEntry w R);
      [destruct Hreturned; congruence |].
    destruct (Config.DisableReplay config || negb (canReplay serverEntry (TunnelProtocol R)));
      [destruct Hreturned; congruence | reflexivity]. }
  split; [split |].
  - intros Hset. apply Hdecide, Hreplay, Hset.
  - intros Heligible. apply Hdecide in Heligible. rewrite Heligible in Hreturned.
    destruct Hreturned as [-> _]. rewrite Hnormal. reflexivity.
  - intros Hset. specialize (Hreplay Hset). rewrite Hreplay in Hreturned.
    split; [apply Hreturned |].
    intros Hall.
    apply MakeDialParameters_inv in Hrun
      as (stored & stamp & w1 & rs & d1 & p & usingTLS & s1
          & Hstored & _ & Hhead & Htail & _).
    rewrite Hstored in Hreplay. cbn [fst] in Hreplay. subst stored.
    cbv zeta in Hhead, Htail. rewrite Hnormal in Hhead, Htail.
    cbn [notNil] in Hhead, Htail.
    apply (selectUpToHostNames_replayed _ _ _ _ _ _ _ _ _ Hall) in Hhead.
    apply (selectFromQUICVersion_replayed _ _ _ _ _ _ _ _ _ Hall) in Htail.
    rewrite Htail, Hhead. reflexivity.
Qed.

(** ** No QUIC version *)

Lemma bind_run {A B} (m : Dial A) (k : A -> Dial B) s a s1 :
  m s = (inr a, s1) -> bind m k s = k a s1.
Proof. unfold bind. intros ->. reflexivity. Qed.

Lemma bind_exit {A B} (m : Dial A) (k : A -> Dial B) s e s1 :
  m s = (inl e, s1) -> bind m k s = (inl e, s1).
Proof. unfold bind. intros ->. reflexivity. Qed.

(** The QUIC version block leaves the composer with [(nil, nil)] when it
    selects afresh and the selector returns the empty string. *)
Lemma selectQUICVersionBlock_skips p serverEntry isReplay replayQUICVersion d s :
  fresh isReplay replayQUICVersion = true ->
  protocol.TunnelProtocolUsesQUIC (TunnelProtocol d) = true ->
  fst (selectQUICVersion
         (protocol.TunnelProtocolUsesFrontedMeekQUIC (TunnelProtocol d)) serverEntry p s)
  = inr "" ->
  fst (selectQUICVersionBlock p serverEntry isReplay replayQUICVersion d s)
  = inl SkipCandidate.
Proof.
  intros Hfresh Hquic Hnone. unfold selectQUICVersionBlock.
  rewrite Hfresh, Hquic. cbn [andb].
  destruct (selectQUICVersion _ serverEntry p s) as [r s1] eqn:Hselect.
  cbn [fst] in Hnone. subst r.
  rewrite (bind_run _ _ _ _ _ Hselect). reflexivity.
Qed.

(** C8. When a run gets to the QUIC version block (line 748) composing
    afresh ([!isReplay || !replayQUICVersion]) for a tunnel protocol that
    uses QUIC, and [selectQUICVersion] returns the empty string there,
    [MakeDialParameters] returns [(nil, nil)]. *)
Theorem MakeDialParameters_skips_without_QUIC_version
    config canReplay selectProtocol serverEntry isTactics
    candidateNumber establishedTunnelsCount w d p isReplay s :
  beforeQUICVersion config canReplay selectProtocol serverEntry
    candidateNumber establishedTunnelsCount w = Some (d, p, isReplay, s) ->
  fresh isReplay
    (parameters.Bool (parameters.Get (Config.GetParameters config))
       parameters.ReplayQUICVersion) = true ->
  protocol.TunnelProtocolUsesQUIC (TunnelProtocol d) = true ->
  fst (selectQUICVersion
         (protocol.TunnelProtocolUsesFrontedMeekQUIC (TunnelProtocol d)) serverEntry p s)
  = inr "" ->
  fst (MakeDialParameters config canReplay selectProtocol serverEntry isTactics
         candidateNumber establishedTunnelsCount w) = (None, None).
Proof.
  unfold beforeQUICVersion, MakeDialParameters, compose.
  destruct (replayDecision config canReplay serverEntry w) as [[stored stamp] w1].
  intros Hbefore Hfresh Hquic Hnone.
  destruct (startRecord config serverEntry candidateNumber establishedTunnelsCount
              stored stamp (source w1))
    as [[e | [[[d0 rs] isReplay0] isExchanged]] s0] eqn:Hstart;
    [rewrite (bind_exit _ _ _ _ _ Hstart) in Hbefore; discriminate |].
  rewrite (bind_run _ _ _ _ _ Hstart) in Hbefore. rewrite (bind_run _ _ _ _ _ Hstart).
  destruct (selectUpToHostNames config selectProtocol serverEntry isReplay0 isExchanged
              d0 s0)
    as [[e | [[d1 p1] usingTLS]] s1] eqn:Hhead;
    [rewrite (bind_exit _ _ _ _ _ Hhead) in Hbefore; discriminate |].
  rewrite (bind_run _ _ _ _ _ Hhead) in Hbefore. rewrite (bind_run _ _ _ _ _ Hhead).
  cbn in Hbefore. injection Hbefore as -> -> -> ->.
  unfold selectFromQUICVersion.
  pose proof (selectQUICVersionBlock_skips p serverEntry isReplay _ d s Hfresh Hquic Hnone)
    as Hskip.
  destruct (selectQUICVersionBlock p serverEntry isReplay _ d s) as [r s2] eqn:Hblock.
  cbn [fst] in Hskip. subst r.
  rewrite (bind_exit _ _ _ _ _ Hblock). reflexivity.
Qed.

(** ** Exchanged dial parameters *)

Lemma startRecord_run config serverEntry candidateNumber establishedTunnelsCount
    stored stamp rs s :
  Config.GetResolver config = Some rs ->
  startRecord config serverEntry candidateNumber establishedTunnelsCount stored stamp s
  = (inr (startOf config serverEntry candidateNumber establishedTunnelsCount stored stamp,
          rs,
          (if match stored with Some R => IsExchanged R | None => false end
           then false else notNil stored),
          match stored with Some R => IsExchanged R | None => false end), s).
Proof.
  intros Hrs. unfold startRecord, startOf. destruct stamp as [[t csh] seh].
  change (resolver (set_resolver (Config.GetResolver config)
                      match stored with Some R => R | None => DialParameters_zero end))
    with (Config.GetResolver config).
  rewrite Hrs. reflexivity.
Qed.

Lemma startRecord_no_resolver config serverEntry candidateNumber establishedTunnelsCount
    stored stamp s :
  Config.GetResolver config = None ->
  startRecord config serverEntry candidateNumber establishedTunnelsCount stored stamp s
  = (inl (ReturnError "missing resolver"), s).
Proof.
  intros Hrs. unfold startRecord. destruct stamp as [[t csh] seh].
  change (resolver (set_resolver (Config.GetResolver config)
                      match stored with Some R => R | None => DialParameters_zero end))
    with (Config.GetResolver config).
  rewrite Hrs. reflexivity.
Qed.

Lemma selectNetworkLatencyMultiplier_fresh p d s :
  selectNetworkLatencyMultiplier p false d s
  = (inr (set_NetworkLatencyMultiplier
            (prng.ExpFloat64Range
               (parameters.Float p parameters.NetworkLatencyMultiplierMin)
               (parameters.Float p parameters.NetworkLatencyMultiplierMax)
               (parameters.Float p parameters.NetworkLatencyMultiplierLambda)
               (fst (prng.next s))) d),
     snd (prng.next s)).
Proof.
  unfold selectNetworkLatencyMultiplier. cbn [negb orb].
  unfold bind, draw, ret. destruct (prng.next s). reflexivity.
Qed.

Lemma selectTunnelProtocol_exchanged selectProtocol serverEntry d s :
  selectTunnelProtocol selectProtocol serverEntry false true d s = (inr d, s).
Proof. reflexivity. Qed.

Lemma selectTunnelProtocol_fresh tunnelProtocol serverEntry d s :
  selectTunnelProtocol (fun _ => (tunnelProtocol, true)) serverEntry false false d s
  = (inr (set_TunnelProtocol tunnelProtocol d), s).
Proof. reflexivity. Qed.

(** From the tunnel protocol block on, the composition from an exchanged
    record is the fresh composition in which [selectProtocol] gives the
    exchanged protocol. *)
Lemma selectUpToHostNames_exchanged config selectProtocol serverEntry
    candidateNumber establishedTunnelsCount exchanged p0 t0 stamp s :
  selectUpToHostNames config selectProtocol serverEntry false true
    (startOf config serverEntry candidateNumber establishedTunnelsCount
       (Some (ExchangedDialParameters_MakeDialParameters exchanged config p0
                serverEntry t0)) stamp) s
  = selectUpToHostNames config
      (fun _ => (ExchangedDialParameters.TunnelProtocol exchanged, true))
      serverEntry false false
      (startOf config serverEntry candidateNumber establishedTunnelsCount None stamp) s.
Proof.
  unfold selectUpToHostNames.
  rewrite !(bind_run _ _ _ _ _ (selectNetworkLatencyMultiplier_fresh _ _ _)).
  cbv zeta.
  rewrite (bind_run _ _ _ _ _ (selectTunnelProtocol_exchanged _ _ _ _)).
  rewrite (bind_run _ _ _ _ _ (selectTunnelProtocol_fresh _ _ _ _)).
  unfold ExchangedDialParameters_MakeDialParameters.
  destruct (getDialStateHashes config p0 serverEntry) as [csh seh].
  reflexivity.
Qed.

(** Whatever [selectProtocol] is, the composition from an exchanged record
    is the same: the tunnel protocol block (lines 415-428) leaves the
    record as it is. *)
Lemma selectUpToHostNames_exchanged_selector config selectProtocol selectProtocol'
    serverEntry d s :
  selectUpToHostNames config selectProtocol serverEntry false true d s
  = selectUpToHostNames config selectProtocol' serverEntry false true d s.
Proof.
  unfold selectUpToHostNames.
  rewrite !(bind_run _ _ _ _ _ (selectNetworkLatencyMultiplier_fresh _ _ _)).
  cbv zeta.
  rewrite !(bind_run _ _ _ _ _ (selectTunnelProtocol_exchanged _ _ _ _)).
  reflexivity.
Qed.

Lemma replayDecision_eligible_run config canReplay serverEntry w R :
  foundIn config serverEntry w = Some R ->
  conditions1to7 config serverEntry w R ->
  conditions8to9 config canReplay serverEntry R ->
  replayDecision config canReplay serverEntry w
  = (Some R, stampOf config serverEntry w,
     logCall (CallGetDialParameters (protocol.IpAddress serverEntry)
                (Config.GetNetworkID config)) w).
Proof.
  intros Hfound H17 H89.
  rewrite replayDecision_unfold. cbv zeta. rewrite Hfound.
  apply staleIn_false in H17. rewrite H17.
  destruct H89 as [-> ->]. reflexivity.
Qed.

Lemma MakeDialParameters_exchanged_selector config canReplay selectProtocol
    selectProtocol' serverEntry isTactics candidateNumber establishedTunnelsCount w R :
  fst (fst (replayDecision config canReplay serverEntry w)) = Some R ->
  IsExchanged R = true ->
  MakeDialParameters config canReplay selectProtocol' serverEntry isTactics
    candidateNumber establishedTunnelsCount w
  = MakeDialParameters config canReplay selectProtocol serverEntry isTactics
      candidateNumber establishedTunnelsCount w.
Proof.
  unfold MakeDialParameters.
  destruct (replayDecision config canReplay serverEntry w) as [[stored stamp] w1].
  cbn [fst]. intros -> Hexchanged. unfold compose.
  destruct (Config.GetResolver config) as [rs |] eqn:Hrs.
  - rewrite !(bind_run _ _ _ _ _ (startRecord_run _ _ _ _ _ _ _ _ Hrs)).
    rewrite Hexchanged. cbv beta iota zeta. unfold bind.
    rewrite (selectUpToHostNames_exchanged_selector config selectProtocol'
               selectProtocol).
    reflexivity.
  - rewrite !(bind_exit _ _ _ _ _ (startRecord_no_resolver _ _ _ _ _ _ _ Hrs)).
    reflexivity.
Qed.

(** When the stored record is the one that
    [ExchangedDialParameters.MakeDialParameters] made and it passes
    conditions (1) to (9), [MakeDialParameters] returns what the fresh
    composition returns when nothing is stored and [selectProtocol] gives
    the exchanged tunnel protocol, and leaves the store as it was. *)
Lemma MakeDialParameters_exchanged_as_fresh
    config canReplay selectProtocol serverEntry isTactics
    candidateNumber establishedTunnelsCount w exchanged p0 t0 :
  let R := ExchangedDialParameters_MakeDialParameters exchanged config p0 serverEntry t0 in
  let key := (protocol.IpAddress serverEntry, Config.GetNetworkID config) in
  let tunnelProtocol := ExchangedDialParameters.TunnelProtocol exchanged in
  foundIn config serverEntry w = Some R ->
  conditions1to7 config serverEntry w R ->
  conditions8to9 config canReplay serverEntry R ->
  let afresh :=
    MakeDialParameters config canReplay (fun _ => (tunnelProtocol, true)) serverEntry
      isTactics candidateNumber establishedTunnelsCount
      (withRecords (delete key (records (datastore w))) w) in
  MakeDialParameters config canReplay selectProtocol serverEntry isTactics
    candidateNumber establishedTunnelsCount w
  = (fst afresh, withRecords (records (datastore w)) (snd afresh)).
Proof.
  intros R key tunnelProtocol Hfound H17 H89 afresh.
  pose proof (replayDecision_eligible_run _ _ _ _ _ Hfound H17 H89) as Hdecide.
  assert (Hexchanged : IsExchanged R = true).
  { unfold R, ExchangedDialParameters_MakeDialParameters.
    destruct (getDialStateHashes config p0 serverEntry). reflexivity. }
  assert (Hworking : failing (datastore w) = false)
    by (unfold foundIn in Hfound; destruct (failing (datastore w)); congruence).
  subst afresh. unfold MakeDialParameters. rewrite Hdecide.
  rewrite replayDecision_unfold. cbv zeta.
  assert (Hnone : foundIn config serverEntry (withRecords (delete key (records (datastore w))) w)
                  = None).
  { unfold foundIn. cbn [withRecords datastore failing records]. rewrite Hworking.
    fold key. rewrite lookup_delete_eq. reflexivity. }
  rewrite Hnone.
  change (stampOf config serverEntry (withRecords (delete key (records (datastore w))) w))
    with (stampOf config serverEntry w).
  cbn [source logCall withRecords].
  unfold compose.
  destruct (Config.GetResolver config) as [rs |] eqn:Hrs.
  + rewrite !(bind_run _ _ _ _ _ (startRecord_run _ _ _ _ _ _ _ _ Hrs)).
    rewrite Hexchanged. cbv beta iota zeta. cbn [notNil].
    unfold R, bind. rewrite selectUpToHostNames_exchanged. fold tunnelProtocol.
    destruct (selectUpToHostNames _ _ _ _ _ _ (source w)) as [[e | [[d1 p] usingTLS]] s1];
      [destruct w as [t src [recs failed] log]; cbn in *; reflexivity |].
    destruct (selectFromQUICVersion _ _ _ _ _ _ _ s1) as [r s].
    destruct w as [t src [recs failed] log]. cbn in *. reflexivity.
  + rewrite !(bind_exit _ _ _ _ _ (startRecord_no_resolver _ _ _ _ _ _ _ Hrs)).
    destruct w as [t src [recs failed] log]. cbn in *. reflexivity.
Qed.
(** ** Frames

    What a block leaves alone: a projection [F] of the record that none of
    the assignments of a block changes is kept by the block.  One lemma for
    each block, in the order of the source. *)

Ltac frame_rewrite :=
  repeat match goal with
  | I : ignores _ _ |- _ => rewrite (I _ _)
  end.

Create HintDb frames discriminated.

#[local] Hint Extern 1 (ignores _ _) => intros ? ?; reflexivity : frames.

(** Closes [F d' = F d] where [d'] is [d] after assignments that [F]
    ignores and blocks whose frame lemma applies. *)
Ltac frame_chain :=
  frame_rewrite;
  first
    [ reflexivity
    | match goal with
      | H : ?block ?d0 _ = (inr ?d1, _) |- ?F ?d1 = _ =>
        let K := fresh "K" in
        assert (K : keeps F block) by (eauto with frames);
        rewrite (K _ _ _ _ H); clear H K; frame_chain
      end ].

Ltac frame_block :=
  intros; intros ? ? ? ? Hrun; cbv beta delta [fresh] in Hrun; step_inv; frame_chain.

Lemma selectNetworkLatencyMultiplier_frame {T} (F : DialParameters -> T) p isReplay :
  ignores F set_NetworkLatencyMultiplier ->
  keeps F (selectNetworkLatencyMultiplier p isReplay).
Proof. unfold selectNetworkLatencyMultiplier. frame_block. Qed.
#[local] Hint Resolve selectNetworkLatencyMultiplier_frame : frames.

Lemma selectTunnelProtocol_frame {T} (F : DialParameters -> T) selectProtocol serverEntry isReplay isExchanged :
  ignores F set_TunnelProtocol ->
  keeps F (selectTunnelProtocol selectProtocol serverEntry isReplay isExchanged).
Proof. unfold selectTunnelProtocol. frame_block. Qed.
#[local] Hint Resolve selectTunnelProtocol_frame : frames.

Lemma restrictFrontingProviderID_frame {T} (F : DialParameters -> T) p serverEntry :
  keeps F (restrictFrontingProviderID p serverEntry).
Proof. unfold restrictFrontingProviderID. frame_block. Qed.
#[local] Hint Resolve restrictFrontingProviderID_frame : frames.

Lemma checkUpstreamProxy_frame {T} (F : DialParameters -> T) config p serverEntry :
  keeps F (checkUpstreamProxy config p serverEntry).
Proof. unfold checkUpstreamProxy. frame_block. Qed.
#[local] Hint Resolve checkUpstreamProxy_frame : frames.

Lemma selectBPFProgram_frame {T} (F : DialParameters -> T) p isReplay replayBPF :
  ignores F set_BPFProgramName ->
  ignores F set_BPFProgramInstructions ->
  keeps F (selectBPFProgram p isReplay replayBPF).
Proof. unfold selectBPFProgram. frame_block. Qed.
#[local] Hint Resolve selectBPFProgram_frame : frames.

Lemma selectSSH_frame {T} (F : DialParameters -> T) isReplay replaySSH :
  ignores F set_SelectedSSHClientVersion ->
  ignores F set_SSHClientVersion ->
  ignores F set_SSHKEXSeed ->
  keeps F (selectSSH isReplay replaySSH).
Proof. unfold selectSSH. frame_block. Qed.
#[local] Hint Resolve selectSSH_frame : frames.

Lemma selectObfuscatorPadding_frame {T} (F : DialParameters -> T) isReplay replayObfuscatorPadding :
  ignores F set_ObfuscatorPaddingSeed ->
  ignores F set_MeekObfuscatorPaddingSeed ->
  ignores F set_TLSOSSHObfuscatorPaddingSeed ->
  keeps F (selectObfuscatorPadding isReplay replayObfuscatorPadding).
Proof. unfold selectObfuscatorPadding. frame_block. Qed.
#[local] Hint Resolve selectObfuscatorPadding_frame : frames.

Lemma selectFragmentor_frame {T} (F : DialParameters -> T) isReplay replayFragmentor :
  ignores F set_FragmentorSeed ->
  keeps F (selectFragmentor isReplay replayFragmentor).
Proof. unfold selectFragmentor. frame_block. Qed.
#[local] Hint Resolve selectFragmentor_frame : frames.

Lemma selectConjureAPIRegistration_frame {T} (F : DialParameters -> T) config p apiURL :
  ignores F set_FrontingProviderID ->
  ignores F set_MeekFrontingDialAddress ->
  ignores F set_MeekFrontingHost ->
  ignores F set_MeekDialAddress ->
  ignores F set_MeekTransformedHostName ->
  ignores F set_MeekSNIServerName ->
  ignores F set_MeekVerifyServerName ->
  ignores F set_MeekVerifyPins ->
  ignores F set_MeekHostHeader ->
  ignores F set_ConjureAPIRegistrarBidirectionalURL ->
  ignores F set_ConjureAPIRegistrarDelay ->
  keeps F (selectConjureAPIRegistration config p apiURL).
Proof. unfold selectConjureAPIRegistration. frame_block. Qed.
#[local] Hint Resolve selectConjureAPIRegistration_frame : frames.

Lemma selectConjureRegistration_frame {T} (F : DialParameters -> T) config p isReplay replayConjureRegistration :
  ignores F set_FrontingProviderID ->
  ignores F set_MeekFrontingDialAddress ->
  ignores F set_MeekFrontingHost ->
  ignores F set_MeekDialAddress ->
  ignores F set_MeekTransformedHostName ->
  ignores F set_MeekSNIServerName ->
  ignores F set_MeekVerifyServerName ->
  ignores F set_MeekVerifyPins ->
  ignores F set_MeekHostHeader ->
  ignores F set_ConjureCachedRegistrationTTL ->
  ignores F set_ConjureAPIRegistration ->
  ignores F set_ConjureAPIRegistrarBidirectionalURL ->
  ignores F set_ConjureAPIRegistrarDelay ->
  ignores F set_ConjureDecoyRegistration ->
  ignores F set_ConjureDecoyRegistrarWidth ->
  keeps F (selectConjureRegistration config p isReplay replayConjureRegistration).
Proof. unfold selectConjureRegistration. frame_block. Qed.
#[local] Hint Resolve selectConjureRegistration_frame : frames.

Lemma selectConjureTransportBlock_frame {T} (F : DialParameters -> T) p isReplay replayConjureTransport :
  ignores F set_ConjureTransport ->
  ignores F set_ConjureSTUNServerAddress ->
  ignores F set_ConjureDTLSEmptyInitialPacket ->
  keeps F (selectConjureTransportBlock p isReplay replayConjureTransport).
Proof. unfold selectConjureTransportBlock. frame_block. Qed.
#[local] Hint Resolve selectConjureTransportBlock_frame : frames.

Lemma selectTLSProfileBlock_frame {T} (F : DialParameters -> T) p serverEntry isReplay replayTLSProfile usingTLS :
  ignores F set_SelectedTLSProfile ->
  ignores F set_TLSProfile ->
  ignores F set_NoDefaultTLSSessionID ->
  ignores F set_TLSVersion ->
  ignores F set_RandomizedTLSProfileSeed ->
  keeps F (selectTLSProfileBlock p serverEntry isReplay replayTLSProfile usingTLS).
Proof. unfold selectTLSProfileBlock. frame_block. Qed.
#[local] Hint Resolve selectTLSProfileBlock_frame : frames.

Lemma selectFronting_frame {T} (F : DialParameters -> T) serverEntry isReplay replayFronting :
  ignores F set_FrontingProviderID ->
  ignores F set_MeekFrontingDialAddress ->
  ignores F set_MeekFrontingHost ->
  keeps F (selectFronting serverEntry isReplay replayFronting).
Proof. unfold selectFronting. frame_block. Qed.
#[local] Hint Resolve selectFronting_frame : frames.

Lemma selectHostNames_frame {T} (F : DialParameters -> T) p serverEntry isReplay replayHostname :
  ignores F set_MeekTransformedHostName ->
  ignores F set_MeekSNIServerName ->
  ignores F set_MeekHostHeader ->
  ignores F set_TLSOSSHTransformedSNIServerName ->
  ignores F set_TLSOSSHSNIServerName ->
  ignores F set_QUICDialSNIAddress ->
  keeps F (selectHostNames p serverEntry isReplay replayHostname).
Proof. unfold selectHostNames. frame_block. Qed.
#[local] Hint Resolve selectHostNames_frame : frames.

Lemma selectQUICVersionBlock_frame {T} (F : DialParameters -> T) p serverEntry isReplay replayQUICVersion :
  ignores F set_QUICVersion ->
  ignores F set_QUICClientHelloSeed ->
  ignores F set_QUICDisablePathMTUDiscovery ->
  keeps F (selectQUICVersionBlock p serverEntry isReplay replayQUICVersion).
Proof. unfold selectQUICVersionBlock. frame_block. Qed.
#[local] Hint Resolve selectQUICVersionBlock_frame : frames.

Lemma selectObfuscatedQUICPadding_frame {T} (F : DialParameters -> T) isReplay replayObfuscatedQUIC :
  ignores F set_ObfuscatedQUICPaddingSeed ->
  keeps F (selectObfuscatedQUICPadding isReplay replayObfuscatedQUIC).
Proof. unfold selectObfuscatedQUICPadding. frame_block. Qed.
#[local] Hint Resolve selectObfuscatedQUICPadding_frame : frames.

Lemma selectObfuscatedQUICNonceTransformer_frame {T} (F : DialParameters -> T) p serverEntry isReplay replayObfuscatedQUICNonceTransformer :
  ignores F set_ObfuscatedQUICNonceTransformerParameters ->
  keeps F (selectObfuscatedQUICNonceTransformer p serverEntry isReplay replayObfuscatedQUICNonceTransformer).
Proof. unfold selectObfuscatedQUICNonceTransformer. frame_block. Qed.
#[local] Hint Resolve selectObfuscatedQUICNonceTransformer_frame : frames.

Lemma selectLivenessTest_frame {T} (F : DialParameters -> T) isReplay replayLivenessTest :
  ignores F set_LivenessTestSeed ->
  keeps F (selectLivenessTest isReplay replayLivenessTest).
Proof. unfold selectLivenessTest. frame_block. Qed.
#[local] Hint Resolve selectLivenessTest_frame : frames.

Lemma selectAPIRequestPadding_frame {T} (F : DialParameters -> T) isReplay replayAPIRequestPadding :
  ignores F set_APIRequestPaddingSeed ->
  keeps F (selectAPIRequestPadding isReplay replayAPIRequestPadding).
Proof. unfold selectAPIRequestPadding. frame_block. Qed.
#[local] Hint Resolve selectAPIRequestPadding_frame : frames.

Lemma selectResolveParameters_frame {T} (F : DialParameters -> T) p rs isReplay replayResolveParameters :
  ignores F set_ResolveParameters ->
  keeps F (selectResolveParameters p rs isReplay replayResolveParameters).
Proof. unfold selectResolveParameters. frame_block. Qed.
#[local] Hint Resolve selectResolveParameters_frame : frames.

Lemma selectHoldOffTunnel_frame {T} (F : DialParameters -> T) p isReplay replayHoldOffTunnel :
  ignores F set_HoldOffTunnelDuration ->
  keeps F (selectHoldOffTunnel p isReplay replayHoldOffTunnel).
Proof. unfold selectHoldOffTunnel. frame_block. Qed.
#[local] Hint Resolve selectHoldOffTunnel_frame : frames.

Lemma selectOSSHSeedTransformer_frame {T} (F : DialParameters -> T) p serverEntry isReplay replayOSSHSeedTransformerParameters :
  ignores F set_OSSHObfuscatorSeedTransformerParameters ->
  keeps F (selectOSSHSeedTransformer p serverEntry isReplay replayOSSHSeedTransformerParameters).
Proof. unfold selectOSSHSeedTransformer. frame_block. Qed.
#[local] Hint Resolve selectOSSHSeedTransformer_frame : frames.

Lemma selectOSSHPrefix_frame {T} (F : DialParameters -> T) p serverEntry isReplay replayOSSHPrefix :
  ignores F set_OSSHPrefixSpec ->
  ignores F set_OSSHPrefixSplitConfig ->
  keeps F (selectOSSHPrefix p serverEntry isReplay replayOSSHPrefix).
Proof. unfold selectOSSHPrefix. frame_block. Qed.
#[local] Hint Resolve selectOSSHPrefix_frame : frames.

Lemma selectOSSHTransforms_frame {T} (F : DialParameters -> T) p serverEntry isReplay replayOSSHSeedTransformerParameters replayOSSHPrefix :
  ignores F set_OSSHObfuscatorSeedTransformerParameters ->
  ignores F set_OSSHPrefixSpec ->
  ignores F set_OSSHPrefixSplitConfig ->
  keeps F (selectOSSHTransforms p serverEntry isReplay replayOSSHSeedTransformerParameters replayOSSHPrefix).
Proof. unfold selectOSSHTransforms. frame_block. Qed.
#[local] Hint Resolve selectOSSHTransforms_frame : frames.

Lemma selectHTTPTransformer_frame {T} (F : DialParameters -> T) config serverEntry isReplay replayHTTPTransformerParameters :
  ignores F set_HTTPTransformerParameters ->
  keeps F (selectHTTPTransformer config serverEntry isReplay replayHTTPTransformerParameters).
Proof. unfold selectHTTPTransformer. frame_block. Qed.
#[local] Hint Resolve selectHTTPTransformer_frame : frames.

Lemma setDialAddress_frame {T} (F : DialParameters -> T) serverEntry :
  ignores F set_DirectDialAddress ->
  ignores F set_DialPortNumber ->
  ignores F set_MeekDialAddress ->
  ignores F set_MeekTransformedHostName ->
  ignores F set_MeekSNIServerName ->
  ignores F set_MeekHostHeader ->
  keeps F (setDialAddress serverEntry).
Proof. unfold setDialAddress. frame_block. Qed.
#[local] Hint Resolve setDialAddress_frame : frames.

Lemma checkMeekAddresses_frame {T} (F : DialParameters -> T) p :
  ignores F set_MeekSNIServerName ->
  keeps F (checkMeekAddresses p).
Proof. unfold checkMeekAddresses. frame_block. Qed.
#[local] Hint Resolve checkMeekAddresses_frame : frames.

Lemma selectTLSFragmentClientHello_frame {T} (F : DialParameters -> T) p isReplay replayTLSFragmentClientHello usingTLS :
  ignores F set_TLSFragmentClientHello ->
  keeps F (selectTLSFragmentClientHello p isReplay replayTLSFragmentClientHello usingTLS).
Proof. unfold selectTLSFragmentClientHello. frame_block. Qed.
#[local] Hint Resolve selectTLSFragmentClientHello_frame : frames.

Lemma selectUserAgent_frame {T} (F : DialParameters -> T) config p isReplay replayUserAgent
    d s d' h s' :
  ignores F set_SelectedUserAgent ->
  ignores F set_UserAgent ->
  selectUserAgent config p isReplay replayUserAgent d s = (inr (d', h), s') ->
  F d' = F d.
Proof.
  intros ? ? Hrun. unfold selectUserAgent in Hrun. cbv beta delta [fresh] in Hrun.
  step_inv; frame_chain.
Qed.

Lemma setUpstreamProxyType_frame {T} (F : DialParameters -> T) config d :
  ignores F set_UpstreamProxyType ->
  F (setUpstreamProxyType config d) = F d.
Proof.
  intros I. unfold setUpstreamProxyType.
  destruct (Config.UseUpstreamProxy config); [| reflexivity].
  destruct (common_SafeParseURL _); [apply I | reflexivity].
Qed.

Lemma setUpstreamProxyCustomHeaderNames_frame {T} (F : DialParameters -> T) config h d :
  ignores F set_UpstreamProxyCustomHeaderNames ->
  F (setUpstreamProxyCustomHeaderNames config h d) = F d.
Proof.
  intros I. unfold setUpstreamProxyCustomHeaderNames.
  destruct (0 <? _)%nat; [apply I | reflexivity].
Qed.

Lemma makeDialConfig_frame {T} (F : DialParameters -> T) config p serverEntry h d :
  ignores F set_dialConfig ->
  ignores F set_MeekResolvedIPAddress ->
  F (makeDialConfig config p serverEntry h d) = F d.
Proof. intros I1 I2. unfold makeDialConfig. rewrite I2, I1. reflexivity. Qed.

(** [frame_chain], also through the last steps of the composition. *)
Ltac frame_walk :=
  frame_rewrite;
  first
    [ reflexivity
    | match goal with
      | |- ?F (makeDialConfig _ _ _ _ ?d) = _ =>
        transitivity (F d); [apply makeDialConfig_frame; eauto with frames |]
      | |- ?F (setUpstreamProxyCustomHeaderNames _ _ ?d) = _ =>
        transitivity (F d);
        [apply setUpstreamProxyCustomHeaderNames_frame; eauto with frames |]
      | |- ?F (setUpstreamProxyType _ ?d) = _ =>
        transitivity (F d); [apply setUpstreamProxyType_frame; eauto with frames |]
      | H : selectUserAgent _ _ _ _ ?d0 _ = (inr (?d1, _), _) |- ?F ?d1 = _ =>
        transitivity (F d0);
        [eapply selectUserAgent_frame; [| | exact H]; eauto with frames |]; clear H
      | H : ?block ?d0 _ = (inr ?d1, _) |- ?F ?d1 = _ =>
        let K := fresh "K" in
        assert (K : keeps F block) by (eauto with frames);
        rewrite (K _ _ _ _ H); clear H K
      end; frame_walk ].

(** The two halves of the composition. *)
Lemma selectUpToHostNames_frame {T} (F : DialParameters -> T) config selectProtocol
    serverEntry isReplay isExchanged d s d' p usingTLS s' :
  ignores F set_NetworkLatencyMultiplier ->
  ignores F set_TunnelProtocol ->
  ignores F set_BPFProgramName ->
  ignores F set_BPFProgramInstructions ->
  ignores F set_SelectedSSHClientVersion ->
  ignores F set_SSHClientVersion ->
  ignores F set_SSHKEXSeed ->
  ignores F set_ObfuscatorPaddingSeed ->
  ignores F set_FragmentorSeed ->
  ignores F set_FrontingProviderID ->
  ignores F set_MeekFrontingDialAddress ->
  ignores F set_MeekFrontingHost ->
  ignores F set_MeekDialAddress ->
  ignores F set_MeekTransformedHostName ->
  ignores F set_MeekSNIServerName ->
  ignores F set_MeekVerifyServerName ->
  ignores F set_MeekVerifyPins ->
  ignores F set_MeekHostHeader ->
  ignores F set_MeekObfuscatorPaddingSeed ->
  ignores F set_TLSOSSHTransformedSNIServerName ->
  ignores F set_TLSOSSHSNIServerName ->
  ignores F set_TLSOSSHObfuscatorPaddingSeed ->
  ignores F set_SelectedTLSProfile ->
  ignores F set_TLSProfile ->
  ignores F set_NoDefaultTLSSessionID ->
  ignores F set_TLSVersion ->
  ignores F set_RandomizedTLSProfileSeed ->
  ignores F set_QUICDialSNIAddress ->
  ignores F set_ConjureCachedRegistrationTTL ->
  ignores F set_ConjureAPIRegistration ->
  ignores F set_ConjureAPIRegistrarBidirectionalURL ->
  ignores F set_ConjureAPIRegistrarDelay ->
  ignores F set_ConjureDecoyRegistration ->
  ignores F set_ConjureDecoyRegistrarWidth ->
  ignores F set_ConjureTransport ->
  ignores F set_ConjureSTUNServerAddress ->
  ignores F set_ConjureDTLSEmptyInitialPacket ->
  selectUpToHostNames config selectProtocol serverEntry isReplay isExchanged d s
    = (inr (d', p, usingTLS), s') ->
  F d' = F d.
Proof.
  intros. unfold selectUpToHostNames, selectGivenProtocol in *. step_inv. frame_walk.
Qed.

Lemma selectFromQUICVersion_frame {T} (F : DialParameters -> T) config serverEntry rs
    isReplay p usingTLS :
  ignores F set_DirectDialAddress ->
  ignores F set_DialPortNumber ->
  ignores F set_UpstreamProxyType ->
  ignores F set_UpstreamProxyCustomHeaderNames ->
  ignores F set_OSSHObfuscatorSeedTransformerParameters ->
  ignores F set_OSSHPrefixSpec ->
  ignores F set_OSSHPrefixSplitConfig ->
  ignores F set_MeekDialAddress ->
  ignores F set_MeekTransformedHostName ->
  ignores F set_MeekSNIServerName ->
  ignores F set_MeekHostHeader ->
  ignores F set_MeekResolvedIPAddress ->
  ignores F set_SelectedUserAgent ->
  ignores F set_UserAgent ->
  ignores F set_TLSFragmentClientHello ->
  ignores F set_QUICVersion ->
  ignores F set_QUICClientHelloSeed ->
  ignores F set_ObfuscatedQUICPaddingSeed ->
  ignores F set_ObfuscatedQUICNonceTransformerParameters ->
  ignores F set_QUICDisablePathMTUDiscovery ->
  ignores F set_LivenessTestSeed ->
  ignores F set_APIRequestPaddingSeed ->
  ignores F set_HoldOffTunnelDuration ->
  ignores F set_ResolveParameters ->
  ignores F set_HTTPTransformerParameters ->
  ignores F set_dialConfig ->
  keeps F (selectFromQUICVersion config serverEntry rs isReplay p usingTLS).
Proof.
  intros. intros d s d' s' Hrun. unfold selectFromQUICVersion in Hrun. step_inv.
  frame_walk.
Qed.
#[local] Hint Resolve selectFromQUICVersion_frame : frames.

(** ** The outcomes of the composer *)

Lemma replayDecision_stamp config canReplay serverEntry w :
  snd (fst (replayDecision config canReplay serverEntry w))
  = stampOf config serverEntry w.
Proof.
  rewrite replayDecision_unfold. cbv zeta.
  destruct (foundIn config serverEntry w) as [R |]; [| reflexivity].
  destruct (staleIn config serverEntry w R); reflexivity.
Qed.

Lemma replayDecision_source config canReplay serverEntry w :
  source (snd (replayDecision config canReplay serverEntry w)) = source w.
Proof.
  rewrite replayDecision_unfold. cbv zeta.
  destruct (foundIn config serverEntry w) as [R |]; [| reflexivity].
  destruct (staleIn config serverEntry w R); [| reflexivity].
  unfold DeleteDialParameters. cbn [logCall datastore].
  destruct (failing (datastore w)); reflexivity.
Qed.

Lemma replayDecision_ineligible config canReplay serverEntry w :
  (forall R, foundIn config serverEntry w = Some R ->
             ~ (conditions1to7 config serverEntry w R
                /\ conditions8to9 config canReplay serverEntry R)) ->
  fst (fst (replayDecision config canReplay serverEntry w)) = None.
Proof.
  intros Hnone.
  destruct (foundIn config serverEntry w) as [R |] eqn:Hfound.
  - destruct (fst (fst (replayDecision config canReplay serverEntry w))) as [R' |] eqn:E;
      [| reflexivity].
    exfalso. apply (Hnone R eq_refl).
    apply (replayDecision_eligible config canReplay serverEntry w R Hfound).
    rewrite E. f_equal.
    rewrite (replayDecision_found _ _ _ _ _ Hfound) in E.
    destruct (staleIn config serverEntry w R); [discriminate |].
    destruct (Config.DisableReplay config || negb (canReplay serverEntry (TunnelProtocol R)));
      [discriminate | congruence].
  - rewrite replayDecision_unfold. cbv zeta. rewrite Hfound. reflexivity.
Qed.

(** The composer, given the replay decision. *)
Lemma MakeDialParameters_unfold config canReplay selectProtocol serverEntry isTactics
    candidateNumber establishedTunnelsCount w :
  fst (MakeDialParameters config canReplay selectProtocol serverEntry isTactics
         candidateNumber establishedTunnelsCount w)
  = returned
      (fst (compose config selectProtocol serverEntry candidateNumber
              establishedTunnelsCount
              (fst (fst (replayDecision config canReplay serverEntry w)))
              (stampOf config serverEntry w) (source w))).
Proof.
  unfold MakeDialParameters.
  rewrite <- (replayDecision_stamp config canReplay serverEntry w).
  rewrite <- (replayDecision_source config canReplay serverEntry w).
  destruct (replayDecision config canReplay serverEntry w) as [[stored stamp] w1].
  cbn [fst snd]. destruct (compose _ _ _ _ _ _ _ _) as [r s]. reflexivity.
Qed.

(** X1. Without a resolver in the configuration, [MakeDialParameters] returns
    the error "missing resolver", whatever is stored and whatever
    [selectProtocol] would give. *)
Theorem MakeDialParameters_missing_resolver config canReplay selectProtocol serverEntry
    isTactics candidateNumber establishedTunnelsCount w :
  Config.GetResolver config = None ->
  fst (MakeDialParameters config canReplay selectProtocol serverEntry isTactics
         candidateNumber establishedTunnelsCount w)
  = (None, Some "missing resolver").
Proof.
  intros Hnone. rewrite MakeDialParameters_unfold. unfold compose.
  rewrite (bind_exit _ _ _ _ _ (startRecord_no_resolver _ _ _ _ _ _ _ Hnone)).
  reflexivity.
Qed.

(** X2. When no stored record is eligible for replay and [selectProtocol] has
    no protocol to give ([ok] false), [MakeDialParameters] returns
    [(nil, nil)]: the candidate is skipped without an error. *)
Theorem MakeDialParameters_skips_without_protocol config canReplay selectProtocol
    serverEntry isTactics candidateNumber establishedTunnelsCount w rs :
  Config.GetResolver config = Some rs ->
  (forall R, foundIn config serverEntry w = Some R ->
             ~ (conditions1to7 config serverEntry w R
                /\ conditions8to9 config canReplay serverEntry R)) ->
  snd (selectProtocol serverEntry) = false ->
  fst (MakeDialParameters config canReplay selectProtocol serverEntry isTactics
         candidateNumber establishedTunnelsCount w)
  = (None, None).
Proof.
  intros Hrs Hnone Hrefused. rewrite MakeDialParameters_unfold.
  rewrite (replayDecision_ineligible _ _ _ _ Hnone). unfold compose.
  rewrite (bind_run _ _ _ _ _ (startRecord_run _ _ _ _ _ _ _ _ Hrs)).
  cbn beta iota zeta. cbn [notNil].
  assert (Hskip : forall d s,
             selectTunnelProtocol selectProtocol serverEntry false false d s
             = (inl SkipCandidate, s)).
  { intros d s. unfold selectTunnelProtocol. cbn [negb andb].
    destruct (selectProtocol serverEntry) as [tunnelProtocol ok].
    cbn [snd] in Hrefused. subst ok. reflexivity. }
  assert (Hhead : forall d s,
             selectUpToHostNames config selectProtocol serverEntry false false d s
             = (inl SkipCandidate, snd (prng.next s))).
  { intros d s. unfold selectUpToHostNames.
    rewrite (bind_run _ _ _ _ _ (selectNetworkLatencyMultiplier_fresh _ _ _)).
    cbv zeta. rewrite (bind_exit _ _ _ _ _ (Hskip _ _)). reflexivity. }
  rewrite (bind_exit _ _ _ _ _ (Hhead _ _)). reflexivity.
Qed.

(** X3. [MakeDialParameters] reads the store and may delete the record of its
    own server and network; it does nothing else to it.  The calls it adds
    are a lookup, or a lookup and a delete, for that key; the record of
    every other key stays; the record of its own key stays or is gone; and
    it never calls [SetDialParameters]. *)
Theorem MakeDialParameters_store_frame config canReplay selectProtocol serverEntry
    isTactics candidateNumber establishedTunnelsCount w :
  let ip := protocol.IpAddress serverEntry in
  let networkID := Config.GetNetworkID config in
  let w' := snd (MakeDialParameters config canReplay selectProtocol serverEntry isTactics
                   candidateNumber establishedTunnelsCount w) in
  (calls w' = (calls w ++ [CallGetDialParameters ip networkID])%list
   \/ calls w' = (calls w ++ [CallGetDialParameters ip networkID;
                              CallDeleteDialParameters ip networkID])%list)
  /\ (forall key, key <> (ip, networkID) ->
        records (datastore w') !! key = records (datastore w) !! key)
  /\ (records (datastore w') !! (ip, networkID) = records (datastore w) !! (ip, networkID)
      \/ records (datastore w') !! (ip, networkID) = None)
  /\ (forall ipAddress id dialParams,
        In (CallSetDialParameters ipAddress id dialParams) (calls w') ->
        In (CallSetDialParameters ipAddress id dialParams) (calls w))
  /\ failing (datastore w') = failing (datastore w)
  /\ now w' = now w.
Proof.
  intros ip networkID w'.
  destruct (MakeDialParameters_world config canReplay selectProtocol serverEntry
              isTactics candidateNumber establishedTunnelsCount w)
    as (Hcalls & Hstore & Hnow).
  fold w' in Hcalls, Hstore, Hnow. rewrite Hcalls, Hstore, Hnow.
  rewrite replayDecision_unfold. cbv zeta. fold ip networkID.
  assert (Hkept : forall w1 : World,
             w1 = logCall (CallGetDialParameters ip networkID) w ->
             (calls w1 = (calls w ++ [CallGetDialParameters ip networkID])%list
              \/ calls w1 = (calls w ++ [CallGetDialParameters ip networkID;
                                         CallDeleteDialParameters ip networkID])%list)
             /\ (forall key, key <> (ip, networkID) ->
                   records (datastore w1) !! key = records (datastore w) !! key)
             /\ (records (datastore w1) !! (ip, networkID)
                 = records (datastore w) !! (ip, networkID)
                 \/ records (datastore w1) !! (ip, networkID) = None)
             /\ (forall ipAddress id dialParams,
                   In (CallSetDialParameters ipAddress id dialParams) (calls w1) ->
                   In (CallSetDialParameters ipAddress id dialParams) (calls w))
             /\ failing (datastore w1) = failing (datastore w)
             /\ now w1 = now w).
  { intros w1 ->. cbn [logCall calls datastore now].
    repeat split; auto.
    intros ipAddress id dialParams Hin. apply in_app_or in Hin as [Hin | Hin];
      [exact Hin |].
    destruct Hin as [Hin | []]. discriminate. }
  destruct (foundIn config serverEntry w) as [R |]; cbn [snd]; [| apply Hkept; reflexivity].
  destruct (staleIn config serverEntry w R); cbn [snd]; [| apply Hkept; reflexivity].
  unfold DeleteDialParameters. cbn [logCall calls datastore now].
  destruct (failing (datastore w)) eqn:Hfailing;
    cbn [snd logCall calls datastore now withRecords records failing].
  - split; [right; rewrite <- app_assoc; reflexivity |].
    repeat split; auto.
    intros ipAddress id dialParams Hin. rewrite <- app_assoc in Hin.
    apply in_app_or in Hin as [Hin | Hin]; [exact Hin |].
    destruct Hin as [Hin | [Hin | []]]; discriminate.
  - split; [right; rewrite <- app_assoc; reflexivity |].
    split; [intros key Hkey; apply lookup_delete_ne; congruence |].
    split; [right; apply lookup_delete_eq |].
    split; [| split; [exact Hfailing | reflexivity]].
    intros ipAddress id dialParams Hin. rewrite <- app_assoc in Hin.
    apply in_app_or in Hin as [Hin | Hin]; [exact Hin |].
    destruct Hin as [Hin | [Hin | []]]; discriminate.
Qed.

(** X4. A datastore that fails is treated as one that holds nothing: the
    composer returns what it returns with a working, empty datastore, and
    leaves the failing one as it is. *)
Theorem MakeDialParameters_tolerates_store_failure config canReplay selectProtocol
    serverEntry isTactics candidateNumber establishedTunnelsCount w :
  failing (datastore w) = true ->
  let empty := {| now := now w; source := source w;
                  datastore := {| records := ∅; failing := false |};
                  calls := calls w |} in
  let result := MakeDialParameters config canReplay selectProtocol serverEntry isTactics
                  candidateNumber establishedTunnelsCount w in
  fst result
  = fst (MakeDialParameters config canReplay selectProtocol serverEntry isTactics
           candidateNumber establishedTunnelsCount empty)
  /\ datastore (snd result) = datastore w
  /\ forall dialParams, fst (fst result) = Some dialParams -> IsReplay dialParams = false.
Proof.
  intros Hfailing empty result.
  assert (Hfound : foundIn config serverEntry w = None)
    by (unfold foundIn; rewrite Hfailing; reflexivity).
  assert (Hdecide : replayDecision config canReplay serverEntry w
                    = (None, stampOf config serverEntry w,
                       logCall (CallGetDialParameters (protocol.IpAddress serverEntry)
                                  (Config.GetNetworkID config)) w))
    by (rewrite replayDecision_unfold; cbv zeta; rewrite Hfound; reflexivity).
  split; [| split].
  - unfold result. rewrite !MakeDialParameters_unfold. rewrite Hdecide. cbn [fst].
    rewrite replayDecision_unfold. cbv zeta.
    assert (Hempty : foundIn config serverEntry empty = None).
    { unfold foundIn, empty. cbn [datastore failing records].
      rewrite lookup_empty. reflexivity. }
    rewrite Hempty. reflexivity.
  - destruct (MakeDialParameters_world config canReplay selectProtocol serverEntry
                isTactics candidateNumber establishedTunnelsCount w)
      as (_ & Hstore & _).
    fold result in Hstore. rewrite Hstore, Hdecide. reflexivity.
  - intros dialParams Hreturned.
    destruct result as [[r err] w'] eqn:Hresult. cbn [fst] in Hreturned. subst r.
    pose proof (MakeDialParameters_returned _ _ _ _ _ _ _ _ _ _ _ Hresult) as (_ & Hreplay).
    rewrite Hdecide in Hreplay. apply Hreplay.
Qed.

(** ** From the start of the composition to its end *)

(** A projection that no block of the composition assigns is, in a
    returned record, what it is in the record the composition starts
    from. *)
Lemma MakeDialParameters_frame {T} (F : DialParameters -> T) config canReplay
    selectProtocol serverEntry isTactics candidateNumber establishedTunnelsCount
    w dialParams err w' :
  forall I_NetworkLatencyMultiplier : ignores F set_NetworkLatencyMultiplier,
  forall I_TunnelProtocol : ignores F set_TunnelProtocol,
  forall I_DirectDialAddress : ignores F set_DirectDialAddress,
  forall I_DialPortNumber : ignores F set_DialPortNumber,
  forall I_UpstreamProxyType : ignores F set_UpstreamProxyType,
  forall I_UpstreamProxyCustomHeaderNames : ignores F set_UpstreamProxyCustomHeaderNames,
  forall I_BPFProgramName : ignores F set_BPFProgramName,
  forall I_BPFProgramInstructions : ignores F set_BPFProgramInstructions,
  forall I_SelectedSSHClientVersion : ignores F set_SelectedSSHClientVersion,
  forall I_SSHClientVersion : ignores F set_SSHClientVersion,
  forall I_SSHKEXSeed : ignores F set_SSHKEXSeed,
  forall I_ObfuscatorPaddingSeed : ignores F set_ObfuscatorPaddingSeed,
  forall I_OSSHObfuscatorSeedTransformerParameters : ignores F set_OSSHObfuscatorSeedTransformerParameters,
  forall I_OSSHPrefixSpec : ignores F set_OSSHPrefixSpec,
  forall I_OSSHPrefixSplitConfig : ignores F set_OSSHPrefixSplitConfig,
  forall I_FragmentorSeed : ignores F set_FragmentorSeed,
  forall I_FrontingProviderID : ignores F set_FrontingProviderID,
  forall I_MeekFrontingDialAddress : ignores F set_MeekFrontingDialAddress,
  forall I_MeekFrontingHost : ignores F set_MeekFrontingHost,
  forall I_MeekDialAddress : ignores F set_MeekDialAddress,
  forall I_MeekTransformedHostName : ignores F set_MeekTransformedHostName,
  forall I_MeekSNIServerName : ignores F set_MeekSNIServerName,
  forall I_MeekVerifyServerName : ignores F set_MeekVerifyServerName,
  forall I_MeekVerifyPins : ignores F set_MeekVerifyPins,
  forall I_MeekHostHeader : ignores F set_MeekHostHeader,
  forall I_MeekObfuscatorPaddingSeed : ignores F set_MeekObfuscatorPaddingSeed,
  forall I_MeekResolvedIPAddress : ignores F set_MeekResolvedIPAddress,
  forall I_TLSOSSHTransformedSNIServerName : ignores F set_TLSOSSHTransformedSNIServerName,
  forall I_TLSOSSHSNIServerName : ignores F set_TLSOSSHSNIServerName,
  forall I_TLSOSSHObfuscatorPaddingSeed : ignores F set_TLSOSSHObfuscatorPaddingSeed,
  forall I_SelectedUserAgent : ignores F set_SelectedUserAgent,
  forall I_UserAgent : ignores F set_UserAgent,
  forall I_SelectedTLSProfile : ignores F set_SelectedTLSProfile,
  forall I_TLSProfile : ignores F set_TLSProfile,
  forall I_NoDefaultTLSSessionID : ignores F set_NoDefaultTLSSessionID,
  forall I_TLSVersion : ignores F set_TLSVersion,
  forall I_RandomizedTLSProfileSeed : ignores F set_RandomizedTLSProfileSeed,
  forall I_TLSFragmentClientHello : ignores F set_TLSFragmentClientHello,
  forall I_QUICVersion : ignores F set_QUICVersion,
  forall I_QUICDialSNIAddress : ignores F set_QUICDialSNIAddress,
  forall I_QUICClientHelloSeed : ignores F set_QUICClientHelloSeed,
  forall I_ObfuscatedQUICPaddingSeed : ignores F set_ObfuscatedQUICPaddingSeed,
  forall I_ObfuscatedQUICNonceTransformerParameters : ignores F set_ObfuscatedQUICNonceTransformerParameters,
  forall I_QUICDisablePathMTUDiscovery : ignores F set_QUICDisablePathMTUDiscovery,
  forall I_ConjureCachedRegistrationTTL : ignores F set_ConjureCachedRegistrationTTL,
  forall I_ConjureAPIRegistration : ignores F set_ConjureAPIRegistration,
  forall I_ConjureAPIRegistrarBidirectionalURL : ignores F set_ConjureAPIRegistrarBidirectionalURL,
  forall I_ConjureAPIRegistrarDelay : ignores F set_ConjureAPIRegistrarDelay,
  forall I_ConjureDecoyRegistration : ignores F set_ConjureDecoyRegistration,
  forall I_ConjureDecoyRegistrarWidth : ignores F set_ConjureDecoyRegistrarWidth,
  forall I_ConjureTransport : ignores F set_ConjureTransport,
  forall I_ConjureSTUNServerAddress : ignores F set_ConjureSTUNServerAddress,
  forall I_ConjureDTLSEmptyInitialPacket : ignores F set_ConjureDTLSEmptyInitialPacket,
  forall I_LivenessTestSeed : ignores F set_LivenessTestSeed,
  forall I_APIRequestPaddingSeed : ignores F set_APIRequestPaddingSeed,
  forall I_HoldOffTunnelDuration : ignores F set_HoldOffTunnelDuration,
  forall I_ResolveParameters : ignores F set_ResolveParameters,
  forall I_HTTPTransformerParameters : ignores F set_HTTPTransformerParameters,
  forall I_dialConfig : ignores F set_dialConfig,
  MakeDialParameters config canReplay selectProtocol serverEntry isTactics
    candidateNumber establishedTunnelsCount w = ((Some dialParams, err), w') ->
  F dialParams
  = F (startOf config serverEntry candidateNumber establishedTunnelsCount
         (fst (fst (replayDecision config canReplay serverEntry w)))
         (stampOf config serverEntry w)).
Proof.
  intros. 
  match goal with
  | Hrun : MakeDialParameters _ _ _ _ _ _ _ _ = _ |- _ =>
    apply MakeDialParameters_inv in Hrun
      as (stored & st & w1 & rs & d1 & p & usingTLS & s1
          & Hdecide & _ & Hhead & Htail & _ & _)
  end.
  rewrite <- (replayDecision_stamp config canReplay serverEntry w), Hdecide.
  cbn [fst snd].
  apply (selectUpToHostNames_frame F) in Hhead; [| assumption ..].
  apply (selectFromQUICVersion_frame F) in Htail; [| assumption ..].
  congruence.
Qed.

Lemma startOf_stamp config serverEntry candidateNumber establishedTunnelsCount stored st :
  stamp (startOf config serverEntry candidateNumber establishedTunnelsCount stored st) = st.
Proof. destruct st as [[t csh] seh]. reflexivity. Qed.

(** A returned record carries the timestamp and the hashes of this run. *)
Lemma MakeDialParameters_stamp config canReplay selectProtocol serverEntry isTactics
    candidateNumber establishedTunnelsCount w dialParams err w' :
  MakeDialParameters config canReplay selectProtocol serverEntry isTactics
    candidateNumber establishedTunnelsCount w = ((Some dialParams, err), w') ->
  stamp dialParams = stampOf config serverEntry w.
Proof.
  intros Hrun.
  apply (MakeDialParameters_frame stamp) in Hrun; [| intros ? ?; reflexivity ..].
  rewrite Hrun. apply startOf_stamp.
Qed.

(** A returned record names the server entry and the network of this run. *)
Lemma MakeDialParameters_key config canReplay selectProtocol serverEntry isTactics
    candidateNumber establishedTunnelsCount w dialParams err w' :
  MakeDialParameters config canReplay selectProtocol serverEntry isTactics
    candidateNumber establishedTunnelsCount w = ((Some dialParams, err), w') ->
  ServerEntry dialParams = Some serverEntry
  /\ NetworkID dialParams = Config.GetNetworkID config.
Proof.
  intros Hrun.
  apply (MakeDialParameters_frame (fun d => (ServerEntry d, NetworkID d))) in Hrun;
    [| intros ? ?; reflexivity ..].
  injection Hrun as -> ->. split; reflexivity.
Qed.

Lemma stampOf_without_TTL config serverEntry w :
  parameters.Duration (parameters.Get (Config.GetParameters config))
    parameters.ReplayDialParametersTTL <= 0 ->
  stampOf config serverEntry w = (0, [], []).
Proof.
  intros Httl. unfold stampOf.
  destruct (0 <? _) eqn:E; [apply Z.ltb_lt in E; lia | reflexivity].
Qed.

Lemma stampOf_with_TTL config serverEntry w :
  0 < parameters.Duration (parameters.Get (Config.GetParameters config))
        parameters.ReplayDialParametersTTL ->
  stampOf config serverEntry w
  = (now w,
     fst (getDialStateHashes config (parameters.Get (Config.GetParameters config))
            serverEntry),
     snd (getDialStateHashes config (parameters.Get (Config.GetParameters config))
            serverEntry)).
Proof.
  intros Httl. unfold stampOf. apply Z.ltb_lt in Httl. rewrite Httl. reflexivity.
Qed.

(** X5. When [ReplayDialParametersTTL] is not positive, replay is off: a
    returned record is not a replay, its [LastUsedTimestamp] is the zero
    time, and [Succeeded] on it does not touch the store. *)
Theorem MakeDialParameters_without_TTL_not_stored config canReplay selectProtocol
    serverEntry isTactics candidateNumber establishedTunnelsCount w dialParams err w' :
  parameters.Duration (parameters.Get (Config.GetParameters config))
    parameters.ReplayDialParametersTTL <= 0 ->
  MakeDialParameters config canReplay selectProtocol serverEntry isTactics
    candidateNumber establishedTunnelsCount w = ((Some dialParams, err), w') ->
  IsReplay dialParams = false
  /\ time.IsZero (LastUsedTimestamp dialParams) = true
  /\ forall w'', Succeeded dialParams w'' = Some w''.
Proof.
  intros Httl Hrun.
  pose proof (MakeDialParameters_stamp _ _ _ _ _ _ _ _ _ _ _ Hrun) as Hstamp.
  rewrite (stampOf_without_TTL _ _ _ Httl) in Hstamp.
  injection Hstamp as Htime _ _.
  pose proof (MakeDialParameters_returned _ _ _ _ _ _ _ _ _ _ _ Hrun) as (_ & Hreplay).
  rewrite replayDecision_ineligible in Hreplay.
  - split; [apply Hreplay |]. split; [rewrite Htime; reflexivity |].
    intros w''. unfold Succeeded. rewrite Htime. reflexivity.
  - intros R _ [(Hpositive & _) _]. lia.
Qed.

(** ** Condition (7) holds of every returned record *)

Lemma selectConjureAPIRegistration_registrar config p apiURL d s d' s' :
  selectConjureAPIRegistration config p apiURL d s = (inr d', s') ->
  conjureRegistrar d' = (ConjureAPIRegistration d, apiURL).
Proof.
  unfold selectConjureAPIRegistration. intros Hrun. step_inv; reflexivity.
Qed.

Lemma selectConjureRegistration_registrar config p isReplay replayConjureRegistration
    d s d' s' :
  selectConjureRegistration config p isReplay replayConjureRegistration d s
    = (inr d', s') ->
  conjureRegistrarOK d = true -> conjureRegistrarOK d' = true.
Proof.
  unfold selectConjureRegistration. intros Hrun Hok.
  destruct (fresh isReplay replayConjureRegistration
            && protocol.TunnelProtocolUsesConjure (TunnelProtocol d));
    [| apply ret_inr in Hrun as [<- _]; exact Hok].
  apply bind_inr in Hrun as (d1 & s1 & Hchoice & Hrun).
  destruct (ConjureAPIRegistration d1) eqn:Hapi.
  - apply selectConjureAPIRegistration_registrar in Hrun.
    unfold conjureRegistrar in Hrun. injection Hrun as Hflag Hurl.
    unfold conjureRegistrarOK. rewrite Hurl.
    assert (Hset : negb (String.eqb
                           (parameters.String p
                              parameters.ConjureAPIRegistrarBidirectionalURL) "")
                   = true).
    { step_inv;
        first [exact Hapi | change (false = true) in Hapi; discriminate Hapi]. }
    apply negb_true_iff in Hset. rewrite Hset, andb_false_r. reflexivity.
  - assert (Hflag : ConjureAPIRegistration d' = false).
    { clear Hchoice. destruct (ConjureDecoyRegistration d1); [| discriminate].
      apply bind_inr in Hrun as (delay & s2 & _ & Hrun).
      apply ret_inr in Hrun as [<- _]. exact Hapi. }
    unfold conjureRegistrarOK. rewrite Hflag. reflexivity.
Qed.

Lemma conjureRegistrarOK_eq d d' :
  conjureRegistrar d' = conjureRegistrar d ->
  conjureRegistrarOK d = true -> conjureRegistrarOK d' = true.
Proof.
  unfold conjureRegistrar, conjureRegistrarOK. intros E. injection E as -> ->. auto.
Qed.

Lemma takenOver_conjureRegistrarOK config canReplay serverEntry w :
  conjureRegistrarOK (takenOver config canReplay serverEntry w) = true.
Proof.
  unfold takenOver.
  destruct (replayDecision config canReplay serverEntry w) as [[[R |] st] w1] eqn:Hdecide;
    [| reflexivity].
  apply replayDecision_Some in Hdecide as (_ & Hfresh & _).
  apply staleIn_false in Hfresh. destruct Hfresh as (_ & _ & _ & _ & _ & _ & Hnot).
  cbn [fst]. unfold conjureRegistrarOK.
  destruct (ConjureAPIRegistration R); [| reflexivity].
  destruct (String.eqb (ConjureAPIRegistrarBidirectionalURL R) "") eqn:Hurl;
    [| reflexivity].
  exfalso. apply Hnot. split; [reflexivity | apply String.eqb_eq, Hurl].
Qed.

Lemma selectUpToHostNames_conjureRegistrarOK config selectProtocol serverEntry
    isReplay isExchanged d s d' p usingTLS s' :
  selectUpToHostNames config selectProtocol serverEntry isReplay isExchanged d s
    = (inr (d', p, usingTLS), s') ->
  conjureRegistrarOK d = true -> conjureRegistrarOK d' = true.
Proof.
  unfold selectUpToHostNames, selectGivenProtocol. intros Hrun Hok. step_inv.
  match goal with
  | H : selectConjureRegistration _ _ _ _ ?d0 _ = (inr ?d1, _)
    |- conjureRegistrarOK ?x = true =>
    apply (conjureRegistrarOK_eq d1 x); [frame_walk |];
    apply (selectConjureRegistration_registrar _ _ _ _ _ _ _ _ H);
    apply (conjureRegistrarOK_eq d d0); [frame_walk | exact Hok]
  end.
Qed.

Lemma MakeDialParameters_conjureRegistrarOK config canReplay selectProtocol serverEntry
    isTactics candidateNumber establishedTunnelsCount w dialParams err w' :
  MakeDialParameters config canReplay selectProtocol serverEntry isTactics
    candidateNumber establishedTunnelsCount w = ((Some dialParams, err), w') ->
  conjureRegistrarOK dialParams = true.
Proof.
  intros Hrun.
  pose proof (takenOver_conjureRegistrarOK config canReplay serverEntry w) as Hstart.
  unfold takenOver in Hstart.
  apply MakeDialParameters_inv in Hrun
    as (stored & st & w1 & rs & d1 & p & usingTLS & s1
        & Hdecide & _ & Hhead & Htail & _ & _).
  rewrite Hdecide in Hstart. cbn [fst] in Hstart.
  apply (selectFromQUICVersion_frame conjureRegistrar) in Htail;
    [| intros ? ?; reflexivity ..].
  apply (conjureRegistrarOK_eq _ _ Htail).
  apply (selectUpToHostNames_conjureRegistrarOK _ _ _ _ _ _ _ _ _ _ _ Hhead).
  apply (conjureRegistrarOK_eq _ _ eq_refl) in Hstart.
  destruct stored as [R |]; exact Hstart.
Qed.

(** X8. No record that [MakeDialParameters] returns has
    [ConjureAPIRegistration] set and an empty
    [ConjureAPIRegistrarBidirectionalURL]: condition (7) of replay
    eligibility holds of every record the composer returns, whether
    composed afresh, replayed or completed from an exchanged record. *)
Theorem MakeDialParameters_conjure_registrar_URL config canReplay selectProtocol
    serverEntry isTactics candidateNumber establishedTunnelsCount w dialParams err w' :
  MakeDialParameters config canReplay selectProtocol serverEntry isTactics
    candidateNumber establishedTunnelsCount w = ((Some dialParams, err), w') ->
  ~ (ConjureAPIRegistration dialParams = true
     /\ ConjureAPIRegistrarBidirectionalURL dialParams = "").
Proof.
  intros Hrun [Hflag Hurl].
  apply MakeDialParameters_conjureRegistrarOK in Hrun.
  unfold conjureRegistrarOK in Hrun. rewrite Hflag, Hurl in Hrun. discriminate.
Qed.

(** ** Fields that are never assigned *)

(** X9. [MakeDialParameters] assigns neither [MeekTLSPaddingSize] nor
    [ConjureDecoyRegistrarDelay]: in a returned record they are what they
    are in the stored record that the run takes over, and zero when it takes
    none over.  (With decoy registration, the delay drawn from the decoy
    registrar's range goes to [ConjureAPIRegistrarDelay].) *)
Theorem MakeDialParameters_never_assigns config canReplay selectProtocol serverEntry
    isTactics candidateNumber establishedTunnelsCount w dialParams err w' :
  MakeDialParameters config canReplay selectProtocol serverEntry isTactics
    candidateNumber establishedTunnelsCount w = ((Some dialParams, err), w') ->
  unassigned dialParams = unassigned (takenOver config canReplay serverEntry w)
  /\ (foundIn config serverEntry w = None ->
      MeekTLSPaddingSize dialParams = 0 /\ ConjureDecoyRegistrarDelay dialParams = 0).
Proof.
  intros Hrun.
  apply (MakeDialParameters_frame unassigned) in Hrun; [| intros ? ?; reflexivity ..].
  assert (Hstart : unassigned dialParams
                   = unassigned (takenOver config canReplay serverEntry w)).
  { rewrite Hrun. unfold takenOver.
    destruct (fst (fst (replayDecision config canReplay serverEntry w))); reflexivity. }
  split; [exact Hstart |].
  intros Hnone. unfold takenOver in Hstart.
  rewrite replayDecision_ineligible in Hstart by (intros R HR; congruence).
  injection Hstart as -> ->. split; reflexivity.
Qed.

(** ** From [Succeeded] to the next run *)

Lemma replayDecision_failing config canReplay serverEntry w :
  failing (datastore (snd (replayDecision config canReplay serverEntry w)))
  = failing (datastore w).
Proof.
  rewrite replayDecision_unfold. cbv zeta.
  destruct (foundIn config serverEntry w) as [R |]; [| reflexivity].
  destruct (staleIn config serverEntry w R); [| reflexivity].
  unfold DeleteDialParameters. cbn [logCall datastore].
  destruct (failing (datastore w)) eqn:E;
    cbn [snd logCall datastore withRecords failing]; exact E.
Qed.

(** X6. A record that [MakeDialParameters] returned while replay is on
    ([ReplayDialParametersTTL] positive, the clock not at the zero time, the
    datastore working) is persisted by [Succeeded] under the key of its
    server and network, and from then on, for as long as the TTL lasts and
    the store is not written again, a run with the same configuration and
    server entry finds it, and it passes conditions (1) to (7) of replay
    eligibility exactly when its TLS profile and its QUIC version are
    empty or supported. *)
Theorem Succeeded_record_is_eligible config canReplay selectProtocol serverEntry
    isTactics candidateNumber establishedTunnelsCount w dialParams err w1 :
  let ttl := parameters.Duration (parameters.Get (Config.GetParameters config))
               parameters.ReplayDialParametersTTL in
  let key := (protocol.IpAddress serverEntry, Config.GetNetworkID config) in
  MakeDialParameters config canReplay selectProtocol serverEntry isTactics
    candidateNumber establishedTunnelsCount w = ((Some dialParams, err), w1) ->
  0 < ttl ->
  time.IsZero (now w) = false ->
  failing (datastore w) = false ->
  exists w2,
    Succeeded dialParams w1 = Some w2
    /\ records (datastore w2)
       = <[ key := DialParameters_stored dialParams ]> (records (datastore w1))
    /\ forall w3,
         datastore w3 = datastore w2 ->
         now w3 - now w <= ttl ->
         foundIn config serverEntry w3 = Some (DialParameters_stored dialParams)
         /\ (conditions1to7 config serverEntry w3 (DialParameters_stored dialParams)
             <-> (TLSProfile dialParams = ""
                  \/ In (TLSProfile dialParams) protocol.SupportedTLSProfiles)
                 /\ (QUICVersion dialParams = ""
                     \/ In (QUICVersion dialParams) protocol.SupportedQUICVersions)).
Proof.
  intros ttl key Hrun Httl Hclock Hworking.
  pose proof (MakeDialParameters_stamp _ _ _ _ _ _ _ _ _ _ _ Hrun) as Hstamp.
  rewrite (stampOf_with_TTL _ _ _ Httl) in Hstamp.
  unfold stamp in Hstamp. injection Hstamp as Htime Hconfig Hentry.
  pose proof (MakeDialParameters_key _ _ _ _ _ _ _ _ _ _ _ Hrun) as [Hserver Hnetwork].
  pose proof (MakeDialParameters_conjureRegistrarOK _ _ _ _ _ _ _ _ _ _ _ Hrun)
    as Hregistrar.
  assert (Hstore : failing (datastore w1) = false).
  { destruct (MakeDialParameters_world config canReplay selectProtocol serverEntry
                isTactics candidateNumber establishedTunnelsCount w)
      as (_ & Hstore & _).
    rewrite Hrun in Hstore. cbn [snd] in Hstore.
    rewrite Hstore, replayDecision_failing. exact Hworking. }
  unfold Succeeded. rewrite Htime, Hclock, Hserver, Hnetwork.
  unfold SetDialParameters. cbn [logCall datastore]. rewrite Hstore.
  eexists. split; [reflexivity |]. split; [reflexivity |].
  intros w3 Hsame Hage. fold key.
  assert (Hfound : foundIn config serverEntry w3
                   = Some (DialParameters_stored dialParams)).
  { unfold foundIn. rewrite Hsame. cbn [logCall datastore withRecords failing records].
    rewrite Hstore. fold key. rewrite lookup_insert_eq. reflexivity. }
  split; [exact Hfound |].
  unfold conditions1to7.
  change (LastUsedTimestamp (DialParameters_stored dialParams))
    with (LastUsedTimestamp dialParams).
  change (LastUsedServerEntryHash (DialParameters_stored dialParams))
    with (LastUsedServerEntryHash dialParams).
  change (LastUsedConfigStateHash (DialParameters_stored dialParams))
    with (LastUsedConfigStateHash dialParams).
  change (TLSProfile (DialParameters_stored dialParams)) with (TLSProfile dialParams).
  change (QUICVersion (DialParameters_stored dialParams)) with (QUICVersion dialParams).
  change (ConjureAPIRegistration (DialParameters_stored dialParams))
    with (ConjureAPIRegistration dialParams).
  change (ConjureAPIRegistrarBidirectionalURL (DialParameters_stored dialParams))
    with (ConjureAPIRegistrarBidirectionalURL dialParams).
  cbv zeta. rewrite Htime, Hconfig, Hentry.
  split.
  - intros (_ & _ & _ & _ & Htls & Hquic & _). split; assumption.
  - intros [Htls Hquic].
    split; [exact Httl |]. split; [exact Hage |]. split; [reflexivity |].
    split; [left; reflexivity |]. split; [exact Htls |]. split; [exact Hquic |].
    intros [Hflag Hurl]. unfold conjureRegistrarOK in Hregistrar.
    rewrite Hflag, Hurl in Hregistrar. discriminate.
Qed.

(** ** What holds of every returned record *)

(** A run that returns a record, as its two halves, with the replay flag
    and the tactics snapshot read off the returned record. *)
Lemma MakeDialParameters_halves config canReplay selectProtocol serverEntry isTactics
    candidateNumber establishedTunnelsCount w dialParams err w' :
  MakeDialParameters config canReplay selectProtocol serverEntry isTactics
    candidateNumber establishedTunnelsCount w = ((Some dialParams, err), w') ->
  let p := parameters.GetCustom (Config.GetParameters config)
             (NetworkLatencyMultiplier dialParams) in
  exists rs isExchanged d0 s0 d1 usingTLS s1,
    d0 = startOf config serverEntry candidateNumber establishedTunnelsCount
           (fst (fst (replayDecision config canReplay serverEntry w)))
           (stampOf config serverEntry w)
    /\ selectUpToHostNames config selectProtocol serverEntry (IsReplay dialParams)
         isExchanged d0 s0 = (inr (d1, p, usingTLS), s1)
    /\ selectFromQUICVersion config serverEntry rs (IsReplay dialParams) p usingTLS d1 s1
       = (inr dialParams, source w').
Proof.
  intros Hrun p.
  apply MakeDialParameters_inv in Hrun
    as (stored & st & w1 & rs & d1 & p1 & usingTLS & s1
        & Hdecide & _ & Hhead & Htail & _ & _).
  pose proof (replayDecision_stamp config canReplay serverEntry w) as Hstamp.
  rewrite Hdecide in Hstamp |- *. cbn [fst snd] in Hstamp |- *. subst st.
  pose proof (selectUpToHostNames_tracked _ _ _ _ _ _ _ _ _ _ _ Hhead)
    as (Hid1 & _ & _ & Hp).
  pose proof (selectFromQUICVersion_tracked _ _ _ _ _ _ _ _ _ _ Htail)
    as (Hid2 & _ & Hnlm & _).
  rewrite <- Hnlm in Hp. fold p in Hp. subst p1.
  assert (Hreplay : (if match stored with Some R => IsExchanged R | None => false end
                     then false else notNil stored) = IsReplay dialParams).
  { rewrite Hid1, startOf_identity in Hid2. unfold identity in Hid2.
    injection Hid2 as -> _ _ _ _.
    destruct stored as [R |]; [| reflexivity]. destruct (IsExchanged R); reflexivity. }
  cbv zeta in Hhead, Htail. rewrite Hreplay in Hhead, Htail.
  eexists rs, _, _, _, d1, usingTLS, s1.
  split; [reflexivity |]. split; [exact Hhead | exact Htail].
Qed.

(** *** The upstream proxy *)

Lemma checkUpstreamProxy_inv config p serverEntry d s d' s' :
  checkUpstreamProxy config p serverEntry d s = (inr d', s') ->
  d' = d
  /\ (Config.UseUpstreamProxy config = true ->
      protocol.TunnelProtocolSupportsUpstreamProxy (TunnelProtocol d) = true
      /\ (protocol.AllowServerEntrySourceWithUpstreamProxy
            (protocol.LocalSource serverEntry)
          || parameters.Bool p parameters.UpstreamProxyAllowAllServerEntrySources) = true).
Proof.
  unfold checkUpstreamProxy. intros Hrun.
  destruct (Config.UseUpstreamProxy config).
  - destruct (protocol.TunnelProtocolSupportsUpstreamProxy (TunnelProtocol d));
      [| discriminate].
    destruct (protocol.AllowServerEntrySourceWithUpstreamProxy _);
      [| destruct (parameters.Bool p _); [| discriminate]];
      apply ret_inr in Hrun as [<- _]; auto.
  - apply ret_inr in Hrun as [<- _]. split; [reflexivity | discriminate].
Qed.

Lemma selectUpToHostNames_upstreamProxy config selectProtocol serverEntry
    isReplay isExchanged d s d' p usingTLS s' :
  selectUpToHostNames config selectProtocol serverEntry isReplay isExchanged d s
    = (inr (d', p, usingTLS), s') ->
  Config.UseUpstreamProxy config = true ->
  protocol.TunnelProtocolSupportsUpstreamProxy (TunnelProtocol d') = true
  /\ (protocol.AllowServerEntrySourceWithUpstreamProxy (protocol.LocalSource serverEntry)
      || parameters.Bool p parameters.UpstreamProxyAllowAllServerEntrySources) = true.
Proof.
  unfold selectUpToHostNames, selectGivenProtocol. intros Hrun Hproxy. step_inv.
  match goal with
  | H : checkUpstreamProxy _ _ _ ?d0 _ = (inr ?d1, _)
    |- context [TunnelProtocol ?x] =>
    assert (Hafter : TunnelProtocol x = TunnelProtocol d1) by frame_walk;
    apply checkUpstreamProxy_inv in H as [-> Hcheck]
  end.
  rewrite Hafter. exact (Hcheck Hproxy).
Qed.

(** X10. With an upstream proxy configured, [MakeDialParameters] returns no
    record whose tunnel protocol does not support an upstream proxy, and
    none for a server entry whose source is not allowed with an upstream
    proxy unless the tactics allow all sources. *)
Theorem MakeDialParameters_respects_upstream_proxy config canReplay selectProtocol
    serverEntry isTactics candidateNumber establishedTunnelsCount w dialParams err w' :
  MakeDialParameters config canReplay selectProtocol serverEntry isTactics
    candidateNumber establishedTunnelsCount w = ((Some dialParams, err), w') ->
  Config.UseUpstreamProxy config = true ->
  let p := parameters.GetCustom (Config.GetParameters config)
             (NetworkLatencyMultiplier dialParams) in
  protocol.TunnelProtocolSupportsUpstreamProxy (TunnelProtocol dialParams) = true
  /\ (protocol.AllowServerEntrySourceWithUpstreamProxy (protocol.LocalSource serverEntry)
      = true
      \/ parameters.Bool p parameters.UpstreamProxyAllowAllServerEntrySources = true).
Proof.
  intros Hrun Hproxy p.
  destruct (MakeDialParameters_halves _ _ _ _ _ _ _ _ _ _ _ Hrun)
    as (rs & isExchanged & d0 & s0 & d1 & usingTLS & s1 & _ & Hhead & Htail).
  fold p in Hhead, Htail.
  apply (selectFromQUICVersion_frame TunnelProtocol) in Htail;
    [| intros ? ?; reflexivity ..].
  destruct (selectUpToHostNames_upstreamProxy _ _ _ _ _ _ _ _ _ _ _ Hhead Hproxy)
    as [Hsupports Hsource].
  rewrite Htail. split; [exact Hsupports |].
  apply orb_true_iff in Hsource. exact Hsource.
Qed.

(** *** The QUIC version *)

Lemma selectQUICVersion_In isFronted serverEntry p s v s' :
  selectQUICVersion isFronted serverEntry p s = (inr v, s') ->
  v = "" \/ In v (selectQUICVersion_candidates isFronted serverEntry p).
Proof.
  unfold selectQUICVersion.
  destruct (length (selectQUICVersion_candidates isFronted serverEntry p) =? 0)%nat
    eqn:Hempty; intros Hrun.
  - apply ret_inr in Hrun as [<- _]. left. reflexivity.
  - rewrite (bind_run _ _ _ _ _ (Intn_run _ _)) in Hrun.
    apply ret_inr in Hrun as [<- _]. right. unfold index.
    apply nth_In, Intn_of_lt. apply Nat.eqb_neq in Hempty. lia.
Qed.

Lemma selectQUICVersionBlock_inv p serverEntry isReplay replayQUICVersion d s d' s' :
  selectQUICVersionBlock p serverEntry isReplay replayQUICVersion d s = (inr d', s') ->
  fresh isReplay replayQUICVersion = true ->
  protocol.TunnelProtocolUsesQUIC (TunnelProtocol d) = true ->
  QUICVersion d' <> ""
  /\ In (QUICVersion d')
       (selectQUICVersion_candidates
          (protocol.TunnelProtocolUsesFrontedMeekQUIC (TunnelProtocol d)) serverEntry p).
Proof.
  unfold selectQUICVersionBlock. intros Hrun Hfresh Hquic.
  rewrite Hfresh, Hquic in Hrun. cbn [andb] in Hrun.
  apply bind_inr in Hrun as (v & s1 & Hselect & Hrun).
  change (QUICVersion (set_QUICVersion v d)) with v in Hrun.
  destruct (String.eqb v "") eqn:Hv; [discriminate |].
  assert (Hkept : QUICVersion d' = v) by (step_inv; reflexivity).
  rewrite Hkept. apply String.eqb_neq in Hv. split; [exact Hv |].
  apply selectQUICVersion_In in Hselect as [-> | Hin]; [congruence | exact Hin].
Qed.

Lemma selectFromQUICVersion_QUICVersion config serverEntry rs isReplay p usingTLS
    d s d' s' :
  selectFromQUICVersion config serverEntry rs isReplay p usingTLS d s = (inr d', s') ->
  fresh isReplay
    (parameters.Bool (parameters.Get (Config.GetParameters config))
       parameters.ReplayQUICVersion) = true ->
  protocol.TunnelProtocolUsesQUIC (TunnelProtocol d) = true ->
  QUICVersion d' <> ""
  /\ In (QUICVersion d')
       (selectQUICVersion_candidates
          (protocol.TunnelProtocolUsesFrontedMeekQUIC (TunnelProtocol d)) serverEntry p).
Proof.
  unfold selectFromQUICVersion. intros Hrun Hfresh Hquic. step_inv.
  match goal with
  | H : selectQUICVersionBlock _ _ _ _ ?d0 _ = (inr ?d1, _)
    |- context [QUICVersion ?x] =>
    assert (Hafter : QUICVersion x = QUICVersion d1) by frame_walk;
    apply selectQUICVersionBlock_inv in H; [| assumption ..]
  end.
  rewrite Hafter. assumption.
Qed.

(** X11. A returned record for a tunnel protocol that uses QUIC, whose QUIC
    version was selected in this run (a fresh record, or a replay without
    [ReplayQUICVersion]), has a QUIC version, and it is one that passes the
    filters of [selectQUICVersion] for this server entry and these
    tactics. *)
Theorem MakeDialParameters_QUIC_version_viable config canReplay selectProtocol
    serverEntry isTactics candidateNumber establishedTunnelsCount w dialParams err w' :
  MakeDialParameters config canReplay selectProtocol serverEntry isTactics
    candidateNumber establishedTunnelsCount w = ((Some dialParams, err), w') ->
  fresh (IsReplay dialParams)
    (parameters.Bool (parameters.Get (Config.GetParameters config))
       parameters.ReplayQUICVersion) = true ->
  protocol.TunnelProtocolUsesQUIC (TunnelProtocol dialParams) = true ->
  let p := parameters.GetCustom (Config.GetParameters config)
             (NetworkLatencyMultiplier dialParams) in
  QUICVersion dialParams <> ""
  /\ survivesQUICFilters
       (protocol.TunnelProtocolUsesFrontedMeekQUIC (TunnelProtocol dialParams))
       serverEntry p (QUICVersion dialParams).
Proof.
  intros Hrun Hfresh Hquic p.
  destruct (MakeDialParameters_halves _ _ _ _ _ _ _ _ _ _ _ Hrun)
    as (rs & isExchanged & d0 & s0 & d1 & usingTLS & s1 & _ & _ & Htail).
  fold p in Htail.
  pose proof Htail as Hprotocol.
  apply (selectFromQUICVersion_frame TunnelProtocol) in Hprotocol;
    [| intros ? ?; reflexivity ..].
  rewrite Hprotocol in Hquic |- *.
  destruct (selectFromQUICVersion_QUICVersion _ _ _ _ _ _ _ _ _ _ Htail Hfresh Hquic)
    as [Hversion Hin].
  split; [exact Hversion |].
  apply selectQUICVersion_candidates_In. exact Hin.
Qed.

(** *** Meek dial domains only *)

Lemma checkMeekAddresses_domain p d s d' s' :
  checkMeekAddresses p d s = (inr d', s') ->
  meekDial d' = meekDial d
  /\ (protocol.TunnelProtocolUsesMeek (TunnelProtocol d) = true ->
      parameters.Bool p parameters.MeekDialDomainsOnly = true ->
      net_ParseIP (net_SplitHostPort (MeekDialAddress d)) = false).
Proof.
  unfold checkMeekAddresses. intros Hrun.
  destruct (protocol.TunnelProtocolUsesMeek (TunnelProtocol d));
    [| apply ret_inr in Hrun as [<- _]; split; [reflexivity | discriminate]].
  apply bind_inr in Hrun as ([] & s1 & Hcheck & Hrun).
  split.
  - destruct (net_ParseIP (MeekSNIServerName d)); apply ret_inr in Hrun as [<- _];
      reflexivity.
  - intros _ Honly. rewrite Honly in Hcheck.
    destruct (net_ParseIP (net_SplitHostPort (MeekDialAddress d)));
      [discriminate | reflexivity].
Qed.

Lemma meekDial_eq a b :
  meekDial a = meekDial b ->
  TunnelProtocol a = TunnelProtocol b /\ MeekDialAddress a = MeekDialAddress b.
Proof. unfold meekDial. intros E. split; congruence. Qed.

Lemma selectFromQUICVersion_meek_domain config serverEntry rs isReplay p usingTLS
    d s d' s' :
  selectFromQUICVersion config serverEntry rs isReplay p usingTLS d s = (inr d', s') ->
  protocol.TunnelProtocolUsesMeek (TunnelProtocol d') = true ->
  parameters.Bool p parameters.MeekDialDomainsOnly = true ->
  net_ParseIP (net_SplitHostPort (MeekDialAddress d')) = false.
Proof.
  unfold selectFromQUICVersion. intros Hrun. step_inv.
  match goal with
  | H : checkMeekAddresses _ ?d0 _ = (inr ?d1, _)
    |- context [MeekDialAddress ?x] =>
    assert (Hafter : meekDial x = meekDial d1) by frame_walk;
    apply checkMeekAddresses_domain in H as [Hkept Hcheck];
    rewrite Hkept in Hafter;
    apply meekDial_eq in Hafter as [Hprotocol Haddress]
  end.
  rewrite Hprotocol, Haddress. exact Hcheck.
Qed.

(** X12. With the tactics parameter [MeekDialDomainsOnly] set,
    [MakeDialParameters] returns no meek record whose dial address has an
    IP address as its host. *)
Theorem MakeDialParameters_meek_domains_only config canReplay selectProtocol
    serverEntry isTactics candidateNumber establishedTunnelsCount w dialParams err w' :
  MakeDialParameters config canReplay selectProtocol serverEntry isTactics
    candidateNumber establishedTunnelsCount w = ((Some dialParams, err), w') ->
  protocol.TunnelProtocolUsesMeek (TunnelProtocol dialParams) = true ->
  parameters.Bool
    (parameters.GetCustom (Config.GetParameters config)
       (NetworkLatencyMultiplier dialParams))
    parameters.MeekDialDomainsOnly = true ->
  net_ParseIP (net_SplitHostPort (MeekDialAddress dialParams)) = false.
Proof.
  intros Hrun Hmeek Honly.
  destruct (MakeDialParameters_halves _ _ _ _ _ _ _ _ _ _ _ Hrun)
    as (rs & isExchanged & d0 & s0 & d1 & usingTLS & s1 & _ & _ & Htail).
  exact (selectFromQUICVersion_meek_domain _ _ _ _ _ _ _ _ _ _ Htail Hmeek Honly).
Qed.

(** *** What a server entry switches off *)

Lemma selectOSSHTransforms_disabled p serverEntry isReplay replayS replayP d s d' s' :
  selectOSSHTransforms p serverEntry isReplay replayS replayP d s = (inr d', s') ->
  String.eqb (TunnelProtocol d) protocol.TUNNEL_PROTOCOL_OBFUSCATED_SSH = true ->
  (protocol.DisableOSSHTransforms serverEntry = true ->
   OSSHObfuscatorSeedTransformerParameters d' = None)
  /\ (protocol.DisableOSSHPrefix serverEntry = true ->
      OSSHPrefixSpec d' = None /\ OSSHPrefixSplitConfig d' = None).
Proof.
  unfold selectOSSHTransforms. intros Hrun Hossh. rewrite Hossh in Hrun.
  apply bind_inr in Hrun as (d1 & s1 & Hseed & Hrun).
  apply bind_inr in Hrun as (d2 & s2 & Hprefix & Hrun).
  split.
  - intros Hoff.
    assert (Hnone : OSSHObfuscatorSeedTransformerParameters d2 = None).
    { rewrite (selectOSSHPrefix_frame OSSHObfuscatorSeedTransformerParameters _ _ _ _
                 ltac:(intros ? ?; reflexivity) ltac:(intros ? ?; reflexivity)
                 _ _ _ _ Hprefix).
      unfold selectOSSHSeedTransformer in Hseed. rewrite Hoff in Hseed.
      apply ret_inr in Hseed as [<- _]. reflexivity. }
    destruct (OSSHPrefixSpec d2); apply ret_inr in Hrun as [<- _];
      [reflexivity | exact Hnone].
  - intros Hoff.
    unfold selectOSSHPrefix in Hprefix. rewrite Hoff in Hprefix.
    apply ret_inr in Hprefix as [<- _].
    change (OSSHPrefixSpec (set_OSSHPrefixSplitConfig None (set_OSSHPrefixSpec None d1)))
      with (@None obfuscator.OSSHPrefixSpec.t) in Hrun.
    apply ret_inr in Hrun as [<- _]. split; reflexivity.
Qed.

Lemma selectHTTPTransformer_disabled config serverEntry isReplay replayX d s d' s' :
  selectHTTPTransformer config serverEntry isReplay replayX d s = (inr d', s') ->
  protocol.TunnelProtocolUsesMeekHTTP (TunnelProtocol d) = true ->
  protocol.DisableHTTPTransforms serverEntry = true ->
  HTTPTransformerParameters d' = None.
Proof.
  unfold selectHTTPTransformer. intros Hrun Huses Hoff. rewrite Huses, Hoff in Hrun.
  apply ret_inr in Hrun as [<- _]. reflexivity.
Qed.

Lemma selectObfuscatedQUICNonceTransformer_disabled p serverEntry isReplay replayX
    d s d' s' :
  selectObfuscatedQUICNonceTransformer p serverEntry isReplay replayX d s
    = (inr d', s') ->
  protocol.QUICVersionIsObfuscated (QUICVersion d) = true ->
  protocol.DisableObfuscatedQUICTransforms serverEntry = true ->
  ObfuscatedQUICNonceTransformerParameters d' = None.
Proof.
  unfold selectObfuscatedQUICNonceTransformer. intros Hrun Huses Hoff.
  rewrite Huses, Hoff in Hrun. apply ret_inr in Hrun as [<- _]. reflexivity.
Qed.

Lemma osshTransformers_eq a b :
  osshTransformers a = osshTransformers b ->
  TunnelProtocol a = TunnelProtocol b
  /\ OSSHObfuscatorSeedTransformerParameters a = OSSHObfuscatorSeedTransformerParameters b
  /\ OSSHPrefixSpec a = OSSHPrefixSpec b
  /\ OSSHPrefixSplitConfig a = OSSHPrefixSplitConfig b.
Proof. unfold osshTransformers. intros E. repeat split; congruence. Qed.

Lemma httpTransformer_eq a b :
  httpTransformer a = httpTransformer b ->
  TunnelProtocol a = TunnelProtocol b
  /\ HTTPTransformerParameters a = HTTPTransformerParameters b.
Proof. unfold httpTransformer. intros E. split; congruence. Qed.

Lemma nonceTransformer_eq a b :
  nonceTransformer a = nonceTransformer b ->
  QUICVersion a = QUICVersion b
  /\ ObfuscatedQUICNonceTransformerParameters a
     = ObfuscatedQUICNonceTransformerParameters b.
Proof. unfold nonceTransformer. intros E. split; congruence. Qed.

Lemma selectFromQUICVersion_OSSH_disabled config serverEntry rs isReplay p usingTLS
    d s d' s' :
  selectFromQUICVersion config serverEntry rs isReplay p usingTLS d s = (inr d', s') ->
  String.eqb (TunnelProtocol d') protocol.TUNNEL_PROTOCOL_OBFUSCATED_SSH = true ->
  (protocol.DisableOSSHTransforms serverEntry = true ->
   OSSHObfuscatorSeedTransformerParameters d' = None)
  /\ (protocol.DisableOSSHPrefix serverEntry = true ->
      OSSHPrefixSpec d' = None /\ OSSHPrefixSplitConfig d' = None).
Proof.
  unfold selectFromQUICVersion. intros Hrun. step_inv.
  match goal with
  | H : selectOSSHTransforms _ _ _ _ _ ?d0 _ = (inr ?d1, _)
    |- context [TunnelProtocol ?x] =>
    assert (Hafter : osshTransformers x = osshTransformers d1) by frame_walk;
    assert (Hblock : TunnelProtocol d1 = TunnelProtocol d0) by frame_walk;
    apply osshTransformers_eq in Hafter as (E1 & E2 & E3 & E4);
    rewrite E1, E2, E3, E4, Hblock;
    exact (selectOSSHTransforms_disabled _ _ _ _ _ _ _ _ _ H)
  end.
Qed.

Lemma selectFromQUICVersion_HTTP_disabled config serverEntry rs isReplay p usingTLS
    d s d' s' :
  selectFromQUICVersion config serverEntry rs isReplay p usingTLS d s = (inr d', s') ->
  protocol.TunnelProtocolUsesMeekHTTP (TunnelProtocol d') = true ->
  protocol.DisableHTTPTransforms serverEntry = true ->
  HTTPTransformerParameters d' = None.
Proof.
  unfold selectFromQUICVersion. intros Hrun. step_inv.
  match goal with
  | H : selectHTTPTransformer _ _ _ _ ?d0 _ = (inr ?d1, _)
    |- context [TunnelProtocol ?x] =>
    assert (Hafter : httpTransformer x = httpTransformer d1) by frame_walk;
    assert (Hblock : TunnelProtocol d1 = TunnelProtocol d0) by frame_walk;
    apply httpTransformer_eq in Hafter as (E1 & E2);
    rewrite E1, E2, Hblock;
    exact (selectHTTPTransformer_disabled _ _ _ _ _ _ _ _ H)
  end.
Qed.

Lemma selectFromQUICVersion_nonce_disabled config serverEntry rs isReplay p usingTLS
    d s d' s' :
  selectFromQUICVersion config serverEntry rs isReplay p usingTLS d s = (inr d', s') ->
  protocol.QUICVersionIsObfuscated (QUICVersion d') = true ->
  protocol.DisableObfuscatedQUICTransforms serverEntry = true ->
  ObfuscatedQUICNonceTransformerParameters d' = None.
Proof.
  unfold selectFromQUICVersion. intros Hrun. step_inv.
  match goal with
  | H : selectObfuscatedQUICNonceTransformer _ _ _ _ ?d0 _ = (inr ?d1, _)
    |- context [QUICVersion ?x] =>
    assert (Hafter : nonceTransformer x = nonceTransformer d1) by frame_walk;
    assert (Hblock : QUICVersion d1 = QUICVersion d0) by frame_walk;
    apply nonceTransformer_eq in Hafter as (E1 & E2);
    rewrite E1, E2, Hblock;
    exact (selectObfuscatedQUICNonceTransformer_disabled _ _ _ _ _ _ _ _ H)
  end.
Qed.

(** X13. The flags of a server entry that switch transforms off are honoured in
    every returned record, replayed ones too: with [DisableOSSHTransforms]
    an OSSH record has no seed transform, with [DisableOSSHPrefix] it has no
    prefix and no prefix split configuration, with [DisableHTTPTransforms] a
    meek HTTP record has no HTTP transform, and with
    [DisableObfuscatedQUICTransforms] a record with an obfuscated QUIC
    version has no nonce transform. *)
Theorem MakeDialParameters_honours_disabled_transforms config canReplay selectProtocol
    serverEntry isTactics candidateNumber establishedTunnelsCount w dialParams err w' :
  MakeDialParameters config canReplay selectProtocol serverEntry isTactics
    candidateNumber establishedTunnelsCount w = ((Some dialParams, err), w') ->
  (TunnelProtocol dialParams = protocol.TUNNEL_PROTOCOL_OBFUSCATED_SSH ->
   (protocol.DisableOSSHTransforms serverEntry = true ->
    OSSHObfuscatorSeedTransformerParameters dialParams = None)
   /\ (protocol.DisableOSSHPrefix serverEntry = true ->
       OSSHPrefixSpec dialParams = None /\ OSSHPrefixSplitConfig dialParams = None))
  /\ (protocol.TunnelProtocolUsesMeekHTTP (TunnelProtocol dialParams) = true ->
      protocol.DisableHTTPTransforms serverEntry = true ->
      HTTPTransformerParameters dialParams = None)
  /\ (protocol.QUICVersionIsObfuscated (QUICVersion dialParams) = true ->
      protocol.DisableObfuscatedQUICTransforms serverEntry = true ->
      ObfuscatedQUICNonceTransformerParameters dialParams = None).
Proof.
  intros Hrun.
  destruct (MakeDialParameters_halves _ _ _ _ _ _ _ _ _ _ _ Hrun)
    as (rs & isExchanged & d0 & s0 & d1 & usingTLS & s1 & _ & _ & Htail).
  split; [| split].
  - intros Hossh. apply String.eqb_eq in Hossh.
    exact (selectFromQUICVersion_OSSH_disabled _ _ _ _ _ _ _ _ _ _ Htail Hossh).
  - exact (selectFromQUICVersion_HTTP_disabled _ _ _ _ _ _ _ _ _ _ Htail).
  - exact (selectFromQUICVersion_nonce_disabled _ _ _ _ _ _ _ _ _ _ Htail).
Qed.

(** *** The dial address *)

Lemma isCase_fronted s :
  isCase s frontedProtocols
  = isCase s [ protocol.TUNNEL_PROTOCOL_FRONTED_MEEK;
               protocol.TUNNEL_PROTOCOL_FRONTED_MEEK_QUIC_OBFUSCATED_SSH ]
    || isCase s [ protocol.TUNNEL_PROTOCOL_FRONTED_MEEK_HTTP ].
Proof.
  unfold isCase, frontedProtocols. cbn [existsb].
  rewrite !orb_false_r, orb_assoc. reflexivity.
Qed.

Lemma isCase_unfronted s :
  isCase s unfrontedProtocols
  = isCase s [ protocol.TUNNEL_PROTOCOL_UNFRONTED_MEEK ]
    || isCase s [ protocol.TUNNEL_PROTOCOL_UNFRONTED_MEEK_HTTPS;
                  protocol.TUNNEL_PROTOCOL_UNFRONTED_MEEK_SESSION_TICKET ].
Proof.
  unfold isCase, unfrontedProtocols. cbn [existsb].
  rewrite !orb_false_r. reflexivity.
Qed.

Lemma setDialAddress_inv serverEntry d s d' s' :
  setDialAddress serverEntry d s = (inr d', s') ->
  TunnelProtocol d' = TunnelProtocol d
  /\ MeekFrontingDialAddress d' = MeekFrontingDialAddress d
  /\ exists dialPortNumber,
       protocol.GetDialPortNumber serverEntry (TunnelProtocol d) = Ok dialPortNumber
       /\ DialPortNumber d' = strconv_Itoa dialPortNumber
       /\ if isCase (TunnelProtocol d) directProtocols then
            DirectDialAddress d'
            = net_JoinHostPort (protocol.IpAddress serverEntry) (DialPortNumber d')
          else if isCase (TunnelProtocol d) frontedProtocols then
            MeekDialAddress d'
            = net_JoinHostPort (MeekFrontingDialAddress d') (DialPortNumber d')
          else
            isCase (TunnelProtocol d) unfrontedProtocols = true
            /\ MeekDialAddress d'
               = net_JoinHostPort (protocol.IpAddress serverEntry) (DialPortNumber d').
Proof.
  unfold setDialAddress. intros Hrun.
  apply bind_inr in Hrun as (port & s1 & Hport & Hrun).
  apply try_inr in Hport as [Hport <-].
  change (TunnelProtocol (set_DialPortNumber (strconv_Itoa port) d))
    with (TunnelProtocol d) in Hrun.
  fold directProtocols in Hrun.
  rewrite isCase_fronted, isCase_unfronted.
  destruct (isCase (TunnelProtocol d) directProtocols).
  { apply ret_inr in Hrun as [<- _]. repeat split. exists port. repeat split. exact Hport. }
  destruct (isCase (TunnelProtocol d) [protocol.TUNNEL_PROTOCOL_FRONTED_MEEK; _]).
  { cbn [orb].
    assert (Hkept : dialAddress d'
                    = (TunnelProtocol d, strconv_Itoa port, DirectDialAddress d,
                       net_JoinHostPort (MeekFrontingDialAddress d) (strconv_Itoa port),
                       MeekFrontingDialAddress d))
      by (step_inv; reflexivity).
    unfold dialAddress in Hkept. injection Hkept as -> -> _ -> ->.
    repeat split. exists port. repeat split. exact Hport. }
  destruct (isCase (TunnelProtocol d) [protocol.TUNNEL_PROTOCOL_FRONTED_MEEK_HTTP]).
  { cbn [orb]. apply ret_inr in Hrun as [<- _].
    repeat split. exists port. repeat split. exact Hport. }
  cbn [orb].
  destruct (isCase (TunnelProtocol d) [protocol.TUNNEL_PROTOCOL_UNFRONTED_MEEK]).
  { apply ret_inr in Hrun as [<- _].
    repeat split. exists port. repeat split. exact Hport. }
  destruct (isCase (TunnelProtocol d) [protocol.TUNNEL_PROTOCOL_UNFRONTED_MEEK_HTTPS; _]);
    [| discriminate].
  assert (Hkept : dialAddress d'
                  = (TunnelProtocol d, strconv_Itoa port, DirectDialAddress d,
                     net_JoinHostPort (protocol.IpAddress serverEntry) (strconv_Itoa port),
                     MeekFrontingDialAddress d))
    by (step_inv; reflexivity).
  unfold dialAddress in Hkept. injection Hkept as -> -> _ -> ->.
  repeat split. exists port. repeat split. exact Hport.
Qed.

Lemma dialAddress_eq a b :
  dialAddress a = dialAddress b ->
  TunnelProtocol a = TunnelProtocol b
  /\ DialPortNumber a = DialPortNumber b
  /\ DirectDialAddress a = DirectDialAddress b
  /\ MeekDialAddress a = MeekDialAddress b
  /\ MeekFrontingDialAddress a = MeekFrontingDialAddress b.
Proof. unfold dialAddress. intros E. repeat split; congruence. Qed.

Lemma selectFromQUICVersion_dialAddress config serverEntry rs isReplay p usingTLS
    d s d' s' :
  selectFromQUICVersion config serverEntry rs isReplay p usingTLS d s = (inr d', s') ->
  exists dialPortNumber,
    protocol.GetDialPortNumber serverEntry (TunnelProtocol d') = Ok dialPortNumber
    /\ DialPortNumber d' = strconv_Itoa dialPortNumber
    /\ if isCase (TunnelProtocol d') directProtocols then
         DirectDialAddress d'
         = net_JoinHostPort (protocol.IpAddress serverEntry) (DialPortNumber d')
       else if isCase (TunnelProtocol d') frontedProtocols then
         MeekDialAddress d'
         = net_JoinHostPort (MeekFrontingDialAddress d') (DialPortNumber d')
       else
         isCase (TunnelProtocol d') unfrontedProtocols = true
         /\ MeekDialAddress d'
            = net_JoinHostPort (protocol.IpAddress serverEntry) (DialPortNumber d').
Proof.
  unfold selectFromQUICVersion. intros Hrun. step_inv.
  match goal with
  | H : setDialAddress _ ?d0 _ = (inr ?d1, _)
    |- context [TunnelProtocol ?x] =>
    assert (Hafter : dialAddress x = dialAddress d1) by frame_walk;
    apply dialAddress_eq in Hafter as (E1 & E2 & E3 & E4 & E5);
    apply setDialAddress_inv in H as (Hprotocol & _ & Hport);
    rewrite E1, E2, E3, E4, E5, Hprotocol; exact Hport
  end.
Qed.

(** X15. Every returned record has a tunnel protocol that the [switch] of lines
    963-1010 knows, the dial port that the server entry gives for it, and
    the dial address of its kind: the server's IP address for a direct or
    an unfronted meek protocol, the fronting dial address for a fronted
    one.  The fields are worked out in every run, a replay included. *)
Theorem MakeDialParameters_dial_address config canReplay selectProtocol serverEntry
    isTactics candidateNumber establishedTunnelsCount w dialParams err w' :
  MakeDialParameters config canReplay selectProtocol serverEntry isTactics
    candidateNumber establishedTunnelsCount w = ((Some dialParams, err), w') ->
  let tunnelProtocol := TunnelProtocol dialParams in
  exists dialPortNumber,
    protocol.GetDialPortNumber serverEntry tunnelProtocol = Ok dialPortNumber
    /\ DialPortNumber dialParams = strconv_Itoa dialPortNumber
    /\ if isCase tunnelProtocol directProtocols then
         DirectDialAddress dialParams
         = net_JoinHostPort (protocol.IpAddress serverEntry) (DialPortNumber dialParams)
       else if isCase tunnelProtocol frontedProtocols then
         MeekDialAddress dialParams
         = net_JoinHostPort (MeekFrontingDialAddress dialParams)
             (DialPortNumber dialParams)
       else
         isCase tunnelProtocol unfrontedProtocols = true
         /\ MeekDialAddress dialParams
            = net_JoinHostPort (protocol.IpAddress serverEntry)
                (DialPortNumber dialParams).
Proof.
  intros Hrun tunnelProtocol.
  destruct (MakeDialParameters_halves _ _ _ _ _ _ _ _ _ _ _ Hrun)
    as (rs & isExchanged & d0 & s0 & d1 & usingTLS & s1 & _ & _ & Htail).
  exact (selectFromQUICVersion_dialAddress _ _ _ _ _ _ _ _ _ _ Htail).
Qed.

(** *** Resolve parameters *)

Lemma resolving_eq a b :
  resolving a = resolving b ->
  TunnelProtocol a = TunnelProtocol b
  /\ ConjureAPIRegistration a = ConjureAPIRegistration b
  /\ MeekFrontingDialAddress a = MeekFrontingDialAddress b
  /\ ResolveParameters a = ResolveParameters b.
Proof. unfold resolving. intros E. repeat split; congruence. Qed.

Lemma selectResolveParameters_inv p rs isReplay replayX d s d' s' :
  selectResolveParameters p rs isReplay replayX d s = (inr d', s') ->
  TunnelProtocol d' = TunnelProtocol d
  /\ ConjureAPIRegistration d' = ConjureAPIRegistration d
  /\ MeekFrontingDialAddress d' = MeekFrontingDialAddress d
  /\ (ResolveParameters d = None -> ResolveParameters d' <> None ->
      (protocol.TunnelProtocolUsesFrontedMeek (TunnelProtocol d)
       || ConjureAPIRegistration d) = true
      /\ net_ParseIP (MeekFrontingDialAddress d) = false).
Proof.
  unfold selectResolveParameters. intros Hrun.
  destruct (fresh isReplay replayX); cbn [andb] in Hrun.
  - destruct (protocol.TunnelProtocolUsesFrontedMeek (TunnelProtocol d)
              || ConjureAPIRegistration d); cbn [andb] in Hrun.
    + destruct (net_ParseIP (MeekFrontingDialAddress d)); cbn [negb] in Hrun.
      * apply ret_inr in Hrun as [<- _]. repeat split; congruence.
      * step_inv. repeat split.
    + apply ret_inr in Hrun as [<- _]. repeat split; congruence.
  - apply ret_inr in Hrun as [<- _]. repeat split; congruence.
Qed.

Lemma selectFromQUICVersion_resolving config serverEntry rs isReplay p usingTLS
    d s d' s' :
  selectFromQUICVersion config serverEntry rs isReplay p usingTLS d s = (inr d', s') ->
  ResolveParameters d = None ->
  ResolveParameters d' <> None ->
  (protocol.TunnelProtocolUsesFrontedMeek (TunnelProtocol d')
   || ConjureAPIRegistration d') = true
  /\ net_ParseIP (MeekFrontingDialAddress d') = false.
Proof.
  unfold selectFromQUICVersion. intros Hrun Hnone. step_inv.
  match goal with
  | H : selectResolveParameters _ _ _ _ ?d0 _ = (inr ?d1, _)
    |- context [TunnelProtocol ?x] =>
    assert (Hafter : resolving x = resolving d1) by frame_walk;
    assert (Hbefore : ResolveParameters d0 = ResolveParameters d) by frame_walk;
    apply resolving_eq in Hafter as (E1 & E2 & E3 & E4);
    apply selectResolveParameters_inv in H as (F1 & F2 & F3 & Hset);
    rewrite E1, E2, E3, E4, F1, F2, F3; apply Hset; congruence
  end.
Qed.

(** X16. A record composed afresh from nothing stored has resolve parameters
    only when its dial resolves a domain: the tunnel protocol is fronted
    meek, or Conjure API registration is on, and the fronting dial address
    is not an IP address. *)
Theorem MakeDialParameters_resolve_parameters_only_for_domains config canReplay
    selectProtocol serverEntry isTactics candidateNumber establishedTunnelsCount
    w dialParams err w' :
  MakeDialParameters config canReplay selectProtocol serverEntry isTactics
    candidateNumber establishedTunnelsCount w = ((Some dialParams, err), w') ->
  foundIn config serverEntry w = None ->
  ResolveParameters dialParams <> None ->
  (protocol.TunnelProtocolUsesFrontedMeek (TunnelProtocol dialParams) = true
   \/ ConjureAPIRegistration dialParams = true)
  /\ net_ParseIP (MeekFrontingDialAddress dialParams) = false.
Proof.
  intros Hrun Hnone Hset.
  destruct (MakeDialParameters_halves _ _ _ _ _ _ _ _ _ _ _ Hrun)
    as (rs & isExchanged & d0 & s0 & d1 & usingTLS & s1 & Hstart & Hhead & Htail).
  rewrite replayDecision_ineligible in Hstart by (intros R HR; congruence).
  apply (selectUpToHostNames_frame ResolveParameters) in Hhead;
    [| intros ? ?; reflexivity ..].
  rewrite Hstart in Hhead.
  destruct (selectFromQUICVersion_resolving _ _ _ _ _ _ _ _ _ _ Htail Hhead Hset)
    as [Hdomain Hip].
  split; [apply orb_true_iff, Hdomain | exact Hip].
Qed.

(** *** The TLS profile *)

Lemma tlsInputs_eq a b :
  tlsInputs a = tlsInputs b ->
  TunnelProtocol a = TunnelProtocol b
  /\ ConjureAPIRegistration a = ConjureAPIRegistration b.
Proof. unfold tlsInputs. intros E. split; congruence. Qed.

Lemma tlsProfile_eq a b :
  tlsProfile a = tlsProfile b ->
  SelectedTLSProfile a = SelectedTLSProfile b /\ TLSProfile a = TLSProfile b.
Proof. unfold tlsProfile. intros E. split; congruence. Qed.

Lemma usingTLS_of_eq a b : tlsInputs a = tlsInputs b -> usingTLS_of a = usingTLS_of b.
Proof.
  intros E. apply tlsInputs_eq in E as [E1 E2]. unfold usingTLS_of. rewrite E1, E2.
  reflexivity.
Qed.

Lemma selectTLSProfileBlock_inv p serverEntry isReplay replayX usingTLS d s d' s' :
  selectTLSProfileBlock p serverEntry isReplay replayX usingTLS d s = (inr d', s') ->
  fresh isReplay replayX = true ->
  usingTLS = true ->
  SelectedTLSProfile d' = true
  /\ ((protocol.TunnelProtocolRequiresTLS12SessionTickets (TunnelProtocol d)
       || protocol.TunnelProtocolRequiresTLS13Support (TunnelProtocol d)) = true ->
      TLSProfile d' <> "").
Proof.
  unfold selectTLSProfileBlock. intros Hrun Hfresh Husing.
  rewrite Hfresh, Husing in Hrun. cbn [andb] in Hrun.
  apply bind_inr in Hrun as (r & s1 & _ & Hrun).
  apply bind_inr in Hrun as ([[tlsProfile' tlsVersion] seed] & s2 & _ & Hrun).
  change (TLSProfile (set_RandomizedTLSProfileSeed seed _)) with tlsProfile' in Hrun.
  change (TunnelProtocol (set_SelectedTLSProfile true d)) with (TunnelProtocol d) in Hrun.
  destruct (String.eqb tlsProfile' "") eqn:Hempty; cbn [andb] in Hrun.
  - destruct (protocol.TunnelProtocolRequiresTLS12SessionTickets (TunnelProtocol d)
              || protocol.TunnelProtocolRequiresTLS13Support (TunnelProtocol d));
      [discriminate |].
    step_inv. split; [reflexivity | discriminate].
  - step_inv. split; [reflexivity |]. intros _.
    apply String.eqb_neq in Hempty. exact Hempty.
Qed.

Lemma selectUpToHostNames_TLSProfile config selectProtocol serverEntry
    isReplay isExchanged d s d' p usingTLS s' :
  selectUpToHostNames config selectProtocol serverEntry isReplay isExchanged d s
    = (inr (d', p, usingTLS), s') ->
  usingTLS = usingTLS_of d'
  /\ (fresh isReplay
        (parameters.Bool (parameters.Get (Config.GetParameters config))
           parameters.ReplayTLSProfile) = true ->
      usingTLS = true ->
      SelectedTLSProfile d' = true
      /\ ((protocol.TunnelProtocolRequiresTLS12SessionTickets (TunnelProtocol d')
           || protocol.TunnelProtocolRequiresTLS13Support (TunnelProtocol d')) = true ->
          TLSProfile d' <> "")).
Proof.
  unfold selectUpToHostNames, selectGivenProtocol. intros Hrun. step_inv.
  match goal with
  | H : selectTLSProfileBlock _ _ _ _ (usingTLS_of ?d0) ?d0 _ = (inr ?d1, _)
    |- context [TunnelProtocol ?x] =>
    assert (Hafter : tlsProfile x = tlsProfile d1) by frame_walk;
    assert (Hinputs : tlsInputs x = tlsInputs d0) by frame_walk;
    apply tlsProfile_eq in Hafter as (E1 & E2);
    rewrite (usingTLS_of_eq _ _ Hinputs);
    apply tlsInputs_eq in Hinputs as (E3 & _);
    split; [reflexivity |];
    rewrite E1, E2, E3;
    exact (selectTLSProfileBlock_inv _ _ _ _ _ _ _ _ _ H)
  end.
Qed.

(** X17. A returned record whose TLS profile was selected in this run (a fresh
    record, or a replay without [ReplayTLSProfile]) and whose dial uses TLS
    has [SelectedTLSProfile] set, and a TLS profile when its tunnel protocol
    requires TLS 1.2 session tickets or TLS 1.3. *)
Theorem MakeDialParameters_required_TLS_profile config canReplay selectProtocol
    serverEntry isTactics candidateNumber establishedTunnelsCount w dialParams err w' :
  MakeDialParameters config canReplay selectProtocol serverEntry isTactics
    candidateNumber establishedTunnelsCount w = ((Some dialParams, err), w') ->
  fresh (IsReplay dialParams)
    (parameters.Bool (parameters.Get (Config.GetParameters config))
       parameters.ReplayTLSProfile) = true ->
  usingTLS_of dialParams = true ->
  SelectedTLSProfile dialParams = true
  /\ (protocol.TunnelProtocolRequiresTLS12SessionTickets (TunnelProtocol dialParams)
      = true
      \/ protocol.TunnelProtocolRequiresTLS13Support (TunnelProtocol dialParams) = true ->
      TLSProfile dialParams <> "").
Proof.
  intros Hrun Hfresh Husing.
  destruct (MakeDialParameters_halves _ _ _ _ _ _ _ _ _ _ _ Hrun)
    as (rs & isExchanged & d0 & s0 & d1 & usingTLS & s1 & _ & Hhead & Htail).
  pose proof Htail as Hprofile.
  apply (selectFromQUICVersion_frame tlsProfile) in Hprofile;
    [| intros ? ?; reflexivity ..].
  apply (selectFromQUICVersion_frame tlsInputs) in Htail; [| intros ? ?; reflexivity ..].
  apply tlsProfile_eq in Hprofile as [E1 E2].
  rewrite (usingTLS_of_eq _ _ Htail) in Husing.
  apply tlsInputs_eq in Htail as [E3 _].
  destruct (selectUpToHostNames_TLSProfile _ _ _ _ _ _ _ _ _ _ _ Hhead)
    as [Heq Hselected].
  rewrite <- Heq in Husing.
  destruct (Hselected Hfresh Husing) as [Hflag Hprofile].
  rewrite E1, E2, E3. split; [exact Hflag |].
  intros Hrequired. apply Hprofile. apply orb_true_iff. exact Hrequired.
Qed.

(** *** The custom headers of a fresh selection *)

Lemma selectUserAgent_selected config p isReplay replayUserAgent d s d' h s' :
  selectUserAgent config p isReplay replayUserAgent d s = (inr (d', h), s') ->
  fresh isReplay replayUserAgent = true ->
  takesUserAgent d = true ->
  SelectedUserAgent d'
  = match makeDialCustomHeaders config p !! "User-Agent" with
    | None => true
    | Some _ => false
    end.
Proof.
  unfold selectUserAgent. fold (takesUserAgent d). intros Hrun Hfresh Htakes.
  rewrite Htakes, Hfresh in Hrun.
  apply bind_inr in Hrun as (d1 & s1 & Hselect & Hrun).
  assert (Hselected : SelectedUserAgent d1
                      = match makeDialCustomHeaders config p !! "User-Agent" with
                        | None => true
                        | Some _ => false
                        end).
  { clear Hrun. unfold selectUserAgentIfUnset in Hselect.
    destruct (makeDialCustomHeaders config p !! "User-Agent"); step_inv; reflexivity. }
  destruct (SelectedUserAgent d1) eqn:Hflag; apply ret_inr in Hrun as [Hpair _];
    injection Hpair as <- _; rewrite Hflag; exact Hselected.
Qed.

Lemma selectFromQUICVersion_fresh_headers config serverEntry rs isReplay p usingTLS
    d s d' s' :
  selectFromQUICVersion config serverEntry rs isReplay p usingTLS d s = (inr d', s') ->
  fresh isReplay
    (parameters.Bool (parameters.Get (Config.GetParameters config))
       parameters.ReplayUserAgent) = true ->
  exists dialConfig',
    dialConfig d' = Some dialConfig'
    /\ forall name,
         DialConfig.CustomHeaders dialConfig' !! name
         = match makeDialCustomHeaders config p !! name with
           | Some v => Some v
           | None =>
             if takesUserAgent d' && String.eqb name "User-Agent"
             then Some [UserAgent d'] else None
           end.
Proof.
  intros Hrun Hfresh.
  destruct (selectFromQUICVersion_headers _ _ _ _ _ _ _ _ _ _ Hrun)
    as (dialConfig' & Hconfig & Hheaders).
  exists dialConfig'. split; [exact Hconfig |]. rewrite Hheaders. clear Hheaders Hconfig.
  assert (Hselected : takesUserAgent d' = true ->
                      SelectedUserAgent d'
                      = match makeDialCustomHeaders config p !! "User-Agent" with
                        | None => true
                        | Some _ => false
                        end).
  { unfold selectFromQUICVersion in Hrun. step_inv.
    match goal with
    | Hua : selectUserAgent _ _ _ _ ?d9 _ = (inr (?d10, ?h), _) |- _ =>
      destruct (setUpstreamProxyCustomHeaderNames_userAgent config h d10)
        as (Etakes & Eselected & _);
      pose proof (selectUserAgent_inv _ _ _ _ _ _ _ _ _ Hua) as [Ekept _];
      pose proof (selectUserAgent_selected _ _ _ _ _ _ _ _ _ Hua Hfresh) as Hselected
    end.
    match goal with
    | |- takesUserAgent (makeDialConfig ?c ?q ?e ?h ?x) = true -> _ =>
      change (takesUserAgent (makeDialConfig c q e h x)) with (takesUserAgent x);
      change (SelectedUserAgent (makeDialConfig c q e h x)) with (SelectedUserAgent x)
    end.
    rewrite Etakes, Eselected, Ekept. exact Hselected. }
  intros name.
  destruct (takesUserAgent d') eqn:Htakes; cbn [andb];
    [| destruct (makeDialCustomHeaders config p !! name); reflexivity].
  rewrite (Hselected eq_refl).
  destruct (String.eqb name "User-Agent") eqn:Hname.
  - apply String.eqb_eq in Hname. subst name.
    destruct (makeDialCustomHeaders config p !! "User-Agent") eqn:Hbase.
    + exact Hbase.
    + unfold http.Set_. apply lookup_insert_eq.
  - apply String.eqb_neq in Hname.
    destruct (makeDialCustomHeaders config p !! "User-Agent").
    + destruct (makeDialCustomHeaders config p !! name); reflexivity.
    + unfold http.Set_. rewrite lookup_insert_ne by congruence.
      destruct (makeDialCustomHeaders config p !! name); reflexivity.
Qed.

(** X18. In a returned record whose User-Agent was selected in this run (a
    fresh record, or a replay without [ReplayUserAgent]), the headers of the
    [DialConfig] never override a configured header: every name of the
    tactics parameter [AdditionalCustomHeaders] has the tactics value, every
    other name of [config.CustomHeaders] has the configured value, and the
    only further header is "User-Agent", with the selected User-Agent, when
    the dial takes one and neither source names it. *)
Theorem MakeDialParameters_fresh_custom_headers config canReplay selectProtocol
    serverEntry isTactics candidateNumber establishedTunnelsCount w dialParams err w' :
  MakeDialParameters config canReplay selectProtocol serverEntry isTactics
    candidateNumber establishedTunnelsCount w = ((Some dialParams, err), w') ->
  fresh (IsReplay dialParams)
    (parameters.Bool (parameters.Get (Config.GetParameters config))
       parameters.ReplayUserAgent) = true ->
  let p := parameters.GetCustom (Config.GetParameters config)
             (NetworkLatencyMultiplier dialParams) in
  exists dialConfig',
    dialConfig dialParams = Some dialConfig'
    /\ forall name,
         DialConfig.CustomHeaders dialConfig' !! name
         = match parameters.HTTPHeaders p parameters.AdditionalCustomHeaders !! name with
           | Some v => Some v
           | None =>
             match configHeader config name with
             | Some v => Some v
             | None =>
               if takesUserAgent dialParams && String.eqb name "User-Agent"
               then Some [UserAgent dialParams] else None
             end
           end.
Proof.
  intros Hrun Hfresh p.
  destruct (MakeDialParameters_halves _ _ _ _ _ _ _ _ _ _ _ Hrun)
    as (rs & isExchanged & d0 & s0 & d1 & usingTLS & s1 & _ & _ & Htail).
  fold p in Htail.
  destruct (selectFromQUICVersion_fresh_headers _ _ _ _ _ _ _ _ _ _ Htail Hfresh)
    as (dialConfig' & Hconfig & Hheaders).
  exists dialConfig'. split; [exact Hconfig |].
  intros name. rewrite Hheaders, makeDialCustomHeaders_lookup.
  destruct (parameters.HTTPHeaders p parameters.AdditionalCustomHeaders !! name);
    [reflexivity |].
  destruct (configHeader config name); reflexivity.
Qed.

(** *** The reported header names *)

Lemma setUpstreamProxyCustomHeaderNames_In config h d name :
  (0 < match Config.CustomHeaders config with
       | Some customHeaders => size customHeaders
       | None => 0
       end)%nat ->
  In name (UpstreamProxyCustomHeaderNames (setUpstreamProxyCustomHeaderNames config h d))
  <-> is_Some (h !! name)
      /\ ~ (name = "User-Agent" /\ SelectedUserAgent d = true).
Proof.
  intros Hsome. unfold setUpstreamProxyCustomHeaderNames.
  apply Nat.ltb_lt in Hsome. rewrite Hsome.
  change (UpstreamProxyCustomHeaderNames (set_UpstreamProxyCustomHeaderNames ?l d))
    with l.
  rewrite <- list_elem_of_In, list_elem_of_filter, list_elem_of_In, in_map_iff.
  split.
  - intros [Hkeep ([name' v] & <- & Hin)].
    apply list_elem_of_In, elem_of_map_to_list in Hin. cbn [fst] in *.
    split; [exists v; exact Hin |].
    intros [-> Hselected]. rewrite Hselected in Hkeep. exact Hkeep.
  - intros [[v Hin] Hnot]. split.
    + destruct (String.eqb name "User-Agent") eqn:Hname; [| exact I].
      destruct (SelectedUserAgent d) eqn:Hselected; [| exact I].
      exfalso. apply Hnot. split; [apply String.eqb_eq, Hname | reflexivity].
    + exists (name, v). split; [reflexivity |].
      apply list_elem_of_In, elem_of_map_to_list. exact Hin.
Qed.

Lemma selectFromQUICVersion_header_names config serverEntry rs isReplay p usingTLS
    d s d' s' :
  selectFromQUICVersion config serverEntry rs isReplay p usingTLS d s = (inr d', s') ->
  let n := match Config.CustomHeaders config with
           | Some customHeaders => size customHeaders
           | None => 0%nat
           end in
  ((0 < n)%nat ->
   exists dialConfig',
     dialConfig d' = Some dialConfig'
     /\ forall name,
          In name (UpstreamProxyCustomHeaderNames d')
          <-> is_Some (DialConfig.CustomHeaders dialConfig' !! name)
              /\ ~ (name = "User-Agent" /\ SelectedUserAgent d' = true))
  /\ (n = 0%nat -> UpstreamProxyCustomHeaderNames d' = UpstreamProxyCustomHeaderNames d).
Proof.
  intros Hrun n. unfold selectFromQUICVersion in Hrun. step_inv.
  match goal with
  | |- context [dialConfig (makeDialConfig ?c ?q ?e ?h ?x)] =>
    change (UpstreamProxyCustomHeaderNames (makeDialConfig c q e h x))
      with (UpstreamProxyCustomHeaderNames x);
    change (SelectedUserAgent (makeDialConfig c q e h x)) with (SelectedUserAgent x)
  end.
  split.
  - intros Hsome. eexists. split; [reflexivity |]. cbn [DialConfig.CustomHeaders].
    intros name.
    match goal with
    | |- context [SelectedUserAgent (setUpstreamProxyCustomHeaderNames ?c ?h ?x)] =>
      destruct (setUpstreamProxyCustomHeaderNames_userAgent c h x) as (_ & -> & _)
    end.
    apply setUpstreamProxyCustomHeaderNames_In. exact Hsome.
  - intros Hnone. unfold setUpstreamProxyCustomHeaderNames. fold n. rewrite Hnone.
    cbn [Nat.ltb Nat.leb]. frame_walk.
Qed.

Lemma takenOver_header_names config canReplay serverEntry w :
  UpstreamProxyCustomHeaderNames (takenOver config canReplay serverEntry w) = [].
Proof.
  unfold takenOver.
  destruct (replayDecision config canReplay serverEntry w) as [[[R |] st] w1] eqn:Hdecide;
    [| reflexivity].
  apply replayDecision_Some in Hdecide as (Hfound & _).
  apply foundIn_Some in Hfound as (R0 & _ & ->). reflexivity.
Qed.

(** X19. [UpstreamProxyCustomHeaderNames], a reported metric.  When
    [config.CustomHeaders] has entries, it lists exactly the names of the
    headers of the [DialConfig], but for "User-Agent" when the User-Agent
    was selected.  When [config.CustomHeaders] has none, it is empty,
    whatever headers the tactics add. *)
Theorem MakeDialParameters_reported_header_names config canReplay selectProtocol
    serverEntry isTactics candidateNumber establishedTunnelsCount w dialParams err w' :
  MakeDialParameters config canReplay selectProtocol serverEntry isTactics
    candidateNumber establishedTunnelsCount w = ((Some dialParams, err), w') ->
  let n := match Config.CustomHeaders config with
           | Some customHeaders => size customHeaders
           | None => 0%nat
           end in
  ((0 < n)%nat ->
   exists dialConfig',
     dialConfig dialParams = Some dialConfig'
     /\ forall name,
          In name (UpstreamProxyCustomHeaderNames dialParams)
          <-> is_Some (DialConfig.CustomHeaders dialConfig' !! name)
              /\ ~ (name = "User-Agent" /\ SelectedUserAgent dialParams = true))
  /\ (n = 0%nat -> UpstreamProxyCustomHeaderNames dialParams = []).
Proof.
  intros Hrun n.
  pose proof (takenOver_header_names config canReplay serverEntry w) as Hstart.
  unfold takenOver in Hstart.
  destruct (MakeDialParameters_halves _ _ _ _ _ _ _ _ _ _ _ Hrun)
    as (rs & isExchanged & d0 & s0 & d1 & usingTLS & s1 & Hd0 & Hhead & Htail).
  destruct (selectFromQUICVersion_header_names _ _ _ _ _ _ _ _ _ _ Htail)
    as [Hsome Hnone].
  split; [exact Hsome |].
  intros Hzero. rewrite (Hnone Hzero).
  apply (selectUpToHostNames_frame UpstreamProxyCustomHeaderNames) in Hhead;
    [| intros ? ?; reflexivity ..].
  rewrite Hhead, Hd0.
  destruct (fst (fst (replayDecision config canReplay serverEntry w))); exact Hstart.
Qed.

(** ** The sub-selectors *)

(** *** [selectConjureTransport] *)

Lemma selectConjureTransport_loop_In limit supported acc t :
  In t (selectConjureTransport_loop limit supported acc)
  <-> In t acc \/ (In t supported /\ (limit = [] \/ In t limit)).
Proof.
  revert acc. induction supported as [| transport rest IH]; intros acc;
    cbn [selectConjureTransport_loop In].
  - tauto.
  - destruct ((0 <? length limit)%nat && negb (common.Contains limit transport))
      eqn:Hskip; rewrite IH.
    + apply andb_true_iff in Hskip as [Hlimit Hout].
      apply negb_true_iff in Hout.
      assert (Hno : ~ (limit = [] \/ In transport limit)).
      { intros [-> | Hin]; [discriminate |].
        apply Contains_In in Hin. congruence. }
      split.
      * intros [Hin | (Hin & Hf)]; [left; exact Hin | right; tauto].
      * intros [Hin | ([<- | Hin] & Hf)]; [left; exact Hin | tauto | right; tauto].
    + apply andb_false_iff in Hskip.
      assert (Hyes : limit = [] \/ In transport limit).
      { destruct Hskip as [Hlimit | Hin].
        - left. apply length_zero_nil, Hlimit.
        - right. apply negb_false_iff in Hin. apply Contains_In, Hin. }
      rewrite in_app_iff. cbn [In]. split.
      * intros [[Hin | [<- | []]] | (Hin & Hf)]; tauto.
      * intros [Hin | ([<- | Hin] & Hf)]; tauto.
Qed.

(** X22. [selectConjureTransport] always returns; when some supported transport
    is within the tactics limit [ConjureLimitTransports] (or there is no
    limit) the result is such a transport; when none is, the result is the
    empty string; and every such transport is the result for some draw. *)
Theorem selectConjureTransport_selects p :
  (forall s, exists transport s',
      selectConjureTransport p s = (inr transport, s')
      /\ ((exists x, allowedConjureTransport p x) -> allowedConjureTransport p transport)
      /\ ((forall x, ~ allowedConjureTransport p x) -> transport = ""))
  /\ (forall x, allowedConjureTransport p x ->
      exists s, fst (selectConjureTransport p s) = inr x).
Proof.
  unfold selectConjureTransport.
  set (transports := selectConjureTransport_loop _ _ _).
  assert (Hin : forall t, In t transports <-> allowedConjureTransport p t).
  { intros t. unfold transports, allowedConjureTransport.
    rewrite selectConjureTransport_loop_In. cbn [In]. tauto. }
  split.
  - intros s. destruct (length transports =? 0)%nat eqn:Elen.
    + exists "", s. split; [reflexivity |]. split; [| reflexivity].
      intros [x Hx]. apply Hin in Hx. apply Nat.eqb_eq in Elen.
      destruct transports; [contradiction | discriminate].
    + apply Nat.eqb_neq in Elen.
      exists (index transports (prng.Intn_of (length transports) (fst (prng.next s)))),
        (snd (prng.next s)).
      split; [unfold bind; rewrite Intn_run; reflexivity |].
      assert (Hres : In (index transports
                           (prng.Intn_of (length transports) (fst (prng.next s))))
                        transports)
        by (apply nth_In, Intn_of_lt; lia).
      split.
      * intros _. apply Hin. exact Hres.
      * intros Hnone. exfalso. apply Hin in Hres. exact (Hnone _ Hres).
  - intros x Hx. apply Hin in Hx.
    destruct (In_nth _ _ "" Hx) as (i & Hi & Hnth).
    exists {| prng.draws := [N.of_nat i]; prng.seeds := [] |}.
    destruct (length transports =? 0)%nat eqn:Elen;
      [apply Nat.eqb_eq in Elen; lia |].
    unfold bind. rewrite Intn_run. cbn [fst snd prng.next prng.draws ret].
    rewrite Intn_of_small by exact Hi. unfold index. rewrite Hnth. reflexivity.
Qed.

(** *** [selectFrontingParameters] *)

(** X23. What [selectFrontingParameters] returns: the fronting dial host is
    generated from [MeekFrontingAddressesRegex] when the server entry has
    one, and is otherwise one of [MeekFrontingAddresses]; the fronting host
    is one of [MeekFrontingHosts], or [MeekFrontingHost] when there are
    none.  With neither a regex nor an address the selector fails with an
    error. *)
Theorem selectFrontingParameters_selects serverEntry :
  (forall s frontingDialHost frontingHost s',
      selectFrontingParameters serverEntry s
        = (inr (frontingDialHost, frontingHost), s') ->
      (if String.eqb (protocol.MeekFrontingAddressesRegex serverEntry) "" then
         In frontingDialHost (protocol.MeekFrontingAddresses serverEntry)
       else
         exists r,
           regen_GenerateString (protocol.MeekFrontingAddressesRegex serverEntry) r
           = Ok frontingDialHost)
      /\ match protocol.MeekFrontingHosts serverEntry with
         | [] => frontingHost = protocol.MeekFrontingHost serverEntry
         | _ :: _ => In frontingHost (protocol.MeekFrontingHosts serverEntry)
         end)
  /\ (protocol.MeekFrontingAddressesRegex serverEntry = "" ->
      protocol.MeekFrontingAddresses serverEntry = [] ->
      forall s,
        selectFrontingParameters serverEntry s
        = (inl (ReturnError "MeekFrontingAddresses is empty"), s)).
Proof.
  unfold selectFrontingParameters. split.
  - intros s frontingDialHost frontingHost s' Hrun.
    apply bind_inr in Hrun as (dialHost & s1 & Hdial & Hrun).
    apply bind_inr in Hrun as (host & s2 & Hhost & Hrun).
    apply ret_inr in Hrun as [Hpair _]. injection Hpair as -> ->.
    split.
    + destruct (protocol.MeekFrontingAddressesRegex serverEntry) as [| c regex] eqn:Hregex.
      * cbn [String.length Nat.ltb Nat.leb String.eqb] in *.
        destruct (length (protocol.MeekFrontingAddresses serverEntry) =? 0)%nat eqn:Hnone;
          [discriminate |].
        rewrite (bind_run _ _ _ _ _ (Intn_run _ _)) in Hdial.
        apply ret_inr in Hdial as [<- _]. unfold index.
        apply nth_In, Intn_of_lt. apply Nat.eqb_neq in Hnone. lia.
      * cbn [String.length Nat.ltb Nat.leb String.eqb] in *.
        apply bind_inr in Hdial as (r & s3 & _ & Hdial).
        apply try_inr in Hdial as [Hgenerated _]. exists r. exact Hgenerated.
    + destruct (protocol.MeekFrontingHosts serverEntry) as [| h hosts] eqn:Hhosts.
      * cbn [length Nat.ltb Nat.leb] in Hhost. apply ret_inr in Hhost as [<- _].
        reflexivity.
      * cbn [length Nat.ltb Nat.leb] in Hhost.
        rewrite (bind_run _ _ _ _ _ (Intn_run _ _)) in Hhost.
        apply ret_inr in Hhost as [<- _]. unfold index.
        apply nth_In, Intn_of_lt. cbn [length]. lia.
  - intros Hregex Hnone s. rewrite Hregex, Hnone. reflexivity.
Qed.

(** *** [selectHostName] *)

(** X24. [selectHostName] never fails.  Its result is a host name of the
    generator [values.GetHostName], or the expansion of one of the tactics'
    [CustomHostNameRegexes]; the latter only when the tunnel protocol is
    within [CustomHostNameLimitProtocols] or there is no such limit.  A
    regex that fails to expand falls back to the generator. *)
Theorem selectHostName_returns tunnelProtocol p s :
  exists hostName s',
    selectHostName tunnelProtocol p s = (inr hostName, s')
    /\ ((exists r, hostName = values_GetHostName r)
        \/ (exists regex r,
              In regex (parameters.RegexStrings p parameters.CustomHostNameRegexes)
              /\ regen_GenerateString regex r = Ok hostName
              /\ (parameters.TunnelProtocols p parameters.CustomHostNameLimitProtocols = []
                  \/ In tunnelProtocol
                       (parameters.TunnelProtocols p
                          parameters.CustomHostNameLimitProtocols)))).
Proof.
  assert (Hgenerated : forall s0, exists hostName s',
             GetHostName s0 = (inr hostName, s')
             /\ exists r, hostName = values_GetHostName r).
  { intros s0. unfold GetHostName, bind, draw, ret.
    destruct (prng.next s0) as [r s1]. exists (values_GetHostName r), s1.
    split; [reflexivity | exists r; reflexivity]. }
  unfold selectHostName.
  destruct ((0 <? length (parameters.TunnelProtocols p
                            parameters.CustomHostNameLimitProtocols))%nat
            && negb (common.Contains
                       (parameters.TunnelProtocols p
                          parameters.CustomHostNameLimitProtocols) tunnelProtocol))
    eqn:Hlimit.
  { destruct (Hgenerated s) as (hostName & s' & Hrun & Hr).
    exists hostName, s'. split; [exact Hrun | left; exact Hr]. }
  assert (Hwithin :
            parameters.TunnelProtocols p parameters.CustomHostNameLimitProtocols = []
            \/ In tunnelProtocol
                 (parameters.TunnelProtocols p parameters.CustomHostNameLimitProtocols)).
  { apply andb_false_iff in Hlimit as [Hnone | Hin].
    - left. apply length_zero_nil, Hnone.
    - right. apply negb_false_iff in Hin. apply Contains_In, Hin. }
  unfold WeightedCoinFlip, bind at 1 2, draw, ret.
  destruct (prng.next s) as [r0 s0].
  destruct (prng.FlipWeightedCoin _ r0); cbn [negb].
  2: { destruct (Hgenerated s0) as (hostName & s' & Hrun & Hr).
       exists hostName, s'. split; [exact Hrun | left; exact Hr]. }
  destruct (length (parameters.RegexStrings p parameters.CustomHostNameRegexes) =? 0)%nat
    eqn:Hnone.
  { destruct (Hgenerated s0) as (hostName & s' & Hrun & Hr).
    exists hostName, s'. split; [exact Hrun | left; exact Hr]. }
  rewrite (bind_run _ _ _ _ _ (Intn_run _ _)).
  unfold bind at 1, draw. destruct (prng.next (snd (prng.next s0))) as [r1 s1].
  destruct (regen_GenerateString _ r1) as [hostName | e] eqn:Hregen.
  - exists hostName, s1. split; [reflexivity |]. right.
    eexists _, r1. split; [| split; [exact Hregen | exact Hwithin]].
    unfold index. apply nth_In, Intn_of_lt. apply Nat.eqb_neq in Hnone. lia.
  - destruct (Hgenerated s1) as (hostName & s' & Hrun & Hr).
    exists hostName, s'. split; [exact Hrun | left; exact Hr].
Qed.

(** ** Transforms *)

Lemma makeSeedTransformerParameters_seed p probability specs scoped s params s' :
  makeSeedTransformerParameters p probability specs scoped s = (inr params, s') ->
  notNil (transforms.TransformSpec params) = true ->
  notNil (transforms.TransformSeed params) = true.
Proof.
  unfold makeSeedTransformerParameters. intros Hrun Hspec.
  step_inv; cbn in Hspec |- *; congruence.
Qed.

Lemma makeHTTPTransformerParameters_seed p frontingProviderID isFronted s params s' :
  makeHTTPTransformerParameters p frontingProviderID isFronted s = (inr params, s') ->
  notNil (transforms.ProtocolTransformSpec params) = true ->
  notNil (transforms.ProtocolTransformSeed params) = true.
Proof.
  unfold makeHTTPTransformerParameters. intros Hrun Hspec.
  step_inv; cbn in Hspec |- *; congruence.
Qed.

Lemma makeOSSHPrefixSpecParameters_seed p dialPortNumber s prefixSpec s' :
  makeOSSHPrefixSpecParameters p dialPortNumber s = (inr prefixSpec, s') ->
  notNil (obfuscator.OSSHPrefixSpec.Spec prefixSpec) = true ->
  notNil (obfuscator.OSSHPrefixSpec.Seed prefixSpec) = true.
Proof.
  unfold makeOSSHPrefixSpecParameters. intros Hrun Hspec.
  step_inv; cbn in Hspec |- *; congruence.
Qed.

Lemma selectOSSHSeedTransformer_OK p serverEntry isReplay replayX d s d' s' :
  selectOSSHSeedTransformer p serverEntry isReplay replayX d s = (inr d', s') ->
  seedTransformerOK (OSSHObfuscatorSeedTransformerParameters d) = true ->
  seedTransformerOK (OSSHObfuscatorSeedTransformerParameters d') = true.
Proof.
  unfold selectOSSHSeedTransformer. intros Hrun Hok.
  destruct (protocol.DisableOSSHTransforms serverEntry);
    [apply ret_inr in Hrun as [<- _]; reflexivity |].
  destruct (fresh isReplay replayX); [| apply ret_inr in Hrun as [<- _]; exact Hok].
  apply bind_inr in Hrun as (params & s1 & Hmake & Hrun).
  destruct (transforms.TransformSpec params) eqn:Hspec;
    apply ret_inr in Hrun as [<- _]; [| reflexivity].
  change (seedTransformerOK (Some params) = true). cbn [seedTransformerOK].
  rewrite Hspec. cbn [notNil andb].
  apply (makeSeedTransformerParameters_seed _ _ _ _ _ _ _ Hmake).
  rewrite Hspec. reflexivity.
Qed.

Lemma selectOSSHPrefix_OK p serverEntry isReplay replayX d s d' s' :
  selectOSSHPrefix p serverEntry isReplay replayX d s = (inr d', s') ->
  prefixOK (OSSHPrefixSpec d) (OSSHPrefixSplitConfig d) = true ->
  prefixOK (OSSHPrefixSpec d') (OSSHPrefixSplitConfig d') = true.
Proof.
  unfold selectOSSHPrefix. intros Hrun Hok.
  destruct (protocol.DisableOSSHPrefix serverEntry);
    [apply ret_inr in Hrun as [<- _]; reflexivity |].
  destruct (fresh isReplay replayX); [| apply ret_inr in Hrun as [<- _]; exact Hok].
  apply bind_inr in Hrun as (port & s1 & _ & Hrun).
  apply bind_inr in Hrun as (prefixSpec & s2 & Hmake & Hrun).
  apply bind_inr in Hrun as (splitConfig & s3 & _ & Hrun).
  destruct (obfuscator.OSSHPrefixSpec.Spec prefixSpec) eqn:Hspec;
    apply ret_inr in Hrun as [<- _]; [| reflexivity].
  change (prefixOK (Some prefixSpec) (Some splitConfig) = true). cbn [prefixOK].
  rewrite Hspec. cbn [notNil andb]. rewrite andb_true_r.
  apply (makeOSSHPrefixSpecParameters_seed _ _ _ _ _ Hmake).
  rewrite Hspec. reflexivity.
Qed.

Lemma transformsOf_eq a b :
  transformsOf a = transformsOf b -> transformsOK a = transformsOK b.
Proof.
  unfold transformsOf, transformsOK. intros E. injection E as -> -> -> -> ->.
  reflexivity.
Qed.

Lemma transformsOK_parts d :
  transformsOK d = true
  <-> seedTransformerOK (OSSHObfuscatorSeedTransformerParameters d) = true
      /\ seedTransformerOK (ObfuscatedQUICNonceTransformerParameters d) = true
      /\ httpTransformerOK (HTTPTransformerParameters d) = true
      /\ prefixOK (OSSHPrefixSpec d) (OSSHPrefixSplitConfig d) = true.
Proof. unfold transformsOK. rewrite !andb_true_iff. tauto. Qed.

Lemma selectOSSHTransforms_OK p serverEntry isReplay replayS replayP d s d' s' :
  selectOSSHTransforms p serverEntry isReplay replayS replayP d s = (inr d', s') ->
  transformsOK d = true -> transformsOK d' = true.
Proof.
  unfold selectOSSHTransforms. intros Hrun Hok.
  destruct (String.eqb (TunnelProtocol d) protocol.TUNNEL_PROTOCOL_OBFUSCATED_SSH);
    [| apply ret_inr in Hrun as [<- _]; exact Hok].
  apply bind_inr in Hrun as (d1 & s1 & Hseed & Hrun).
  apply bind_inr in Hrun as (d2 & s2 & Hprefix & Hrun).
  apply transformsOK_parts in Hok as (Hs & Hn & Hh & Hp).
  pose proof (selectOSSHSeedTransformer_OK _ _ _ _ _ _ _ _ Hseed Hs) as Hs1.
  assert (E1 : (ObfuscatedQUICNonceTransformerParameters d1,
                HTTPTransformerParameters d1,
                (OSSHPrefixSpec d1, OSSHPrefixSplitConfig d1))
               = (ObfuscatedQUICNonceTransformerParameters d,
                  HTTPTransformerParameters d,
                  (OSSHPrefixSpec d, OSSHPrefixSplitConfig d)))
    by (apply (selectOSSHSeedTransformer_frame
                 (fun d => (ObfuscatedQUICNonceTransformerParameters d,
                            HTTPTransformerParameters d,
                            (OSSHPrefixSpec d, OSSHPrefixSplitConfig d)))
                 _ _ _ _ ltac:(intros ? ?; reflexivity) _ _ _ _ Hseed)).
  injection E1 as En Eh Ep Eq.
  rewrite <- Ep, <- Eq in Hp.
  pose proof (selectOSSHPrefix_OK _ _ _ _ _ _ _ _ Hprefix Hp) as Hp2.
  assert (E2 : (ObfuscatedQUICNonceTransformerParameters d2,
                HTTPTransformerParameters d2,
                OSSHObfuscatorSeedTransformerParameters d2)
               = (ObfuscatedQUICNonceTransformerParameters d1,
                  HTTPTransformerParameters d1,
                  OSSHObfuscatorSeedTransformerParameters d1))
    by (apply (selectOSSHPrefix_frame
                 (fun d => (ObfuscatedQUICNonceTransformerParameters d,
                            HTTPTransformerParameters d,
                            OSSHObfuscatorSeedTransformerParameters d))
                 _ _ _ _ ltac:(intros ? ?; reflexivity) ltac:(intros ? ?; reflexivity)
                 _ _ _ _ Hprefix)).
  injection E2 as Fn Fh Fs.
  assert (Hd2 : transformsOK d2 = true).
  { apply transformsOK_parts. rewrite Fs, Fn, Fh, En, Eh. auto. }
  destruct (OSSHPrefixSpec d2) eqn:Hset; apply ret_inr in Hrun as [<- _];
    [| exact Hd2].
  apply transformsOK_parts in Hd2 as (_ & Hn2 & Hh2 & Hp2').
  apply transformsOK_parts. repeat split; assumption.
Qed.

Lemma selectHTTPTransformer_OK config serverEntry isReplay replayX d s d' s' :
  selectHTTPTransformer config serverEntry isReplay replayX d s = (inr d', s') ->
  transformsOK d = true -> transformsOK d' = true.
Proof.
  unfold selectHTTPTransformer. intros Hrun Hok.
  apply transformsOK_parts in Hok as (Hs & Hn & Hh & Hp).
  destruct (protocol.TunnelProtocolUsesMeekHTTP (TunnelProtocol d));
    [| apply ret_inr in Hrun as [<- _]; apply transformsOK_parts; auto].
  destruct (protocol.DisableHTTPTransforms serverEntry);
    [apply ret_inr in Hrun as [<- _]; apply transformsOK_parts; auto |].
  destruct (fresh isReplay replayX);
    [| apply ret_inr in Hrun as [<- _]; apply transformsOK_parts; auto].
  apply bind_inr in Hrun as (params & s1 & Hmake & Hrun).
  destruct (transforms.ProtocolTransformSpec params) eqn:Hspec;
    apply ret_inr in Hrun as [<- _]; apply transformsOK_parts;
    (split; [exact Hs |]; split; [exact Hn |]; split; [| exact Hp]);
    [| reflexivity].
  change (httpTransformerOK (Some params) = true). cbn [httpTransformerOK].
  rewrite Hspec. cbn [notNil andb].
  apply (makeHTTPTransformerParameters_seed _ _ _ _ _ _ Hmake).
  rewrite Hspec. reflexivity.
Qed.

Lemma selectObfuscatedQUICNonceTransformer_OK p serverEntry isReplay replayX d s d' s' :
  selectObfuscatedQUICNonceTransformer p serverEntry isReplay replayX d s
    = (inr d', s') ->
  transformsOK d = true -> transformsOK d' = true.
Proof.
  unfold selectObfuscatedQUICNonceTransformer. intros Hrun Hok.
  apply transformsOK_parts in Hok as (Hs & Hn & Hh & Hp).
  destruct (protocol.QUICVersionIsObfuscated (QUICVersion d));
    [| apply ret_inr in Hrun as [<- _]; apply transformsOK_parts; auto].
  destruct (protocol.DisableObfuscatedQUICTransforms serverEntry);
    [apply ret_inr in Hrun as [<- _]; apply transformsOK_parts; auto |].
  destruct (fresh isReplay replayX);
    [| apply ret_inr in Hrun as [<- _]; apply transformsOK_parts; auto].
  apply bind_inr in Hrun as (params & s1 & Hmake & Hrun).
  destruct (transforms.TransformSpec params) eqn:Hspec;
    apply ret_inr in Hrun as [<- _]; apply transformsOK_parts;
    (split; [exact Hs |]; split; [| split; [exact Hh | exact Hp]]);
    [| reflexivity].
  change (seedTransformerOK (Some params) = true). cbn [seedTransformerOK].
  rewrite Hspec. cbn [notNil andb].
  apply (makeSeedTransformerParameters_seed _ _ _ _ _ _ _ Hmake).
  rewrite Hspec. reflexivity.
Qed.

Lemma selectFromQUICVersion_transformsOK config serverEntry rs isReplay p usingTLS
    d s d' s' :
  selectFromQUICVersion config serverEntry rs isReplay p usingTLS d s = (inr d', s') ->
  transformsOK d = true -> transformsOK d' = true.
Proof.
  unfold selectFromQUICVersion. intros Hrun Hok. step_inv.
  match goal with
  | Hnonce : selectObfuscatedQUICNonceTransformer _ _ _ _ ?n0 _ = (inr ?n1, _),
    Hossh : selectOSSHTransforms _ _ _ _ _ ?o0 _ = (inr ?o1, _),
    Hhttp : selectHTTPTransformer _ _ _ _ ?o1 _ = (inr ?h1, _)
    |- transformsOK ?x = true =>
    assert (E1 : transformsOf x = transformsOf h1) by frame_walk;
    assert (E2 : transformsOf o0 = transformsOf n1) by frame_walk;
    assert (E3 : transformsOf n0 = transformsOf d) by frame_walk;
    rewrite (transformsOf_eq _ _ E1);
    apply (selectHTTPTransformer_OK _ _ _ _ _ _ _ _ Hhttp);
    apply (selectOSSHTransforms_OK _ _ _ _ _ _ _ _ _ Hossh);
    rewrite (transformsOf_eq _ _ E2);
    apply (selectObfuscatedQUICNonceTransformer_OK _ _ _ _ _ _ _ _ Hnonce);
    rewrite (transformsOf_eq _ _ E3); exact Hok
  end.
Qed.

(** X14. A transform in a returned record can be applied: when the record that
    the run starts from (the stored record it takes over, or else the zero
    record, which has no transform) has its transforms each with a spec and
    a seed, and its OSSH prefix with a split configuration, so has the
    returned record. *)
Theorem MakeDialParameters_transforms_carry_seeds config canReplay selectProtocol
    serverEntry isTactics candidateNumber establishedTunnelsCount w dialParams err w' :
  MakeDialParameters config canReplay selectProtocol serverEntry isTactics
    candidateNumber establishedTunnelsCount w = ((Some dialParams, err), w') ->
  transformsOK (takenOver config canReplay serverEntry w) = true ->
  (forall params,
     OSSHObfuscatorSeedTransformerParameters dialParams = Some params
     \/ ObfuscatedQUICNonceTransformerParameters dialParams = Some params ->
     transforms.TransformSpec params <> None /\ transforms.TransformSeed params <> None)
  /\ (forall params,
        HTTPTransformerParameters dialParams = Some params ->
        transforms.ProtocolTransformSpec params <> None
        /\ transforms.ProtocolTransformSeed params <> None)
  /\ (forall prefixSpec,
        OSSHPrefixSpec dialParams = Some prefixSpec ->
        obfuscator.OSSHPrefixSpec.Spec prefixSpec <> None
        /\ obfuscator.OSSHPrefixSpec.Seed prefixSpec <> None
        /\ OSSHPrefixSplitConfig dialParams <> None).
Proof.
  intros Hrun Hstart.
  assert (HnotNil : forall A (o : option A), notNil o = true -> o <> None)
    by (intros A [a |]; [discriminate | discriminate]).
  destruct (MakeDialParameters_halves _ _ _ _ _ _ _ _ _ _ _ Hrun)
    as (rs & isExchanged & d0 & s0 & d1 & usingTLS & s1 & Hd0 & Hhead & Htail).
  apply (selectUpToHostNames_frame transformsOf) in Hhead; [| intros ? ?; reflexivity ..].
  assert (Hok : transformsOK dialParams = true).
  { apply (selectFromQUICVersion_transformsOK _ _ _ _ _ _ _ _ _ _ Htail).
    rewrite (transformsOf_eq _ _ Hhead), Hd0.
    unfold takenOver in Hstart.
    destruct (fst (fst (replayDecision config canReplay serverEntry w))); exact Hstart. }
  apply transformsOK_parts in Hok as (Hs & Hn & Hh & Hp).
  split; [| split].
  - intros params [Hset | Hset].
    + rewrite Hset in Hs. cbn [seedTransformerOK] in Hs.
      apply andb_true_iff in Hs as [Ka Kb]. split; apply HnotNil; assumption.
    + rewrite Hset in Hn. cbn [seedTransformerOK] in Hn.
      apply andb_true_iff in Hn as [Ka Kb]. split; apply HnotNil; assumption.
  - intros params Hset. rewrite Hset in Hh. cbn [httpTransformerOK] in Hh.
    apply andb_true_iff in Hh as [Ka Kb]. split; apply HnotNil; assumption.
  - intros prefixSpec Hset. rewrite Hset in Hp. cbn [prefixOK] in Hp.
    apply andb_true_iff in Hp as [Hp Kc]. apply andb_true_iff in Hp as [Ka Kb].
    repeat split; apply HnotNil; assumption.
Qed.

(** ** Exchanged records, once stored *)

Lemma ExchangedDialParameters_MakeDialParameters_fields exchanged config p serverEntry t0 :
  let R := ExchangedDialParameters_MakeDialParameters exchanged config p serverEntry t0 in
  DialParameters_stored R = R
  /\ IsExchanged R = true
  /\ LastUsedTimestamp R = t0
  /\ LastUsedConfigStateHash R = fst (getDialStateHashes config p serverEntry)
  /\ LastUsedServerEntryHash R = snd (getDialStateHashes config p serverEntry)
  /\ TLSProfile R = "" /\ QUICVersion R = "" /\ ConjureAPIRegistration R = false.
Proof.
  unfold ExchangedDialParameters_MakeDialParameters.
  destruct (getDialStateHashes config p serverEntry) as [csh seh].
  repeat split; reflexivity.
Qed.

(** X7. The record that [ExchangedDialParameters.MakeDialParameters] makes at
    the time [t0] from the current tactics, once stored under the key of
    the server and the network, is what a later run finds there, unchanged;
    and it passes conditions (1) to (7) of replay eligibility exactly when
    [ReplayDialParametersTTL] is positive and no more than that has passed
    since [t0]. *)
Theorem exchanged_record_eligible_until_expiry config serverEntry exchanged t0 w0 :
  let p := parameters.Get (Config.GetParameters config) in
  let ttl := parameters.Duration p parameters.ReplayDialParametersTTL in
  let R := ExchangedDialParameters_MakeDialParameters exchanged config p serverEntry t0 in
  failing (datastore w0) = false ->
  forall w,
    datastore w
    = datastore (snd (SetDialParameters (protocol.IpAddress serverEntry)
                        (Config.GetNetworkID config) R w0)) ->
    foundIn config serverEntry w = Some R
    /\ (conditions1to7 config serverEntry w R <-> 0 < ttl /\ now w - t0 <= ttl).
Proof.
  intros p ttl R Hworking w Hstore.
  destruct (ExchangedDialParameters_MakeDialParameters_fields
              exchanged config p serverEntry t0)
    as (Hstored & _ & Htime & Hconfig & Hentry & Htls & Hquic & Hconjure).
  fold R in Hstored, Htime, Hconfig, Hentry, Htls, Hquic, Hconjure.
  unfold SetDialParameters in Hstore.
  cbn [logCall datastore failing] in Hstore. rewrite Hworking in Hstore.
  cbn [snd withRecords datastore logCall failing records] in Hstore.
  split.
  - unfold foundIn. rewrite Hstore. cbn [failing records]. rewrite Hworking.
    rewrite lookup_insert_eq.
    change (Some (DialParameters_stored (DialParameters_stored R)) = Some R).
    rewrite !Hstored. reflexivity.
  - unfold conditions1to7. cbv zeta. fold p. fold ttl.
    rewrite Htime, Hconfig, Hentry, Htls, Hquic, Hconjure.
    split.
    + intros (Ha & Hb & _). split; assumption.
    + intros [Ha Hb]. repeat split; try assumption; try reflexivity.
      * left. reflexivity.
      * left. reflexivity.
      * left. reflexivity.
      * intros [Hc _]. discriminate Hc.
Qed.

(** ** The dial configuration and the network type *)

Lemma selectFromQUICVersion_dialConfig config serverEntry rs isReplay p usingTLS
    d s d' s' :
  selectFromQUICVersion config serverEntry rs isReplay p usingTLS d s = (inr d', s') ->
  exists dc,
    GetDialConfig d' = Some dc
    /\ DialConfig.DiagnosticID dc = protocol.GetDiagnosticID serverEntry
    /\ DialConfig.UpstreamProxyURL dc = Config.UpstreamProxyURL config
    /\ DialConfig.TrustedCACertificatesFilename dc
       = Config.TrustedCACertificatesFilename config
    /\ DialConfig.BPFProgramInstructions dc = BPFProgramInstructions d'
    /\ DialConfig.FragmentorConfig dc
       = (if negb (parameters.Bool p parameters.OSSHPrefixEnableFragmentor)
             && notNil (OSSHPrefixSpec d')
          then None
          else fragmentor_NewUpstreamConfig p (TunnelProtocol d') (FragmentorSeed d'))
    /\ MeekResolvedIPAddress d' = "".
Proof.
  unfold selectFromQUICVersion. intros Hrun. step_inv.
  eexists. repeat split; reflexivity.
Qed.

(** X20. Every returned record, replayed or not, carries a dial configuration
    that agrees with it: the diagnostic ID of the server entry, the upstream
    proxy URL and trusted CA file of the configuration, the BPF program of
    the record, and a fragmentor configuration that is nil when the record
    has an OSSH prefix and [OSSHPrefixEnableFragmentor] is off, and else
    made from the tunnel protocol and fragmentor seed of the record.  The
    resolved meek IP address starts empty. *)
Theorem MakeDialParameters_dial_config config canReplay selectProtocol serverEntry
    isTactics candidateNumber establishedTunnelsCount w dialParams err w' :
  MakeDialParameters config canReplay selectProtocol serverEntry isTactics
    candidateNumber establishedTunnelsCount w = ((Some dialParams, err), w') ->
  let p := parameters.GetCustom (Config.GetParameters config)
             (NetworkLatencyMultiplier dialParams) in
  exists dc,
    GetDialConfig dialParams = Some dc
    /\ DialConfig.DiagnosticID dc = protocol.GetDiagnosticID serverEntry
    /\ DialConfig.UpstreamProxyURL dc = Config.UpstreamProxyURL config
    /\ DialConfig.TrustedCACertificatesFilename dc
       = Config.TrustedCACertificatesFilename config
    /\ DialConfig.BPFProgramInstructions dc = BPFProgramInstructions dialParams
    /\ DialConfig.FragmentorConfig dc
       = (if negb (parameters.Bool p parameters.OSSHPrefixEnableFragmentor)
             && notNil (OSSHPrefixSpec dialParams)
          then None
          else fragmentor_NewUpstreamConfig p (TunnelProtocol dialParams)
                 (FragmentorSeed dialParams))
    /\ MeekResolvedIPAddress dialParams = "".
Proof.
  intros Hrun p.
  destruct (MakeDialParameters_halves _ _ _ _ _ _ _ _ _ _ _ Hrun)
    as (rs & isExchanged & d0 & s0 & d1 & usingTLS & s1 & _ & _ & Htail).
  exact (selectFromQUICVersion_dialConfig _ _ _ _ _ _ _ _ _ _ Htail).
Qed.

Lemma prefix_head a s b t :
  String.prefix (String a s) (String b t) = true -> a = b.
Proof.
  cbn [String.prefix]. destruct (Ascii.ascii_dec a b) as [E | _];
    [intros _; exact E | discriminate].
Qed.

Lemma GetNetworkType_cases d :
  let id := NetworkID d in
  (String.prefix "VPN" id = true -> GetNetworkType d = "VPN")
  /\ (String.prefix "WIFI" id = true -> GetNetworkType d = "WIFI")
  /\ (String.prefix "MOBILE" id = true -> GetNetworkType d = "MOBILE")
  /\ (String.prefix "VPN" id = false -> String.prefix "WIFI" id = false ->
      String.prefix "MOBILE" id = false -> GetNetworkType d = "UNKNOWN").
Proof.
  intros id. unfold GetNetworkType, strings_HasPrefix. fold id.
  destruct id as [| c id'].
  - repeat split; intros; try discriminate; reflexivity.
  - repeat split.
    + intros ->. reflexivity.
    + intros Hpre. pose proof (prefix_head _ _ _ _ Hpre) as <-. rewrite Hpre.
      reflexivity.
    + intros Hpre. pose proof (prefix_head _ _ _ _ Hpre) as <-. rewrite Hpre.
      reflexivity.
    + intros -> -> ->. reflexivity.
Qed.

(** X21. The network type of a returned record, replayed or not, is read off
    the network ID that the configuration reports at the time of the run:
    it is "VPN", "WIFI" or "MOBILE" exactly when that network ID begins
    with the word, whatever the order of the tests, and "UNKNOWN" exactly
    when it begins with none of them. *)
Theorem MakeDialParameters_network_type config canReplay selectProtocol serverEntry
    isTactics candidateNumber establishedTunnelsCount w dialParams err w' :
  MakeDialParameters config canReplay selectProtocol serverEntry isTactics
    candidateNumber establishedTunnelsCount w = ((Some dialParams, err), w') ->
  let id := Config.GetNetworkID config in
  (forall t, In t ["VPN"; "WIFI"; "MOBILE"] ->
     GetNetworkType dialParams = t <-> String.prefix t id = true)
  /\ (GetNetworkType dialParams = "UNKNOWN"
      <-> forall t, In t ["VPN"; "WIFI"; "MOBILE"] -> String.prefix t id = false).
Proof.
  intros Hrun id.
  pose proof (MakeDialParameters_key _ _ _ _ _ _ _ _ _ _ _ Hrun) as [_ Hid].
  destruct (GetNetworkType_cases dialParams) as (Hv & Hw & Hm & Hu).
  cbv zeta in Hv, Hw, Hm, Hu. rewrite Hid in Hv, Hw, Hm, Hu. fold id in Hv, Hw, Hm, Hu.
  destruct (String.prefix "VPN" id) eqn:Ev;
    destruct (String.prefix "WIFI" id) eqn:Ew;
    destruct (String.prefix "MOBILE" id) eqn:Em;
    try (rewrite (Hv eq_refl)); try (rewrite (Hw eq_refl)) ; try (rewrite (Hm eq_refl));
    try (rewrite (Hu eq_refl eq_refl eq_refl)).
  all: try (exfalso; specialize (Hv eq_refl); specialize (Hw eq_refl); congruence).
  all: try (exfalso; specialize (Hv eq_refl); specialize (Hm eq_refl); congruence).
  all: try (exfalso; specialize (Hw eq_refl); specialize (Hm eq_refl); congruence).
  all: split;
    [ intros t [<- | [<- | [<- | []]]]; rewrite ?Ev, ?Ew, ?Em;
      split; intros; congruence
    | split;
      [ intros E; try discriminate E;
        intros t [<- | [<- | [<- | []]]]; rewrite ?Ev, ?Ew, ?Em; reflexivity
      | intros Hall; try reflexivity;
        first [ specialize (Hall "VPN" ltac:(left; reflexivity)); congruence
              | specialize (Hall "WIFI" ltac:(right; left; reflexivity)); congruence
              | specialize (Hall "MOBILE" ltac:(right; right; left; reflexivity));
                congruence ] ] ].
Qed.

(** ** The OSSH prefix and the seed transform *)

Lemma replayDecision_taken config canReplay serverEntry w R :
  fst (fst (replayDecision config canReplay serverEntry w)) = Some R ->
  foundIn config serverEntry w = Some R.
Proof.
  rewrite replayDecision_unfold. cbv zeta.
  destruct (foundIn config serverEntry w) as [R' |]; [| discriminate].
  destruct (staleIn config serverEntry w R'); [discriminate |].
  destruct (Config.DisableReplay config || negb (canReplay serverEntry (TunnelProtocol R')));
    [discriminate |].
  cbn [fst]. congruence.
Qed.

(** The two OSSH transforms of a returned record: worked out in the OSSH
    block for the OSSH tunnel protocol, and otherwise those of the record
    that the run starts from. *)
Lemma MakeDialParameters_osshTransforms config canReplay selectProtocol serverEntry
    isTactics candidateNumber establishedTunnelsCount w dialParams err w' :
  MakeDialParameters config canReplay selectProtocol serverEntry isTactics
    candidateNumber establishedTunnelsCount w = ((Some dialParams, err), w') ->
  if String.eqb (TunnelProtocol dialParams) protocol.TUNNEL_PROTOCOL_OBFUSCATED_SSH
  then prefixExcludesSeedTransform dialParams = true
  else osshTransforms dialParams
       = osshTransforms (takenOver config canReplay serverEntry w).
Proof.
  intros Hrun.
  destruct (MakeDialParameters_halves _ _ _ _ _ _ _ _ _ _ _ Hrun)
    as (rs & isExchanged & d0 & s0 & d1 & usingTLS & s1 & Hd0 & Hhead & Htail).
  apply selectUpToHostNames_tracked in Hhead as (_ & Hossh & _ & _).
  apply selectFromQUICVersion_tracked in Htail as (_ & Htp & _ & Htail).
  rewrite Htp.
  destruct (String.eqb (TunnelProtocol d1) protocol.TUNNEL_PROTOCOL_OBFUSCATED_SSH);
    [exact Htail |].
  rewrite Htail, Hossh, Hd0. unfold takenOver.
  destruct (fst (fst (replayDecision config canReplay serverEntry w))); reflexivity.
Qed.

Lemma MakeDialParameters_records config canReplay selectProtocol serverEntry isTactics
    candidateNumber establishedTunnelsCount w key R :
  records (datastore (snd (MakeDialParameters config canReplay selectProtocol serverEntry
                             isTactics candidateNumber establishedTunnelsCount w)))
    !! key = Some R ->
  records (datastore w) !! key = Some R.
Proof.
  destruct (MakeDialParameters_world config canReplay selectProtocol serverEntry
              isTactics candidateNumber establishedTunnelsCount w) as (_ & -> & _).
  rewrite replayDecision_unfold. cbv zeta.
  destruct (foundIn config serverEntry w) as [R' |]; cbn [snd]; [| auto].
  destruct (staleIn config serverEntry w R'); cbn [snd]; [| auto].
  unfold DeleteDialParameters. cbn [logCall datastore].
  destruct (failing (datastore w)); cbn [snd logCall datastore withRecords records];
    [auto |].
  intros Hkey. apply lookup_delete_Some in Hkey as [_ Hkey]. exact Hkey.
Qed.

Lemma Succeeded_records dialParams w w'' key R :
  Succeeded dialParams w = Some w'' ->
  records (datastore w'') !! key = Some R ->
  records (datastore w) !! key = Some R \/ R = DialParameters_stored dialParams.
Proof.
  unfold Succeeded.
  destruct (time.IsZero (LastUsedTimestamp dialParams)); [intros [= <-]; auto |].
  destruct (ServerEntry dialParams) as [serverEntry |]; [| discriminate].
  unfold SetDialParameters. cbn [logCall datastore].
  destruct (failing (datastore w));
    cbn [logCall datastore withRecords records]; intros [= <-];
    cbn [logCall datastore withRecords records]; [auto |].
  intros Hkey. apply lookup_insert_Some in Hkey as [[_ <-] | [_ Hkey]]; auto.
Qed.


(** ** Selections made in this pass *)

(** Reads a field off a record after assignments: the value assigned last,
    or the field of the record before when none was to that field.  Each
    step is an equation about one assignment to any record. *)
Ltac strip_in H :=
  repeat match type of H with
  | context [?F (?set ?v ?d)] =>
    lazymatch type of d with DialParameters => idtac end;
    let E := fresh "E" in
    first [ assert (E : forall x, F (set v x) = F x) by (intros; reflexivity)
          | assert (E : forall x, F (set v x) = v) by (intros; reflexivity) ];
    rewrite (E d) in H; clear E
  end.

Ltac strip :=
  repeat match goal with
  | |- context [?F (?set ?v ?d)] =>
    lazymatch type of d with DialParameters => idtac end;
    let E := fresh "E" in
    first [ assert (E : forall x, F (set v x) = F x) by (intros; reflexivity)
          | assert (E : forall x, F (set v x) = v) by (intros; reflexivity) ];
    rewrite (E d); clear E
  end.

Ltac afresh H := cbv beta delta [fresh] in H; cbn [negb orb andb] in H.

Lemma selectSSH_afresh replaySSH d s d' s' :
  selectSSH false replaySSH d s = (inr d', s') -> sshSelected d'.
Proof.
  unfold selectSSH. intros Hrun. afresh Hrun. step_inv.
  unfold sshSelected. strip.
  split; [reflexivity |]. split; [eexists; reflexivity | discriminate].
Qed.

Lemma selectObfuscatorPadding_afresh replayX d s d' s' :
  selectObfuscatorPadding false replayX d s = (inr d', s') ->
  TunnelProtocol d' = TunnelProtocol d /\ paddingSelected d'.
Proof.
  unfold selectObfuscatorPadding. intros Hrun. afresh Hrun.
  apply bind_inr in Hrun as (seed & s1 & _ & Hrun). strip_in Hrun.
  unfold paddingSelected.
  destruct (protocol.TunnelProtocolUsesMeek (TunnelProtocol d)) eqn:Hmeek;
    [| destruct (protocol.TunnelProtocolUsesTLSOSSH (TunnelProtocol d)) eqn:Htls];
    step_inv; strip; rewrite ?Hmeek, ?Htls;
    (split; [reflexivity |]); repeat split; intros; try discriminate.
Qed.

Lemma selectFragmentor_afresh replayX d s d' s' :
  selectFragmentor false replayX d s = (inr d', s') -> fragmentorSelected d'.
Proof.
  unfold selectFragmentor. intros Hrun. afresh Hrun. step_inv.
  unfold fragmentorSelected. strip. discriminate.
Qed.

Lemma selectConjureRegistration_afresh config p replayX d s d' s' :
  selectConjureRegistration config p false replayX d s = (inr d', s') ->
  protocol.TunnelProtocolUsesConjure (TunnelProtocol d) = true ->
  ConjureCachedRegistrationTTL d'
  = parameters.Duration p parameters.ConjureCachedRegistrationTTL
  /\ if ConjureAPIRegistration d' then
       ConjureAPIRegistrarBidirectionalURL d'
       = parameters.String p parameters.ConjureAPIRegistrarBidirectionalURL
       /\ ConjureAPIRegistrarBidirectionalURL d' <> ""
     else
       ConjureDecoyRegistration d' = true
       /\ ConjureDecoyRegistrarWidth d'
          = parameters.Int p parameters.ConjureDecoyRegistrarWidth.
Proof.
  unfold selectConjureRegistration. intros Hrun Hconjure. afresh Hrun.
  rewrite Hconjure in Hrun.
  apply bind_inr in Hrun as (d1 & s1 & Hchoice & Hrun).
  set (apiURL := parameters.String p parameters.ConjureAPIRegistrarBidirectionalURL) in *.
  set (width := parameters.Int p parameters.ConjureDecoyRegistrarWidth) in *.
  assert (Hd1 : ConjureCachedRegistrationTTL d1
                = parameters.Duration p parameters.ConjureCachedRegistrationTTL
                /\ ConjureDecoyRegistration d1 = negb (width =? 0)
                /\ (ConjureAPIRegistration d1 = true -> apiURL <> "")).
  { clear Hrun. strip_in Hchoice.
    destruct (String.eqb apiURL "") eqn:Hurl; destruct (width =? 0) eqn:Hw;
      cbn [negb andb] in Hchoice; step_inv; strip;
      rewrite ?Hurl, ?Hw; cbn [negb]; repeat split; try reflexivity;
      try discriminate; intros _; apply String.eqb_neq; exact Hurl. }
  destruct Hd1 as (Httl & Hdecoy & Hurl).
  destruct (ConjureAPIRegistration d1) eqn:Hapi.
  - pose proof (selectConjureAPIRegistration_registrar _ _ _ _ _ _ _ Hrun) as Hreg.
    unfold conjureRegistrar in Hreg. injection Hreg as Hflag Hset.
    apply (selectConjureAPIRegistration_frame ConjureCachedRegistrationTTL) in Hrun;
      [| intros ? ?; reflexivity ..].
    rewrite Hrun, Hflag, Hapi, Hset. auto.
  - destruct (ConjureDecoyRegistration d1) eqn:Hflag; [| discriminate].
    step_inv; strip; strip_in Hapi; strip_in Hflag; rewrite ?Hapi;
      repeat split; auto.
Qed.

Lemma selectConjureTransportBlock_afresh p replayX d s d' s' :
  selectConjureTransportBlock p false replayX d s = (inr d', s') ->
  protocol.TunnelProtocolUsesConjure (TunnelProtocol d) = true ->
  exists s0 s1, selectConjureTransport p s0 = (inr (ConjureTransport d'), s1).
Proof.
  unfold selectConjureTransportBlock. intros Hrun Hconjure. afresh Hrun.
  rewrite Hconjure in Hrun.
  apply bind_inr in Hrun as (transport & s1 & Hselect & Hrun).
  exists s, s1. rewrite Hselect. do 2 f_equal. symmetry.
  clear Hselect. step_inv; reflexivity.
Qed.

Lemma selectTLSProfileBlock_afresh p serverEntry replayX d s d' s' :
  selectTLSProfileBlock p serverEntry false replayX true d s = (inr d', s') ->
  SelectedTLSProfile d' = true
  /\ exists r,
       SelectTLSProfile
         (protocol.TunnelProtocolRequiresTLS12SessionTickets (TunnelProtocol d))
         (protocol.TunnelProtocolRequiresTLS13Support (TunnelProtocol d))
         (protocol.TunnelProtocolUsesFrontedMeek (TunnelProtocol d)
          || ConjureAPIRegistration d)
         (protocol.FrontingProviderID serverEntry) p r
       = Ok (TLSProfile d', TLSVersion d', RandomizedTLSProfileSeed d').
Proof.
  unfold selectTLSProfileBlock. intros Hrun. afresh Hrun.
  apply bind_inr in Hrun as (r & s1 & _ & Hrun).
  apply bind_inr in Hrun as ([[tlsProfile' tlsVersion] seed] & s2 & Hselect & Hrun).
  apply try_inr in Hselect as [Hselect _]. strip_in Hselect. strip_in Hrun.
  split; [| exists r; rewrite Hselect; do 2 f_equal];
    step_inv; reflexivity.
Qed.

Lemma selectFronting_afresh serverEntry replayX d s d' s' :
  selectFronting serverEntry false replayX d s = (inr d', s') ->
  protocol.TunnelProtocolUsesFrontedMeek (TunnelProtocol d) = true ->
  FrontingProviderID d' = protocol.FrontingProviderID serverEntry
  /\ exists s0 s1,
       selectFrontingParameters serverEntry s0
       = (inr (MeekFrontingDialAddress d', MeekFrontingHost d'), s1).
Proof.
  unfold selectFronting. intros Hrun Hfronted. afresh Hrun. rewrite Hfronted in Hrun.
  apply bind_inr in Hrun as ([frontingDialHost frontingHost] & s1 & Hselect & Hrun).
  apply ret_inr in Hrun as [<- _]. strip.
  split; [reflexivity | exists s, s1; exact Hselect].
Qed.

Lemma selectHostNames_afresh p serverEntry replayX d s d' s' :
  selectHostNames p serverEntry false replayX d s = (inr d', s') ->
  let tunnelProtocol := TunnelProtocol d in
  protocol.TunnelProtocolUsesMeekHTTPS tunnelProtocol
  || protocol.TunnelProtocolUsesFrontedMeekQUIC tunnelProtocol = false ->
  if protocol.TunnelProtocolUsesTLSOSSH tunnelProtocol then
    TLSOSSHSNIServerName d' = ""
    \/ (TLSOSSHTransformedSNIServerName d' = true
        /\ exists s0 s1,
             selectHostName tunnelProtocol p s0 = (inr (TLSOSSHSNIServerName d'), s1))
  else
    protocol.TunnelProtocolUsesMeekHTTP tunnelProtocol = false ->
    protocol.TunnelProtocolUsesQUIC tunnelProtocol = true ->
    exists s0 s1, selectHostName tunnelProtocol p s0 = (inr (QUICDialSNIAddress d'), s1).
Proof.
  intros Hrun tunnelProtocol Hmeek. subst tunnelProtocol.
  unfold selectHostNames in Hrun. afresh Hrun. rewrite Hmeek in Hrun.
  destruct (protocol.TunnelProtocolUsesTLSOSSH (TunnelProtocol d)).
  - apply bind_inr in Hrun as (flip & s1 & _ & Hrun). strip_in Hrun.
    destruct flip.
    + apply bind_inr in Hrun as (hostName & s2 & Hselect & Hrun).
      apply ret_inr in Hrun as [<- _]. strip. right.
      split; [reflexivity | exists s1, s2; exact Hselect].
    + apply ret_inr in Hrun as [<- _]. strip. left. reflexivity.
  - intros Hhttp Hquic. rewrite Hhttp, Hquic in Hrun.
    apply bind_inr in Hrun as (hostName & s1 & Hselect & Hrun).
    apply ret_inr in Hrun as [<- _]. strip. exists s, s1. exact Hselect.
Qed.

(** The selections up to the host names, when the run is not a replay. *)
Lemma selectUpToHostNames_afresh config selectProtocol serverEntry isExchanged
    d s d' p usingTLS s' :
  selectUpToHostNames config selectProtocol serverEntry false isExchanged d s
    = (inr (d', p, usingTLS), s') ->
  selectedUpToHostNames config serverEntry p d'.
Proof.
  unfold selectUpToHostNames, selectGivenProtocol. intros Hrun. step_inv.
  unfold selectedUpToHostNames.
  repeat match goal with |- _ /\ _ => split end.
  - lazymatch goal with
    | H : selectNetworkLatencyMultiplier _ _ ?d0 ?s0 = (inr ?d1, _)
      |- latencySelected _ ?x =>
      assert (E : NetworkLatencyMultiplier x = NetworkLatencyMultiplier d1)
        by frame_walk;
      rewrite selectNetworkLatencyMultiplier_fresh in H; injection H as <- _;
      unfold latencySelected; cbv zeta; rewrite E; eexists; reflexivity
    end.
  - lazymatch goal with
    | H : selectSSH _ _ ?d0 _ = (inr ?d1, _) |- sshSelected ?x =>
      assert (E : sshFields x = sshFields d1) by frame_walk;
      unfold sshFields in E; injection E as E1 E2 E3;
      apply selectSSH_afresh in H; unfold sshSelected in *;
      rewrite E1, E2, E3; exact H
    end.
  - lazymatch goal with
    | H : selectObfuscatorPadding _ _ ?d0 _ = (inr ?d1, _) |- paddingSelected ?x =>
      assert (E : paddingFields x = paddingFields d1) by frame_walk;
      unfold paddingFields in E; injection E as E0 E1 E2 E3;
      apply selectObfuscatorPadding_afresh in H as [_ H];
      unfold paddingSelected in *; rewrite E0, E1, E2, E3; exact H
    end.
  - lazymatch goal with
    | H : selectFragmentor _ _ ?d0 _ = (inr ?d1, _) |- fragmentorSelected ?x =>
      assert (E : FragmentorSeed x = FragmentorSeed d1) by frame_walk;
      apply selectFragmentor_afresh in H; unfold fragmentorSelected in *;
      rewrite E; exact H
    end.
  - lazymatch goal with
    | H : selectConjureRegistration _ _ _ _ ?d0 _ = (inr ?d1, _)
      |- conjureRegistrationSelected _ ?x =>
      assert (E : conjureRegistrationFields x = conjureRegistrationFields d1)
        by frame_walk;
      assert (Etp : TunnelProtocol x = TunnelProtocol d0) by frame_walk;
      unfold conjureRegistrationFields in E; injection E as E1 E2 E3 E4 E5;
      unfold conjureRegistrationSelected; rewrite Etp, E1, E2, E3, E4, E5;
      exact (selectConjureRegistration_afresh _ _ _ _ _ _ _ H)
    end.
  - lazymatch goal with
    | H : selectConjureTransportBlock _ _ _ ?d0 _ = (inr ?d1, _)
      |- conjureTransportSelected _ ?x =>
      assert (E : ConjureTransport x = ConjureTransport d1) by frame_walk;
      assert (Etp : TunnelProtocol x = TunnelProtocol d0) by frame_walk;
      unfold conjureTransportSelected; rewrite Etp, E;
      exact (selectConjureTransportBlock_afresh _ _ _ _ _ _ H)
    end.
  - lazymatch goal with
    | H : selectTLSProfileBlock _ _ _ _ (usingTLS_of ?d0) ?d0 _ = (inr ?d1, _)
      |- tlsProfileSelected _ _ ?x =>
      assert (E : tlsProfileFields x = tlsProfileFields d1) by frame_walk;
      assert (Hinputs : tlsInputs x = tlsInputs d0) by frame_walk;
      unfold tlsProfileFields in E; injection E as E1 E2 E3 E4;
      unfold tlsProfileSelected; rewrite (usingTLS_of_eq _ _ Hinputs);
      apply tlsInputs_eq in Hinputs as (E5 & E6);
      rewrite E1, E2, E3, E4, E5, E6; intros Husing; rewrite Husing in H;
      exact (selectTLSProfileBlock_afresh _ _ _ _ _ _ _ H)
    end.
  - lazymatch goal with
    | H : selectFronting _ _ _ ?d0 _ = (inr ?d1, _) |- frontingSelected _ ?x =>
      assert (E : frontingFields x = frontingFields d1) by frame_walk;
      assert (Etp : TunnelProtocol x = TunnelProtocol d0) by frame_walk;
      unfold frontingFields in E; injection E as E1 E2 E3;
      unfold frontingSelected; rewrite Etp, E1, E2, E3;
      exact (selectFronting_afresh _ _ _ _ _ _ H)
    end.
  - lazymatch goal with
    | H : selectHostNames _ _ _ _ ?d0 _ = (inr ?d1, _) |- hostNamesSelected _ ?x =>
      assert (Etp : TunnelProtocol x = TunnelProtocol d0) by frame_walk;
      unfold hostNamesSelected; rewrite Etp;
      exact (selectHostNames_afresh _ _ _ _ _ _ _ H)
    end.
Qed.

Lemma selectedUpToHostNames_eq config serverEntry p a b :
  headFields a = headFields b ->
  selectedUpToHostNames config serverEntry p b ->
  selectedUpToHostNames config serverEntry p a.
Proof.
  unfold headFields, sshFields, paddingFields, conjureRegistrationFields,
    tlsProfileFields, frontingFields, hostNameFields.
  intros E. injection E as E1 E2 E3 E4 E5 E6 E7 E8 E9 E10 E11 E12 E13 E14 E15 E16 E17
    E18 E19 E20 E21 E22 E23 E24 E25 E26.
  unfold selectedUpToHostNames, latencySelected, sshSelected, paddingSelected,
    fragmentorSelected, conjureRegistrationSelected, conjureTransportSelected,
    tlsProfileSelected, frontingSelected, hostNamesSelected, usingTLS_of.
  cbv zeta.
  rewrite E1, E2, E3, E4, E5, E7, E8, E9, E10, E11, E12, E13, E14, E15, E16, E17,
    E18, E19, E20, E21, E22, E23, E24, E25, E26.
  exact (fun H => H).
Qed.

Lemma selectQUICVersionBlock_afresh p serverEntry replayX d s d' s' :
  selectQUICVersionBlock p serverEntry false replayX d s = (inr d', s') ->
  protocol.TunnelProtocolUsesQUIC (TunnelProtocol d) = true ->
  QUICVersion d' <> ""
  /\ exists s0 s1,
       selectQUICVersion
         (protocol.TunnelProtocolUsesFrontedMeekQUIC (TunnelProtocol d)) serverEntry p s0
       = (inr (QUICVersion d'), s1).
Proof.
  unfold selectQUICVersionBlock. intros Hrun Hquic. afresh Hrun. rewrite Hquic in Hrun.
  apply bind_inr in Hrun as (quicVersion & s1 & Hselect & Hrun). strip_in Hrun.
  destruct (String.eqb quicVersion "") eqn:Hempty;
    [exfalso; exact (skip_inr _ _ _ Hrun) |].
  apply String.eqb_neq in Hempty.
  assert (E : QUICVersion d' = quicVersion).
  { clear Hselect. step_inv; strip; reflexivity. }
  rewrite E. split; [exact Hempty | exists s, s1; exact Hselect].
Qed.

Lemma selectObfuscatedQUICPadding_afresh replayX d s d' s' :
  selectObfuscatedQUICPadding false replayX d s = (inr d', s') ->
  protocol.QUICVersionIsObfuscated (QUICVersion d) = true ->
  ObfuscatedQUICPaddingSeed d' <> None.
Proof.
  unfold selectObfuscatedQUICPadding. intros Hrun Hobfuscated. afresh Hrun.
  rewrite Hobfuscated in Hrun. step_inv. strip. discriminate.
Qed.

Lemma selectObfuscatedQUICNonceTransformer_afresh p serverEntry replayX d s d' s' :
  selectObfuscatedQUICNonceTransformer p serverEntry false replayX d s = (inr d', s') ->
  protocol.QUICVersionIsObfuscated (QUICVersion d) = true ->
  protocol.DisableObfuscatedQUICTransforms serverEntry = false ->
  exists params s0 s1,
    makeSeedTransformerParameters p
      parameters.ObfuscatedQUICNonceTransformProbability
      parameters.ObfuscatedQUICNonceTransformSpecs
      parameters.ObfuscatedQUICNonceTransformScopedSpecNames s0 = (inr params, s1)
    /\ ObfuscatedQUICNonceTransformerParameters d' = withSpec params.
Proof.
  unfold selectObfuscatedQUICNonceTransformer. intros Hrun Hobfuscated Hdisable.
  afresh Hrun. rewrite Hobfuscated, Hdisable in Hrun.
  apply bind_inr in Hrun as (params & s1 & Hmake & Hrun).
  exists params, s, s1. split; [exact Hmake |]. unfold withSpec.
  destruct (transforms.TransformSpec params); apply ret_inr in Hrun as [<- _];
    strip; reflexivity.
Qed.

Lemma selectLivenessTest_afresh replayX d s d' s' :
  selectLivenessTest false replayX d s = (inr d', s') -> LivenessTestSeed d' <> None.
Proof.
  unfold selectLivenessTest. intros Hrun. afresh Hrun. step_inv. strip. discriminate.
Qed.

Lemma selectAPIRequestPadding_afresh replayX d s d' s' :
  selectAPIRequestPadding false replayX d s = (inr d', s') ->
  APIRequestPaddingSeed d' <> None.
Proof.
  unfold selectAPIRequestPadding. intros Hrun. afresh Hrun. step_inv. strip.
  discriminate.
Qed.

Lemma selectResolveParameters_afresh p rs replayX d s d' s' :
  selectResolveParameters p rs false replayX d s = (inr d', s') ->
  (protocol.TunnelProtocolUsesFrontedMeek (TunnelProtocol d)
   || ConjureAPIRegistration d)
  && negb (net_ParseIP (MeekFrontingDialAddress d)) = true ->
  exists r resolveParameters,
    resolver.MakeResolveParameters rs p (FrontingProviderID d)
      (MeekFrontingDialAddress d) r = Ok resolveParameters
    /\ ResolveParameters d' = Some resolveParameters.
Proof.
  unfold selectResolveParameters. intros Hrun Huse. afresh Hrun. rewrite Huse in Hrun.
  apply bind_inr in Hrun as (r & s1 & _ & Hrun).
  apply bind_inr in Hrun as (resolveParameters & s2 & Hmake & Hrun).
  apply try_inr in Hmake as [Hmake _]. apply ret_inr in Hrun as [<- _].
  exists r, resolveParameters. strip. split; [exact Hmake | reflexivity].
Qed.

Lemma selectOSSHTransforms_afresh p serverEntry replayS replayP d s d' s' :
  selectOSSHTransforms p serverEntry false replayS replayP d s = (inr d', s') ->
  TunnelProtocol d = protocol.TUNNEL_PROTOCOL_OBFUSCATED_SSH ->
  (protocol.DisableOSSHPrefix serverEntry = false ->
   exists dialPortNumber prefixSpec s0 s1,
     protocol.GetDialPortNumber serverEntry (TunnelProtocol d) = Ok dialPortNumber
     /\ makeOSSHPrefixSpecParameters p (strconv_Itoa dialPortNumber) s0
        = (inr prefixSpec, s1)
     /\ OSSHPrefixSpec d'
        = match obfuscator.OSSHPrefixSpec.Spec prefixSpec with
          | Some _ => Some prefixSpec
          | None => None
          end)
  /\ (protocol.DisableOSSHTransforms serverEntry = false ->
      exists params s0 s1,
        makeSeedTransformerParameters p
          parameters.OSSHObfuscatorSeedTransformProbability
          parameters.OSSHObfuscatorSeedTransformSpecs
          parameters.OSSHObfuscatorSeedTransformScopedSpecNames s0 = (inr params, s1)
        /\ OSSHObfuscatorSeedTransformerParameters d'
           = match OSSHPrefixSpec d' with
             | Some _ => None
             | None => withSpec params
             end).
Proof.
  unfold selectOSSHTransforms. intros Hrun Hossh.
  apply String.eqb_eq in Hossh. rewrite Hossh in Hrun.
  apply bind_inr in Hrun as (d1 & s1 & Hseed & Hrun).
  apply bind_inr in Hrun as (d2 & s2 & Hprefix & Hrun).
  assert (Hlast : OSSHPrefixSpec d' = OSSHPrefixSpec d2
                  /\ OSSHObfuscatorSeedTransformerParameters d'
                     = match OSSHPrefixSpec d2 with
                       | Some _ => None
                       | None => OSSHObfuscatorSeedTransformerParameters d2
                       end).
  { destruct (OSSHPrefixSpec d2) eqn:Hset; apply ret_inr in Hrun as [<- _]; strip;
      auto. }
  destruct Hlast as [Hp Hs]. rewrite Hp, Hs. clear Hrun Hp Hs.
  assert (Hkept : OSSHObfuscatorSeedTransformerParameters d2
                  = OSSHObfuscatorSeedTransformerParameters d1
                  /\ TunnelProtocol d1 = TunnelProtocol d).
  { split.
    - apply (selectOSSHPrefix_frame OSSHObfuscatorSeedTransformerParameters
               _ _ _ _ ltac:(intros ? ?; reflexivity) ltac:(intros ? ?; reflexivity)
               _ _ _ _ Hprefix).
    - apply (selectOSSHSeedTransformer_frame TunnelProtocol
               _ _ _ _ ltac:(intros ? ?; reflexivity) _ _ _ _ Hseed). }
  destruct Hkept as [Hkept Htp]. rewrite Hkept. clear Hkept.
  split.
  - intros Hdisable. unfold selectOSSHPrefix in Hprefix. afresh Hprefix.
    rewrite Hdisable in Hprefix. rewrite Htp in Hprefix.
    apply bind_inr in Hprefix as (port & s3 & Hport & Hprefix).
    apply try_inr in Hport as [Hport _].
    apply bind_inr in Hprefix as (prefixSpec & s4 & Hmake & Hprefix).
    apply bind_inr in Hprefix as (splitConfig & s5 & _ & Hprefix).
    exists port, prefixSpec, s3, s4.
    split; [exact Hport |]. split; [exact Hmake |].
    destruct (obfuscator.OSSHPrefixSpec.Spec prefixSpec);
      apply ret_inr in Hprefix as [<- _]; strip; reflexivity.
  - intros Hdisable. unfold selectOSSHSeedTransformer in Hseed. afresh Hseed.
    rewrite Hdisable in Hseed.
    apply bind_inr in Hseed as (params & s3 & Hmake & Hseed).
    exists params, s, s3. split; [exact Hmake |].
    assert (E : OSSHObfuscatorSeedTransformerParameters d1 = withSpec params).
    { unfold withSpec. destruct (transforms.TransformSpec params);
        apply ret_inr in Hseed as [<- _]; strip; reflexivity. }
    rewrite E. reflexivity.
Qed.

Lemma selectHTTPTransformer_afresh config serverEntry replayX d s d' s' :
  selectHTTPTransformer config serverEntry false replayX d s = (inr d', s') ->
  protocol.TunnelProtocolUsesMeekHTTP (TunnelProtocol d) = true ->
  protocol.DisableHTTPTransforms serverEntry = false ->
  exists params s0 s1,
    makeHTTPTransformerParameters (parameters.Get (Config.GetParameters config))
      (protocol.FrontingProviderID serverEntry)
      (protocol.TunnelProtocolUsesFrontedMeek (TunnelProtocol d)) s0 = (inr params, s1)
    /\ HTTPTransformerParameters d'
       = match transforms.ProtocolTransformSpec params with
         | Some _ => Some params
         | None => None
         end.
Proof.
  unfold selectHTTPTransformer. intros Hrun Hhttp Hdisable. afresh Hrun.
  rewrite Hhttp, Hdisable in Hrun.
  apply bind_inr in Hrun as (params & s1 & Hmake & Hrun).
  exists params, s, s1. split; [exact Hmake |].
  destruct (transforms.ProtocolTransformSpec params);
    apply ret_inr in Hrun as [<- _]; strip; reflexivity.
Qed.

Lemma selectUserAgent_afresh config p replayX d s d' h s' :
  selectUserAgent config p false replayX d s = (inr (d', h), s') ->
  takesUserAgent d = true ->
  exists s0 s1,
    selectUserAgentIfUnset p (makeDialCustomHeaders config p) s0
    = (inr (SelectedUserAgent d', UserAgent d'), s1).
Proof.
  unfold selectUserAgent. fold (takesUserAgent d). intros Hrun Htakes. afresh Hrun.
  rewrite Htakes in Hrun.
  apply bind_inr in Hrun as (d1 & s1 & Hselect & Hrun).
  apply bind_inr in Hselect as ([selected userAgent] & s2 & Hselect & Hd1).
  apply ret_inr in Hd1 as [<- _].
  assert (E : d' = set_UserAgent userAgent (set_SelectedUserAgent selected d)).
  { destruct (SelectedUserAgent (set_UserAgent userAgent
                                   (set_SelectedUserAgent selected d)));
      apply ret_inr in Hrun as [Hpair _]; injection Hpair as <- _; reflexivity. }
  rewrite E. strip. exists s, s2. exact Hselect.
Qed.

(** What a dial that takes a User-Agent is read off. *)
Lemma takesUserAgent_eq a b :
  userAgentInputs a = userAgentInputs b -> takesUserAgent a = takesUserAgent b.
Proof.
  unfold userAgentInputs. intros E. injection E as E1 E2 E3.
  unfold takesUserAgent. rewrite E1, E2, E3. reflexivity.
Qed.

Lemma selectFromQUICVersion_afresh config serverEntry rs p usingTLS d s d' s' :
  Config.GetResolver config = Some rs ->
  selectFromQUICVersion config serverEntry rs false p usingTLS d s = (inr d', s') ->
  selectedFromQUICVersion config serverEntry p d'.
Proof.
  intros Hrs Hrun. unfold selectFromQUICVersion in Hrun. step_inv.
  unfold selectedFromQUICVersion, seedsSelected.
  repeat match goal with |- _ /\ _ => split end.
  - lazymatch goal with
    | H : selectQUICVersionBlock _ _ _ _ ?d0 _ = (inr ?d1, _)
      |- quicVersionSelected _ _ ?x =>
      assert (E : QUICVersion x = QUICVersion d1) by frame_walk;
      assert (Etp : TunnelProtocol x = TunnelProtocol d0) by frame_walk;
      unfold quicVersionSelected; rewrite Etp, E;
      exact (selectQUICVersionBlock_afresh _ _ _ _ _ _ _ H)
    end.
  - lazymatch goal with
    | H : selectObfuscatedQUICPadding _ _ ?d0 _ = (inr ?d1, _)
      |- obfuscatedQUICSelected ?x =>
      assert (E : ObfuscatedQUICPaddingSeed x = ObfuscatedQUICPaddingSeed d1)
        by frame_walk;
      assert (Eq : QUICVersion x = QUICVersion d0) by frame_walk;
      unfold obfuscatedQUICSelected; rewrite Eq, E;
      exact (selectObfuscatedQUICPadding_afresh _ _ _ _ _ H)
    end.
  - lazymatch goal with
    | H : selectObfuscatedQUICNonceTransformer _ _ _ _ ?d0 _ = (inr ?d1, _)
      |- nonceTransformerSelected _ _ ?x =>
      assert (E : ObfuscatedQUICNonceTransformerParameters x
                  = ObfuscatedQUICNonceTransformerParameters d1) by frame_walk;
      assert (Eq : QUICVersion x = QUICVersion d0) by frame_walk;
      unfold nonceTransformerSelected; rewrite Eq, E;
      exact (selectObfuscatedQUICNonceTransformer_afresh _ _ _ _ _ _ _ H)
    end.
  - lazymatch goal with
    | H : selectLivenessTest _ _ ?d0 _ = (inr ?d1, _) |- LivenessTestSeed ?x <> None =>
      assert (E : LivenessTestSeed x = LivenessTestSeed d1) by frame_walk;
      rewrite E; exact (selectLivenessTest_afresh _ _ _ _ _ H)
    end.
  - lazymatch goal with
    | H : selectAPIRequestPadding _ _ ?d0 _ = (inr ?d1, _)
      |- APIRequestPaddingSeed ?x <> None =>
      assert (E : APIRequestPaddingSeed x = APIRequestPaddingSeed d1) by frame_walk;
      rewrite E; exact (selectAPIRequestPadding_afresh _ _ _ _ _ H)
    end.
  - lazymatch goal with
    | H : selectResolveParameters _ _ _ _ ?d0 _ = (inr ?d1, _)
      |- resolveParametersSelected _ _ ?x =>
      assert (E : ResolveParameters x = ResolveParameters d1) by frame_walk;
      assert (Etp : TunnelProtocol x = TunnelProtocol d0) by frame_walk;
      assert (Eapi : ConjureAPIRegistration x = ConjureAPIRegistration d0)
        by frame_walk;
      assert (E1 : FrontingProviderID x = FrontingProviderID d0) by frame_walk;
      assert (E2 : MeekFrontingDialAddress x = MeekFrontingDialAddress d0)
        by frame_walk;
      unfold resolveParametersSelected; rewrite Etp, Eapi, E, E1, E2;
      intros Huse;
      destruct (selectResolveParameters_afresh _ _ _ _ _ _ _ H Huse)
        as (r & resolveParameters & Hmake & Hset);
      exists rs, r, resolveParameters; auto
    end.
  - lazymatch goal with
    | H : selectOSSHTransforms _ _ _ _ _ ?d0 _ = (inr ?d1, _)
      |- osshTransformsSelected _ _ ?x =>
      assert (E1 : OSSHPrefixSpec x = OSSHPrefixSpec d1) by frame_walk;
      assert (E2 : OSSHObfuscatorSeedTransformerParameters x
                   = OSSHObfuscatorSeedTransformerParameters d1) by frame_walk;
      assert (Etp : TunnelProtocol x = TunnelProtocol d0) by frame_walk;
      unfold osshTransformsSelected; rewrite Etp, E1, E2;
      exact (selectOSSHTransforms_afresh _ _ _ _ _ _ _ _ H)
    end.
  - lazymatch goal with
    | H : selectHTTPTransformer _ _ _ _ ?d0 _ = (inr ?d1, _)
      |- httpTransformerSelected _ _ ?x =>
      assert (E : HTTPTransformerParameters x = HTTPTransformerParameters d1)
        by frame_walk;
      assert (Etp : TunnelProtocol x = TunnelProtocol d0) by frame_walk;
      unfold httpTransformerSelected; rewrite Etp, E;
      exact (selectHTTPTransformer_afresh _ _ _ _ _ _ _ H)
    end.
  - lazymatch goal with
    | H : selectUserAgent _ _ _ _ ?d0 _ = (inr (?d1, _), _)
      |- userAgentSelected _ _ ?x =>
      assert (E1 : SelectedUserAgent x = SelectedUserAgent d1) by frame_walk;
      assert (E2 : UserAgent x = UserAgent d1) by frame_walk;
      assert (Et : userAgentInputs x = userAgentInputs d0) by frame_walk;
      unfold userAgentSelected; rewrite (takesUserAgent_eq _ _ Et), E1, E2;
      exact (selectUserAgent_afresh _ _ _ _ _ _ _ _ H)
    end.
Qed.

(** A run that is not a replay makes every selection in this pass. *)
Lemma MakeDialParameters_afresh config canReplay selectProtocol serverEntry isTactics
    candidateNumber establishedTunnelsCount w dialParams err w' :
  MakeDialParameters config canReplay selectProtocol serverEntry isTactics
    candidateNumber establishedTunnelsCount w = ((Some dialParams, err), w') ->
  IsReplay dialParams = false ->
  selectedAfresh config serverEntry dialParams.
Proof.
  intros Hrun Hreplay.
  pose proof (MakeDialParameters_returned _ _ _ _ _ _ _ _ _ _ _ Hrun) as [_ Hflags].
  apply MakeDialParameters_inv in Hrun
    as (stored & stamp & w1 & rs & d1 & p & usingTLS & s1
        & Hdecide & Hrs & Hhead & Htail & _ & _).
  rewrite Hdecide in Hflags. cbn [fst] in Hflags. cbv zeta in Hhead, Htail.
  assert (Hpass : (if match stored with Some R => IsExchanged R | None => false end
                   then false else notNil stored) = false).
  { destruct stored as [R |]; [| reflexivity].
    destruct Hflags as [Hflags _]. rewrite Hreplay in Hflags.
    destruct (IsExchanged R); [reflexivity | discriminate]. }
  rewrite Hpass in Hhead, Htail.
  pose proof (selectUpToHostNames_tracked _ _ _ _ _ _ _ _ _ _ _ Hhead) as (_ & _ & _ & Hp).
  pose proof (selectFromQUICVersion_tracked _ _ _ _ _ _ _ _ _ _ Htail)
    as (_ & _ & Hnlm & _).
  rewrite <- Hnlm in Hp.
  unfold selectedAfresh. cbv zeta. rewrite <- Hp. split.
  - apply (selectedUpToHostNames_eq _ _ _ _ d1).
    + apply (selectFromQUICVersion_frame headFields) in Htail;
        [exact Htail | intros ? ?; reflexivity ..].
    + exact (selectUpToHostNames_afresh _ _ _ _ _ _ _ _ _ _ Hhead).
  - exact (selectFromQUICVersion_afresh _ _ _ _ _ _ _ _ _ Hrs Htail).
Qed.

Lemma selectFromQUICVersion_keeps_QUICVersion config serverEntry rs isReplay p usingTLS
    d s d' s' :
  selectFromQUICVersion config serverEntry rs isReplay p usingTLS d s = (inr d', s') ->
  protocol.TunnelProtocolUsesQUIC (TunnelProtocol d) = false ->
  QUICVersion d' = QUICVersion d.
Proof.
  unfold selectFromQUICVersion. intros Hrun Hquic. step_inv.
  lazymatch goal with
  | H : selectQUICVersionBlock _ _ _ _ ?d0 _ = (inr ?d1, _) |- QUICVersion ?x = _ =>
    assert (E : QUICVersion x = QUICVersion d1) by frame_walk;
    unfold selectQUICVersionBlock in H; rewrite Hquic, andb_false_r in H;
    apply ret_inr in H as [<- _]; exact E
  end.
Qed.

(** The QUIC version of a returned record for a protocol that does not use
    QUIC is the one of the record that the run starts from: no block
    assigns it. *)
Lemma MakeDialParameters_keeps_QUICVersion config canReplay selectProtocol serverEntry
    isTactics candidateNumber establishedTunnelsCount w dialParams err w' :
  MakeDialParameters config canReplay selectProtocol serverEntry isTactics
    candidateNumber establishedTunnelsCount w = ((Some dialParams, err), w') ->
  protocol.TunnelProtocolUsesQUIC (TunnelProtocol dialParams) = false ->
  QUICVersion dialParams = QUICVersion (takenOver config canReplay serverEntry w).
Proof.
  intros Hrun Hquic.
  destruct (MakeDialParameters_halves _ _ _ _ _ _ _ _ _ _ _ Hrun)
    as (rs & isExchanged & d0 & s0 & d1 & usingTLS & s1 & Hd0 & Hhead & Htail).
  apply (selectUpToHostNames_frame QUICVersion) in Hhead;
    [| intros ? ?; reflexivity ..].
  pose proof (selectFromQUICVersion_tracked _ _ _ _ _ _ _ _ _ _ Htail) as (_ & Htp & _).
  rewrite Htp in Hquic.
  rewrite (selectFromQUICVersion_keeps_QUICVersion _ _ _ _ _ _ _ _ _ _ Htail Hquic).
  rewrite Hhead, Hd0. unfold takenOver.
  destruct (fst (fst (replayDecision config canReplay serverEntry w))); reflexivity.
Qed.

(** ** The completion of an exchanged record *)


End Properties.

(** * The QUIC configuration: properties *)

Section QUICProperties.
Context `{!quic.protocol.Package, !quic.Callbacks}.

Lemma quic_validateVersions_None versions :
  quic.validateVersions versions = None
  <-> forall v, In v versions -> quic.protocol.IsValidVersion v = true.
Proof.
  induction versions as [| v rest IH]; cbn [quic.validateVersions].
  - split; [intros _ v [] | reflexivity].
  - destruct (quic.protocol.IsValidVersion v) eqn:E; cbn [negb].
    + rewrite IH. split.
      * intros Hall u [<- | Hin]; [exact E | exact (Hall u Hin)].
      * intros Hall u Hin. apply Hall. right. exact Hin.
    + split; [discriminate |].
      intros Hall. specialize (Hall v (or_introl eq_refl)). congruence.
Qed.

Lemma quic_limit : Z.shiftl 1 60 = 2 ^ 60.
Proof. reflexivity. Qed.

Lemma quic_validateConfig_accepts config :
  quic.validateConfig config = None
  <-> match config with
      | None => True
      | Some c =>
        quic.MaxIncomingStreams c <= 2 ^ 60
        /\ quic.MaxIncomingUniStreams c <= 2 ^ 60
        /\ forall v, In v (quic.Versions c) -> quic.protocol.IsValidVersion v = true
      end.
Proof.
  destruct config as [c |]; cbn [quic.validateConfig]; [| tauto].
  rewrite quic_limit.
  destruct (2 ^ 60 <? quic.MaxIncomingStreams c) eqn:E1.
  - apply Z.ltb_lt in E1. split; [discriminate | intros (Ha & _); lia].
  - apply Z.ltb_ge in E1.
    destruct (2 ^ 60 <? quic.MaxIncomingUniStreams c) eqn:E2.
    + apply Z.ltb_lt in E2. split; [discriminate | intros (_ & Hb & _); lia].
    + apply Z.ltb_ge in E2. rewrite quic_validateVersions_None. tauto.
Qed.

(** X25. [validateConfig] accepts a configuration exactly when it is nil, or
    both stream limits are at most [1<<60] (negative ones included) and
    every listed version is valid; an empty version list is accepted. *)
Theorem quic_validateConfig_accepts_iff config :
  quic.validateConfig config = None
  <-> match config with
      | None => True
      | Some c =>
        quic.MaxIncomingStreams c <= 2 ^ 60
        /\ quic.MaxIncomingUniStreams c <= 2 ^ 60
        /\ forall v, In v (quic.Versions c) -> quic.protocol.IsValidVersion v = true
      end.
Proof. exact (quic_validateConfig_accepts config). Qed.

(** X26. When both stream limits are within [1<<60] and some listed version is
    not valid, [validateConfig] reports the first such version of the list,
    and no other. *)
Theorem quic_validateConfig_reports_first_invalid_version c e :
  quic.MaxIncomingStreams c <= 2 ^ 60 ->
  quic.MaxIncomingUniStreams c <= 2 ^ 60 ->
  quic.validateConfig (Some c) = Some e ->
  exists before v after,
    quic.Versions c = (before ++ v :: after)%list
    /\ (forall u, In u before -> quic.protocol.IsValidVersion u = true)
    /\ quic.protocol.IsValidVersion v = false
    /\ e = String.append "invalid QUIC version: " (quic.protocol.VersionString v).
Proof.
  intros H1 H2. cbn [quic.validateConfig]. rewrite quic_limit.
  apply Z.ltb_ge in H1, H2. rewrite H1, H2.
  induction (quic.Versions c) as [| v rest IH]; cbn [quic.validateVersions];
    [discriminate |].
  destruct (quic.protocol.IsValidVersion v) eqn:E; cbn [negb].
  - intros Hrest. destruct (IH Hrest) as (before & u & after & -> & Hb & Hu & He).
    exists (v :: before), u, after. repeat split; try assumption.
    intros x [<- | Hin]; [exact E | exact (Hb x Hin)].
  - intros [= <-]. exists [], v, rest. repeat split; try assumption.
    intros u [].
Qed.

Lemma quic_populateConfig_nil :
  quic.populateConfig None = quic.populateConfig (Some quic.Config_zero).
Proof. reflexivity. Qed.

Lemma quic_length_zero {A} (l : list A) : (length l =? 0)%nat = true <-> l = [].
Proof. destruct l; cbn; split; congruence. Qed.

(** X27. With the constants of the package, the configuration that
    [populateConfig] returns, for nil as for any configuration, leaves
    nothing unset: the version list is not empty, the timeouts and the
    receive windows are not zero, and the stream limits are not negative; a
    negative limit of the caller has become zero. *)
Theorem quic_populateConfig_populated config :
  quic.sound ->
  quic.populated (quic.populateConfig config)
  /\ forall c, config = Some c ->
       (quic.MaxIncomingStreams c < 0 ->
        quic.MaxIncomingStreams (quic.populateConfig config) = 0)
       /\ (quic.MaxIncomingUniStreams c < 0 ->
           quic.MaxIncomingUniStreams (quic.populateConfig config) = 0).
Proof.
  intros (Hv & _ & H1 & H2 & H3 & H4 & H5 & H6 & H7 & H8 & _).
  split.
  - unfold quic.populated, quic.populateConfig. cbn.
    set (c := match config with Some c => c | None => quic.Config_zero end).
    repeat split.
    + destruct (length (quic.Versions c) =? 0)%nat eqn:E; [exact Hv |].
      intros Hnil. rewrite Hnil in E. discriminate E.
    + destruct (quic.HandshakeIdleTimeout c =? 0) eqn:E; cbn [negb]; [lia |].
      apply Z.eqb_neq in E. exact E.
    + destruct (quic.MaxIdleTimeout c =? 0) eqn:E; cbn [negb]; [lia |].
      apply Z.eqb_neq in E. exact E.
    + destruct (quic.InitialStreamReceiveWindow c =? 0) eqn:E; [lia |].
      apply Z.eqb_neq in E. exact E.
    + destruct (quic.MaxStreamReceiveWindow c =? 0) eqn:E; [lia |].
      apply Z.eqb_neq in E. exact E.
    + destruct (quic.InitialConnectionReceiveWindow c =? 0) eqn:E; [lia |].
      apply Z.eqb_neq in E. exact E.
    + destruct (quic.MaxConnectionReceiveWindow c =? 0) eqn:E; [lia |].
      apply Z.eqb_neq in E. exact E.
    + destruct (quic.MaxIncomingStreams c =? 0); [lia |].
      destruct (quic.MaxIncomingStreams c <? 0) eqn:E; [lia |].
      apply Z.ltb_ge in E. exact E.
    + destruct (quic.MaxIncomingUniStreams c =? 0); [lia |].
      destruct (quic.MaxIncomingUniStreams c <? 0) eqn:E; [lia |].
      apply Z.ltb_ge in E. exact E.
  - intros c ->. unfold quic.populateConfig. cbn. split; intros Hneg.
    + destruct (quic.MaxIncomingStreams c =? 0) eqn:E; [apply Z.eqb_eq in E; lia |].
      apply Z.ltb_lt in Hneg. rewrite Hneg. reflexivity.
    + destruct (quic.MaxIncomingUniStreams c =? 0) eqn:E; [apply Z.eqb_eq in E; lia |].
      apply Z.ltb_lt in Hneg. rewrite Hneg. reflexivity.
Qed.

Lemma quic_Config_eq (a b : quic.Config) :
  quic.GetConfigForClient a = quic.GetConfigForClient b ->
  quic.Versions a = quic.Versions b ->
  quic.HandshakeIdleTimeout a = quic.HandshakeIdleTimeout b ->
  quic.MaxIdleTimeout a = quic.MaxIdleTimeout b ->
  quic.MaxTokenAge a = quic.MaxTokenAge b ->
  quic.MaxRetryTokenAge a = quic.MaxRetryTokenAge b ->
  quic.RequireAddressValidation a = quic.RequireAddressValidation b ->
  quic.KeepAlivePeriod a = quic.KeepAlivePeriod b ->
  quic.InitialStreamReceiveWindow a = quic.InitialStreamReceiveWindow b ->
  quic.MaxStreamReceiveWindow a = quic.MaxStreamReceiveWindow b ->
  quic.InitialConnectionReceiveWindow a = quic.InitialConnectionReceiveWindow b ->
  quic.MaxConnectionReceiveWindow a = quic.MaxConnectionReceiveWindow b ->
  quic.AllowConnectionWindowIncrease a = quic.AllowConnectionWindowIncrease b ->
  quic.MaxIncomingStreams a = quic.MaxIncomingStreams b ->
  quic.MaxIncomingUniStreams a = quic.MaxIncomingUniStreams b ->
  quic.TokenStore_ a = quic.TokenStore_ b ->
  quic.EnableDatagrams a = quic.EnableDatagrams b ->
  quic.DisablePathMTUDiscovery a = quic.DisablePathMTUDiscovery b ->
  quic.DisableVersionNegotiationPackets a = quic.DisableVersionNegotiationPackets b ->
  quic.Allow0RTT a = quic.Allow0RTT b ->
  quic.Tracer a = quic.Tracer b ->
  quic.ClientHelloSeed a = quic.ClientHelloSeed b ->
  quic.GetClientHelloRandom a = quic.GetClientHelloRandom b ->
  quic.VerifyClientHelloRandom a = quic.VerifyClientHelloRandom b ->
  quic.ClientMaxPacketSizeAdjustment a = quic.ClientMaxPacketSizeAdjustment b ->
  quic.ServerMaxPacketSizeAdjustment a = quic.ServerMaxPacketSizeAdjustment b ->
  a = b.
Proof. destruct a, b. cbn. intros. subst. reflexivity. Qed.

Lemma quic_default_kept (x dflt : Z) :
  (let y := if x =? 0 then dflt else x in if y =? 0 then dflt else y)
  = (if x =? 0 then dflt else x).
Proof.
  cbv zeta. destruct (x =? 0) eqn:E.
  - destruct (dflt =? 0); reflexivity.
  - rewrite E. reflexivity.
Qed.

Lemma quic_default_kept_negb (x dflt : Z) :
  (let y := if negb (x =? 0) then x else dflt in if negb (y =? 0) then y else dflt)
  = (if negb (x =? 0) then x else dflt).
Proof.
  cbv zeta. destruct (x =? 0) eqn:E; cbn [negb].
  - destruct (dflt =? 0); reflexivity.
  - rewrite E. reflexivity.
Qed.

Lemma quic_limit_twice (x dflt : Z) :
  0 < dflt ->
  let once z := if z =? 0 then dflt else if z <? 0 then 0 else z in
  once (once x) = once x <-> 0 <= x.
Proof.
  intros Hd once. unfold once.
  destruct (x =? 0) eqn:E0.
  - apply Z.eqb_eq in E0.
    destruct (dflt =? 0) eqn:E1; [apply Z.eqb_eq in E1; lia |].
    destruct (dflt <? 0) eqn:E2; [apply Z.ltb_lt in E2; lia |]. lia.
  - apply Z.eqb_neq in E0. destruct (x <? 0) eqn:E1.
    + apply Z.ltb_lt in E1. cbn. lia.
    + apply Z.ltb_ge in E1. apply Z.eqb_neq in E0. rewrite E0.
      apply Z.ltb_ge in E1. rewrite E1. apply Z.ltb_ge in E1. lia.
Qed.

(** X28. With positive default stream limits, populating a populated
    configuration changes nothing exactly when neither stream limit of the
    caller is negative: a negative limit becomes zero the first time, and
    the default the second time. *)
Theorem quic_populateConfig_idempotent_iff c :
  0 < quic.protocol.DefaultMaxIncomingStreams ->
  0 < quic.protocol.DefaultMaxIncomingUniStreams ->
  quic.populateConfig (Some (quic.populateConfig (Some c))) = quic.populateConfig (Some c)
  <-> 0 <= quic.MaxIncomingStreams c /\ 0 <= quic.MaxIncomingUniStreams c.
Proof.
  intros Hs Hu.
  pose proof (quic_limit_twice (quic.MaxIncomingStreams c) _ Hs) as Ks.
  pose proof (quic_limit_twice (quic.MaxIncomingUniStreams c) _ Hu) as Ku.
  cbv zeta in Ks, Ku.
  split.
  - intros E. split.
    + apply Ks. exact (f_equal quic.MaxIncomingStreams E).
    + apply Ku. exact (f_equal quic.MaxIncomingUniStreams E).
  - intros [Ha Hb]. apply Ks in Ha. apply Ku in Hb.
    apply quic_Config_eq; try reflexivity; try assumption.
    + cbn. destruct (length (quic.Versions c) =? 0)%nat eqn:E.
      * destruct (length quic.protocol.SupportedVersions =? 0)%nat; reflexivity.
      * rewrite E. reflexivity.
    + exact (quic_default_kept_negb _ _).
    + exact (quic_default_kept_negb _ _).
    + exact (quic_default_kept _ _).
    + exact (quic_default_kept _ _).
    + exact (quic_default_kept _ _).
    + exact (quic_default_kept _ _).
Qed.

Lemma quic_populateServerConfig_fields config :
  let c := quic.populateConfig config in
  let s := quic.populateServerConfig config in
  quic.Versions s = quic.Versions c
  /\ quic.MaxIncomingStreams s = quic.MaxIncomingStreams c
  /\ quic.MaxIncomingUniStreams s = quic.MaxIncomingUniStreams c
  /\ quic.MaxTokenAge s
     = (if quic.MaxTokenAge c =? 0 then quic.protocol.TokenValidity
        else quic.MaxTokenAge c)
  /\ quic.MaxRetryTokenAge s
     = (if quic.MaxRetryTokenAge c =? 0 then quic.protocol.RetryTokenValidity
        else quic.MaxRetryTokenAge c)
  /\ quic.RequireAddressValidation s
     = match quic.RequireAddressValidation c with
       | None => Some (fun _ => false)
       | Some f => Some f
       end.
Proof.
  cbv zeta. unfold quic.populateServerConfig.
  set (c := quic.populateConfig config). clearbody c. cbv zeta.
  destruct (quic.MaxTokenAge c =? 0) eqn:E1;
    destruct (quic.MaxRetryTokenAge c =? 0) eqn:E2;
    destruct (quic.RequireAddressValidation c) eqn:E3;
    unfold quic.set_MaxTokenAge, quic.set_MaxRetryTokenAge,
      quic.set_RequireAddressValidation; cbn;
    rewrite ?E1; cbn; rewrite ?E2; cbn; rewrite ?E3; cbn;
    rewrite ?E1, ?E2, ?E3; repeat split; reflexivity.
Qed.

(** X29. With the constants of the package, a configuration that
    [validateConfig] accepts (nil included) is still accepted after
    [populateServerConfig] has populated it, and then it has the token ages
    set and an address-validation callback, the caller's own if there was
    one. *)
Theorem quic_populateServerConfig_valid config :
  quic.sound ->
  quic.validateConfig config = None ->
  let s := quic.populateServerConfig config in
  quic.validateConfig (Some s) = None
  /\ quic.MaxTokenAge s <> 0
  /\ quic.MaxRetryTokenAge s <> 0
  /\ quic.RequireAddressValidation s <> None
  /\ forall c f, config = Some c -> quic.RequireAddressValidation c = Some f ->
       quic.RequireAddressValidation s = Some f.
Proof.
  intros (Hv & Hvalid & H1 & H2 & H3 & H4 & H5 & H6 & H7 & H8 & H9 & H10) Hok s.
  destruct (quic_populateServerConfig_fields config)
    as (Ev & Es & Eu & Et & Er & Ea).
  cbv zeta in Ev, Es, Eu, Et, Er, Ea. fold s in Ev, Es, Eu, Et, Er, Ea.
  apply quic_validateConfig_accepts in Hok.
  split; [| split; [| split; [| split]]].
  - apply quic_validateConfig_accepts. rewrite Ev, Es, Eu.
    set (c := match config with Some c => c | None => quic.Config_zero end).
    assert (Hc : quic.MaxIncomingStreams c <= 2 ^ 60
                 /\ quic.MaxIncomingUniStreams c <= 2 ^ 60
                 /\ forall v, In v (quic.Versions c) ->
                      quic.protocol.IsValidVersion v = true).
    { subst c. destruct config as [c |]; [exact Hok |].
      cbn. repeat split; try lia; try (intros v []). }
    destruct Hc as (Ha & Hb & Hc).
    unfold quic.populateConfig. fold c. cbn.
    repeat split.
    + destruct (quic.MaxIncomingStreams c =? 0); [lia |].
      destruct (quic.MaxIncomingStreams c <? 0); lia.
    + destruct (quic.MaxIncomingUniStreams c =? 0); [lia |].
      destruct (quic.MaxIncomingUniStreams c <? 0); lia.
    + destruct (length (quic.Versions c) =? 0)%nat; [exact Hvalid | exact Hc].
  - rewrite Et. destruct (quic.MaxTokenAge (quic.populateConfig config) =? 0) eqn:E;
      [lia | apply Z.eqb_neq in E; exact E].
  - rewrite Er.
    destruct (quic.MaxRetryTokenAge (quic.populateConfig config) =? 0) eqn:E;
      [lia | apply Z.eqb_neq in E; exact E].
  - rewrite Ea.
    destruct (quic.RequireAddressValidation (quic.populateConfig config)); discriminate.
  - intros c f -> Hf. rewrite Ea.
    change (quic.RequireAddressValidation (quic.populateConfig (Some c)))
      with (quic.RequireAddressValidation c).
    rewrite Hf. reflexivity.
Qed.

(** X30. The handshake timeout is never below the default.  For a handshake
    idle timeout whose double fits an [int64] it is the larger of the
    default and the double; for one of [2^62] nanoseconds or more the double
    wraps around to a negative number, and the timeout is the default. *)
Theorem quic_handshakeTimeout_bounds c :
  let h := quic.HandshakeIdleTimeout c in
  let dflt := quic.protocol.DefaultHandshakeTimeout in
  - 2 ^ 63 <= h < 2 ^ 63 ->
  0 <= dflt ->
  dflt <= quic.handshakeTimeout c
  /\ (- 2 ^ 62 <= h < 2 ^ 62 -> quic.handshakeTimeout c = Z.max dflt (2 * h))
  /\ (2 ^ 62 <= h -> quic.handshakeTimeout c = dflt).
Proof.
  intros h dflt Hrange Hd.
  unfold quic.handshakeTimeout, quic.utils_Max. fold h. fold dflt.
  split; [| split].
  - destruct (dflt <? quic.int64 (2 * h)) eqn:E; [apply Z.ltb_lt in E |]; lia.
  - intros Hfit.
    assert (Hw : quic.int64 (2 * h) = 2 * h).
    { unfold quic.int64. rewrite Z.mod_small; lia. }
    rewrite Hw. destruct (dflt <? 2 * h) eqn:E;
      [apply Z.ltb_lt in E | apply Z.ltb_ge in E]; lia.
  - intros Hbig.
    assert (Hw : quic.int64 (2 * h) = 2 * h - 2 ^ 64).
    { unfold quic.int64.
      replace (2 * h + 2 ^ 63) with (2 * h - 2 ^ 63 + 1 * 2 ^ 64) by lia.
      rewrite Z.mod_add by lia. rewrite Z.mod_small; lia. }
    rewrite Hw. destruct (dflt <? 2 * h - 2 ^ 64) eqn:E;
      [apply Z.ltb_lt in E; lia | reflexivity].
Qed.

End QUICProperties.

(** * Examples

    Concrete runs in the environment of [Example], one for each theorem that
    has a premise, and the runs on which a statement of the specification
    fails. *)

Section Examples.
Import Example.


(** C4 fails for a replayed record of another protocol than OSSH when the
    stored record has both fields: the store holds, for the server and
    network, the record of an SSH dial with an OSSH prefix and an OSSH seed
    transform, stamped at noon with the hashes of the configuration.  Half
    an hour later it is replayed; no block assigns either field for SSH,
    and the returned record has both. *)
Lemma MakeDialParameters_replay_keeps_prefix_and_seed_transform :
  exists dialParams err w',
    MakeDialParameters (config plainTactics None) anyProtocol (always "SSH")
      serverEntry false 0 0 bothTransformsWorld = ((Some dialParams, err), w')
    /\ IsReplay dialParams = true
    /\ TunnelProtocol dialParams = "SSH"
    /\ notNil (OSSHPrefixSpec dialParams) = true
    /\ notNil (OSSHObfuscatorSeedTransformerParameters dialParams) = true
    /\ prefixExcludesSeedTransform dialParams = false.
Proof.
  eexists _, _, _. split; [vm_compute; reflexivity |].
  repeat split; reflexivity.
Qed.

(** An unfronted meek HTTPS dial: the server's IP address, assigned as SNI
    server name, is blanked. *)
Lemma MakeDialParameters_meek_SNI_not_IP_example :
  exists dialParams err w',
    MakeDialParameters (config (tactics "meek" noOverrides) None) anyProtocol
      (always "UNFRONTED-MEEK-HTTPS-OSSH") serverEntry false 0 0 (world noon ∅)
    = ((Some dialParams, err), w')
    /\ MeekSNIServerName dialParams = ""
    /\ net_ParseIP (MeekSNIServerName dialParams) = false.
Proof.
  eexists _, _, _. split; [vm_compute; reflexivity |].
  split; [reflexivity |].
  eapply (MakeDialParameters_meek_SNI_not_IP
           (config (tactics "meek" noOverrides) None) anyProtocol
           (always "UNFRONTED-MEEK-HTTPS-OSSH") serverEntry false 0 0 (world noon ∅)
           _ None _);
    [reflexivity | vm_compute; reflexivity | reflexivity].
Defined.

(** C3 fails for Conjure API registration: the tunnel protocol does not use
    meek, so the check of lines 1012-1029 is not run, and the SNI server
    name that the host name transform produced, an IP address literal, is
    in the returned record. *)
Lemma MakeDialParameters_conjure_SNI_is_IP :
  exists dialParams err w',
    MakeDialParameters (config conjureTactics None) anyProtocol (always "CONJURE-OSSH")
      serverEntry false 0 0 (world noon ∅) = ((Some dialParams, err), w')
    /\ ConjureAPIRegistration dialParams = true
    /\ MeekSNIServerName dialParams = "203.0.113.9"
    /\ net_ParseIP (MeekSNIServerName dialParams) = true.
Proof.
  eexists _, _, _. split; [vm_compute; reflexivity |].
  repeat split; reflexivity.
Qed.

(** Scenario S6: a failed replay with [ReplayRetainFailedProbability] zero
    makes exactly one call, [DeleteDialParameters] for the server and
    network, and the record is gone from the store. *)
Lemma Failed_deletes_example :
  exists w',
    Failed replayedRecord (config neverRetain None)
      (world noon {[ ("192.0.2.7", "WIFI-home") := replayedRecord ]}) = Some w'
    /\ calls w' = [CallDeleteDialParameters "192.0.2.7" "WIFI-home"]
    /\ records (datastore w') !! ("192.0.2.7", "WIFI-home") = None.
Proof.
  destruct (Failed_deletes replayedRecord (config neverRetain None)
              (world noon {[ ("192.0.2.7", "WIFI-home") := replayedRecord ]})
              serverEntry eq_refl)
    as (w' & Hrun & Hcalls & Hrecords & _).
  exists w'. split; [exact Hrun |]. split; [exact Hcalls |].
  rewrite Hrecords. vm_compute. reflexivity.
Defined.

(** Scenario S2: half an hour after a fresh OSSH dial succeeded, the stored
    record is replayed; [selectProtocol] would give SSH and is not
    consulted. *)
Lemma MakeDialParameters_replays_iff_eligible_example :
  exists R dialParams err w',
    foundIn (config plainTactics None) serverEntry
      (afterSuccess (config plainTactics None) "OSSH" (noon + halfHour)) = Some R
    /\ MakeDialParameters (config plainTactics None) anyProtocol (always "SSH")
         serverEntry false 0 0
         (afterSuccess (config plainTactics None) "OSSH" (noon + halfHour))
       = ((Some dialParams, err), w')
    /\ IsReplay dialParams = true
    /\ TunnelProtocol dialParams = "OSSH"
    /\ replayed dialParams = replayed R.
Proof.
  eexists _, _, _, _. split; [vm_compute; reflexivity |].
  split; [vm_compute; reflexivity |].
  split; [reflexivity |].
  edestruct (MakeDialParameters_replays_iff_eligible
               (config plainTactics None) anyProtocol (always "SSH") serverEntry false 0 0
               (afterSuccess (config plainTactics None) "OSSH" (noon + halfHour)))
    as [_ Hreturned]; [vm_compute; reflexivity | reflexivity |].
  edestruct Hreturned as [_ Hkept]; [vm_compute; reflexivity |].
  destruct (Hkept eq_refl) as [Hprotocol Hselections].
  split; [exact Hprotocol |].
  apply Hselections. intros name Hin.
  repeat (destruct Hin as [<- | Hin]; [reflexivity |]). destruct Hin.
Defined.

(** Two hours after the dial succeeded the stored record is past the TTL of
    one hour: it is looked up and deleted.  Half an hour after, with a
    [canReplay] that refuses, it is looked up and the store is left alone. *)
Lemma MakeDialParameters_deletes_stale_example :
  (let result :=
     MakeDialParameters (config plainTactics None) anyProtocol (always "OSSH")
       serverEntry false 0 0
       (afterSuccess (config plainTactics None) "OSSH" (noon + 4 * halfHour)) in
   calls (snd result)
   = [ CallGetDialParameters "192.0.2.7" "WIFI-home";
       CallDeleteDialParameters "192.0.2.7" "WIFI-home" ]
   /\ records (datastore (snd result)) !! ("192.0.2.7", "WIFI-home") = None)
  /\ (let w := afterSuccess (config plainTactics None) "OSSH" (noon + halfHour) in
      let result :=
        MakeDialParameters (config plainTactics None) noProtocol (always "OSSH")
          serverEntry false 0 0 w in
      calls (snd result) = [ CallGetDialParameters "192.0.2.7" "WIFI-home" ]
      /\ datastore (snd result) = datastore w).
Proof.
  split.
  - edestruct (MakeDialParameters_deletes_stale
                 (config plainTactics None) anyProtocol (always "OSSH") serverEntry
                 false 0 0
                 (afterSuccess (config plainTactics None) "OSSH" (noon + 4 * halfHour)))
      as [Hstale _]; [vm_compute; reflexivity |].
    destruct Hstale as [Hcalls Hrecords].
    + intros Hfresh. apply staleIn_false in Hfresh. vm_compute in Hfresh. discriminate.
    + cbv zeta. split; [exact Hcalls |]. rewrite Hrecords. apply lookup_delete_eq.
  - edestruct (MakeDialParameters_deletes_stale
                 (config plainTactics None) noProtocol (always "OSSH") serverEntry
                 false 0 0
                 (afterSuccess (config plainTactics None) "OSSH" (noon + halfHour)))
      as [_ Hrefused]; [vm_compute; reflexivity |].
    destruct Hrefused as (Hcalls & Hstore & _).
    + apply staleIn_false. vm_compute. reflexivity.
    + intros [_ Hcan]. discriminate.
    + cbv zeta. split; [exact Hcalls | exact Hstore].
Defined.

(** Scenario S3: a fresh QUIC-OSSH dial where the server entry and the
    tactics limit the QUIC versions to disjoint lists is skipped. *)
Lemma MakeDialParameters_skips_without_QUIC_version_example :
  fst (MakeDialParameters (config quicTactics None) anyProtocol (always "QUIC-OSSH")
         quicServerEntry false 0 0 (world noon ∅)) = (None, None).
Proof.
  eapply (MakeDialParameters_skips_without_QUIC_version
            (config quicTactics None) anyProtocol (always "QUIC-OSSH")
            quicServerEntry false 0 0 (world noon ∅));
    [vm_compute; reflexivity | reflexivity | reflexivity | vm_compute; reflexivity].
Defined.


(** C9 fails for a stored record with [IsExchanged] that holds more than
    the exchange gives: the store holds, for the server and network, an
    exchanged record for SSH, stamped at noon with the hashes of the
    configuration, whose QUIC version is "QUICv1".  The record passes
    conditions (1) to (9).  The returned record is not a replay, and has
    the stored QUIC version, which no block assigns for SSH; a composition
    with nothing stored leaves the QUIC version empty. *)
Lemma MakeDialParameters_exchanged_keeps_QUIC_version :
  exists R dialParams err w',
    foundIn (config plainTactics None) serverEntry exchangedWithVersionWorld = Some R
    /\ IsExchanged R = true
    /\ staleIn (config plainTactics None) serverEntry exchangedWithVersionWorld R = false
    /\ MakeDialParameters (config plainTactics None) anyProtocol (always "OSSH")
         serverEntry false 0 0 exchangedWithVersionWorld = ((Some dialParams, err), w')
    /\ IsExchanged dialParams = false
    /\ IsReplay dialParams = false
    /\ TunnelProtocol dialParams = "SSH"
    /\ QUICVersion dialParams = "QUICv1"
    /\ QUICVersion
         (composed (MakeDialParameters (config plainTactics None) anyProtocol
                      (always "SSH") serverEntry false 0 0 (world (noon + halfHour) ∅)))
       = "".
Proof.
  eexists _, _, _, _. split; [vm_compute; reflexivity |].
  split; [reflexivity |]. split; [vm_compute; reflexivity |].
  split; [vm_compute; reflexivity |].
  repeat split; vm_compute; reflexivity.
Qed.

(** A fresh unfronted meek dial with a header name in both sources, one in
    the configuration only and one in the tactics only. *)
Lemma MakeDialParameters_custom_headers_example :
  exists dialParams dialConfig' err w',
    MakeDialParameters (config headerTactics (Some configHeaders)) anyProtocol
      (always "UNFRONTED-MEEK-OSSH") serverEntry false 0 0 (world noon ∅)
    = ((Some dialParams, err), w')
    /\ dialConfig dialParams = Some dialConfig'
    /\ DialConfig.CustomHeaders dialConfig' !! "X-Both" = Some [ "tactics" ]
    /\ DialConfig.CustomHeaders dialConfig' !! "X-Client" = Some [ "config" ]
    /\ DialConfig.CustomHeaders dialConfig' !! "X-Tactics" = Some [ "tactics" ]
    /\ DialConfig.CustomHeaders dialConfig' !! "User-Agent" = Some [ "Mozilla/5.0" ].
Proof.
  edestruct (MakeDialParameters_custom_headers
               (config headerTactics (Some configHeaders)) anyProtocol
               (always "UNFRONTED-MEEK-OSSH") serverEntry false 0 0 (world noon ∅))
    as (dialConfig' & Hconfig & Hnames & Hagent); [vm_compute; reflexivity |].
  eexists _, dialConfig', _, _. split; [vm_compute; reflexivity |].
  split; [exact Hconfig |].
  split; [rewrite Hnames by (left; discriminate); vm_compute; reflexivity |].
  split; [rewrite Hnames by (left; discriminate); vm_compute; reflexivity |].
  split; [rewrite Hnames by (left; discriminate); vm_compute; reflexivity |].
  exact (Hagent eq_refl).
Defined.

(** C10 fails for "User-Agent" on a replay across a change of configuration
    and tactics: a fresh unfronted meek dial picks a User-Agent and
    succeeds; then the configuration and the tactics each come to carry a
    "User-Agent" header, and the tactics replay in spite of the change
    ([ReplayIgnoreChangedConfigState]).  The replay sets the header to the
    stored User-Agent, which is neither the tactics value nor the
    configuration value. *)
Lemma MakeDialParameters_replay_sets_User_Agent :
  exists dialParams dialConfig' err w',
    MakeDialParameters userAgentConfig anyProtocol (always "UNFRONTED-MEEK-OSSH")
      serverEntry false 0 0
      (afterSuccess (config pickTactics None) "UNFRONTED-MEEK-OSSH" (noon + halfHour))
    = ((Some dialParams, err), w')
    /\ IsReplay dialParams = true
    /\ dialConfig dialParams = Some dialConfig'
    /\ configHeader userAgentConfig "User-Agent" = Some [ "Config-Agent/1.0" ]
    /\ parameters.HTTPHeaders
         (parameters.GetCustom (Config.GetParameters userAgentConfig)
            (NetworkLatencyMultiplier dialParams))
         parameters.AdditionalCustomHeaders !! "User-Agent"
       = Some [ "Tactics-Agent/2.0" ]
    /\ DialConfig.CustomHeaders dialConfig' !! "User-Agent" = Some [ "Mozilla/5.0" ].
Proof.
  eexists _, _, _, _. split; [vm_compute; reflexivity |].
  split; [reflexivity |]. split; [reflexivity |].
  repeat split; vm_compute; reflexivity.
Qed.

(** ** Further examples *)

(** A configuration without a resolver: the run fails with an error. *)
Lemma MakeDialParameters_missing_resolver_example :
  fst (MakeDialParameters (withoutResolver (config plainTactics None)) anyProtocol
         (always "OSSH") serverEntry false 0 0 (world noon ∅))
  = (None, Some "missing resolver").
Proof.
  apply (MakeDialParameters_missing_resolver
           (withoutResolver (config plainTactics None)) anyProtocol (always "OSSH")
           serverEntry false 0 0 (world noon ∅)).
  reflexivity.
Defined.

(** Nothing stored and no protocol for the server entry: the candidate is
    skipped without an error. *)
Lemma MakeDialParameters_skips_without_protocol_example :
  fst (MakeDialParameters (config plainTactics None) anyProtocol noneSelected
         serverEntry false 0 0 (world noon ∅))
  = (None, None).
Proof.
  apply (MakeDialParameters_skips_without_protocol
           (config plainTactics None) anyProtocol noneSelected serverEntry false 0 0
           (world noon ∅) theResolver);
    [reflexivity | intros R Hfound; vm_compute in Hfound; discriminate Hfound
    | reflexivity].
Defined.

(** Half an hour after an OSSH dial succeeded the datastore fails: the
    stored record is not seen, the dial is composed afresh for SSH, and
    the store is as it was. *)
Lemma MakeDialParameters_tolerates_store_failure_example :
  let w := brokenStore (afterSuccess (config plainTactics None) "OSSH" (noon + halfHour)) in
  let result := MakeDialParameters (config plainTactics None) anyProtocol (always "SSH")
                  serverEntry false 0 0 w in
  exists dialParams,
    fst (fst result) = Some dialParams
    /\ IsReplay dialParams = false
    /\ TunnelProtocol dialParams = "SSH"
    /\ datastore (snd result) = datastore w.
Proof.
  cbv zeta.
  edestruct (MakeDialParameters_tolerates_store_failure
               (config plainTactics None) anyProtocol (always "SSH") serverEntry
               false 0 0
               (brokenStore
                  (afterSuccess (config plainTactics None) "OSSH" (noon + halfHour))))
    as (_ & Hstore & Hfresh); [reflexivity |].
  eexists. split; [vm_compute; reflexivity |].
  split; [apply Hfresh; vm_compute; reflexivity |].
  split; [reflexivity | exact Hstore].
Defined.

(** With [ReplayDialParametersTTL] zero, the record of a fresh OSSH dial
    has no timestamp, and [Succeeded] leaves the world as it is. *)
Lemma MakeDialParameters_without_TTL_not_stored_example :
  exists dialParams err w',
    MakeDialParameters (config (withoutTTL plainTactics) None) anyProtocol
      (always "OSSH") serverEntry false 0 0 (world noon ∅)
    = ((Some dialParams, err), w')
    /\ LastUsedTimestamp dialParams = 0
    /\ Succeeded dialParams w' = Some w'.
Proof.
  eexists _, _, _. split; [vm_compute; reflexivity |].
  edestruct (MakeDialParameters_without_TTL_not_stored
               (config (withoutTTL plainTactics) None) anyProtocol (always "OSSH")
               serverEntry false 0 0 (world noon ∅))
    as (_ & _ & Hsucceeded); [vm_compute; discriminate | vm_compute; reflexivity |].
  split; [reflexivity | apply Hsucceeded].
Defined.

(** A Conjure dial with API registration: the registrar URL is set. *)
Lemma MakeDialParameters_conjure_registrar_URL_example :
  exists dialParams err w',
    MakeDialParameters (config registrarTactics None) anyProtocol (always "CONJURE-OSSH")
      serverEntry false 0 0 (world noon ∅) = ((Some dialParams, err), w')
    /\ ConjureAPIRegistration dialParams = true
    /\ ConjureAPIRegistrarBidirectionalURL dialParams <> "".
Proof.
  eexists _, _, _. split; [vm_compute; reflexivity |].
  split; [reflexivity |].
  intros Hempty.
  eapply (MakeDialParameters_conjure_registrar_URL
            (config registrarTactics None) anyProtocol (always "CONJURE-OSSH")
            serverEntry false 0 0 (world noon ∅));
    [vm_compute; reflexivity | split; [reflexivity | exact Hempty]].
Defined.

(** A fresh unfronted meek dial: the TLS padding size and the decoy
    registrar delay are zero. *)
Lemma MakeDialParameters_never_assigns_example :
  exists dialParams err w',
    MakeDialParameters (config plainTactics None) anyProtocol
      (always "UNFRONTED-MEEK-HTTPS-OSSH") serverEntry false 0 0 (world noon ∅)
    = ((Some dialParams, err), w')
    /\ MeekTLSPaddingSize dialParams = 0
    /\ ConjureDecoyRegistrarDelay dialParams = 0.
Proof.
  eexists _, _, _. split; [vm_compute; reflexivity |].
  edestruct (MakeDialParameters_never_assigns
               (config plainTactics None) anyProtocol
               (always "UNFRONTED-MEEK-HTTPS-OSSH") serverEntry false 0 0
               (world noon ∅))
    as [_ Hzero]; [vm_compute; reflexivity |].
  apply Hzero. reflexivity.
Defined.

(** A fresh OSSH dial at noon succeeds: the record is stored, and any
    world with that store within the hour finds it eligible. *)
Lemma Succeeded_record_is_eligible_example :
  exists dialParams err w1 w2,
    MakeDialParameters (config plainTactics None) anyProtocol (always "OSSH")
      serverEntry false 0 0 (world noon ∅) = ((Some dialParams, err), w1)
    /\ Succeeded dialParams w1 = Some w2
    /\ forall w3,
         datastore w3 = datastore w2 ->
         now w3 - noon <= hour ->
         foundIn (config plainTactics None) serverEntry w3
         = Some (DialParameters_stored dialParams)
         /\ conditions1to7 (config plainTactics None) serverEntry w3
              (DialParameters_stored dialParams).
Proof.
  edestruct (Succeeded_record_is_eligible
               (config plainTactics None) anyProtocol (always "OSSH") serverEntry
               false 0 0 (world noon ∅))
    as (w2 & Hsucceeded & _ & Hlater);
    [vm_compute; reflexivity | reflexivity | reflexivity | reflexivity |].
  eexists _, _, _, w2. split; [vm_compute; reflexivity |].
  split; [exact Hsucceeded |].
  intros w3 Hstore Htime. destruct (Hlater w3 Hstore Htime) as [Hfound Hiff].
  split; [exact Hfound |]. apply Hiff. split; left; reflexivity.
Defined.

(** Through an upstream proxy, an OSSH dial for an embedded server entry is
    composed: the protocol supports the proxy. *)
Lemma MakeDialParameters_respects_upstream_proxy_example :
  exists dialParams err w',
    MakeDialParameters (throughProxy (config plainTactics None)) anyProtocol
      (always "OSSH") serverEntry false 0 0 (world noon ∅)
    = ((Some dialParams, err), w')
    /\ protocol.TunnelProtocolSupportsUpstreamProxy (TunnelProtocol dialParams) = true.
Proof.
  eexists _, _, _. split; [vm_compute; reflexivity |].
  edestruct (MakeDialParameters_respects_upstream_proxy
               (throughProxy (config plainTactics None)) anyProtocol (always "OSSH")
               serverEntry false 0 0 (world noon ∅))
    as [Hsupports _]; [vm_compute; reflexivity | reflexivity |].
  exact Hsupports.
Defined.

(** A fresh QUIC-OSSH dial: the record has a QUIC version that passes the
    filters. *)
Lemma MakeDialParameters_QUIC_version_viable_example :
  exists dialParams err w',
    MakeDialParameters (config plainTactics None) anyProtocol (always "QUIC-OSSH")
      serverEntry false 0 0 (world noon ∅) = ((Some dialParams, err), w')
    /\ QUICVersion dialParams <> ""
    /\ survivesQUICFilters false serverEntry plainTactics (QUICVersion dialParams).
Proof.
  eexists _, _, _. split; [vm_compute; reflexivity |].
  edestruct (MakeDialParameters_QUIC_version_viable
               (config plainTactics None) anyProtocol (always "QUIC-OSSH")
               serverEntry false 0 0 (world noon ∅))
    as [Hversion Hsurvives]; [vm_compute; reflexivity | reflexivity | reflexivity |].
  split; [exact Hversion | exact Hsurvives].
Defined.

(** A fronted meek dial under [MeekDialDomainsOnly]: the dial address is
    the domain of the CDN. *)
Lemma MakeDialParameters_meek_domains_only_example :
  exists dialParams err w',
    MakeDialParameters (config domainsOnlyTactics None) anyProtocol
      (always "FRONTED-MEEK-OSSH") frontedServerEntry false 0 0 (world noon ∅)
    = ((Some dialParams, err), w')
    /\ MeekDialAddress dialParams = "cdn.test:443"
    /\ net_ParseIP (net_SplitHostPort (MeekDialAddress dialParams)) = false.
Proof.
  eexists _, _, _. split; [vm_compute; reflexivity |].
  split; [reflexivity |].
  eapply (MakeDialParameters_meek_domains_only
            (config domainsOnlyTactics None) anyProtocol (always "FRONTED-MEEK-OSSH")
            frontedServerEntry false 0 0 (world noon ∅));
    [vm_compute; reflexivity | reflexivity | reflexivity].
Defined.

(** The tactics are certain to select an OSSH prefix and a seed transform,
    and the server entry switches both off: the record has neither. *)
Lemma MakeDialParameters_honours_disabled_transforms_example :
  exists dialParams err w',
    MakeDialParameters (config prefixTactics None) anyProtocol (always "OSSH")
      plainServerEntry false 0 0 (world noon ∅) = ((Some dialParams, err), w')
    /\ OSSHObfuscatorSeedTransformerParameters dialParams = None
    /\ OSSHPrefixSpec dialParams = None
    /\ OSSHPrefixSplitConfig dialParams = None.
Proof.
  eexists _, _, _. split; [vm_compute; reflexivity |].
  edestruct (MakeDialParameters_honours_disabled_transforms
               (config prefixTactics None) anyProtocol (always "OSSH")
               plainServerEntry false 0 0 (world noon ∅))
    as [Hossh _]; [vm_compute; reflexivity |].
  destruct (Hossh eq_refl) as [Hseed Hprefix].
  split; [exact (Hseed eq_refl) | exact (Hprefix eq_refl)].
Defined.

(** A fresh OSSH dial goes to port 443 of the server's IP address. *)
Lemma MakeDialParameters_dial_address_example :
  exists dialParams err w',
    MakeDialParameters (config plainTactics None) anyProtocol (always "OSSH")
      serverEntry false 0 0 (world noon ∅) = ((Some dialParams, err), w')
    /\ DialPortNumber dialParams = "443"
    /\ DirectDialAddress dialParams
       = net_JoinHostPort "192.0.2.7" (DialPortNumber dialParams).
Proof.
  eexists _, _, _. split; [vm_compute; reflexivity |].
  split; [reflexivity |].
  edestruct (MakeDialParameters_dial_address
               (config plainTactics None) anyProtocol (always "OSSH")
               serverEntry false 0 0 (world noon ∅))
    as (dialPortNumber & _ & _ & Haddress); [vm_compute; reflexivity |].
  exact Haddress.
Defined.

(** A fresh fronted meek dial has resolve parameters, and its fronting
    dial address is a domain. *)
Lemma MakeDialParameters_resolve_parameters_only_for_domains_example :
  exists dialParams err w',
    MakeDialParameters (config plainTactics None) anyProtocol
      (always "FRONTED-MEEK-OSSH") frontedServerEntry false 0 0 (world noon ∅)
    = ((Some dialParams, err), w')
    /\ ResolveParameters dialParams <> None
    /\ MeekFrontingDialAddress dialParams = "cdn.test"
    /\ net_ParseIP (MeekFrontingDialAddress dialParams) = false.
Proof.
  eexists _, _, _. split; [vm_compute; reflexivity |].
  split; [discriminate |].
  split; [reflexivity |].
  eapply (MakeDialParameters_resolve_parameters_only_for_domains
            (config plainTactics None) anyProtocol (always "FRONTED-MEEK-OSSH")
            frontedServerEntry false 0 0 (world noon ∅));
    [vm_compute; reflexivity | reflexivity | discriminate].
Defined.

(** A fresh TLS-OSSH dial, which requires TLS 1.3, has a TLS profile. *)
Lemma MakeDialParameters_required_TLS_profile_example :
  exists dialParams err w',
    MakeDialParameters (config plainTactics None) anyProtocol (always "TLS-OSSH")
      serverEntry false 0 0 (world noon ∅) = ((Some dialParams, err), w')
    /\ SelectedTLSProfile dialParams = true
    /\ TLSProfile dialParams <> "".
Proof.
  eexists _, _, _. split; [vm_compute; reflexivity |].
  edestruct (MakeDialParameters_required_TLS_profile
               (config plainTactics None) anyProtocol (always "TLS-OSSH")
               serverEntry false 0 0 (world noon ∅))
    as [Hselected Hprofile]; [vm_compute; reflexivity | reflexivity | reflexivity |].
  split; [exact Hselected |]. apply Hprofile. right. reflexivity.
Defined.

(** A fresh unfronted meek dial, with custom headers in the configuration
    and in the tactics: the tactics value wins, the configured header is
    kept, and the selected User-Agent is added. *)
Lemma MakeDialParameters_fresh_custom_headers_example :
  exists dialParams dialConfig' err w',
    MakeDialParameters (config headerTactics (Some configHeaders)) anyProtocol
      (always "UNFRONTED-MEEK-OSSH") serverEntry false 0 0 (world noon ∅)
    = ((Some dialParams, err), w')
    /\ dialConfig dialParams = Some dialConfig'
    /\ DialConfig.CustomHeaders dialConfig' !! "X-Both" = Some [ "tactics" ]
    /\ DialConfig.CustomHeaders dialConfig' !! "X-Client" = Some [ "config" ]
    /\ DialConfig.CustomHeaders dialConfig' !! "User-Agent" = Some [ "Mozilla/5.0" ]
    /\ DialConfig.CustomHeaders dialConfig' !! "X-Other" = None.
Proof.
  edestruct (MakeDialParameters_fresh_custom_headers
               (config headerTactics (Some configHeaders)) anyProtocol
               (always "UNFRONTED-MEEK-OSSH") serverEntry false 0 0 (world noon ∅))
    as (dialConfig' & Hconfig & Hheaders); [vm_compute; reflexivity | reflexivity |].
  eexists _, dialConfig', _, _. split; [vm_compute; reflexivity |].
  split; [exact Hconfig |].
  repeat split; rewrite Hheaders; vm_compute; reflexivity.
Defined.

(** In the same dial, the reported header names are those of the dial
    configuration without "User-Agent", which was selected. *)
Lemma MakeDialParameters_reported_header_names_example :
  exists dialParams err w',
    MakeDialParameters (config headerTactics (Some configHeaders)) anyProtocol
      (always "UNFRONTED-MEEK-OSSH") serverEntry false 0 0 (world noon ∅)
    = ((Some dialParams, err), w')
    /\ In "X-Tactics" (UpstreamProxyCustomHeaderNames dialParams)
    /\ ~ In "User-Agent" (UpstreamProxyCustomHeaderNames dialParams).
Proof.
  edestruct (MakeDialParameters_reported_header_names
               (config headerTactics (Some configHeaders)) anyProtocol
               (always "UNFRONTED-MEEK-OSSH") serverEntry false 0 0 (world noon ∅))
    as [Hnames _]; [vm_compute; reflexivity |].
  destruct Hnames as (dialConfig' & Hconfig & Hnames); [vm_compute; lia |].
  eexists _, _, _. split; [vm_compute; reflexivity |].
  vm_compute in Hconfig. injection Hconfig as <-.
  split.
  - apply Hnames. split; [vm_compute; eexists; reflexivity |].
    intros [Hname _]. discriminate Hname.
  - intros Hin. apply Hnames in Hin as [_ Hin]. apply Hin. split; reflexivity.
Defined.

(** A fresh OSSH dial whose tactics are certain to select a prefix: the
    prefix of the record has a spec, a seed and a split configuration. *)
Lemma MakeDialParameters_transforms_carry_seeds_example :
  exists dialParams prefixSpec err w',
    MakeDialParameters (config prefixTactics None) anyProtocol (always "OSSH")
      serverEntry false 0 0 (world noon ∅) = ((Some dialParams, err), w')
    /\ OSSHPrefixSpec dialParams = Some prefixSpec
    /\ obfuscator.OSSHPrefixSpec.Spec prefixSpec <> None
    /\ obfuscator.OSSHPrefixSpec.Seed prefixSpec <> None
    /\ OSSHPrefixSplitConfig dialParams <> None.
Proof.
  eexists _, _, _, _. split; [vm_compute; reflexivity |].
  split; [reflexivity |].
  edestruct (MakeDialParameters_transforms_carry_seeds
               (config prefixTactics None) anyProtocol (always "OSSH")
               serverEntry false 0 0 (world noon ∅))
    as (_ & _ & Hprefix); [vm_compute; reflexivity | reflexivity |].
  apply Hprefix. reflexivity.
Defined.

(** The record of an exchanged tunnel protocol, made and stored at noon, is
    found half an hour later, and it is eligible. *)
Lemma exchanged_record_eligible_until_expiry_example :
  let R := ExchangedDialParameters_MakeDialParameters exchanged (config plainTactics None)
             plainTactics serverEntry noon in
  foundIn (config plainTactics None) serverEntry exchangedWorld = Some R
  /\ conditions1to7 (config plainTactics None) serverEntry exchangedWorld R.
Proof.
  cbv zeta.
  edestruct (exchanged_record_eligible_until_expiry
               (config plainTactics None) serverEntry exchanged noon (world noon ∅)
               eq_refl exchangedWorld)
    as [Hfound Hiff]; [vm_compute; reflexivity |].
  split; [exact Hfound |]. apply Hiff. split; vm_compute; [reflexivity | discriminate].
Defined.

(** A fresh OSSH dial with a prefix: the dial configuration has the
    diagnostic ID of the server entry, and no fragmentor, as
    [OSSHPrefixEnableFragmentor] is off. *)
Lemma MakeDialParameters_dial_config_example :
  exists dialParams dialConfig' err w',
    MakeDialParameters (config prefixTactics None) anyProtocol (always "OSSH")
      serverEntry false 0 0 (world noon ∅) = ((Some dialParams, err), w')
    /\ GetDialConfig dialParams = Some dialConfig'
    /\ DialConfig.DiagnosticID dialConfig' = "192.0.2.7"
    /\ DialConfig.FragmentorConfig dialConfig' = None
    /\ MeekResolvedIPAddress dialParams = "".
Proof.
  edestruct (MakeDialParameters_dial_config
               (config prefixTactics None) anyProtocol (always "OSSH")
               serverEntry false 0 0 (world noon ∅))
    as (dialConfig' & Hconfig & Hid & _ & _ & _ & Hfragmentor & Hresolved);
    [vm_compute; reflexivity |].
  eexists _, dialConfig', _, _. split; [vm_compute; reflexivity |].
  split; [exact Hconfig |]. split; [exact Hid |].
  split; [rewrite Hfragmentor; reflexivity | exact Hresolved].
Defined.

(** The network ID of the examples, "WIFI-home", gives the network type
    "WIFI". *)
Lemma MakeDialParameters_network_type_example :
  exists dialParams err w',
    MakeDialParameters (config plainTactics None) anyProtocol (always "OSSH")
      serverEntry false 0 0 (world noon ∅) = ((Some dialParams, err), w')
    /\ GetNetworkType dialParams = "WIFI".
Proof.
  eexists _, _, _. split; [vm_compute; reflexivity |].
  edestruct (MakeDialParameters_network_type
               (config plainTactics None) anyProtocol (always "OSSH")
               serverEntry false 0 0 (world noon ∅))
    as [Hnamed _]; [vm_compute; reflexivity |].
  apply (Hnamed "WIFI"); [right; left; reflexivity | reflexivity].
Defined.

(** ** The QUIC configuration *)

Lemma quicProtocolPackage_sound : quic.sound.
Proof.
  unfold quic.sound. split; [discriminate |].
  split; [intros v [<- | [<- | []]]; reflexivity |].
  repeat split; try reflexivity; vm_compute; discriminate.
Defined.

(** Of the versions 1, 7, 2 and 9, with 7 and 9 not valid, the error is
    for a version that is not valid and has only valid versions before
    it. *)
Lemma quic_validateConfig_reports_first_invalid_version_example :
  exists before v after,
    quic.validateConfig (Some (quicConfig 10 10 [ 1; 7; 1798521807; 9 ]))
    = Some (String.append "invalid QUIC version: " (quic.protocol.VersionString v))
    /\ [ 1; 7; 1798521807; 9 ] = (before ++ v :: after)%list
    /\ (forall u, In u before -> quic.protocol.IsValidVersion u = true)
    /\ quic.protocol.IsValidVersion v = false.
Proof.
  destruct (quic_validateConfig_reports_first_invalid_version
              (quicConfig 10 10 [ 1; 7; 1798521807; 9 ])
              "invalid QUIC version: unknown")
    as (before & v & after & Hsplit & Hbefore & Hv & Hmessage);
    [vm_compute; discriminate | vm_compute; discriminate | reflexivity |].
  exists before, v, after.
  split; [rewrite <- Hmessage; reflexivity |].
  split; [exact Hsplit |]. split; [exact Hbefore | exact Hv].
Defined.

(** A configuration with a negative stream limit and nothing else set but
    the handshake idle timeout: populated, the limit is zero. *)
Lemma quic_populateConfig_populated_example :
  quic.populated (quic.populateConfig (Some (quicConfig (-1) 0 [])))
  /\ quic.MaxIncomingStreams (quic.populateConfig (Some (quicConfig (-1) 0 []))) = 0
  /\ quic.MaxIncomingUniStreams (quic.populateConfig (Some (quicConfig (-1) 0 []))) = 100.
Proof.
  destruct (quic_populateConfig_populated (Some (quicConfig (-1) 0 []))
              quicProtocolPackage_sound)
    as [Hpopulated Hnegative].
  split; [exact Hpopulated |].
  split; [| reflexivity].
  destruct (Hnegative _ eq_refl) as [Hstreams _]. apply Hstreams. reflexivity.
Defined.

(** Populating twice is populating once for the stream limits 5 and 0. *)
Lemma quic_populateConfig_idempotent_iff_example :
  quic.populateConfig (Some (quic.populateConfig (Some (quicConfig 5 0 []))))
  = quic.populateConfig (Some (quicConfig 5 0 [])).
Proof.
  apply (quic_populateConfig_idempotent_iff (quicConfig 5 0 []));
    [reflexivity | reflexivity |].
  split; vm_compute; discriminate.
Defined.

(** An accepted server configuration stays accepted, gets the token ages,
    and keeps its own address validation. *)
Lemma quic_populateServerConfig_valid_example :
  let s := quic.populateServerConfig (Some (quicConfig 5 0 [ 1 ])) in
  quic.validateConfig (Some s) = None
  /\ quic.MaxTokenAge s = 86400 * second
  /\ quic.RequireAddressValidation s
     = quic.RequireAddressValidation (quicConfig 5 0 [ 1 ]).
Proof.
  cbv zeta.
  destruct (quic_populateServerConfig_valid (Some (quicConfig 5 0 [ 1 ]))
              quicProtocolPackage_sound eq_refl)
    as (Hvalid & _ & _ & _ & Hkept).
  split; [exact Hvalid |]. split; [reflexivity |].
  exact (Hkept _ _ eq_refl eq_refl).
Defined.

(** With a handshake idle timeout of three seconds the handshake timeout
    is the default of ten seconds. *)
Lemma quic_handshakeTimeout_bounds_example :
  quic.handshakeTimeout (quicConfig 5 0 []) = Z.max (10 * second) (2 * (3 * second))
  /\ 10 * second <= quic.handshakeTimeout (quicConfig 5 0 []).
Proof.
  destruct (quic_handshakeTimeout_bounds (quicConfig 5 0 []))
    as (Hfloor & Hfits & _);
    [split; vm_compute; [discriminate | reflexivity] | vm_compute; discriminate |].
  split; [| exact Hfloor].
  apply Hfits. split; vm_compute; [discriminate | reflexivity].
Defined.

End Examples.
